(** * poorfreight: the scraper / ETL pipeline, embedded and verified

    A shallow embedding of the ingestion pipeline under [scrapers/]
    (with the schema of [lib/database.py]) and the proofs of the
    properties its specification states.

    Layout: the models come first, one module per source class, with
    the source's names; then the vocabulary the properties are stated
    in and the sample inputs; the theory follows, one section per
    property.

    Conventions of the models.  A table with a primary key is a finite
    map from the key to the row.  A store step takes the table
    contents and returns them with [Returned] or [Raised e].  Loops
    that the source bounds only by what the server answers take a
    number of turns ([fuel]) and return [None] when it runs out; the
    theory shows that twenty turns always suffice.  What the process
    cannot decide (the replies of the network, a failure of the
    database engine during a flush, the clock) is a parameter. *)

From Stdlib Require Import ZArith Ascii String List Lia Bool.
From Stdlib Require Import Floats.PrimFloat.
From Stdlib Require OrderedTypeEx Sorted.
From stdpp Require Import base option list gmap fin_maps strings.

Local Open Scope Z_scope.

(* ================================================================== *)
(** * Python values used by the scrapers *)
(* ================================================================== *)

Module Py.

(** [str] is modelled as a string of bytes.  [lower] acts on the ASCII
    letters; the keyword tables of the scrapers are ASCII. *)
Definition lower_char (c : ascii) : ascii :=
  let n := N_of_ascii c in
  if ((65 <=? n) && (n <=? 90))%N then ascii_of_N (n + 32) else c.

Fixpoint lower (s : string) : string :=
  match s with
  | EmptyString => EmptyString
  | String c t => String (lower_char c) (lower t)
  end.

(** [starts_with p s]: [s.startswith(p)]. *)
Fixpoint starts_with (p s : string) : bool :=
  match p, s with
  | EmptyString, _ => true
  | String _ _, EmptyString => false
  | String a p', String b s' => Ascii.eqb a b && starts_with p' s'
  end.

(** [contains needle hay]: the Python test [needle in hay] on [str]. *)
Fixpoint contains (needle hay : string) : bool :=
  starts_with needle hay ||
  match hay with
  | EmptyString => false
  | String _ t => contains needle t
  end.

(** [x in xs] on a list of [str]. *)
Definition mem (x : string) (xs : list string) : bool :=
  existsb (String.eqb x) xs.

(** [any(p(x) for x in xs)]. *)
Definition any {A} (p : A -> bool) (xs : list A) : bool := existsb p xs.

(** [o or ''] for an optional [str]. *)
Definition or_empty (o : option string) : string :=
  match o with Some s => s | None => "" end.

(** Truth value of an optional [str]: [None] and [''] are false. *)
Definition truthy_str (o : option string) : bool :=
  match o with
  | Some (String _ _) => true
  | _ => false
  end.

(** Truth value of an optional [float]: [None] and zero are false. *)
Definition truthy_float (o : option float) : bool :=
  match o with
  | Some x => negb (PrimFloat.eqb x 0%float)
  | None => false
  end.

(** [o == n] for a nullable integer column. *)
Definition eq_int (o : option Z) (n : Z) : bool :=
  match o with Some z => z =? n | None => false end.

(** [sep.join(xs)]. *)
Fixpoint join (sep : string) (xs : list string) : string :=
  match xs with
  | [] => ""
  | [x] => x
  | x :: rest => x +:+ sep +:+ join sep rest
  end.

(** Exceptions: the class and [str(e)]. *)
Inductive exn_class :=
  | IntegrityError      (* a constraint of the schema rejected a flush *)
  | OperationalError    (* the database engine failed a statement *)
  | ConnectionError     (* requests: no reply *)
  | Timeout             (* requests: no reply within the timeout *)
  | HTTPError           (* raise_for_status on 4xx / 5xx *)
  | ValueError          (* response.json() on a body that is not JSON *)
  | TypeError           (* an operation on a value of the wrong type *)
  | KeyError.

Record exn := Raise { exn_cls : exn_class; exn_msg : string }.

Definition str_of_exn (e : exn) : string := exn_msg e.

End Py.

(* ================================================================== *)
(** * lib/database.py: the schema and the ORM session *)
(* ================================================================== *)

Module Database.
Import Py.

(** Rows.  A nullable column is an [option]; the [created_at] and
    [updated_at] columns, which the ORM fills from the wall clock, are
    left out. *)

Module NewsArticle.
Record t := mk {
  id : string;                   (* primary key *)
  source : string;
  title : string;
  url : string;                  (* unique *)
  published_at : Z;
  summary : option string;
  full_content : option string;
  tags : option string;          (* comma-separated *)
  importance : option Z;         (* default 1 *)
  notes : option string;
  read : option bool }.

Definition set_summary (v : option string) (r : t) : t :=
  mk (id r) (source r) (title r) (url r) (published_at r) v
     (full_content r) (tags r) (importance r) (notes r) (read r).
Definition set_full_content (v : option string) (r : t) : t :=
  mk (id r) (source r) (title r) (url r) (published_at r) (summary r)
     v (tags r) (importance r) (notes r) (read r).
Definition set_tags (v : option string) (r : t) : t :=
  mk (id r) (source r) (title r) (url r) (published_at r) (summary r)
     (full_content r) v (importance r) (notes r) (read r).
Definition set_importance (v : option Z) (r : t) : t :=
  mk (id r) (source r) (title r) (url r) (published_at r) (summary r)
     (full_content r) (tags r) v (notes r) (read r).
End NewsArticle.

(** The Float columns of [daily_metrics], as [setattr] names them. *)
Module DailyField.
Inductive t :=
  | van_spot_index | reefer_spot_index | flatbed_spot_index
  | diesel_usd_per_gal | gas_price | oil_price.
End DailyField.

Module DailyMetric.
Record t := mk {
  date : string;                 (* primary key, YYYY-MM-DD *)
  van_spot_index : option float;
  reefer_spot_index : option float;
  flatbed_spot_index : option float;
  diesel_usd_per_gal : option float;
  gas_price : option float;
  oil_price : option float;
  source : option string;
  confidence : option float }.

(** [DailyMetric(date=..., source=..., confidence=...)]. *)
Definition new (d : string) (src : option string) (conf : option float) : t :=
  mk d None None None None None None src conf.

Definition getattr (r : t) (f : DailyField.t) : option float :=
  match f with
  | DailyField.van_spot_index => van_spot_index r
  | DailyField.reefer_spot_index => reefer_spot_index r
  | DailyField.flatbed_spot_index => flatbed_spot_index r
  | DailyField.diesel_usd_per_gal => diesel_usd_per_gal r
  | DailyField.gas_price => gas_price r
  | DailyField.oil_price => oil_price r
  end.

Definition setattr (r : t) (f : DailyField.t) (v : option float) : t :=
  match f with
  | DailyField.van_spot_index =>
      mk (date r) v (reefer_spot_index r) (flatbed_spot_index r)
         (diesel_usd_per_gal r) (gas_price r) (oil_price r) (source r) (confidence r)
  | DailyField.reefer_spot_index =>
      mk (date r) (van_spot_index r) v (flatbed_spot_index r)
         (diesel_usd_per_gal r) (gas_price r) (oil_price r) (source r) (confidence r)
  | DailyField.flatbed_spot_index =>
      mk (date r) (van_spot_index r) (reefer_spot_index r) v
         (diesel_usd_per_gal r) (gas_price r) (oil_price r) (source r) (confidence r)
  | DailyField.diesel_usd_per_gal =>
      mk (date r) (van_spot_index r) (reefer_spot_index r) (flatbed_spot_index r)
         v (gas_price r) (oil_price r) (source r) (confidence r)
  | DailyField.gas_price =>
      mk (date r) (van_spot_index r) (reefer_spot_index r) (flatbed_spot_index r)
         (diesel_usd_per_gal r) v (oil_price r) (source r) (confidence r)
  | DailyField.oil_price =>
      mk (date r) (van_spot_index r) (reefer_spot_index r) (flatbed_spot_index r)
         (diesel_usd_per_gal r) (gas_price r) v (source r) (confidence r)
  end.

Definition set_source (v : option string) (r : t) : t :=
  mk (date r) (van_spot_index r) (reefer_spot_index r) (flatbed_spot_index r)
     (diesel_usd_per_gal r) (gas_price r) (oil_price r) v (confidence r).
End DailyMetric.

Module DieselPrice.
Record t := mk {
  date : string;
  region_code : string;
  region_name : option string;
  price : float;
  series_description : option string;
  source : option string }.
End DieselPrice.

(** The Float columns of [macro_metrics]. *)
Module MacroField.
Inductive t :=
  | cass_shipments_index | cass_expenditures_index | ata_tonnage_index
  | ftr_trucking_conditions_index | industrial_production | ism_pmi
  | retail_sales | consumer_sentiment | truck_transport_index.
End MacroField.

Module MacroMetric.
Record t := mk {
  month : string;                (* primary key, YYYY-MM *)
  cass_shipments_index : option float;
  cass_expenditures_index : option float;
  ata_tonnage_index : option float;
  ftr_trucking_conditions_index : option float;
  industrial_production : option float;
  ism_pmi : option float;
  retail_sales : option float;
  consumer_sentiment : option float;
  truck_transport_index : option float;
  source : option string;
  confidence : option float }.

Definition new (m : string) (src : option string) (conf : option float) : t :=
  mk m None None None None None None None None None src conf.

Definition getattr (r : t) (f : MacroField.t) : option float :=
  match f with
  | MacroField.cass_shipments_index => cass_shipments_index r
  | MacroField.cass_expenditures_index => cass_expenditures_index r
  | MacroField.ata_tonnage_index => ata_tonnage_index r
  | MacroField.ftr_trucking_conditions_index => ftr_trucking_conditions_index r
  | MacroField.industrial_production => industrial_production r
  | MacroField.ism_pmi => ism_pmi r
  | MacroField.retail_sales => retail_sales r
  | MacroField.consumer_sentiment => consumer_sentiment r
  | MacroField.truck_transport_index => truck_transport_index r
  end.

Definition setattr (r : t) (f : MacroField.t) (v : option float) : t :=
  let g (f' : MacroField.t) : option float :=
    match f, f' with
    | MacroField.cass_shipments_index, MacroField.cass_shipments_index
    | MacroField.cass_expenditures_index, MacroField.cass_expenditures_index
    | MacroField.ata_tonnage_index, MacroField.ata_tonnage_index
    | MacroField.ftr_trucking_conditions_index, MacroField.ftr_trucking_conditions_index
    | MacroField.industrial_production, MacroField.industrial_production
    | MacroField.ism_pmi, MacroField.ism_pmi
    | MacroField.retail_sales, MacroField.retail_sales
    | MacroField.consumer_sentiment, MacroField.consumer_sentiment
    | MacroField.truck_transport_index, MacroField.truck_transport_index => v
    | _, _ => getattr r f'
    end in
  mk (month r)
     (g MacroField.cass_shipments_index) (g MacroField.cass_expenditures_index)
     (g MacroField.ata_tonnage_index) (g MacroField.ftr_trucking_conditions_index)
     (g MacroField.industrial_production) (g MacroField.ism_pmi)
     (g MacroField.retail_sales) (g MacroField.consumer_sentiment)
     (g MacroField.truck_transport_index) (source r) (confidence r).

Definition set_source (v : option string) (r : t) : t :=
  mk (month r) (cass_shipments_index r) (cass_expenditures_index r)
     (ata_tonnage_index r) (ftr_trucking_conditions_index r)
     (industrial_production r) (ism_pmi r) (retail_sales r)
     (consumer_sentiment r) (truck_transport_index r) v (confidence r).
Definition set_confidence (v : option float) (r : t) : t :=
  mk (month r) (cass_shipments_index r) (cass_expenditures_index r)
     (ata_tonnage_index r) (ftr_trucking_conditions_index r)
     (industrial_production r) (ism_pmi r) (retail_sales r)
     (consumer_sentiment r) (truck_transport_index r) (source r) v.
End MacroMetric.

Module ScraperRun.
Record t := mk {
  scraper_name : string;
  started_at : Z;
  completed_at : option Z;
  status : option string;        (* success, failed, running *)
  records_scraped : option Z;    (* default 0 *)
  error_message : option string }.
End ScraperRun.

(** The tables the ingestion jobs write.  A table with a primary key
    is a finite map from the key to its row. *)
Record DB := mkDB {
  news_articles : gmap string NewsArticle.t;
  daily_metrics : gmap string DailyMetric.t;
  diesel_prices : list DieselPrice.t;
  macro_metrics : gmap string MacroMetric.t }.

(** A session ([SessionLocal()], with [autoflush=False]): [view] holds
    the rows as queries return them, that is the table contents with
    the attribute changes made to loaded objects and the rows already
    flushed; the [new_*] lists hold the objects passed to [db.add]
    and not flushed yet, which no query sees. *)
Record Session := mkSession {
  view : DB;
  new_news : list NewsArticle.t;
  new_daily : list DailyMetric.t;
  new_diesel : list DieselPrice.t;
  new_macro : list MacroMetric.t;
  flushes : nat }.

Definition SessionLocal (db : DB) : Session := mkSession db [] [] [] [] 0.

(** The environment's part in a flush: [flt n] tells whether the
    database engine fails the [n]-th flush of the session. *)
Definition Faults := nat -> bool.
Definition no_faults : Faults := fun _ => false.

Definition with_view (f : DB -> DB) (s : Session) : Session :=
  mkSession (f (view s)) (new_news s) (new_daily s) (new_diesel s) (new_macro s)
            (flushes s).

Definition add_news (r : NewsArticle.t) (s : Session) : Session :=
  mkSession (view s) (new_news s ++ [r]) (new_daily s) (new_diesel s) (new_macro s)
            (flushes s).
Definition add_daily (r : DailyMetric.t) (s : Session) : Session :=
  mkSession (view s) (new_news s) (new_daily s ++ [r]) (new_diesel s) (new_macro s)
            (flushes s).
Definition add_diesel (r : DieselPrice.t) (s : Session) : Session :=
  mkSession (view s) (new_news s) (new_daily s) (new_diesel s ++ [r]) (new_macro s)
            (flushes s).
Definition add_macro (r : MacroMetric.t) (s : Session) : Session :=
  mkSession (view s) (new_news s) (new_daily s) (new_diesel s) (new_macro s ++ [r])
            (flushes s).

(** The state of the loaded object found under key [k] becomes [r]. *)
Definition put_news (k : string) (r : NewsArticle.t) (db : DB) : DB :=
  mkDB (<[k := r]> (news_articles db)) (daily_metrics db)
       (diesel_prices db) (macro_metrics db).
Definition put_daily (k : string) (r : DailyMetric.t) (db : DB) : DB :=
  mkDB (news_articles db) (<[k := r]> (daily_metrics db))
       (diesel_prices db) (macro_metrics db).
Definition put_macro (k : string) (r : MacroMetric.t) (db : DB) : DB :=
  mkDB (news_articles db) (daily_metrics db) (diesel_prices db)
       (<[k := r]> (macro_metrics db)).
Definition set_diesel_prices (l : list DieselPrice.t) (db : DB) : DB :=
  mkDB (news_articles db) (daily_metrics db) l (macro_metrics db).

(** The unique index on [news_articles.url]. *)
Definition url_taken (u : string) (tbl : gmap string NewsArticle.t) : bool :=
  existsb (fun kr => String.eqb (NewsArticle.url (snd kr)) u) (map_to_list tbl).

Definition has_key {R} (k : string) (tbl : gmap string R) : bool :=
  match tbl !! k with Some _ => true | None => false end.

(** The constraints of the schema: the error an INSERT of [r] into
    [tbl] meets, if any. *)
Definition news_violation (r : NewsArticle.t) (tbl : gmap string NewsArticle.t)
  : option exn :=
  if has_key (NewsArticle.id r) tbl
  then Some (Raise IntegrityError "UNIQUE constraint failed: news_articles.id")
  else if url_taken (NewsArticle.url r) tbl
  then Some (Raise IntegrityError "UNIQUE constraint failed: news_articles.url")
  else None.

Definition daily_violation (r : DailyMetric.t) (tbl : gmap string DailyMetric.t)
  : option exn :=
  if has_key (DailyMetric.date r) tbl
  then Some (Raise IntegrityError "UNIQUE constraint failed: daily_metrics.date")
  else None.

Definition macro_violation (r : MacroMetric.t) (tbl : gmap string MacroMetric.t)
  : option exn :=
  if has_key (MacroMetric.month r) tbl
  then Some (Raise IntegrityError "UNIQUE constraint failed: macro_metrics.month")
  else None.

(** INSERT of the pending rows, one by one; a row that violates a
    constraint fails the flush. *)
Fixpoint insert_rows {R} (violation : R -> gmap string R -> option exn)
  (key : R -> string) (rows : list R) (tbl : gmap string R) : exn + gmap string R :=
  match rows with
  | [] => inr tbl
  | r :: rest =>
      match violation r tbl with
      | Some e => inl e
      | None => insert_rows violation key rest (<[key r := r]> tbl)
      end
  end.

Definition insert_news := insert_rows news_violation NewsArticle.id.
Definition insert_daily := insert_rows daily_violation DailyMetric.date.
Definition insert_macro := insert_rows macro_violation MacroMetric.month.

(** [db.flush()]. *)
Definition flush (flt : Faults) (s : Session) : exn + Session :=
  if flt (flushes s) then inl (Raise OperationalError "database is locked") else
  match insert_news (new_news s) (news_articles (view s)) with
  | inl e => inl e
  | inr news =>
    match insert_daily (new_daily s) (daily_metrics (view s)) with
    | inl e => inl e
    | inr daily =>
      match insert_macro (new_macro s) (macro_metrics (view s)) with
      | inl e => inl e
      | inr macro =>
          inr (mkSession
                 (mkDB news daily (diesel_prices (view s) ++ new_diesel s) macro)
                 [] [] [] [] (S (flushes s)))
      end
    end
  end.

(** The result of a store step, seen from its caller. *)
Inductive outcome := Returned | Raised (e : exn).

(** The frame every [store] shares:
    [db = SessionLocal(); try: body; db.commit()
     except Exception: db.rollback(); raise
     finally: db.close()].
    [db.commit()] flushes and makes the view the table contents;
    [db.rollback()] leaves the contents as they were. *)
Definition transaction (flt : Faults) (body : Session -> exn + Session) (db : DB)
  : outcome * DB :=
  match body (SessionLocal db) with
  | inl e => (Raised e, db)
  | inr s =>
      match flush flt s with
      | inl e => (Raised e, db)
      | inr s' => (Returned, view s')
      end
  end.

(** [for x in xs: step], where a step may raise. *)
Fixpoint for_each {A} (step : A -> Session -> exn + Session) (xs : list A) (s : Session)
  : exn + Session :=
  match xs with
  | [] => inr s
  | x :: rest =>
      match step x s with
      | inl e => inl e
      | inr s' => for_each step rest s'
      end
  end.

End Database.

(* ================================================================== *)
(** * The requests library, as the scrapers use it *)
(* ================================================================== *)

Module Requests.
Import Py.

(** JSON documents and keyword arguments. *)
#[local] Unset Elimination Schemes.
Inductive json :=
  | JNull
  | JBool (b : bool)
  | JInt (z : Z)
  | JFloat (x : float)
  | JStr (s : string)
  | JList (l : list json)
  | JDict (l : list (string * json)).
#[local] Set Elimination Schemes.

Inductive method := GET | POST.

Record Request := mkRequest {
  req_method : method;
  req_url : string;
  req_params : list (string * json);   (* params= *)
  req_json : option json;              (* json= *)
  req_timeout : Z }.                   (* timeout=, seconds *)

(** [json_body] is what [response.json()] returns; [None] when the
    body is not JSON and the call raises. *)
Record Response := mkResponse {
  status_code : Z;
  text : string;
  json_body : option json }.

(** How a call of [Session.request] ends, as its caller sees it:
    with no connection, with no reply within the timeout, with the
    response the library hands back (the last one, where the library
    followed redirects on its way), or with another error of the
    library (too many redirects, a body that breaks off). *)
Inductive Reply :=
  | NoConnection
  | NoReplyInTime
  | Replied (r : Response)
  | Failed (e : exn).

(** The outside of the process, the library's own handling of the
    exchange included: how a call ends may depend on the calls made
    before it. *)
Definition Server := list Request -> Request -> Reply.

(** [Session.request], seen from its caller.  [sent] is the log of
    the calls made to the library, not of what the library puts on the
    wire.  A response of any status is returned, the lack of one
    raises. *)
Definition request (server : Server) (req : Request) (sent : list Request)
  : (exn + Response) * list Request :=
  (match server sent req with
   | NoConnection => inl (Raise ConnectionError "connection failed")
   | NoReplyInTime => inl (Raise Timeout "read timed out")
   | Replied r => inr r
   | Failed e => inl e
   end, sent ++ [req]).

(** [Response.raise_for_status]. *)
Definition raise_for_status (r : Response) : exn + unit :=
  if (400 <=? status_code r) && (status_code r <? 600)
  then inl (Raise HTTPError "HTTP error") else inr tt.

(** [response.json()]. *)
Definition json_of (r : Response) : exn + json :=
  match json_body r with
  | Some j => inr j
  | None => inl (Raise ValueError "Expecting value")
  end.

Fixpoint assoc (k : string) (l : list (string * json)) : option json :=
  match l with
  | [] => None
  | (k', v) :: rest => if String.eqb k k' then Some v else assoc k rest
  end.

Definition is_str (k : string) (j : json) : bool :=
  match j with JStr s => String.eqb s k | _ => false end.

(** [k in j] for a string [k]: a key of a dict, an element of a list,
    a part of a string; other values raise. *)
Definition py_in (k : string) (j : json) : exn + bool :=
  match j with
  | JDict l => inr (match assoc k l with Some _ => true | None => false end)
  | JList l => inr (existsb (is_str k) l)
  | JStr s => inr (contains k s)
  | _ => inl (Raise TypeError "argument is not iterable")
  end.

(** [j[k]] for a string [k]. *)
Definition py_getitem (j : json) (k : string) : exn + json :=
  match j with
  | JDict l =>
      match assoc k l with
      | Some v => inr v
      | None => inl (Raise KeyError k)
      end
  | _ => inl (Raise TypeError "indices must be integers")
  end.

(** Truth value of a JSON value. *)
Definition truthy (j : json) : bool :=
  match j with
  | JNull => false
  | JBool b => b
  | JInt z => negb (z =? 0)
  | JFloat x => truthy_float (Some x)
  | JStr s => truthy_str (Some s)
  | JList l => match l with [] => false | _ => true end
  | JDict l => match l with [] => false | _ => true end
  end.

Fixpoint chars (s : string) : list json :=
  match s with
  | EmptyString => []
  | String c t => JStr (String c EmptyString) :: chars t
  end.

(** The items [list.extend] takes from a value; [None] when the value
    is not iterable and the call raises.  [len] of the value is the
    number of these items. *)
Definition items (j : json) : option (list json) :=
  match j with
  | JList l => Some l
  | JStr s => Some (chars s)
  | JDict l => Some (map (fun kv => JStr (fst kv)) l)
  | _ => None
  end.

End Requests.

(* ================================================================== *)
(** * scrapers/base_scraper.py *)
(* ================================================================== *)

Module BaseScraper.
Import Py Database Requests.

(** [BaseScraper.get]: [self.session.get(url, timeout=30, params=...)]. *)
Definition get (server : Server) (url : string) (params : list (string * json))
  (sent : list Request) : (exn + Response) * list Request :=
  request server (mkRequest GET url params None 30) sent.

(** [BaseScraper.post]: [self.session.post(url, timeout=30, json=...)]. *)
Definition post (server : Server) (url : string) (payload : json)
  (sent : list Request) : (exn + Response) * list Request :=
  request server (mkRequest POST url [] (Some payload) 30) sent.

(** What a run leaves behind besides the tables: log lines and sleeps. *)
Inductive Event :=
  | Starting (attempt max_retries : Z)   (* "Starting (attempt a/m)" *)
  | Succeeded (records : Z)
  | ErrorOn (attempt : Z) (e : exn)
  | Retrying (delay : Z)
  | Sleep (seconds : Z)                  (* time.sleep *)
  | FailedAfter (max_retries : Z)
  | Print (line : string).

Section Run.

(** [Env] is the state of everything outside the process and its
    database: the network, the clock. *)
Context {Env : Type}.
Variable utcnow : Env -> Z.

Record World := mkWorld {
  env : Env;
  db : DB;
  scraper_runs : list ScraperRun.t;    (* the table behind the run tracker *)
  events : list Event }.

Definition log (ev : Event) (w : World) : World :=
  mkWorld (env w) (db w) (scraper_runs w) (events w ++ [ev]).

(** A scraper: the constructor arguments and the three abstract methods. *)
Record Scraper := mkScraper {
  Raw : Type;
  Parsed : Type;
  scraper_name : string;
  max_retries : Z;
  retry_delay : Z;
  fetch : Env -> (exn + Raw) * Env;
  parse : Raw -> Env -> (exn + Parsed) * Env;
  store : Parsed -> DB -> outcome * DB;
  len : Parsed -> Z }.

(** The body of the inner [try]: fetch, parse, store. *)
Definition pipeline (sc : Scraper) (w : World) : (exn + Parsed sc) * World :=
  let '(r, env1) := fetch sc (env w) in
  match r with
  | inl e => (inl e, mkWorld env1 (db w) (scraper_runs w) (events w))
  | inr raw_data =>
      let '(r, env2) := parse sc raw_data env1 in
      match r with
      | inl e => (inl e, mkWorld env2 (db w) (scraper_runs w) (events w))
      | inr parsed_data =>
          let '(o, db') := store sc parsed_data (db w) in
          let w' := mkWorld env2 db' (scraper_runs w) (events w) in
          match o with
          | Raised e => (inl e, w')
          | Returned => (inr parsed_data, w')
          end
      end
  end.

(** The run tracker's row [i] becomes [f] of it, and is committed. *)
Definition update_run (i : nat) (f : ScraperRun.t -> ScraperRun.t) (w : World) : World :=
  mkWorld (env w) (db w)
          (match scraper_runs w !! i with
           | Some r => <[i := f r]> (scraper_runs w)
           | None => scraper_runs w
           end) (events w).

Definition mark_success (now records : Z) (r : ScraperRun.t) : ScraperRun.t :=
  ScraperRun.mk (ScraperRun.scraper_name r) (ScraperRun.started_at r)
                (Some now) (Some "success") (Some records) (ScraperRun.error_message r).

Definition mark_failed (now : Z) (e : exn) (r : ScraperRun.t) : ScraperRun.t :=
  ScraperRun.mk (ScraperRun.scraper_name r) (ScraperRun.started_at r)
                (Some now) (Some "failed") (ScraperRun.records_scraped r)
                (Some (str_of_exn e)).

(** [for attempt in range(self.max_retries)], with [todo] turns left. *)
Fixpoint attempts (sc : Scraper) (row : nat) (todo : nat) (attempt : Z) (w : World)
  : option bool * World :=
  match todo with
  | O => (None, w)                       (* the loop ends; no return statement *)
  | S todo' =>
      let w := log (Starting (attempt + 1) (max_retries sc)) w in
      match pipeline sc w with
      | (inr parsed_data, w) =>
          let w := update_run row (mark_success (utcnow (env w)) (len sc parsed_data)) w in
          let w := log (Succeeded (len sc parsed_data)) w in
          (Some true, w)
      | (inl e, w) =>
          let w := log (ErrorOn (attempt + 1) e) w in
          if attempt <? max_retries sc - 1 then
            let w := log (Retrying (retry_delay sc)) w in
            let w := log (Sleep (retry_delay sc)) w in
            attempts sc row todo' (attempt + 1) w
          else
            let w := update_run row (mark_failed (utcnow (env w)) e) w in
            let w := log (FailedAfter (max_retries sc)) w in
            (Some false, w)
      end
  end.

(** [BaseScraper.run]; [None] is Python's [None]. *)
Definition run (sc : Scraper) (w : World) : option bool * World :=
  let row := length (scraper_runs w) in
  let scraper_run :=
    ScraperRun.mk (scraper_name sc) (utcnow (env w)) None (Some "running") (Some 0) None in
  let w := mkWorld (env w) (db w) (scraper_runs w ++ [scraper_run]) (events w) in
  attempts sc row (Z.to_nat (max_retries sc)) 0 w.

End Run.

End BaseScraper.

(* ================================================================== *)
(** * scrapers/news_scraper.py *)
(* ================================================================== *)

Module NewsScraperConfig.

(** Keywords for auto-tagging, in the order of the dict. *)
Definition TAG_KEYWORDS : list (string * list string) :=
  [ ("capacity",   ["capacity"; "tight"; "shortage"; "availability"; "surplus"]);
    ("rates",      ["rate"; "pricing"; "cost"; "price"; "tariff"]);
    ("diesel",     ["diesel"; "fuel"; "energy"; "gas"]);
    ("ltl",        ["less-than-truckload"; "ltl"; "less than truckload"]);
    ("ftl",        ["full-truckload"; "ftl"; "full truckload"; "truckload"]);
    ("contracts",  ["contract"; "bid"; "rfp"; "agreement"]);
    ("economy",    ["economy"; "gdp"; "recession"; "demand"; "growth"]);
    ("regulation", ["fmcsa"; "regulation"; "compliance"; "dot"; "law"]);
    ("technology", ["technology"; "digital"; "automation"; "software"]);
    ("labor",      ["driver"; "labor"; "wage"; "employment"; "turnover"]);
    ("merger",     ["merger"; "acquisition"; "bought"; "consolidation"]);
    ("bankruptcy", ["bankruptcy"; "closure"; "shutdown"; "failed"]) ].

(** Important keywords (boost importance score). *)
Definition IMPORTANT_KEYWORDS : list string :=
  [ "breaking"; "major"; "crisis"; "shortage"; "spike";
    "record"; "unprecedented"; "significant"; "urgent" ].

End NewsScraperConfig.

Module NewsScraper.
Import Py NewsScraperConfig Database.

(** [NewsScraper._auto_tag]. *)
Definition _auto_tag (title : string) (summary full_content : option string)
  : list string :=
  let text :=
    lower (title +:+ " " +:+ or_empty summary +:+ " " +:+ or_empty full_content) in
  map fst
    (List.filter (fun '(tag, keywords) => any (fun keyword => contains keyword text) keywords)
            TAG_KEYWORDS).

Definition priority_tags : list string :=
  [ "capacity"; "rates"; "bankruptcy"; "merger" ].

(** [NewsScraper._auto_rate_importance]. *)
Definition _auto_rate_importance
  (title : string) (summary : option string) (tags : list string) : Z :=
  let score := 1 in
  let score := if any (fun tag => mem tag tags) priority_tags
               then score + 1 else score in
  let title_lower := lower title in
  let score := if any (fun keyword => contains keyword title_lower) IMPORTANT_KEYWORDS
               then score + 1 else score in
  let score := if 3 <=? Z.of_nat (length tags) then score + 1 else score in
  Z.min score 5.


(** The dict [parse] builds for one feed entry. *)
Module Article.
Record t := mk {
  id : string;
  source : string;
  title : string;
  url : string;
  published_at : Z;
  summary : string;
  full_content : option string;
  tags : string;
  importance : Z;
  notes : option string;
  read : bool }.
End Article.

(** A feed entry, as far as [parse] reads it itself; [None] is a
    missing key. *)
Module Entry.
Record t := mk {
  title : option string;
  link : option string;
  _source_name : option string }.
End Entry.

Section Parse.

(** What [parse] takes from outside this module: [hashlib.md5] with
    [hexdigest], and the helpers that read the clock, strip markup and
    download the article.  The helpers are total here; an entry on
    which one of them raises is skipped by [parse] and never reaches
    [store]. *)
Variable md5_hexdigest : string -> string.
Variable _parse_date : Entry.t -> Z.
Variable _extract_summary : Entry.t -> string.
Variable _extract_full_article : string -> option string.
Variable NEWSPAPER_AVAILABLE : bool.

(** [NewsScraper._generate_id]. *)
Definition _generate_id (entry : Entry.t) : string :=
  let url := or_empty (Entry.link entry) in
  let title := or_empty (Entry.title entry) in
  let unique_string := url +:+ title in
  md5_hexdigest unique_string.

Definition parse_entry (entry : Entry.t) : Article.t :=
  let article_id := _generate_id entry in
  let title := default "Untitled" (Entry.title entry) in
  let url := default "" (Entry.link entry) in
  let source := default "Unknown" (Entry._source_name entry) in
  let published_at := _parse_date entry in
  let summary := _extract_summary entry in
  let full_content :=
    if NEWSPAPER_AVAILABLE && truthy_str (Some url)
    then _extract_full_article url else None in
  let tags := _auto_tag title (Some summary) full_content in
  let importance := _auto_rate_importance title (Some summary) tags in
  Article.mk article_id source title url published_at summary full_content
             (join "," tags) importance None false.

(** [NewsScraper.parse]. *)
Definition parse (feed_entries : list Entry.t) : list Article.t :=
  map parse_entry feed_entries.

End Parse.

(** The row [NewsArticle] builds from the keys of [article_data]. *)
Definition new_article (a : Article.t) : NewsArticle.t :=
  NewsArticle.mk (Article.id a) (Article.source a) (Article.title a) (Article.url a)
    (Article.published_at a) (Some (Article.summary a)) (Article.full_content a)
    (Some (Article.tags a)) (Some (Article.importance a)) (Article.notes a)
    (Some (Article.read a)).

(** The branch [if existing:] of [store]. *)
Definition update_existing (existing : NewsArticle.t) (article_data : Article.t)
  : NewsArticle.t :=
  let existing := NewsArticle.set_summary (Some (Article.summary article_data)) existing in
  let existing := NewsArticle.set_full_content (Article.full_content article_data) existing in
  let existing :=
    if negb (truthy_str (NewsArticle.tags existing))
    then NewsArticle.set_tags (Some (Article.tags article_data)) existing
    else existing in
  let existing :=
    if eq_int (NewsArticle.importance existing) 1
    then NewsArticle.set_importance (Some (Article.importance article_data)) existing
    else existing in
  existing.

(** One turn of the loop of [store]. *)
Definition store_article (s : Session) (article_data : Article.t) : Session :=
  match news_articles (view s) !! Article.id article_data with
  | Some existing =>
      with_view (put_news (Article.id article_data)
                          (update_existing existing article_data)) s
  | None => add_news (new_article article_data) s
  end.

(** [NewsScraper.store]. *)
Definition store (flt : Faults) (articles : list Article.t) (db : DB) : outcome * DB :=
  transaction flt (fun s => inr (fold_left store_article articles s)) db.

End NewsScraper.

(* ================================================================== *)
(** * scrapers/fred_scraper.py *)
(* ================================================================== *)

Module FREDScraper.
Import Py Database.

(** The dicts [parse] builds, by target table. *)
Module DailyObs.
Record t := mk { date : string; field : DailyField.t; value : float; source : string }.
End DailyObs.

Module MacroObs.
Record t := mk { month : string; field : MacroField.t; value : float; source : string }.
End MacroObs.

Record Parsed := mkParsed { daily : list DailyObs.t; macro : list MacroObs.t }.

(** [not existing.source or 'FRED' not in existing.source]. *)
Definition not_from (label : string) (source : option string) : bool :=
  negb (truthy_str source) || negb (contains label (or_empty source)).

(** One turn of the loop over [parsed_data['daily']]. *)
Definition store_daily (flt : Faults) (metric : DailyObs.t) (s : Session)
  : exn + Session :=
  match daily_metrics (view s) !! DailyObs.date metric with
  | Some existing =>
      let existing :=
        DailyMetric.setattr existing (DailyObs.field metric) (Some (DailyObs.value metric)) in
      let existing :=
        if not_from "FRED" (DailyMetric.source existing)
        then DailyMetric.set_source (Some (DailyObs.source metric)) existing
        else existing in
      inr (with_view (put_daily (DailyObs.date metric) existing) s)
  | None =>
      let new_metric :=
        DailyMetric.new (DailyObs.date metric) (Some (DailyObs.source metric))
                        (Some 1%float) in
      let new_metric :=
        DailyMetric.setattr new_metric (DailyObs.field metric)
                            (Some (DailyObs.value metric)) in
      flush flt (add_daily new_metric s)
  end.

(** One turn of the loop over [parsed_data['macro']]. *)
Definition store_macro (flt : Faults) (metric : MacroObs.t) (s : Session)
  : exn + Session :=
  match macro_metrics (view s) !! MacroObs.month metric with
  | Some existing =>
      let existing :=
        MacroMetric.setattr existing (MacroObs.field metric) (Some (MacroObs.value metric)) in
      let existing :=
        if not_from "FRED" (MacroMetric.source existing)
        then MacroMetric.set_source (Some (MacroObs.source metric)) existing
        else existing in
      inr (with_view (put_macro (MacroObs.month metric) existing) s)
  | None =>
      let new_metric :=
        MacroMetric.new (MacroObs.month metric) (Some (MacroObs.source metric))
                        (Some 1%float) in
      let new_metric :=
        MacroMetric.setattr new_metric (MacroObs.field metric)
                            (Some (MacroObs.value metric)) in
      flush flt (add_macro new_metric s)
  end.

(** [FREDScraper.store]. *)
Definition store (flt : Faults) (parsed_data : Parsed) (db : DB) : outcome * DB :=
  transaction flt
    (fun s =>
       match for_each (store_daily flt) (daily parsed_data) s with
       | inl e => inl e
       | inr s => for_each (store_macro flt) (macro parsed_data) s
       end) db.

End FREDScraper.

(* ================================================================== *)
(** * scrapers/eia_diesel_scraper.py *)
(* ================================================================== *)

Module EIADieselScraper.
Import Py Database Requests BaseScraper.

(** The dict of one parsed price; the HTML fallback leaves the region
    keys out. *)
Module Price.
Record t := mk {
  date : string;
  diesel_price : float;
  region_code : option string;
  region_name : option string;
  series_description : option string }.
End Price.

Definition same_region (date region_code : string) (r : DieselPrice.t) : bool :=
  String.eqb (DieselPrice.date r) date && String.eqb (DieselPrice.region_code r) region_code.

(** The first row of [rows] that [p] selects is replaced by [f] of it. *)
Fixpoint update_first {A} (p : A -> bool) (f : A -> A) (rows : list A) : list A :=
  match rows with
  | [] => []
  | r :: rest => if p r then f r :: rest else r :: update_first p f rest
  end.

(** The first half of a turn of the loop of [store]: the row of the
    region in [diesel_prices]. *)
Definition store_regional (price_data : Price.t) (s : Session) : Session :=
  let date := Price.date price_data in
  let price := Price.diesel_price price_data in
  let region_code := default "UNKNOWN" (Price.region_code price_data) in
  let region_name := default "Unknown" (Price.region_name price_data) in
  let series_desc := default "" (Price.series_description price_data) in
  match List.find (same_region date region_code) (diesel_prices (view s)) with
  | Some existing_regional =>
      with_view
        (fun db =>
           set_diesel_prices
             (update_first (same_region date region_code)
                (fun r => DieselPrice.mk (DieselPrice.date r) (DieselPrice.region_code r)
                            (Some region_name) price (Some series_desc)
                            (DieselPrice.source r))
                (diesel_prices db)) db) s
  | None =>
      add_diesel (DieselPrice.mk date region_code (Some region_name) price
                                 (Some series_desc) (Some "EIA")) s
  end.

(** The second half: the national price goes to [daily_metrics] too. *)
Definition store_national (price_data : Price.t) (s : Session) : Session :=
  let date := Price.date price_data in
  let price := Price.diesel_price price_data in
  let region_code := default "UNKNOWN" (Price.region_code price_data) in
  if String.eqb region_code "NUS" then
    match daily_metrics (view s) !! date with
    | Some existing_daily =>
        let existing_daily :=
          DailyMetric.setattr existing_daily DailyField.diesel_usd_per_gal (Some price) in
        let existing_daily :=
          if FREDScraper.not_from "EIA" (DailyMetric.source existing_daily)
          then DailyMetric.set_source (Some "EIA") existing_daily
          else existing_daily in
        with_view (put_daily date existing_daily) s
    | None =>
        add_daily (DailyMetric.setattr (DailyMetric.new date (Some "EIA") (Some 1%float))
                     DailyField.diesel_usd_per_gal (Some price)) s
    end
  else s.

(** One turn of the loop of [store]. *)
Definition store_price (s : Session) (price_data : Price.t) : Session :=
  store_national price_data (store_regional price_data s).

(** [EIADieselScraper.store]. *)
Definition store (flt : Faults) (prices : list Price.t) (db : DB) : outcome * DB :=
  transaction flt (fun s => inr (fold_left store_price prices s)) db.


(** What [fetch] returns: the records of the API, or the page of the
    web site. *)
Inductive RawData :=
  | ApiRecords (all_data : list json)
  | Html (text : string).

Definition API_BASE : string := "https://api.eia.gov/v2/petroleum/pri/gnd/data/".
Definition WEB_URL : string :=
  "https://www.eia.gov/dnav/pet/hist/LeafHandler.ashx?n=pet&s=emd_epd2d_pte_nus_dpg&f=w".

(** [length], the page size, and the safety limit of [_fetch_via_api]. *)
Definition length_ : Z := 5000.
Definition safety_limit : Z := 100000.

Definition len {A} (l : list A) : Z := Z.of_nat (length l).

Section Fetch.
Variable server : Server.
Variable api_key : string.

Definition api_params (offset : Z) : list (string * json) :=
  [ ("api_key", JStr api_key);
    ("frequency", JStr "weekly");
    ("data[0]", JStr "value");
    ("sort[0][column]", JStr "period");
    ("sort[0][direction]", JStr "desc");
    ("offset", JInt offset);
    ("length", JInt length_) ].

(** [EIADieselScraper._fetch_via_web_scraping]. *)
Definition _fetch_via_web_scraping (sent : list Request)
  : (exn + RawData) * list Request :=
  let '(r, sent) := get server WEB_URL [] sent in
  match r with
  | inl e => (inl e, sent)
  | inr response =>
      match raise_for_status response with
      | inl e => (inl e, sent)
      | inr _ => (inr (Html (text response)), sent)
      end
  end.

(** [if 'response' in data and 'data' in data['response']] and then
    [data['response']['data']]: the batch, [None] when the test is
    false, an exception when an operand has the wrong type. *)
Definition response_data (data : json) : exn + option json :=
  match py_in "response" data with
  | inl e => inl e
  | inr false => inr None
  | inr true =>
      match py_getitem data "response" with
      | inl e => inl e
      | inr resp =>
          match py_in "data" resp with
          | inl e => inl e
          | inr false => inr None
          | inr true =>
              match py_getitem resp "data" with
              | inl e => inl e
              | inr batch => inr (Some batch)
              end
          end
      end
  end.

(** How the [while True] loop of [_fetch_via_api] is left. *)
Inductive loop_exit :=
  | Fetched (all_data : list json)    (* break *)
  | Unexpected                        (* the else branch: fall back *)
  | Failed (e : exn).                 (* an exception, caught below *)

(** The loop, with [fuel] turns at most; [None] when they run out.
    The count the API reports ([total_available]) is only logged and
    is left out. *)
Fixpoint api_loop (fuel : nat) (all_data : list json) (offset : Z) (sent : list Request)
  : option (loop_exit * list Request) :=
  match fuel with
  | O => None
  | S fuel' =>
      let '(r, sent) := get server API_BASE (api_params offset) sent in
      match r with
      | inl e => Some (Failed e, sent)
      | inr response =>
          match raise_for_status response with
          | inl e => Some (Failed e, sent)
          | inr _ =>
              match json_of response with
              | inl e => Some (Failed e, sent)
              | inr data =>
                  match response_data data with
                  | inl e => Some (Failed e, sent)
                  | inr None => Some (Unexpected, sent)
                  | inr (Some batch) =>
                      if negb (truthy batch) then Some (Fetched all_data, sent)
                      else
                        match items batch with
                        | None =>
                            Some (Failed (Raise TypeError "object is not iterable"), sent)
                        | Some records =>
                            let all_data := all_data ++ records in
                            if len records <? length_ then Some (Fetched all_data, sent)
                            else
                              let offset := offset + length_ in
                              if safety_limit <=? len all_data
                              then Some (Fetched all_data, sent)
                              else api_loop fuel' all_data offset sent
                        end
                  end
              end
          end
      end
  end.

(** [EIADieselScraper._fetch_via_api]: the loop inside [try], the
    fallback in the else branch (itself inside the [try]) and in the
    [except] clause. *)
Definition _fetch_via_api (fuel : nat) (sent : list Request)
  : option ((exn + RawData) * list Request) :=
  match api_loop fuel [] 0 sent with
  | None => None
  | Some (Fetched all_data, sent) => Some (inr (ApiRecords all_data), sent)
  | Some (Unexpected, sent) =>
      match _fetch_via_web_scraping sent with
      | (inl e, sent) => Some (_fetch_via_web_scraping sent)
      | ok => Some ok
      end
  | Some (Failed e, sent) => Some (_fetch_via_web_scraping sent)
  end.

End Fetch.

(** [EIADieselScraper.fetch]. *)
Definition fetch (server : Server) (api_key : option string) (fuel : nat)
  (sent : list Request) : option ((exn + RawData) * list Request) :=
  if truthy_str api_key then _fetch_via_api server (or_empty api_key) fuel sent
  else Some (_fetch_via_web_scraping server sent).

End EIADieselScraper.

(* ================================================================== *)
(** * scrapers/cass_scraper.py and scrapers/ata_scraper.py: store *)
(* ================================================================== *)

Module CassScraper.
Import Py Database.

Module Metric.
Record t := mk {
  month : string;
  cass_shipments_index : option float;
  cass_expenditures_index : option float;
  _note : option string }.
End Metric.

(** The record [parse] emits when no table could be read. *)
Definition placeholder (this_month : string) : Metric.t :=
  Metric.mk this_month None None (Some "Manual parsing required - check Cass website").

(** [if not metrics:] at the end of [parse]. *)
Definition parse_fallback (this_month : string) (metrics : list Metric.t) : list Metric.t :=
  match metrics with
  | [] => [placeholder this_month]
  | _ => metrics
  end.

(** One turn of the loop of [store]. *)
Definition store_metric (s : Session) (metric_data : Metric.t) : Session :=
  if truthy_str (Metric._note metric_data) then s   (* continue *)
  else
    match macro_metrics (view s) !! Metric.month metric_data with
    | Some existing =>
        let existing :=
          if truthy_float (Metric.cass_shipments_index metric_data)
          then MacroMetric.setattr existing MacroField.cass_shipments_index
                 (Metric.cass_shipments_index metric_data)
          else existing in
        let existing :=
          if truthy_float (Metric.cass_expenditures_index metric_data)
          then MacroMetric.setattr existing MacroField.cass_expenditures_index
                 (Metric.cass_expenditures_index metric_data)
          else existing in
        let existing := MacroMetric.set_source (Some "Cass") existing in
        let existing := MacroMetric.set_confidence (Some 1%float) existing in
        with_view (put_macro (Metric.month metric_data) existing) s
    | None =>
        let new_metric := MacroMetric.new (Metric.month metric_data) (Some "Cass")
                                          (Some 1%float) in
        let new_metric := MacroMetric.setattr new_metric MacroField.cass_shipments_index
                            (Metric.cass_shipments_index metric_data) in
        let new_metric := MacroMetric.setattr new_metric MacroField.cass_expenditures_index
                            (Metric.cass_expenditures_index metric_data) in
        add_macro new_metric s
    end.

(** [CassScraper.store]. *)
Definition store (flt : Faults) (metrics : list Metric.t) (db : DB) : outcome * DB :=
  transaction flt (fun s => inr (fold_left store_metric metrics s)) db.

End CassScraper.

Module ATAScraper.
Import Py Database.

Module Metric.
Record t := mk {
  month : string;
  ata_tonnage_index : option float;
  _note : option string }.
End Metric.

Definition placeholder (this_month : string) : Metric.t :=
  Metric.mk this_month None (Some "Manual parsing required - check ATA website").

Definition parse_fallback (this_month : string) (metrics : list Metric.t) : list Metric.t :=
  match metrics with
  | [] => [placeholder this_month]
  | _ => metrics
  end.

(** One turn of the loop of [store]. *)
Definition store_metric (s : Session) (metric_data : Metric.t) : Session :=
  if truthy_str (Metric._note metric_data) then s   (* continue *)
  else
    match macro_metrics (view s) !! Metric.month metric_data with
    | Some existing =>
        let existing :=
          if truthy_float (Metric.ata_tonnage_index metric_data)
          then MacroMetric.setattr existing MacroField.ata_tonnage_index
                 (Metric.ata_tonnage_index metric_data)
          else existing in
        let existing := MacroMetric.set_source (Some "ATA") existing in
        let existing := MacroMetric.set_confidence (Some 1%float) existing in
        with_view (put_macro (Metric.month metric_data) existing) s
    | None =>
        let new_metric := MacroMetric.new (Metric.month metric_data) (Some "ATA")
                                          (Some 1%float) in
        let new_metric := MacroMetric.setattr new_metric MacroField.ata_tonnage_index
                            (Metric.ata_tonnage_index metric_data) in
        add_macro new_metric s
    end.

(** [ATAScraper.store]. *)
Definition store (flt : Faults) (metrics : list Metric.t) (db : DB) : outcome * DB :=
  transaction flt (fun s => inr (fold_left store_metric metrics s)) db.

End ATAScraper.

(* ================================================================== *)
(** * scrapers/usaspending_scraper.py: fetch *)
(* ================================================================== *)

Module USASpendingScraper.
Import Py Requests BaseScraper.

Definition API_BASE : string := "https://api.usaspending.gov/api/v2/search/spending_by_award/".
Definition FREIGHT_PSC_CODES : list string := [ "V1"; "V2" ].
Definition limit_per_page : Z := 100.
Definition max_contracts_per_psc : Z := 2000.

Definition len {A} (l : list A) : Z := Z.of_nat (length l).

Section Fetch.
Variable server : Server.
(** The two ends of the time window, formatted from the clock. *)
Variables start_date end_date : string.

Definition payload (psc_code : string) (page : Z) : json :=
  JDict
    [ ("filters",
       JDict [ ("time_period",
                JList [ JDict [ ("start_date", JStr start_date);
                                ("end_date", JStr end_date) ] ]);
               ("award_type_codes", JList [ JStr "A"; JStr "B"; JStr "C"; JStr "D" ]);
               ("psc_codes", JList [ JStr psc_code ]) ]);
      ("fields",
       JList [ JStr "Award ID"; JStr "Recipient Name"; JStr "Start Date";
               JStr "End Date"; JStr "Award Amount"; JStr "Description";
               JStr "awarding_agency_name"; JStr "recipient_location_state_code";
               JStr "pop_state_code" ]);
      ("page", JInt page);
      ("limit", JInt limit_per_page);
      ("sort", JStr "Award Amount");
      ("order", JStr "desc") ].

(** The state of the loop over the pages of one PSC code. *)
Record Pages := mkPages {
  pg_awards : list json;      (* all_awards *)
  pg_total : Z;               (* psc_total *)
  pg_sent : list Request }.

(** [data['results']] when ['results' in data], else [None]. *)
Definition results_of (data : json) : exn + option json :=
  match py_in "results" data with
  | inl e => inl e
  | inr false => inr None
  | inr true =>
      match py_getitem data "results" with
      | inl e => inl e
      | inr results => inr (Some results)
      end
  end.

(** [while psc_total < max_contracts_per_psc], with [fuel] turns at
    most; [inl e] when a turn raises, [None] when the turns run out. *)
Fixpoint page_loop (fuel : nat) (psc_code : string) (page : Z) (st : Pages)
  : option ((exn + unit) * Pages) :=
  if negb (pg_total st <? max_contracts_per_psc) then Some (inr tt, st) else
  match fuel with
  | O => None
  | S fuel' =>
      let '(r, sent) := post server API_BASE (payload psc_code page) (pg_sent st) in
      let st := mkPages (pg_awards st) (pg_total st) sent in
      match r with
      | inl e => Some (inl e, st)
      | inr response =>
          match raise_for_status response with
          | inl e => Some (inl e, st)
          | inr _ =>
              match json_of response with
              | inl e => Some (inl e, st)
              | inr data =>
                  match results_of data with
                  | inl e => Some (inl e, st)
                  | inr None => Some (inr tt, st)          (* no more results *)
                  | inr (Some results) =>
                      match items results with
                      | None => Some (inl (Raise TypeError "object has no len()"), st)
                      | Some awards =>
                          if 0 <? len awards then
                            let st := mkPages (pg_awards st ++ awards)
                                              (pg_total st + len awards) sent in
                            if len awards <? limit_per_page then Some (inr tt, st)
                            else page_loop fuel' psc_code (page + 1) st
                          else Some (inr tt, st)             (* no more results *)
                      end
                  end
              end
          end
      end
  end.

(** [for psc_code in self.FREIGHT_PSC_CODES], each turn in its own
    [try]; an exception ends the turn and keeps what was collected. *)
Fixpoint psc_loop (fuel : nat) (codes : list string) (all_awards : list json)
  (sent : list Request) : option (list json * list Request) :=
  match codes with
  | [] => Some (all_awards, sent)
  | psc_code :: rest =>
      match page_loop fuel psc_code 1 (mkPages all_awards 0 sent) with
      | None => None
      | Some (_, st) => psc_loop fuel rest (pg_awards st) (pg_sent st)
      end
  end.

(** [USASpendingScraper.fetch]. *)
Definition fetch (fuel : nat) (sent : list Request) : option (list json * list Request) :=
  psc_loop fuel FREIGHT_PSC_CODES [] sent.

End Fetch.

End USASpendingScraper.

(* ================================================================== *)
(** * scrapers/run_all_scrapers.py *)
(* ================================================================== *)

Module RunAllScrapers.
Import Py Database BaseScraper.

Section Main.
Context {Env : Type}.

(** A job of the list: [scraper.run()], which may itself raise. *)
Definition Job := @World Env -> (exn + option bool) * @World Env.

(** The names of the list [scrapers], in its order. *)
Definition scraper_names : list string :=
  [ "News (4 sources)"; "EIA Diesel Prices"; "FRED Economic Indicators";
    "Cass Freight Index"; "ATA Truck Tonnage"; "USASpending Gov Contracts" ].

(** [results[name] = value] on a dict kept in insertion order. *)
Fixpoint dict_set (name value : string) (results : list (string * string))
  : list (string * string) :=
  match results with
  | [] => [(name, value)]
  | (k, v) :: rest =>
      if String.eqb k name then (k, value) :: rest
      else (k, v) :: dict_set name value rest
  end.

Definition truth (success : option bool) : bool :=
  match success with Some true => true | _ => false end.

(** The loop [for name, scraper in scrapers]; of what [main] prints,
    the line that announces a job and the line of a fatal error are
    kept. *)
Fixpoint run_jobs (scrapers : list (string * Job)) (results : list (string * string))
  (w : World) : list (string * string) * World :=
  match scrapers with
  | [] => (results, w)
  | (name, scraper) :: rest =>
      let w := log (Print ("Running: " +:+ name)) w in
      match scraper w with
      | (inr success, w) =>
          run_jobs rest
            (dict_set name (if truth success then "✅ Success" else "❌ Failed") results) w
      | (inl e, w) =>
          let w := log (Print ("❌ Fatal error in " +:+ name +:+ ": " +:+ str_of_exn e)) w in
          run_jobs rest (dict_set name ("❌ Error: " +:+ str_of_exn e) results) w
      end
  end.

(** [main]: the results, the exit status and the world left behind. *)
Definition main (scrapers : list (string * Job)) (w : World)
  : list (string * string) * Z * World :=
  let '(results, w) := run_jobs scrapers [] w in
  let failed_count :=
    Z.of_nat (length (List.filter (fun r => contains "❌" (snd r)) results)) in
  (results, if 0 <? failed_count then 1 else 0, w).

(** A scraper of the list as a job: its [run]. *)
Definition job_of (utcnow : Env -> Z) (sc : Scraper) : Job :=
  fun w => let '(r, w) := run utcnow sc w in (inr r, w).

End Main.

End RunAllScrapers.

(* ================================================================== *)
(** * scrapers/fred_scraper.py: fetch and parse *)
(* ================================================================== *)

Module FREDScraperInput.
Import Py Database Requests BaseScraper.

Definition API_BASE : string := "https://api.stlouisfed.org/fred/series/observations".

(** [config['table']] with [config['field']]: the fact table and the
    column a series goes to. *)
Inductive Target :=
  | Daily (field : DailyField.t)
  | Macro (field : MacroField.t).

Record Config := mkConfig { name : string; target : Target }.

(** The catalog of series, in the order of the dict. *)
Definition SERIES : list (string * Config) :=
  [ ("IPMAN", mkConfig "Industrial Production: Manufacturing"
                (Macro MacroField.industrial_production));
    ("BSCICP03USM665S", mkConfig "OECD Business Confidence: Manufacturing (US)"
                          (Macro MacroField.ism_pmi));
    ("RSXFS", mkConfig "Retail Sales" (Macro MacroField.retail_sales));
    ("UMCSENT", mkConfig "Consumer Sentiment" (Macro MacroField.consumer_sentiment));
    ("TRUCKD11", mkConfig "ATA Truck Tonnage Index" (Macro MacroField.ata_tonnage_index));
    ("FRGSHPUSM649NCIS", mkConfig "Cass Freight Index: Shipments"
                           (Macro MacroField.cass_shipments_index));
    ("FRGEXPUSM649NCIS", mkConfig "Cass Freight Index: Expenditures"
                           (Macro MacroField.cass_expenditures_index));
    ("GASREGW", mkConfig "Gas Prices (Weekly)" (Daily DailyField.gas_price));
    ("DCOILWTICO", mkConfig "Crude Oil WTI" (Daily DailyField.oil_price)) ].

(** [all_data[series_id] = entry] on a dict kept in insertion order. *)
Fixpoint set_item {V} (k : string) (v : V) (d : list (string * V)) : list (string * V) :=
  match d with
  | [] => [(k, v)]
  | (k', v') :: rest =>
      if String.eqb k' k then (k', v) :: rest else (k', v') :: set_item k v rest
  end.

Section Fetch.
Variable server : Server.
Variable api_key : option string.

Definition params (series_id : string) : list (string * json) :=
  [ ("series_id", JStr series_id);
    ("file_type", JStr "json");
    ("sort_order", JStr "desc");
    ("limit", JInt 100000) ] ++
  (if truthy_str api_key then [ ("api_key", JStr (or_empty api_key)) ] else []).

(** The body of the [try] for one series: the observations that go
    into [all_data], or [None] when the reply has none or a step
    raises.  (The log line after the assignment raises when the
    observations have no [len]; the entry is then already in.) *)
Definition fetch_series (series_id : string) (sent : list Request)
  : option json * list Request :=
  let '(r, sent) := get server API_BASE (params series_id) sent in
  match r with
  | inl _ => (None, sent)
  | inr response =>
      match raise_for_status response with
      | inl _ => (None, sent)
      | inr _ =>
          match json_of response with
          | inl _ => (None, sent)
          | inr data =>
              match py_in "observations" data with
              | inr true =>
                  match py_getitem data "observations" with
                  | inr observations => (Some observations, sent)
                  | inl _ => (None, sent)
                  end
              | _ => (None, sent)
              end
          end
      end
  end.

(** [for series_id, config in self.SERIES.items()]. *)
Fixpoint fetch_loop (series : list (string * Config))
  (all_data : list (string * (Config * json))) (sent : list Request)
  : list (string * (Config * json)) * list Request :=
  match series with
  | [] => (all_data, sent)
  | (series_id, config) :: rest =>
      let '(o, sent) := fetch_series series_id sent in
      let all_data :=
        match o with
        | Some observations => set_item series_id (config, observations) all_data
        | None => all_data
        end in
      fetch_loop rest all_data sent
  end.

(** [FREDScraper.fetch]. *)
Definition fetch (sent : list Request)
  : list (string * (Config * json)) * list Request :=
  fetch_loop SERIES [] sent.

End Fetch.

(** An observation as the FRED API sends it: an object whose [date]
    and [value] are strings, the value ['.'] standing for a missing
    one; [None] is a missing key. *)
Module Observation.
Record t := mk { date : option string; value : option string }.
End Observation.

Section Parse.

(** What [parse] takes from outside this module: [float] on a string
    and [datetime.strptime(date, '%Y-%m-%d').strftime('%Y-%m')];
    [None] where the call raises. *)
Variable float_of_str : string -> option float.
Variable month_of_date : string -> option string.

(** The body of the [try] for one observation; [None] where it
    raises or the observation is skipped. *)
Definition parse_obs (series_id : string) (config : Config) (obs : Observation.t)
  : option (FREDScraper.DailyObs.t + FREDScraper.MacroObs.t) :=
  match Observation.date obs with
  | None => None
  | Some date =>
      match Observation.value obs with
      | None => None
      | Some value =>
          if String.eqb value "." then None
          else
            match float_of_str value with
            | None => None
            | Some value =>
                match target config with
                | Daily field =>
                    Some (inl (FREDScraper.DailyObs.mk date field value
                                 ("FRED-" +:+ series_id)))
                | Macro field =>
                    match month_of_date date with
                    | None => None
                    | Some month =>
                        Some (inr (FREDScraper.MacroObs.mk month field value
                                     ("FRED-" +:+ series_id)))
                    end
                end
            end
      end
  end.

(** The loop over the observations of one series. *)
Definition parse_series (series_id : string) (config : Config)
  (observations : list Observation.t) (acc : FREDScraper.Parsed) : FREDScraper.Parsed :=
  fold_left
    (fun acc obs =>
       match parse_obs series_id config obs with
       | Some (inl m) =>
           FREDScraper.mkParsed (FREDScraper.daily acc ++ [m]) (FREDScraper.macro acc)
       | Some (inr m) =>
           FREDScraper.mkParsed (FREDScraper.daily acc) (FREDScraper.macro acc ++ [m])
       | None => acc
       end)
    observations acc.

(** [FREDScraper.parse]. *)
Definition parse (raw_data : list (string * (Config * list Observation.t)))
  : FREDScraper.Parsed :=
  fold_left
    (fun acc '(series_id, (config, observations)) =>
       parse_series series_id config observations acc)
    raw_data (FREDScraper.mkParsed [] []).

End Parse.

End FREDScraperInput.

(* ================================================================== *)
(** * lib/database.py: lanes and rates *)
(* ================================================================== *)

Module LaneTables.
Import Py Database.

(** Rows; the autoincrement [id] of a rate, which no job reads, and
    the [created_at] columns are left out. *)
Module Lane.
Record t := mk {
  id : Z;                              (* primary key, autoincrement *)
  origin : string;
  destination : string;
  equipment_type : option string;      (* van, reefer, flatbed *)
  distance_miles : option float;
  volume_rank : option Z }.
End Lane.

Module Rate.
Record t := mk {
  lane_id : Z;
  date : string;                       (* YYYY-MM-DD *)
  rate_per_mile : float;
  is_spot : option bool;
  is_contract : option bool;
  source : option string;
  confidence_score : option float }.
End Rate.

Record Tables := mkTables { lanes : list Lane.t; rates : list Rate.t }.

(** A session on the two tables.  A lane passed to [db.add] waits for
    its id, which the INSERT of the next flush assigns. *)
Record Session := mkSession {
  view : Tables;
  new_lanes : list (Z -> Lane.t);
  new_rates : list Rate.t;
  flushes : nat }.

Definition SessionLocal (tables : Tables) : Session := mkSession tables [] [] 0.

(** The id an INSERT assigns: one more than the largest in the table. *)
Definition next_id (tbl : list Lane.t) : Z := 1 + fold_right Z.max 0 (map Lane.id tbl).

Fixpoint insert_lanes (pending : list (Z -> Lane.t)) (tbl : list Lane.t) : list Lane.t :=
  match pending with
  | [] => tbl
  | lane :: rest => insert_lanes rest (tbl ++ [lane (next_id tbl)])
  end.

Definition add_lane (lane : Z -> Lane.t) (s : Session) : Session :=
  mkSession (view s) (new_lanes s ++ [lane]) (new_rates s) (flushes s).

Definition add_rate (r : Rate.t) (s : Session) : Session :=
  mkSession (view s) (new_lanes s) (new_rates s ++ [r]) (flushes s).

(** [db.flush()]; neither table has a constraint a job could break,
    so only the engine can fail it. *)
Definition flush (flt : Faults) (s : Session) : exn + Session :=
  if flt (flushes s) then inl (Raise OperationalError "database is locked") else
  inr (mkSession
         (mkTables (insert_lanes (new_lanes s) (lanes (view s)))
                   (rates (view s) ++ new_rates s))
         [] [] (S (flushes s))).

(** The frame of a [store], as in [Database.transaction]. *)
Definition transaction (flt : Faults) (body : Session -> exn + Session) (tables : Tables)
  : outcome * Tables :=
  match body (SessionLocal tables) with
  | inl e => (Raised e, tables)
  | inr s =>
      match flush flt s with
      | inl e => (Raised e, tables)
      | inr s' => (Returned, view s')
      end
  end.

Fixpoint for_each {A} (step : A -> Session -> exn + Session) (xs : list A) (s : Session)
  : exn + Session :=
  match xs with
  | [] => inr s
  | x :: rest =>
      match step x s with
      | inl e => inl e
      | inr s' => for_each step rest s'
      end
  end.

(** [filter_by(origin=..., destination=..., equipment_type=...)]. *)
Definition same_lane (origin destination equipment_type : string) (l : Lane.t) : bool :=
  String.eqb (Lane.origin l) origin && String.eqb (Lane.destination l) destination &&
  match Lane.equipment_type l with
  | Some e => String.eqb e equipment_type
  | None => false
  end.

End LaneTables.

(* ================================================================== *)
(** * scrapers/usaspending_scraper.py: store *)
(* ================================================================== *)

Module USASpendingScraperStore.
Import Py Database LaneTables.

(** The dict [parse] builds for an award; the start date is [None]
    when the award has none. *)
Module Contract.
Record t := mk {
  award_id : string;
  origin : string;
  destination : string;
  equipment_type : string;
  amount : float;
  start_date : option string;
  description : string }.
End Contract.

(** [filter_by(lane_id=..., date=..., source='USASpending')]. *)
Definition same_rate (lane_id : Z) (date : string) (r : Rate.t) : bool :=
  (Rate.lane_id r =? lane_id) && String.eqb (Rate.date r) date &&
  match Rate.source r with
  | Some src => String.eqb src "USASpending"
  | None => false
  end.

Section Store.

(** The clock, read as a day, taken as the same for a whole store;
    and [datetime.strptime(s, '%Y-%m-%d').strftime('%Y-%m-%d')],
    [None] where it raises. *)
Variable today : string.
Variable valid_date : string -> option string.

Definition date_of (contract : Contract.t) : string :=
  match Contract.start_date contract with
  | Some date_str =>
      match valid_date date_str with
      | Some date => date
      | None => today
      end
  | None => today
  end.

(** Get or create the lane; the id of the lane, and the session. *)
Definition get_lane (flt : Faults) (contract : Contract.t) (s : Session)
  : exn + (Z * Session) :=
  match List.find (same_lane (Contract.origin contract) (Contract.destination contract)
                     (Contract.equipment_type contract)) (lanes (view s)) with
  | Some lane => inr (Lane.id lane, s)
  | None =>
      let lane := fun id =>
        Lane.mk id (Contract.origin contract) (Contract.destination contract)
                (Some (Contract.equipment_type contract)) (Some 500%float) None in
      let lane_id := next_id (insert_lanes (new_lanes s) (lanes (view s))) in
      match flush flt (add_lane lane s) with       (* db.flush(), to get the lane id *)
      | inl e => inl e
      | inr s => inr (lane_id, s)
      end
  end.

(** One turn of the loop of [store]. *)
Definition store_contract (flt : Faults) (contract : Contract.t) (s : Session)
  : exn + Session :=
  match get_lane flt contract s with
  | inl e => inl e
  | inr (lane_id, s) =>
      let date := date_of contract in
      match List.find (same_rate lane_id date) (rates (view s)) with
      | Some _ => inr s
      | None =>
          inr (add_rate (Rate.mk lane_id date 0%float (Some false) (Some true)
                           (Some "USASpending") (Some 0x1.999999999999ap-1%float)) s)
      end
  end.

(** [USASpendingScraper.store]. *)
Definition store (flt : Faults) (contracts : list Contract.t) (tables : Tables)
  : outcome * Tables :=
  transaction flt (for_each (store_contract flt) contracts) tables.

End Store.

End USASpendingScraperStore.

(* ================================================================== *)
(** * scrapers/bts_scraper.py: store *)
(* ================================================================== *)

Module BTSScraperStore.
Import Py Database LaneTables.

(** The dict [parse] builds for a lane; the distance, an [int] there,
    is taken as the number the Float column holds. *)
Module LaneData.
Record t := mk {
  origin : string;
  destination : string;
  annual_tons : float;
  annual_value_millions : float;
  distance_miles : float;
  equipment_type : string }.
End LaneData.

(** The first row of [rows] that [p] selects is replaced by [f] of it. *)
Fixpoint update_first {A} (p : A -> bool) (f : A -> A) (rows : list A) : list A :=
  match rows with
  | [] => []
  | r :: rest => if p r then f r :: rest else r :: update_first p f rest
  end.

(** One turn of the loop of [store]; [count] is
    [stored_count + updated_count]. *)
Definition store_lane (s : Session) (count : Z) (lane_data : LaneData.t) : Session :=
  let p := same_lane (LaneData.origin lane_data) (LaneData.destination lane_data)
             (LaneData.equipment_type lane_data) in
  match List.find p (lanes (view s)) with
  | Some existing =>
      mkSession
        (mkTables
           (update_first p
              (fun l => Lane.mk (Lane.id l) (Lane.origin l) (Lane.destination l)
                          (Lane.equipment_type l)
                          (Some (LaneData.distance_miles lane_data)) (Some (count + 1)))
              (lanes (view s)))
           (rates (view s)))
        (new_lanes s) (new_rates s) (flushes s)
  | None =>
      add_lane (fun id =>
                  Lane.mk id (LaneData.origin lane_data) (LaneData.destination lane_data)
                    (Some (LaneData.equipment_type lane_data))
                    (Some (LaneData.distance_miles lane_data)) (Some (count + 1))) s
  end.

(** The loop: either branch adds one to one of the two counters. *)
Fixpoint store_lanes (lanes : list LaneData.t) (count : Z) (s : Session) : Session :=
  match lanes with
  | [] => s
  | lane_data :: rest => store_lanes rest (count + 1) (store_lane s count lane_data)
  end.

(** [BTSScraper.store]. *)
Definition store (flt : Faults) (lanes : list LaneData.t) (tables : Tables)
  : outcome * Tables :=
  transaction flt (fun s => inr (store_lanes lanes 0 s)) tables.

End BTSScraperStore.

(* ================================================================== *)
(** * lib/utils.py: the tags of the stored articles *)
(* ================================================================== *)

Module Utils.
Import Py Database.

(** [s.split(sep)] for a separator of one character. *)
Fixpoint split (sep : ascii) (s : string) : list string :=
  match s with
  | EmptyString => [EmptyString]
  | String c t =>
      if Ascii.eqb c sep then EmptyString :: split sep t
      else
        match split sep t with
        | w :: ws => String c w :: ws
        | [] => [String c EmptyString]
        end
  end.

(** White space, as far as ASCII goes: tab to carriage return, the
    four separators 28 to 31, and the space.  [strip] acts on these;
    the tags of the news job are ASCII. *)
Definition is_space (c : ascii) : bool :=
  let n := N_of_ascii c in
  (((9 <=? n) && (n <=? 13)) || ((28 <=? n) && (n <=? 32)))%N.

Fixpoint lstrip (s : string) : string :=
  match s with
  | EmptyString => EmptyString
  | String c t => if is_space c then lstrip t else s
  end.

Fixpoint rstrip (s : string) : string :=
  match s with
  | EmptyString => EmptyString
  | String c t =>
      match rstrip t with
      | EmptyString => if is_space c then EmptyString else String c EmptyString
      | t' => String c t'
      end
  end.

(** [s.strip()]. *)
Definition strip (s : string) : string := rstrip (lstrip s).

(** [sorted(list(all_tags))] is built by insertion into a sorted list
    without repetition; [str] is compared character by character. *)
Fixpoint insert_sorted (t : string) (l : list string) : list string :=
  match l with
  | [] => [t]
  | x :: rest =>
      match String.compare t x with
      | Lt => t :: l
      | Eq => l
      | Gt => x :: insert_sorted t rest
      end
  end.

(** The tags one row contributes. *)
Definition tags_of (tags_str : string) : list string :=
  if truthy_str (Some tags_str) then map strip (split "," tags_str) else [].

(** [get_all_tags_from_db]; the query returns the [tags] of the rows
    that have some. *)
Definition get_all_tags_from_db (db : DB) : list string :=
  let articles :=
    omap (fun kr => NewsArticle.tags (snd kr)) (map_to_list (news_articles db)) in
  fold_left (fun all_tags tags_str => fold_left (fun acc t => insert_sorted t acc)
                                        (tags_of tags_str) all_tags)
            articles [].

End Utils.

(* ================================================================== *)
(** * Vocabulary of the properties *)
(* ================================================================== *)

Module Vocabulary.
Import Py.

(** [needle] occurs in [hay]. *)
Definition occurs_in (needle hay : string) : Prop :=
  exists pre post, hay = pre +:+ needle +:+ post.

(** The text the tagger searches. *)
Definition tag_text (title : string) (summary full_content : option string) : string :=
  lower (title +:+ " " +:+ or_empty summary +:+ " " +:+ or_empty full_content).

(** A constraint check that passes only when the key is free. *)
Definition guards_key {R} (violation : R -> gmap string R -> option exn)
  (key : R -> string) : Prop :=
  forall r tbl, violation r tbl = None -> tbl !! key r = None.

(** The first pending row with key [k]. *)
Definition pending_for {R} (key : R -> string) (k : string) (rows : list R) : option R :=
  List.find (fun r => String.eqb (key r) k) rows.

(** The user's annotations on [r] are still there in [r']: the notes;
    the importance, unless it was at its default 1; the tags, unless
    there were none. *)
Definition annotations_kept (r r' : Database.NewsArticle.t) : Prop :=
  Database.NewsArticle.notes r' = Database.NewsArticle.notes r /\
  (Database.NewsArticle.importance r <> Some 1 ->
   Database.NewsArticle.importance r' = Database.NewsArticle.importance r) /\
  (Database.NewsArticle.tags r <> None -> Database.NewsArticle.tags r <> Some "" ->
   Database.NewsArticle.tags r' = Database.NewsArticle.tags r).

(** The errors of the storage layer: those a flush or a commit raises. *)
Definition storage_error (e : Py.exn) : Prop :=
  Py.exn_cls e = Py.IntegrityError \/ Py.exn_cls e = Py.OperationalError.

(** The errors of the transport layer. *)
Definition transport_error (e : Py.exn) : Prop :=
  Py.exn_cls e = Py.ConnectionError \/ Py.exn_cls e = Py.Timeout \/
  Py.exn_cls e = Py.HTTPError.

(** The number of attempts a run has started, read from its log. *)
Definition is_start (ev : BaseScraper.Event) : bool :=
  match ev with BaseScraper.Starting _ _ => true | _ => false end.

Definition attempts_started (evs : list BaseScraper.Event) : nat :=
  length (List.filter is_start evs).

(** What the orchestrator records for a job. *)
Definition verdict (out : Py.exn + option bool) : string :=
  match out with
  | inr success => if RunAllScrapers.truth success then "✅ Success" else "❌ Failed"
  | inl e => "❌ Error: " +:+ Py.str_of_exn e
  end.

(** The records of a reply that the loop of the EIA job takes as a
    page: the status is no error, the body is JSON, and
    [data['response']['data']] is there and can be iterated. *)
Definition eia_page (resp : Requests.Response) : option (list Requests.json) :=
  match Requests.raise_for_status resp, Requests.json_of resp with
  | inr _, inr data =>
      match EIADieselScraper.response_data data with
      | inr (Some batch) => Requests.items batch
      | _ => None
      end
  | _, _ => None
  end.

(** The same for the USASpending job and [data['results']]. *)
Definition usa_page (resp : Requests.Response) : option (list Requests.json) :=
  match Requests.raise_for_status resp, Requests.json_of resp with
  | inr _, inr data =>
      match USASpendingScraper.results_of data with
      | inr (Some results) => Requests.items results
      | _ => None
      end
  | _, _ => None
  end.

(** The server answers the request that follows the history [hist]
    with a page whose number of records satisfies [P]. *)
Definition answers_page (server : Requests.Server)
  (page : Requests.Response -> option (list Requests.json)) (P : Z -> Prop)
  (hist : list Requests.Request) : Prop :=
  forall req, exists resp records,
    server hist req = Requests.Replied resp /\ page resp = Some records /\
    P (Z.of_nat (length records)).

(** Every request gets a full page of [size] records. *)
Definition always_full (server : Requests.Server)
  (page : Requests.Response -> option (list Requests.json)) (size : Z) : Prop :=
  forall hist, answers_page server page (fun n => n = size) hist.

(** Counting from a history of [base] requests, the first [k] requests
    get a full page and the next one a page with fewer records. *)
Definition first_short_page (server : Requests.Server)
  (page : Requests.Response -> option (list Requests.json)) (size : Z)
  (base k : nat) : Prop :=
  (forall hist, (base <= length hist < base + k)%nat ->
                answers_page server page (fun n => n = size) hist) /\
  (forall hist, length hist = (base + k)%nat ->
                answers_page server page (fun n => n < size) hist).

(** The national price for the day [d] among the parsed prices. *)
Definition nus_price_for (d : string) (p : EIADieselScraper.Price.t) : Prop :=
  EIADieselScraper.Price.date p = d /\
  default "UNKNOWN" (EIADieselScraper.Price.region_code p) = "NUS".

(** The row holds, as its diesel price, one the EIA job supplied for
    the day. *)
Definition diesel_supplied (prices : list EIADieselScraper.Price.t) (d : string)
  (r : Database.DailyMetric.t) : Prop :=
  exists p, In p prices /\ nus_price_for d p /\
    Database.DailyMetric.diesel_usd_per_gal r = Some (EIADieselScraper.Price.diesel_price p).

(** The row holds, in the column [f], a value the FRED job supplied
    for the day and that column. *)
Definition field_supplied (obs : list FREDScraper.DailyObs.t) (d : string)
  (f : Database.DailyField.t) (r : Database.DailyMetric.t) : Prop :=
  exists m, In m obs /\ FREDScraper.DailyObs.date m = d /\
    FREDScraper.DailyObs.field m = f /\
    Database.DailyMetric.getattr r f = Some (FREDScraper.DailyObs.value m).

(** [r] is [r0] but for the columns in [own] and the source label. *)
Definition others_kept (own : Database.DailyField.t -> Prop)
  (r0 r : Database.DailyMetric.t) : Prop :=
  Database.DailyMetric.date r = Database.DailyMetric.date r0 /\
  Database.DailyMetric.confidence r = Database.DailyMetric.confidence r0 /\
  forall f, ~ own f -> Database.DailyMetric.getattr r f = Database.DailyMetric.getattr r0 f.

(** The columns the FRED job has a value for on the day [d]. *)
Definition fred_columns (obs : list FREDScraper.DailyObs.t) (d : string)
  (f : Database.DailyField.t) : Prop :=
  exists m, In m obs /\ FREDScraper.DailyObs.date m = d /\ FREDScraper.DailyObs.field m = f.

(** No pending row in the session. *)
Definition clean (s : Database.Session) : Prop :=
  Database.new_news s = [] /\ Database.new_daily s = [] /\
  Database.new_diesel s = [] /\ Database.new_macro s = [].

(** Every pending daily row carries a national price of the batch. *)
Definition pending_supplied (prices : list EIADieselScraper.Price.t) (s : Database.Session) : Prop :=
  forall r, In r (Database.new_daily s) -> diesel_supplied prices (Database.DailyMetric.date r) r.

(** The day [d] has its row, loaded or pending, with a price of the batch. *)
Definition day_supplied (prices : list EIADieselScraper.Price.t) (d : string) (s : Database.Session) : Prop :=
  (exists r, Database.daily_metrics (Database.view s) !! d = Some r /\ diesel_supplied prices d r) \/
  (Database.daily_metrics (Database.view s) !! d = None /\
   exists r, In r (Database.new_daily s) /\ Database.DailyMetric.date r = d).

(** An update of a column under a guard: the turn of an article that
    [c] selects writes [w] of it when the column is still at a value
    [d] accepts, and leaves the column alone otherwise. *)
Definition guarded {X A} (c : A -> bool) (d : X -> bool) (w : A -> X) (x : X) (a : A) : X :=
  if c a then (if d x then w a else x) else x.

(** What the turns of the articles with id [k] make of the row [r]. *)
Definition replay (k : string) (articles : list NewsScraper.Article.t)
  (r : Database.NewsArticle.t) : Database.NewsArticle.t :=
  fold_left
    (fun r a => if String.eqb (NewsScraper.Article.id a) k
                then NewsScraper.update_existing r a else r)
    articles r.

(** The articles whose id is not a key of [tbl]. *)
Definition fresh_articles (tbl : gmap string Database.NewsArticle.t)
  (articles : list NewsScraper.Article.t) : list NewsScraper.Article.t :=
  List.filter (fun a => negb (Database.has_key (NewsScraper.Article.id a) tbl)) articles.



(** What the jobs of the orchestrator's list return or raise, each run
    in the world its predecessors left. *)
Fixpoint outcomes {Env} (jobs : list (string * @RunAllScrapers.Job Env))
  (w : @BaseScraper.World Env) : list (Py.exn + option bool) :=
  match jobs with
  | [] => []
  | (name, job) :: rest =>
      match job (BaseScraper.log (BaseScraper.Print ("Running: " +:+ name)) w) with
      | (inr success, w) => inr success :: outcomes rest w
      | (inl e, w) =>
          inl e :: outcomes rest
            (BaseScraper.log
               (BaseScraper.Print
                  ("❌ Fatal error in " +:+ name +:+ ": " +:+ Py.str_of_exn e)) w)
      end
  end.

(** The job returned True. *)
Definition succeeded (out : Py.exn + option bool) : bool :=
  match out with inr (Some true) => true | _ => false end.

(** The natural key of a row of [diesel_prices], and the key under
    which the EIA job files a parsed price. *)
Definition diesel_key (r : Database.DieselPrice.t) : string * string :=
  (Database.DieselPrice.date r, Database.DieselPrice.region_code r).

Definition price_key (p : EIADieselScraper.Price.t) : string * string :=
  (EIADieselScraper.Price.date p,
   default "UNKNOWN" (EIADieselScraper.Price.region_code p)).

(** No row of [rows] has the key of [p]. *)
Definition unseen (rows : list Database.DieselPrice.t) (p : EIADieselScraper.Price.t)
  : bool :=
  negb (existsb (EIADieselScraper.same_region (fst (price_key p)) (snd (price_key p))) rows).

(** The shape the loops over monthly records share: a record that
    [skip] selects is passed over; the row of the record's month, if
    the query finds one, becomes [upd] of it; otherwise the row [mk]
    builds is added to the session. *)
Definition upsert_macro {A} (skip : A -> bool) (key : A -> string)
  (upd : Database.MacroMetric.t -> A -> Database.MacroMetric.t)
  (mk : A -> Database.MacroMetric.t) (s : Database.Session) (a : A) : Database.Session :=
  if skip a then s
  else
    match Database.macro_metrics (Database.view s) !! key a with
    | Some existing => Database.with_view (Database.put_macro (key a) (upd existing a)) s
    | None => Database.add_macro (mk a) s
    end.

(** [r] is [r0] but for the columns in [own], the source label and the
    confidence. *)
Definition macro_kept (own : Database.MacroField.t -> Prop)
  (r0 r : Database.MacroMetric.t) : Prop :=
  Database.MacroMetric.month r = Database.MacroMetric.month r0 /\
  forall f, ~ own f -> Database.MacroMetric.getattr r f = Database.MacroMetric.getattr r0 f.

(** A record of the Cass job for the month [m] that the store does not
    pass over and that carries a shipments index. *)
Definition cass_shipments_for (m : string) (x : CassScraper.Metric.t) : Prop :=
  CassScraper.Metric.month x = m /\
  Py.truthy_str (CassScraper.Metric._note x) = false /\
  Py.truthy_float (CassScraper.Metric.cass_shipments_index x) = true.

(** The same for the ATA job and its tonnage index. *)
Definition ata_tonnage_for (m : string) (y : ATAScraper.Metric.t) : Prop :=
  ATAScraper.Metric.month y = m /\
  Py.truthy_str (ATAScraper.Metric._note y) = false /\
  Py.truthy_float (ATAScraper.Metric.ata_tonnage_index y) = true.

(** The row [r] holds, in the column [col], the value [val] of a
    record of [all] for the month [m]. *)
Definition macro_supplied {A} (key : A -> string) (val : A -> option float)
  (col : Database.MacroField.t) (all : list A) (m : string)
  (r : Database.MacroMetric.t) : Prop :=
  exists a, In a all /\ key a = m /\ Py.truthy_float (val a) = true /\
            Database.MacroMetric.getattr r col = val a.

(** The month [m] has its row, loaded or pending, with such a value. *)
Definition macro_month_supplied {A} (key : A -> string) (val : A -> option float)
  (col : Database.MacroField.t) (all : list A) (m : string)
  (s : Database.Session) : Prop :=
  (exists r, Database.macro_metrics (Database.view s) !! m = Some r /\
             macro_supplied key val col all m r) \/
  (Database.macro_metrics (Database.view s) !! m = None /\
   exists r, In r (Database.new_macro s) /\ Database.MacroMetric.month r = m /\
             macro_supplied key val col all m r).

(** The two branches of a turn of the loop of the Cass job: the row
    it makes of the row found, and the row it adds when none is found. *)
Definition cass_update (existing : Database.MacroMetric.t)
  (metric_data : CassScraper.Metric.t) : Database.MacroMetric.t :=
  let existing :=
    if Py.truthy_float (CassScraper.Metric.cass_shipments_index metric_data)
    then Database.MacroMetric.setattr existing Database.MacroField.cass_shipments_index
           (CassScraper.Metric.cass_shipments_index metric_data)
    else existing in
  let existing :=
    if Py.truthy_float (CassScraper.Metric.cass_expenditures_index metric_data)
    then Database.MacroMetric.setattr existing Database.MacroField.cass_expenditures_index
           (CassScraper.Metric.cass_expenditures_index metric_data)
    else existing in
  Database.MacroMetric.set_confidence (Some 1%float)
    (Database.MacroMetric.set_source (Some "Cass") existing).

Definition cass_new_row (metric_data : CassScraper.Metric.t) : Database.MacroMetric.t :=
  Database.MacroMetric.setattr
    (Database.MacroMetric.setattr
       (Database.MacroMetric.new (CassScraper.Metric.month metric_data) (Some "Cass")
          (Some 1%float))
       Database.MacroField.cass_shipments_index
       (CassScraper.Metric.cass_shipments_index metric_data))
    Database.MacroField.cass_expenditures_index
    (CassScraper.Metric.cass_expenditures_index metric_data).

(** The same for the ATA job. *)
Definition ata_update (existing : Database.MacroMetric.t)
  (metric_data : ATAScraper.Metric.t) : Database.MacroMetric.t :=
  let existing :=
    if Py.truthy_float (ATAScraper.Metric.ata_tonnage_index metric_data)
    then Database.MacroMetric.setattr existing Database.MacroField.ata_tonnage_index
           (ATAScraper.Metric.ata_tonnage_index metric_data)
    else existing in
  Database.MacroMetric.set_confidence (Some 1%float)
    (Database.MacroMetric.set_source (Some "ATA") existing).

Definition ata_new_row (metric_data : ATAScraper.Metric.t) : Database.MacroMetric.t :=
  Database.MacroMetric.setattr
    (Database.MacroMetric.new (ATAScraper.Metric.month metric_data) (Some "ATA")
       (Some 1%float))
    Database.MacroField.ata_tonnage_index
    (ATAScraper.Metric.ata_tonnage_index metric_data).

(** The columns of the Cass job. *)
Definition cass_columns (f : Database.MacroField.t) : Prop :=
  f = Database.MacroField.cass_shipments_index \/
  f = Database.MacroField.cass_expenditures_index.

(** The request the FRED job sends for a series. *)
Definition fred_request (api_key : option string) (series_id : string) : Requests.Request :=
  Requests.mkRequest Requests.GET FREDScraperInput.API_BASE
    (FREDScraperInput.params api_key series_id) None 30.

(** The columns the FRED job has a value for in the month [mo]. *)
Definition fred_macro_columns (obs : list FREDScraper.MacroObs.t) (mo : string)
  (f : Database.MacroField.t) : Prop :=
  exists x, In x obs /\ FREDScraper.MacroObs.month x = mo /\ FREDScraper.MacroObs.field x = f.

(** The row holds, in the column [f], a value the FRED job supplied
    for the month and that column. *)
Definition macro_field_supplied (obs : list FREDScraper.MacroObs.t) (mo : string)
  (f : Database.MacroField.t) (r : Database.MacroMetric.t) : Prop :=
  exists x, In x obs /\ FREDScraper.MacroObs.month x = mo /\
    FREDScraper.MacroObs.field x = f /\
    Database.MacroMetric.getattr r f = Some (FREDScraper.MacroObs.value x).

(** A source label that names FRED. *)
Definition fred_label (source : option string) : Prop :=
  FREDScraper.not_from "FRED" source = false.

(** The label the FRED job leaves on a row it writes: the one the row
    had, when that names FRED, and else its own. *)
Definition fred_stamp (own : string) (source : option string) : option string :=
  if FREDScraper.not_from "FRED" source then Some own else source.

(** The requests of the EIA job: a page of the API, and the page of
    the web site. *)
Definition eia_api_request (api_key : string) (offset : Z) : Requests.Request :=
  Requests.mkRequest Requests.GET EIADieselScraper.API_BASE
    (EIADieselScraper.api_params api_key offset) None 30.

Definition eia_web_request : Requests.Request :=
  Requests.mkRequest Requests.GET EIADieselScraper.WEB_URL [] None 30.

(** The request of the USASpending job for a page of a PSC code. *)
Definition usa_request (start_date end_date psc_code : string) (page : Z)
  : Requests.Request :=
  Requests.mkRequest Requests.POST USASpendingScraper.API_BASE []
    (Some (USASpendingScraper.payload start_date end_date psc_code page)) 30.

(** The server never sends a page of more than [size] records. *)
Definition honours_size (server : Requests.Server)
  (page : Requests.Response -> option (list Requests.json)) (size : Z) : Prop :=
  forall hist req resp records,
    server hist req = Requests.Replied resp -> page resp = Some records ->
    Z.of_nat (length records) <= size.

(** The natural key of a lane, and the key a contract is filed under. *)
Definition lane_key (l : LaneTables.Lane.t) : string * string * option string :=
  (LaneTables.Lane.origin l, LaneTables.Lane.destination l,
   LaneTables.Lane.equipment_type l).

Definition contract_key (c : USASpendingScraperStore.Contract.t)
  : string * string * option string :=
  (USASpendingScraperStore.Contract.origin c, USASpendingScraperStore.Contract.destination c,
   Some (USASpendingScraperStore.Contract.equipment_type c)).

(** All the rates of a session, flushed or pending. *)
Definition all_rates (s : LaneTables.Session) : list LaneTables.Rate.t :=
  LaneTables.rates (LaneTables.view s) ++ LaneTables.new_rates s.

(** The tables hold the lane of the contract and, for the lane the
    query finds and the day of the contract, a rate of the job. *)
Definition settled (date_of : USASpendingScraperStore.Contract.t -> string)
  (c : USASpendingScraperStore.Contract.t)
  (lanes : list LaneTables.Lane.t) (rates : list LaneTables.Rate.t) : Prop :=
  exists l,
    List.find (LaneTables.same_lane (USASpendingScraperStore.Contract.origin c)
                 (USASpendingScraperStore.Contract.destination c)
                 (USASpendingScraperStore.Contract.equipment_type c)) lanes = Some l /\
    existsb (USASpendingScraperStore.same_rate (LaneTables.Lane.id l) (date_of c)) rates
      = true.

(** The key the BTS job files a lane under; whether a table has no
    lane of that key. *)
Definition bts_key (ld : BTSScraperStore.LaneData.t) : string * string * option string :=
  (BTSScraperStore.LaneData.origin ld, BTSScraperStore.LaneData.destination ld,
   Some (BTSScraperStore.LaneData.equipment_type ld)).

Definition lane_unseen (tbl : list LaneTables.Lane.t) (ld : BTSScraperStore.LaneData.t)
  : bool :=
  negb (existsb (LaneTables.same_lane (BTSScraperStore.LaneData.origin ld)
                   (BTSScraperStore.LaneData.destination ld)
                   (BTSScraperStore.LaneData.equipment_type ld)) tbl).

(** The session holds, loaded or pending, a lane of the key [k] with
    the rank [rank] and the distance [dist]. *)
Definition ranked (s : LaneTables.Session) (k : string * string * option string)
  (rank : Z) (dist : float) : Prop :=
  (exists l, In l (LaneTables.lanes (LaneTables.view s)) /\ lane_key l = k /\
             LaneTables.Lane.volume_rank l = Some rank /\
             LaneTables.Lane.distance_miles l = Some dist) \/
  (exists f, In f (LaneTables.new_lanes s) /\
             forall id, lane_key (f id) = k /\
                        LaneTables.Lane.volume_rank (f id) = Some rank /\
                        LaneTables.Lane.distance_miles (f id) = Some dist).

(** The key of a pending lane does not depend on the id it will get. *)
Definition key_fixed (f : Z -> LaneTables.Lane.t) : Prop :=
  forall id, lane_key (f id) = lane_key (f 0).

(** The national prices of a batch for days that have no row yet. *)
Definition eia_fresh (tbl : gmap string Database.DailyMetric.t)
  (prices : list EIADieselScraper.Price.t) : list EIADieselScraper.Price.t :=
  List.filter
    (fun p => String.eqb (default "UNKNOWN" (EIADieselScraper.Price.region_code p)) "NUS" &&
              negb (Database.has_key (EIADieselScraper.Price.date p) tbl))
    prices.

(** The records of a batch that the store does not pass over and
    whose month has no row yet. *)
Definition macro_fresh {A} (skip : A -> bool) (key : A -> string)
  (tbl : gmap string Database.MacroMetric.t) (l : list A) : list A :=
  List.filter (fun a => negb (skip a) && negb (Database.has_key (key a) tbl)) l.

(** The string holds no comma. *)
Fixpoint comma_free (s : string) : bool :=
  match s with
  | EmptyString => true
  | String c t => negb (Ascii.eqb c ",") && comma_free t
  end.

(** A tag that survives the way through the [tags] column: not empty,
    without a comma, without white space at its ends. *)
Definition plain_tag (t : string) : bool :=
  Py.truthy_str (Some t) && comma_free t && String.eqb (Utils.strip t) t.


(** The order of [sorted] on [str]: strictly before. *)
Definition str_lt (a b : string) : Prop := String.compare a b = Lt.





(** The error of an engine that refuses a write. *)
Definition locked : Py.exn := Py.Raise Py.OperationalError "database is locked".


(** The awards a call of the USASpending job brings: the page of the
    response it ended with, if there is one. *)
Definition awards_of (reply : Requests.Reply) : list Requests.json :=
  match reply with
  | Requests.Replied resp =>
      match usa_page resp with
      | Some awards => awards
      | None => []
      end
  | _ => []
  end.

(** The awards of the calls [reqs], made one after the other on top
    of the log [sent]. *)
Fixpoint collected (server : Requests.Server) (sent reqs : list Requests.Request)
  : list Requests.json :=
  match reqs with
  | [] => []
  | req :: rest => awards_of (server sent req) ++ collected server (sent ++ [req]) rest
  end.

(** The requests of the USASpending job for [n] pages of a PSC code,
    from [page] on. *)
Definition usa_requests (start_date end_date psc_code : string) (page : Z) (n : nat)
  : list Requests.Request :=
  map (fun i => usa_request start_date end_date psc_code (page + Z.of_nat i)) (seq 0 n).

End Vocabulary.
Import Vocabulary.

(* ================================================================== *)
(** * Sample inputs *)
(* ================================================================== *)

Module Samples.
Import Py Database.

Definition empty_db : DB := mkDB ∅ ∅ [] ∅.

Definition article1 : NewsScraper.Article.t :=
  NewsScraper.Article.mk "0cc175b9c0f1b6a831c399e269772661" "FreightWaves"
    "Capacity shortage hits Midwest" "https://www.freightwaves.com/news/capacity-shortage"
    1733097600 "Carriers report tight capacity." None "capacity" 3 None false.

(** [article1] as stored, then annotated by a user. *)
Definition annotated1 : NewsArticle.t :=
  NewsArticle.mk "0cc175b9c0f1b6a831c399e269772661" "FreightWaves"
    "Capacity shortage hits Midwest" "https://www.freightwaves.com/news/capacity-shortage"
    1733097600 (Some "Carriers report tight capacity.") None
    (Some "rates,watch") (Some 5) (Some "call the carrier") (Some true).

Definition annotated_db : DB :=
  mkDB {[ "0cc175b9c0f1b6a831c399e269772661" := annotated1 ]} ∅ [] ∅.

(** An observation of the daily FRED series for crude oil. *)
Definition oil_obs : FREDScraper.DailyObs.t :=
  FREDScraper.DailyObs.mk "2024-12-02" DailyField.oil_price 68.125%float "FRED-DCOILWTICO".

(** The engine fails the first flush of a session. *)
Definition first_flush_fails : Faults := fun n => Nat.eqb n 0.

(** A server that answers every request with 404. *)
Definition not_found : Requests.Server :=
  fun _ _ => Requests.Replied (Requests.mkResponse 404 "Not Found" None).

(** A server that never answers in time. *)
Definition silent : Requests.Server := fun _ _ => Requests.NoReplyInTime.

(** A scraper whose fetch never succeeds, with [max_retries] attempts. *)
Definition unreachable (max_retries : Z) : @BaseScraper.Scraper unit :=
  BaseScraper.mkScraper unit unit "cass_scraper" max_retries 5
    (fun env => (inl (Raise ConnectionError "connection failed"), env))
    (fun raw env => (inr raw, env))
    (fun parsed db => (Returned, db))
    (fun _ => 0).

Definition fresh_world : @BaseScraper.World unit :=
  BaseScraper.mkWorld tt empty_db [] [].

(** An EIA server with an endless supply: every page is full. *)
Definition eia_endless : Requests.Server :=
  fun _ _ =>
    Requests.Replied
      (Requests.mkResponse 200 ""
         (Some (Requests.JDict
                  [ ("response",
                     Requests.JDict
                       [ ("total", Requests.JInt 250000);
                         ("data", Requests.JList (repeat (Requests.JDict []) 5000)) ]) ]))).

(** A USASpending server with an endless supply. *)
Definition usa_endless : Requests.Server :=
  fun _ _ =>
    Requests.Replied
      (Requests.mkResponse 200 ""
         (Some (Requests.JDict
                  [ ("results", Requests.JList (repeat (Requests.JDict []) 100)) ]))).

(** The national diesel price of a week, as the EIA API gives it. *)
Definition nus_price : EIADieselScraper.Price.t :=
  EIADieselScraper.Price.mk "2024-12-02" 3.5%float (Some "NUS") (Some "U.S.")
    (Some "U.S. No 2 Diesel Retail Prices").

(** The row of that day as the FRED job created it, and a table with it. *)
Definition fred_row : DailyMetric.t :=
  DailyMetric.mk "2024-12-02" None None None None None (Some 68.125%float)
    (Some "FRED-DCOILWTICO") (Some 1%float).

Definition fred_db : DB := mkDB ∅ {[ "2024-12-02" := fred_row ]} [] ∅.

(** A price as the HTML fallback of the EIA job parses it: no region. *)
Definition html_price : EIADieselScraper.Price.t :=
  EIADieselScraper.Price.mk "2024-12-02" 3.5%float None None None.

(** The price of a region other than the nation. *)
Definition east_coast_price : EIADieselScraper.Price.t :=
  EIADieselScraper.Price.mk "2024-12-02" 3.625%float (Some "R10") (Some "PADD 1")
    (Some "East Coast No 2 Diesel Retail Prices").

(** The indices of December 2024 as the Cass and the ATA job parse them. *)
Definition cass_dec : CassScraper.Metric.t :=
  CassScraper.Metric.mk "2024-12" (Some 1.125%float) (Some 3.25%float) None.

Definition ata_dec : ATAScraper.Metric.t :=
  ATAScraper.Metric.mk "2024-12" (Some 113.5%float) None.

(** A month the FRED job has filled, and a table with it. *)
Definition fred_month : MacroMetric.t :=
  MacroMetric.mk "2024-12" None None None None (Some 99.5%float) None None None None
    (Some "FRED-IPMAN") (Some 1%float).

Definition macro_db : DB := mkDB ∅ ∅ [] {[ "2024-12" := fred_month ]}.

(** An observation of the monthly FRED series for industrial
    production. *)
Definition ipman_obs : FREDScraper.MacroObs.t :=
  FREDScraper.MacroObs.mk "2024-12" MacroField.industrial_production 101.5%float
    "FRED-IPMAN".

(** What [fetch] returns for the crude oil series, with one value and
    one gap, and stand-ins for the two conversions of [parse]. *)
Definition oil_raw
  : list (string * (FREDScraperInput.Config * list FREDScraperInput.Observation.t)) :=
  [ ("DCOILWTICO",
     (FREDScraperInput.mkConfig "Crude Oil WTI" (FREDScraperInput.Daily DailyField.oil_price),
      [ FREDScraperInput.Observation.mk (Some "2024-12-02") (Some "68.125");
        FREDScraperInput.Observation.mk (Some "2024-12-03") (Some ".") ])) ].

Definition read_float : string -> option float :=
  fun s => if String.eqb s "68.125" then Some 68.125%float else None.

Definition read_month : string -> option string :=
  fun d => Some (substring 0 7 d).

(** The row of a day as the EIA job created it, and a table with it. *)
Definition eia_row : DailyMetric.t :=
  DailyMetric.mk "2024-12-02" None None None (Some 3.5%float) None None
    (Some "EIA") (Some 1%float).

Definition eia_db : DB := mkDB ∅ {[ "2024-12-02" := eia_row ]} [] ∅.

(** Servers with one record to give: every page holds it. *)
Definition eia_one_record : Requests.Server :=
  fun _ _ =>
    Requests.Replied
      (Requests.mkResponse 200 ""
         (Some (Requests.JDict
                  [ ("response",
                     Requests.JDict
                       [ ("total", Requests.JInt 1);
                         ("data", Requests.JList [ Requests.JDict [] ]) ]) ]))).

Definition usa_one_award : Requests.Server :=
  fun _ _ =>
    Requests.Replied
      (Requests.mkResponse 200 ""
         (Some (Requests.JDict [ ("results", Requests.JList [ Requests.JDict [] ]) ]))).

(** A contract as the USASpending job parses it, and empty lane
    tables. *)
Definition contract1 : USASpendingScraperStore.Contract.t :=
  USASpendingScraperStore.Contract.mk "W912DY24C0001" "TX" "CA" "reefer" 125000%float
    (Some "2024-11-18") "refrigerated transport of perishables".

Definition no_lanes : LaneTables.Tables := LaneTables.mkTables [] [].

(** A lane as the BTS job parses it. *)
Definition lane1 : BTSScraperStore.LaneData.t :=
  BTSScraperStore.LaneData.mk "Texas" "California" 1250.5%float 3.25%float 500%float "van".





(** The observation of the next day, and an engine that fails the
    second flush of a session. *)
Definition oil_obs_next : FREDScraper.DailyObs.t :=
  FREDScraper.DailyObs.mk "2024-12-03" DailyField.oil_price 69.5%float "FRED-DCOILWTICO".

Definition second_flush_fails : Faults := fun n => Nat.eqb n 1.


(** The national record of another product for the same week: the
    query of the EIA job names no product, so the API answers with
    the gasoline grades too. *)
Definition nus_gasoline_price : EIADieselScraper.Price.t :=
  EIADieselScraper.Price.mk "2024-12-02" 3.125%float (Some "NUS") (Some "U.S.")
    (Some "U.S. Regular All Formulations Retail Gasoline Prices").


(** A USASpending server with one award for each PSC code: the award
    names the code of the request, read from the history. *)
Definition usa_award_per_code : Requests.Server :=
  fun hist _ =>
    Requests.Replied
      (Requests.mkResponse 200 ""
         (Some (Requests.JDict
                  [ ("results",
                     Requests.JList
                       [ Requests.JDict
                           [ (match hist with [] => "V1" | _ => "V2" end,
                              Requests.JInt 1) ] ]) ]))).

End Samples.

(* ================================================================== *)
(** * Theory *)
(* ================================================================== *)

Section StringFacts.
Import Py.

Lemma starts_with_spec p s :
  starts_with p s = true <-> exists post, s = p +:+ post.
Proof.
  revert s. induction p as [|a p IH]; intros s; simpl.
  - split; [intros _; exists s; reflexivity | reflexivity].
  - destruct s as [|b s].
    + split; [discriminate | intros [post H]; discriminate].
    + rewrite andb_true_iff, IH. split.
      * intros [Hab [post ->]]. apply Ascii.eqb_eq in Hab. subst b.
        exists post. reflexivity.
      * intros [post H]. injection H as -> ->. split.
        -- apply Ascii.eqb_refl.
        -- exists post. reflexivity.
Qed.

Lemma contains_spec needle hay :
  contains needle hay = true <-> occurs_in needle hay.
Proof.
  unfold occurs_in. induction hay as [|c t IH].
  - simpl. rewrite orb_false_r, starts_with_spec. split.
    + intros [post H]. exists "", post. exact H.
    + intros [pre [post H]]. destruct pre; simpl in H.
      * exists post. exact H.
      * discriminate.
  - cbn [contains]. rewrite orb_true_iff, starts_with_spec, IH. split.
    + intros [[post H] | [pre [post H]]].
      * exists "", post. exact H.
      * exists (String c pre), post. simpl. rewrite H. reflexivity.
    + intros [pre [post H]]. destruct pre as [|c' pre]; simpl in H.
      * left. exists post. exact H.
      * right. injection H as _ ->. exists pre, post. reflexivity.
Qed.

Lemma lower_app s t : lower (s +:+ t) = lower s +:+ lower t.
Proof. induction s as [|c s IH]; simpl; [reflexivity | rewrite IH; reflexivity]. Qed.

Lemma occurs_in_lower needle hay :
  lower needle = needle -> occurs_in needle hay -> occurs_in needle (lower hay).
Proof.
  intros Hn [pre [post ->]]. exists (lower pre), (lower post).
  rewrite !lower_app, Hn. reflexivity.
Qed.

Lemma append_cons (d : ascii) (x y : string) : String d x +:+ y = String d (x +:+ y).
Proof. reflexivity. Qed.

Lemma append_assoc_str (x y z : string) : (x +:+ y) +:+ z = x +:+ (y +:+ z).
Proof.
  induction x as [|d x IH]; [reflexivity |].
  rewrite !append_cons, IH. reflexivity.
Qed.

Lemma occurs_in_app_l needle hay rest :
  occurs_in needle hay -> occurs_in needle (hay +:+ rest).
Proof.
  intros [pre [post ->]]. exists pre, (post +:+ rest).
  rewrite !append_assoc_str. reflexivity.
Qed.

Lemma occurs_in_trans a b c : occurs_in a b -> occurs_in b c -> occurs_in a c.
Proof.
  intros [p1 [q1 ->]] [p2 [q2 ->]]. exists (p2 +:+ p1), (q1 +:+ q2).
  rewrite !append_assoc_str. reflexivity.
Qed.

Lemma mem_spec x xs : mem x xs = true <-> In x xs.
Proof.
  unfold mem. rewrite existsb_exists. split.
  - intros [y [Hy Heq]]. apply String.eqb_eq in Heq. subst y. exact Hy.
  - intros H. exists x. split; [exact H | apply String.eqb_refl].
Qed.

End StringFacts.

(* ------------------------------------------------------------------ *)
(** ** The keyword tagger and the importance scorer *)
(* ------------------------------------------------------------------ *)

Section Rating.
Import Py NewsScraperConfig NewsScraper.

Lemma any_spec {A} (p : A -> bool) (xs : list A) :
  any p xs = true <-> exists x, In x xs /\ p x = true.
Proof. unfold any. apply existsb_exists. Qed.

Lemma any_contains_spec (kws : list string) (text : string) :
  any (fun k => contains k text) kws = true <->
  exists k, In k kws /\ occurs_in k text.
Proof.
  rewrite any_spec. split; intros [k [Hin Hk]]; exists k; split; auto;
    apply contains_spec; exact Hk.
Qed.

Lemma any_priority_spec (tags : list string) :
  any (fun tag => mem tag tags) priority_tags = true <->
  exists t, In t priority_tags /\ In t tags.
Proof.
  rewrite any_spec. split; intros [t [Hin Ht]]; exists t; split; auto;
    apply mem_spec; exact Ht.
Qed.

Lemma auto_tag_spec title summary full tag :
  In tag (_auto_tag title summary full) <->
  exists kws k, In (tag, kws) TAG_KEYWORDS /\ In k kws /\
                occurs_in k (tag_text title summary full).
Proof.
  unfold _auto_tag. fold (tag_text title summary full).
  rewrite in_map_iff. split.
  - intros [[t kws] [Heq Hin]]. simpl in Heq. subst t.
    apply filter_In in Hin. destruct Hin as [Hin Hany].
    apply any_contains_spec in Hany. destruct Hany as [k [Hk Hocc]].
    exists kws, k. auto.
  - intros [kws [k [Hin [Hk Hocc]]]]. exists (tag, kws). split; [reflexivity |].
    apply filter_In. split; [exact Hin |].
    apply any_contains_spec. exists k. auto.
Qed.

Lemma title_in_tag_text k title summary full :
  occurs_in k (lower title) -> occurs_in k (tag_text title summary full).
Proof.
  intros H. unfold tag_text. rewrite lower_app. apply occurs_in_app_l. exact H.
Qed.

Lemma score_closed_form title summary tags :
  _auto_rate_importance title summary tags =
  Z.min (1 + Z.b2z (any (fun tag => mem tag tags) priority_tags)
           + Z.b2z (any (fun k => contains k (lower title)) IMPORTANT_KEYWORDS)
           + Z.b2z (3 <=? Z.of_nat (length tags))) 5.
Proof.
  unfold _auto_rate_importance.
  destruct (any (fun tag => mem tag tags) priority_tags);
    destruct (any (fun k => contains k (lower title)) IMPORTANT_KEYWORDS);
    destruct (3 <=? Z.of_nat (length tags)); reflexivity.
Qed.

(** C10: the automatic score is always between 1 and 4: three bonuses
    of one point on a start of 1, so the cap of 5 never binds and no
    automatically rated article gets importance 5. *)
Theorem auto_rate_importance_range (title : string) (summary : option string)
  (tags : list string) :
  1 <= _auto_rate_importance title summary tags <= 4 /\
  _auto_rate_importance title summary tags <> 5 /\
  _auto_rate_importance title summary tags =
    1 + Z.b2z (any (fun tag => mem tag tags) priority_tags)
      + Z.b2z (any (fun k => contains k (lower title)) IMPORTANT_KEYWORDS)
      + Z.b2z (3 <=? Z.of_nat (length tags)).
Proof.
  rewrite score_closed_form.
  destruct (any (fun tag => mem tag tags) priority_tags);
    destruct (any (fun k => contains k (lower title)) IMPORTANT_KEYWORDS);
    destruct (3 <=? Z.of_nat (length tags)); cbn; lia.
Qed.

Lemma capacity_in_capacity_shortage : occurs_in "capacity" "capacity shortage".
Proof. exists "", " shortage". reflexivity. Qed.

Lemma shortage_in_capacity_shortage : occurs_in "shortage" "capacity shortage".
Proof. exists "capacity ", "". reflexivity. Qed.

(** C9: the scorer starts at 1, adds 1 when a high-priority tag is among
    the tags, 1 when the lowercased title contains an important keyword,
    1 when three or more tags were assigned, and caps at 5; the tagger
    activates a tag exactly when one of its keywords occurs in the
    lowercased text; and a title containing "capacity shortage" (in any
    letter case) gets the tag capacity and a score at least one above
    that of an entry with no tag and no important keyword. *)
Theorem auto_rate_importance_spec :
  (forall title summary tags,
     exists b1 b2 b3 : bool,
       (b1 = true <-> exists t, In t ["capacity"; "rates"; "bankruptcy"; "merger"] /\ In t tags) /\
       (b2 = true <-> exists k, In k IMPORTANT_KEYWORDS /\ occurs_in k (lower title)) /\
       (b3 = true <-> (3 <= length tags)%nat) /\
       _auto_rate_importance title summary tags =
         Z.min (1 + Z.b2z b1 + Z.b2z b2 + Z.b2z b3) 5) /\
  (forall title summary full tag,
     In tag (_auto_tag title summary full) <->
     exists kws k, In (tag, kws) TAG_KEYWORDS /\ In k kws /\
                   occurs_in k (tag_text title summary full)) /\
  (forall title summary full,
     occurs_in "capacity shortage" title \/ occurs_in "capacity shortage" (lower title) ->
     In "capacity" (_auto_tag title summary full) /\
     forall title0 summary0 full0,
       _auto_tag title0 summary0 full0 = [] ->
       (forall k, In k IMPORTANT_KEYWORDS -> ~ occurs_in k (lower title0)) ->
       _auto_rate_importance title0 summary0 (_auto_tag title0 summary0 full0) = 1 /\
       _auto_rate_importance title0 summary0 (_auto_tag title0 summary0 full0) + 1
         <= _auto_rate_importance title summary (_auto_tag title summary full)).
Proof.
  split; [| split].
  - intros title summary tags.
    exists (any (fun tag => mem tag tags) priority_tags),
           (any (fun k => contains k (lower title)) IMPORTANT_KEYWORDS),
           (3 <=? Z.of_nat (length tags)).
    split; [apply any_priority_spec |].
    split; [apply any_contains_spec |].
    split; [rewrite Z.leb_le; lia |].
    apply score_closed_form.
  - intros. apply auto_tag_spec.
  - intros title summary full Hocc.
    assert (Hlow : occurs_in "capacity shortage" (lower title)).
    { destruct Hocc as [H | H]; [| exact H].
      apply occurs_in_lower; [reflexivity | exact H]. }
    assert (Htag : In "capacity" (_auto_tag title summary full)).
    { apply auto_tag_spec.
      exists ["capacity"; "tight"; "shortage"; "availability"; "surplus"], "capacity".
      split; [left; reflexivity |]. split; [left; reflexivity |].
      apply title_in_tag_text.
      exact (occurs_in_trans _ _ _ capacity_in_capacity_shortage Hlow). }
    split; [exact Htag |].
    intros title0 summary0 full0 Hnone Hkw.
    rewrite Hnone.
    assert (H0 : _auto_rate_importance title0 summary0 [] = 1).
    { rewrite score_closed_form.
      destruct (any (fun k => contains k (lower title0)) IMPORTANT_KEYWORDS) eqn:E.
      - apply any_contains_spec in E. destruct E as [k [Hin Hk]].
        exfalso. exact (Hkw k Hin Hk).
      - reflexivity. }
    split; [exact H0 |]. rewrite H0.
    rewrite score_closed_form.
    assert (E1 : any (fun tag => mem tag (_auto_tag title summary full)) priority_tags = true).
    { apply any_priority_spec. exists "capacity". split; [left; reflexivity | exact Htag]. }
    assert (E2 : any (fun k => contains k (lower title)) IMPORTANT_KEYWORDS = true).
    { apply any_contains_spec. exists "shortage". split.
      - right. right. right. left. reflexivity.
      - exact (occurs_in_trans _ _ _ shortage_in_capacity_shortage Hlow). }
    rewrite E1, E2.
    destruct (3 <=? Z.of_nat (length (_auto_tag title summary full))); cbn; lia.
Qed.

(** The scenario of the specification on a concrete feed entry. *)
Lemma auto_rate_importance_spec_witness :
  In "capacity" (_auto_tag "Capacity Shortage hits Midwest" (Some "") None) /\
  _auto_rate_importance "Quarterly notes" (Some "") (_auto_tag "Quarterly notes" (Some "") None) + 1
    <= _auto_rate_importance "Capacity Shortage hits Midwest" (Some "")
         (_auto_tag "Capacity Shortage hits Midwest" (Some "") None).
Proof.
  destruct auto_rate_importance_spec as [_ [_ H]].
  destruct (H "Capacity Shortage hits Midwest" (Some "") None) as [Htag Hscore].
  - right. exists "", " hits midwest". reflexivity.
  - split; [exact Htag |].
    apply (Hscore "Quarterly notes" (Some "") None).
    + reflexivity.
    + intros k Hin Hocc. apply contains_spec in Hocc.
      repeat (destruct Hin as [<- | Hin]; [discriminate Hocc |]). exact Hin.
Defined.

End Rating.

(* ------------------------------------------------------------------ *)
(** ** Sessions, flushes and transactions *)
(* ------------------------------------------------------------------ *)

Section SessionFacts.
Import Py Database.

Lemma transaction_raised flt body db e db' :
  transaction flt body db = (Raised e, db') -> db' = db.
Proof.
  unfold transaction. destruct (body (SessionLocal db)) as [e1 | s].
  - intros H. injection H as _ <-. reflexivity.
  - destruct (flush flt s) as [e2 | s'].
    + intros H. injection H as _ <-. reflexivity.
    + discriminate.
Qed.

Lemma transaction_returned flt body db db' :
  transaction flt body db = (Returned, db') ->
  exists s s', body (SessionLocal db) = inr s /\ flush flt s = inr s' /\ db' = view s'.
Proof.
  unfold transaction. destruct (body (SessionLocal db)) as [e1 | s]; [discriminate |].
  destruct (flush flt s) as [e2 | s'] eqn:E; [discriminate |].
  intros H. injection H as <-. exists s, s'. auto.
Qed.

Lemma transaction_state flt body db :
  snd (transaction flt body db) = db \/
  exists s s', body (SessionLocal db) = inr s /\ flush flt s = inr s' /\
               transaction flt body db = (Returned, view s').
Proof.
  unfold transaction. destruct (body (SessionLocal db)) as [e1 | s]; [left; reflexivity |].
  destruct (flush flt s) as [e2 | s'] eqn:E; [left; reflexivity |].
  right. exists s, s'. auto.
Qed.

Lemma has_key_false {R} k (tbl : gmap string R) : has_key k tbl = false -> tbl !! k = None.
Proof. unfold has_key. destruct (tbl !! k); [discriminate | reflexivity]. Qed.

Lemma news_guards : guards_key news_violation NewsArticle.id.
Proof.
  intros r tbl. unfold news_violation.
  destruct (has_key (NewsArticle.id r) tbl) eqn:E; [discriminate |].
  intros _. apply has_key_false. exact E.
Qed.

Lemma daily_guards : guards_key daily_violation DailyMetric.date.
Proof.
  intros r tbl. unfold daily_violation.
  destruct (has_key (DailyMetric.date r) tbl) eqn:E; [discriminate |].
  intros _. apply has_key_false. exact E.
Qed.

Lemma macro_guards : guards_key macro_violation MacroMetric.month.
Proof.
  intros r tbl. unfold macro_violation.
  destruct (has_key (MacroMetric.month r) tbl) eqn:E; [discriminate |].
  intros _. apply has_key_false. exact E.
Qed.

Lemma pending_for_none {R} (key : R -> string) k (rows : list R) :
  pending_for key k rows = None <-> (forall r, In r rows -> key r <> k).
Proof.
  unfold pending_for. induction rows as [|r rest IH]; simpl.
  - split; [intros _ r [] | reflexivity].
  - destruct (String.eqb (key r) k) eqn:E.
    + apply String.eqb_eq in E. split; [discriminate |].
      intros H. exfalso. apply (H r); auto.
    + apply String.eqb_neq in E. rewrite IH. split.
      * intros H r' [<- | Hin]; auto.
      * intros H r' Hin. apply H. auto.
Qed.

Lemma pending_for_some {R} (key : R -> string) k (rows : list R) r :
  pending_for key k rows = Some r -> In r rows /\ key r = k.
Proof.
  unfold pending_for. intros H. apply find_some in H. destruct H as [Hin Heq].
  apply String.eqb_eq in Heq. auto.
Qed.

(** What a flush that succeeds has inserted: the pending rows had
    fresh, pairwise different keys, and the table gained exactly them. *)
Lemma insert_rows_spec {R} (violation : R -> gmap string R -> option exn)
  (key : R -> string) (Hg : guards_key violation key) rows :
  forall tbl tbl',
  insert_rows violation key rows tbl = inr tbl' ->
  NoDup (map key rows) /\
  (forall r, In r rows -> tbl !! key r = None) /\
  (forall k, tbl' !! k = match pending_for key k rows with
                         | Some r => Some r
                         | None => tbl !! k
                         end).
Proof.
  induction rows as [|r rest IH]; intros tbl tbl'; simpl.
  - intros H. injection H as <-. split; [constructor |]. split; [intros r [] | reflexivity].
  - destruct (violation r tbl) as [e|] eqn:Ev; [discriminate |].
    intros H. apply Hg in Ev.
    destruct (IH _ _ H) as [Hnd [Hfresh Hlook]].
    assert (Hne : forall r', In r' rest -> key r' <> key r).
    { intros r' Hin Heq. specialize (Hfresh r' Hin).
      rewrite Heq, lookup_insert_eq in Hfresh. discriminate. }
    split; [| split].
    + constructor; [| exact Hnd].
      rewrite list_elem_of_In, in_map_iff. intros [r' [Heq Hin]]. exact (Hne r' Hin Heq).
    + intros r' [<- | Hin]; [exact Ev |].
      specialize (Hfresh r' Hin). rewrite lookup_insert_ne in Hfresh; [exact Hfresh |].
      intros Heq. exact (Hne r' Hin (eq_sym Heq)).
    + intros k. rewrite Hlook. unfold pending_for. simpl.
      destruct (String.eqb (key r) k) eqn:E.
      * apply String.eqb_eq in E. subst k.
        replace (List.find (fun r0 => String.eqb (key r0) (key r)) rest) with (@None R).
        -- apply lookup_insert_eq.
        -- symmetry. apply (pending_for_none key (key r) rest). exact Hne.
      * apply String.eqb_neq in E.
        destruct (List.find (fun r0 => String.eqb (key r0) k) rest); [reflexivity |].
        apply lookup_insert_ne. exact E.
Qed.

Lemma insert_rows_keeps {R} (violation : R -> gmap string R -> option exn)
  (key : R -> string) (Hg : guards_key violation key) rows tbl tbl' k r :
  insert_rows violation key rows tbl = inr tbl' ->
  tbl !! k = Some r -> tbl' !! k = Some r.
Proof.
  intros H Hk. destruct (insert_rows_spec violation key Hg rows tbl tbl' H) as [_ [Hfresh Hlook]].
  rewrite Hlook. destruct (pending_for key k rows) as [r'|] eqn:E; [| exact Hk].
  apply pending_for_some in E. destruct E as [Hin <-].
  rewrite (Hfresh r' Hin) in Hk. discriminate.
Qed.

Lemma insert_rows_nil {R} (violation : R -> gmap string R -> option exn)
  (key : R -> string) tbl : insert_rows violation key [] tbl = inr tbl.
Proof. reflexivity. Qed.

(** The parts of a flush that succeeds. *)
Lemma flush_returned flt s s' :
  flush flt s = inr s' ->
  flt (flushes s) = false /\
  exists news daily macro,
    insert_news (new_news s) (news_articles (view s)) = inr news /\
    insert_daily (new_daily s) (daily_metrics (view s)) = inr daily /\
    insert_macro (new_macro s) (macro_metrics (view s)) = inr macro /\
    s' = mkSession (mkDB news daily (diesel_prices (view s) ++ new_diesel s) macro)
                   [] [] [] [] (S (flushes s)).
Proof.
  unfold flush. destruct (flt (flushes s)); [discriminate |].
  destruct (insert_news _ _) as [e | news]; [discriminate |].
  destruct (insert_daily _ _) as [e | daily]; [discriminate |].
  destruct (insert_macro _ _) as [e | macro]; [discriminate |].
  intros H. injection H as <-. split; [reflexivity |].
  exists news, daily, macro. auto.
Qed.

End SessionFacts.

(* ------------------------------------------------------------------ *)
(** ** News: re-ingestion and the user's annotations *)
(* ------------------------------------------------------------------ *)

Section NewsAnnotations.
Import Py Database NewsScraper.

Lemma eq_int_true o n : eq_int o n = true <-> o = Some n.
Proof.
  unfold eq_int. destruct o as [z|]; [| split; discriminate].
  rewrite Z.eqb_eq. split; [intros ->; reflexivity | intros H; injection H; auto].
Qed.

Lemma truthy_str_false o : truthy_str o = false <-> o = None \/ o = Some "".
Proof.
  destruct o as [[|c t]|]; simpl; split; auto; try discriminate.
  intros [H | H]; discriminate.
Qed.

Lemma annotations_kept_refl r : annotations_kept r r.
Proof. repeat split; auto. Qed.

Lemma annotations_kept_trans r1 r2 r3 :
  annotations_kept r1 r2 -> annotations_kept r2 r3 -> annotations_kept r1 r3.
Proof.
  intros [Hn1 [Hi1 Ht1]] [Hn2 [Hi2 Ht2]]. split; [congruence |]. split.
  - intros H. rewrite <- (Hi1 H). apply Hi2. rewrite (Hi1 H). exact H.
  - intros H H'. rewrite <- (Ht1 H H'). apply Ht2; rewrite (Ht1 H H'); assumption.
Qed.

Lemma update_existing_kept existing article_data :
  annotations_kept existing (update_existing existing article_data).
Proof.
  unfold update_existing, annotations_kept.
  destruct existing as [i so ti u p su fc tg im no rd]. cbn.
  destruct (truthy_str tg) eqn:Et; cbn; destruct (eq_int im 1) eqn:Ei; cbn;
    (split; [reflexivity |]); split; intros; try reflexivity.
  all: try (apply eq_int_true in Ei; congruence).
  all: try (apply truthy_str_false in Et; destruct Et; congruence).
Qed.

Lemma store_article_kept s article_data k r :
  news_articles (view s) !! k = Some r ->
  exists r', news_articles (view (store_article s article_data)) !! k = Some r' /\
             annotations_kept r r'.
Proof.
  intros Hk. unfold store_article.
  destruct (news_articles (view s) !! Article.id article_data) as [existing|] eqn:E.
  - cbn. destruct (decide (Article.id article_data = k)) as [<- | Hne].
    + rewrite lookup_insert_eq. eexists. split; [reflexivity |].
      rewrite E in Hk. injection Hk as <-. apply update_existing_kept.
    + rewrite lookup_insert_ne by exact Hne. exists r. split; [exact Hk |].
      apply annotations_kept_refl.
  - cbn. exists r. split; [exact Hk | apply annotations_kept_refl].
Qed.

Lemma store_articles_kept articles : forall s k r,
  news_articles (view s) !! k = Some r ->
  exists r', news_articles (view (fold_left store_article articles s)) !! k = Some r' /\
             annotations_kept r r'.
Proof.
  induction articles as [|a rest IH]; intros s k r Hk; simpl.
  - exists r. split; [exact Hk | apply annotations_kept_refl].
  - destruct (store_article_kept s a k r Hk) as [r1 [H1 K1]].
    destruct (IH _ k r1 H1) as [r2 [H2 K2]].
    exists r2. split; [exact H2 |]. exact (annotations_kept_trans _ _ _ K1 K2).
Qed.

(** C2: re-ingestion through [NewsScraper.store] keeps, on every
    article already stored, the notes, an importance other than the
    default 1 and tags that are not empty, whether the store commits
    or raises; so these fields are written only when the row is
    created or while they are at their default. *)
Theorem store_keeps_annotations (flt : Faults) (articles : list Article.t) (db : DB)
  (k : string) (r : NewsArticle.t) :
  news_articles db !! k = Some r ->
  exists r', news_articles (snd (store flt articles db)) !! k = Some r' /\
    NewsArticle.notes r' = NewsArticle.notes r /\
    (NewsArticle.importance r <> Some 1 ->
     NewsArticle.importance r' = NewsArticle.importance r) /\
    (NewsArticle.tags r <> None -> NewsArticle.tags r <> Some "" ->
     NewsArticle.tags r' = NewsArticle.tags r).
Proof.
  intros Hk. unfold store.
  destruct (transaction_state flt
              (fun s => inr (fold_left store_article articles s)) db)
    as [Hsame | [s [s' [Hbody [Hflush Hret]]]]].
  - rewrite Hsame. exists r. split; [exact Hk |]. apply annotations_kept_refl.
  - rewrite Hret. cbn [snd]. injection Hbody as <-.
    destruct (store_articles_kept articles (SessionLocal db) k r Hk) as [r' [H' K']].
    exists r'. split; [| exact K'].
    apply flush_returned in Hflush.
    destruct Hflush as [_ [news [daily [macro [Hn [_ [_ ->]]]]]]]. cbn.
    exact (insert_rows_keeps _ _ news_guards _ _ _ _ _ Hn H').
Qed.

(** A user's rating, tags and notes survive the re-ingestion of the
    article. *)
Lemma store_keeps_annotations_witness :
  exists r',
    news_articles (snd (store no_faults [Samples.article1] Samples.annotated_db))
      !! "0cc175b9c0f1b6a831c399e269772661" = Some r' /\
    NewsArticle.notes r' = Some "call the carrier" /\
    NewsArticle.importance r' = Some 5 /\
    NewsArticle.tags r' = Some "rates,watch".
Proof.
  destruct (store_keeps_annotations no_faults [Samples.article1] Samples.annotated_db
              "0cc175b9c0f1b6a831c399e269772661" Samples.annotated1)
    as [r' [H1 [H2 [H3 H4]]]].
  - vm_compute. reflexivity.
  - exists r'. split; [exact H1 |]. split; [exact H2 |]. split.
    + apply H3. discriminate.
    + apply H4; discriminate.
Defined.

End NewsAnnotations.

(* ------------------------------------------------------------------ *)
(** ** News: a feed that lists an article twice *)
(* ------------------------------------------------------------------ *)

Section NewsRepeated.
Import Py Database NewsScraper.

Lemma url_taken_empty u : url_taken u ∅ = false.
Proof. unfold url_taken. rewrite map_to_list_empty. reflexivity. Qed.

(** Both copies are added, since the query of the second turn does not
    see the pending first one; the commit then meets the primary key. *)
Lemma repeated_article_raises (a : Article.t) :
  store no_faults [a; a] Samples.empty_db =
  (Raised (Raise IntegrityError "UNIQUE constraint failed: news_articles.id"),
   Samples.empty_db).
Proof.
  assert (H1 : store_article (SessionLocal Samples.empty_db) a =
               add_news (new_article a) (SessionLocal Samples.empty_db)).
  { unfold store_article. cbn. rewrite lookup_empty. reflexivity. }
  assert (H2 : store_article (add_news (new_article a) (SessionLocal Samples.empty_db)) a =
               add_news (new_article a)
                 (add_news (new_article a) (SessionLocal Samples.empty_db))).
  { unfold store_article. cbn. rewrite lookup_empty. reflexivity. }
  unfold store, transaction. cbn [fold_left]. rewrite H1, H2.
  unfold flush, no_faults. cbn.
  unfold insert_news. cbn [insert_rows].
  unfold news_violation at 1. unfold has_key at 1. rewrite lookup_empty.
  rewrite url_taken_empty.
  unfold news_violation. unfold has_key. rewrite lookup_insert_eq. reflexivity.
Qed.

(** C1, on a feed that lists the same entry twice and a table that
    does not hold it yet: [parse] gives the two articles the same id,
    [store] adds both, the commit raises, the rollback leaves the table
    empty; so there is no row for the entry, where one is expected. *)
Theorem store_rejects_repeated_entry
  (md5_hexdigest : string -> string) (_parse_date : Entry.t -> Z)
  (_extract_summary : Entry.t -> string)
  (_extract_full_article : string -> option string)
  (NEWSPAPER_AVAILABLE : bool) (entry : Entry.t) :
  let articles :=
    parse md5_hexdigest _parse_date _extract_summary _extract_full_article
          NEWSPAPER_AVAILABLE [entry; entry] in
  let key := md5_hexdigest (or_empty (Entry.link entry) +:+ or_empty (Entry.title entry)) in
  map Article.id articles = [key; key] /\
  fst (store no_faults articles Samples.empty_db) =
    Raised (Raise IntegrityError "UNIQUE constraint failed: news_articles.id") /\
  news_articles (snd (store no_faults articles Samples.empty_db)) !! key = None.
Proof.
  cbn zeta. unfold parse. cbn [map]. split; [reflexivity |].
  rewrite repeated_article_raises. split; [reflexivity |].
  cbn. apply lookup_empty.
Qed.

End NewsRepeated.

(* ------------------------------------------------------------------ *)
(** ** A store step that fails leaves the tables as they were *)
(* ------------------------------------------------------------------ *)

Section Rollback.
Import Py Database BaseScraper.

Lemma insert_rows_error {R} (violation : R -> gmap string R -> option exn)
  (key : R -> string) rows : forall tbl e,
  insert_rows violation key rows tbl = inl e ->
  exists r t, violation r t = Some e.
Proof.
  induction rows as [|r rest IH]; intros tbl e; simpl; [discriminate |].
  destruct (violation r tbl) as [e'|] eqn:Ev.
  - intros H. injection H as <-. exists r, tbl. exact Ev.
  - apply IH.
Qed.

Lemma flush_error flt s e : flush flt s = inl e -> storage_error e.
Proof.
  unfold flush. destruct (flt (flushes s)).
  { intros H. injection H as <-. right. reflexivity. }
  destruct (insert_news _ _) as [e1 | news] eqn:En.
  { intros H. injection H as <-. apply insert_rows_error in En.
    destruct En as [r [t Hv]]. unfold news_violation in Hv.
    destruct (has_key _ _); [injection Hv as <-; left; reflexivity |].
    destruct (url_taken _ _); [injection Hv as <-; left; reflexivity | discriminate]. }
  destruct (insert_daily _ _) as [e1 | daily] eqn:Ed.
  { intros H. injection H as <-. apply insert_rows_error in Ed.
    destruct Ed as [r [t Hv]]. unfold daily_violation in Hv.
    destruct (has_key _ _); [injection Hv as <-; left; reflexivity | discriminate]. }
  destruct (insert_macro _ _) as [e1 | macro] eqn:Em.
  { intros H. injection H as <-. apply insert_rows_error in Em.
    destruct Em as [r [t Hv]]. unfold macro_violation in Hv.
    destruct (has_key _ _); [injection Hv as <-; left; reflexivity | discriminate]. }
  discriminate.
Qed.

Lemma for_each_error {A} (step : A -> Session -> exn + Session) xs : forall s e,
  for_each step xs s = inl e -> exists x s', In x xs /\ step x s' = inl e.
Proof.
  induction xs as [|x rest IH]; intros s e; simpl; [discriminate |].
  destruct (step x s) as [e' | s'] eqn:Es.
  - intros H. injection H as <-. exists x, s. auto.
  - intros H. destruct (IH _ _ H) as [y [s'' [Hin Hy]]]. exists y, s''. auto.
Qed.

(** The frame: an error of the body or of the commit reaches the
    caller, and the tables are those before the step. *)
Lemma transaction_rolls_back flt body db e db' :
  (forall s e', body s = inl e' -> storage_error e') ->
  transaction flt body db = (Raised e, db') -> db' = db /\ storage_error e.
Proof.
  intros Hbody H. split; [exact (transaction_raised _ _ _ _ _ H) |].
  unfold transaction in H. destruct (body (SessionLocal db)) as [e1 | s] eqn:Eb.
  - injection H as <- _. exact (Hbody _ _ Eb).
  - destruct (flush flt s) as [e2 | s'] eqn:Ef; [| discriminate].
    injection H as <- _. exact (flush_error _ _ _ Ef).
Qed.

Lemma fred_daily_error flt m s e :
  FREDScraper.store_daily flt m s = inl e -> storage_error e.
Proof.
  unfold FREDScraper.store_daily.
  destruct (daily_metrics (view s) !! _); [discriminate | apply flush_error].
Qed.

Lemma fred_macro_error flt m s e :
  FREDScraper.store_macro flt m s = inl e -> storage_error e.
Proof.
  unfold FREDScraper.store_macro.
  destruct (macro_metrics (view s) !! _); [discriminate | apply flush_error].
Qed.

Lemma flush_refused flt s : flt (flushes s) = true -> flush flt s = inl locked.
Proof. intros H. unfold flush. rewrite H. reflexivity. Qed.

Lemma lane_flush_refused flt s :
  flt (LaneTables.flushes s) = true -> LaneTables.flush flt s = inl locked.
Proof. intros H. unfold LaneTables.flush. rewrite H. reflexivity. Qed.

Lemma lane_flush_error flt s e : LaneTables.flush flt s = inl e -> e = locked.
Proof.
  unfold LaneTables.flush. destruct (flt (LaneTables.flushes s)); [| discriminate].
  intros H. injection H as <-. reflexivity.
Qed.

Lemma storage_error_locked : storage_error locked.
Proof. right. reflexivity. Qed.

(** A loop that only reads, changes loaded rows and adds rows makes
    no flush. *)
Lemma fold_flushes {A} (step : Session -> A -> Session)
  (Hstep : forall s a, flushes (step s a) = flushes s) (l : list A) :
  forall s, flushes (fold_left step l s) = flushes s.
Proof.
  induction l as [|a rest IH]; intros s; [reflexivity |].
  cbn [fold_left]. rewrite IH. apply Hstep.
Qed.

Lemma store_article_flushes s a : flushes (NewsScraper.store_article s a) = flushes s.
Proof.
  unfold NewsScraper.store_article.
  destruct (news_articles (view s) !! _); reflexivity.
Qed.

Lemma store_price_flushes s p : flushes (EIADieselScraper.store_price s p) = flushes s.
Proof.
  unfold EIADieselScraper.store_price, EIADieselScraper.store_national,
    EIADieselScraper.store_regional. cbn zeta.
  destruct (List.find _ (diesel_prices (view s))); destruct (String.eqb _ "NUS");
    try reflexivity;
    match goal with |- context [daily_metrics ?v !! ?k] => destruct (daily_metrics v !! k) end;
    reflexivity.
Qed.

Lemma cass_metric_flushes s m : flushes (CassScraper.store_metric s m) = flushes s.
Proof.
  unfold CassScraper.store_metric. destruct (truthy_str _); [reflexivity |].
  destruct (macro_metrics (view s) !! _); reflexivity.
Qed.

Lemma ata_metric_flushes s m : flushes (ATAScraper.store_metric s m) = flushes s.
Proof.
  unfold ATAScraper.store_metric. destruct (truthy_str _); [reflexivity |].
  destruct (macro_metrics (view s) !! _); reflexivity.
Qed.

Lemma store_lanes_flushes lanes : forall count s,
  LaneTables.flushes (BTSScraperStore.store_lanes lanes count s) = LaneTables.flushes s.
Proof.
  induction lanes as [|l rest IH]; intros count s; [reflexivity |].
  cbn [BTSScraperStore.store_lanes]. rewrite IH. unfold BTSScraperStore.store_lane.
  cbn zeta. destruct (List.find _ (LaneTables.lanes (LaneTables.view s))); reflexivity.
Qed.

(** A loop whose turns flush: when the engine refuses the first flush
    of the session, the loop raises, or it ends without a flush. *)
Lemma for_each_refused {A} (step : A -> Session -> exn + Session)
  (Hstep : forall x s, flushes s = 0%nat ->
             step x s = inl locked \/ exists s', step x s = inr s' /\ flushes s' = 0%nat)
  (xs : list A) : forall s,
  flushes s = 0%nat ->
  for_each step xs s = inl locked \/
  exists s', for_each step xs s = inr s' /\ flushes s' = 0%nat.
Proof.
  induction xs as [|x rest IH]; intros s Hs; cbn [for_each]; [right; eauto |].
  destruct (Hstep x s Hs) as [-> | [s' [-> Hs']]]; [left; reflexivity | apply IH; exact Hs'].
Qed.

Lemma lane_for_each_refused {A}
  (step : A -> LaneTables.Session -> exn + LaneTables.Session)
  (Hstep : forall x s, LaneTables.flushes s = 0%nat ->
             step x s = inl locked \/
             exists s', step x s = inr s' /\ LaneTables.flushes s' = 0%nat)
  (xs : list A) : forall s,
  LaneTables.flushes s = 0%nat ->
  LaneTables.for_each step xs s = inl locked \/
  exists s', LaneTables.for_each step xs s = inr s' /\ LaneTables.flushes s' = 0%nat.
Proof.
  induction xs as [|x rest IH]; intros s Hs; cbn [LaneTables.for_each]; [right; eauto |].
  destruct (Hstep x s Hs) as [-> | [s' [-> Hs']]]; [left; reflexivity | apply IH; exact Hs'].
Qed.

Lemma store_daily_refused flt (Hflt : flt 0%nat = true) m s :
  flushes s = 0%nat ->
  FREDScraper.store_daily flt m s = inl locked \/
  exists s', FREDScraper.store_daily flt m s = inr s' /\ flushes s' = 0%nat.
Proof.
  intros Hs. unfold FREDScraper.store_daily.
  destruct (daily_metrics (view s) !! _); [right; eexists; split; [reflexivity | exact Hs] |].
  left. apply flush_refused. cbn. rewrite Hs. exact Hflt.
Qed.

Lemma store_macro_refused flt (Hflt : flt 0%nat = true) m s :
  flushes s = 0%nat ->
  FREDScraper.store_macro flt m s = inl locked \/
  exists s', FREDScraper.store_macro flt m s = inr s' /\ flushes s' = 0%nat.
Proof.
  intros Hs. unfold FREDScraper.store_macro.
  destruct (macro_metrics (view s) !! _); [right; eexists; split; [reflexivity | exact Hs] |].
  left. apply flush_refused. cbn. rewrite Hs. exact Hflt.
Qed.

Lemma store_contract_refused today valid_date flt (Hflt : flt 0%nat = true) c s :
  LaneTables.flushes s = 0%nat ->
  USASpendingScraperStore.store_contract today valid_date flt c s = inl locked \/
  exists s', USASpendingScraperStore.store_contract today valid_date flt c s = inr s' /\
             LaneTables.flushes s' = 0%nat.
Proof.
  intros Hs. unfold USASpendingScraperStore.store_contract, USASpendingScraperStore.get_lane.
  destruct (List.find _ (LaneTables.lanes (LaneTables.view s))).
  - right. destruct (List.find _ (LaneTables.rates (LaneTables.view s)));
      eexists; (split; [reflexivity | exact Hs]).
  - left. cbn zeta. rewrite lane_flush_refused; [reflexivity |]. cbn. rewrite Hs. exact Hflt.
Qed.

Lemma store_contract_error today valid_date flt c s e :
  USASpendingScraperStore.store_contract today valid_date flt c s = inl e -> e = locked.
Proof.
  unfold USASpendingScraperStore.store_contract, USASpendingScraperStore.get_lane.
  destruct (List.find _ (LaneTables.lanes (LaneTables.view s))).
  - destruct (List.find _ (LaneTables.rates (LaneTables.view s))); discriminate.
  - cbn zeta. destruct (LaneTables.flush flt _) as [e' | s'] eqn:Ef.
    + intros H. injection H as <-. exact (lane_flush_error _ _ _ Ef).
    + destruct (List.find _ (LaneTables.rates (LaneTables.view s'))); discriminate.
Qed.

(** A turn that raises ends the loop, with its error. *)
Lemma for_each_raise {A} (step : A -> Session -> exn + Session) pre x post e : forall s s1,
  for_each step pre s = inr s1 -> step x s1 = inl e ->
  for_each step (pre ++ x :: post) s = inl e.
Proof.
  induction pre as [|y rest IH]; intros s s1 Hpre Hx; cbn [app for_each] in *.
  - injection Hpre as ->. rewrite Hx. reflexivity.
  - destruct (step y s) as [e' | s']; [discriminate |]. exact (IH _ _ Hpre Hx).
Qed.

Lemma lane_for_each_raise {A}
  (step : A -> LaneTables.Session -> exn + LaneTables.Session) pre x post e : forall s s1,
  LaneTables.for_each step pre s = inr s1 -> step x s1 = inl e ->
  LaneTables.for_each step (pre ++ x :: post) s = inl e.
Proof.
  induction pre as [|y rest IH]; intros s s1 Hpre Hx; cbn [app LaneTables.for_each] in *.
  - injection Hpre as ->. rewrite Hx. reflexivity.
  - destruct (step y s) as [e' | s']; [discriminate |]. exact (IH _ _ Hpre Hx).
Qed.

(** C7: a write that raises during a store step aborts the step: the
    error reaches the caller, and through [run]'s pipeline the retry
    loop, and the tables are those before the step, with no part of
    the job's writes committed.  The writes of a pass reach the
    database in a flush: that of the commit, and for the FRED and the
    USASpending job also the flush after each row they create.  So,
    for the store steps of the seven jobs: when the engine refuses
    the first write, the step raises that error; when the flush of
    the commit raises, on a constraint or in the engine, the step
    raises that error; when the turn of an entity raises, after the
    turns before it went through, the step raises that error; and the
    error is one of the storage layer. *)
Theorem store_failure_rolls_back (flt : Faults) :
  (flt 0%nat = true ->
   (forall articles db, NewsScraper.store flt articles db = (Raised locked, db)) /\
   (forall parsed_data db, FREDScraper.store flt parsed_data db = (Raised locked, db)) /\
   (forall prices db, EIADieselScraper.store flt prices db = (Raised locked, db)) /\
   (forall metrics db, CassScraper.store flt metrics db = (Raised locked, db)) /\
   (forall metrics db, ATAScraper.store flt metrics db = (Raised locked, db)) /\
   (forall today valid_date contracts tables,
      USASpendingScraperStore.store today valid_date flt contracts tables =
        (Raised locked, tables)) /\
   (forall lanes tables, BTSScraperStore.store flt lanes tables = (Raised locked, tables))) /\
  (forall e : exn,
   (forall articles db,
      flush flt (fold_left NewsScraper.store_article articles (SessionLocal db)) = inl e ->
      NewsScraper.store flt articles db = (Raised e, db) /\ storage_error e) /\
   (forall parsed_data db s1 s2,
      for_each (FREDScraper.store_daily flt) (FREDScraper.daily parsed_data)
        (SessionLocal db) = inr s1 ->
      for_each (FREDScraper.store_macro flt) (FREDScraper.macro parsed_data) s1 = inr s2 ->
      flush flt s2 = inl e ->
      FREDScraper.store flt parsed_data db = (Raised e, db) /\ storage_error e) /\
   (forall prices db,
      flush flt (fold_left EIADieselScraper.store_price prices (SessionLocal db)) = inl e ->
      EIADieselScraper.store flt prices db = (Raised e, db) /\ storage_error e) /\
   (forall metrics db,
      flush flt (fold_left CassScraper.store_metric metrics (SessionLocal db)) = inl e ->
      CassScraper.store flt metrics db = (Raised e, db) /\ storage_error e) /\
   (forall metrics db,
      flush flt (fold_left ATAScraper.store_metric metrics (SessionLocal db)) = inl e ->
      ATAScraper.store flt metrics db = (Raised e, db) /\ storage_error e) /\
   (forall today valid_date contracts tables s1,
      LaneTables.for_each (USASpendingScraperStore.store_contract today valid_date flt)
        contracts (LaneTables.SessionLocal tables) = inr s1 ->
      LaneTables.flush flt s1 = inl e ->
      USASpendingScraperStore.store today valid_date flt contracts tables =
        (Raised e, tables) /\ storage_error e) /\
   (forall lanes tables,
      LaneTables.flush flt
        (BTSScraperStore.store_lanes lanes 0 (LaneTables.SessionLocal tables)) = inl e ->
      BTSScraperStore.store flt lanes tables = (Raised e, tables) /\ storage_error e)) /\
  (forall e : exn,
   (forall pre x post macro db s1,
      for_each (FREDScraper.store_daily flt) pre (SessionLocal db) = inr s1 ->
      FREDScraper.store_daily flt x s1 = inl e ->
      FREDScraper.store flt (FREDScraper.mkParsed (pre ++ x :: post) macro) db =
        (Raised e, db) /\ storage_error e) /\
   (forall daily pre x post db s1 s2,
      for_each (FREDScraper.store_daily flt) daily (SessionLocal db) = inr s1 ->
      for_each (FREDScraper.store_macro flt) pre s1 = inr s2 ->
      FREDScraper.store_macro flt x s2 = inl e ->
      FREDScraper.store flt (FREDScraper.mkParsed daily (pre ++ x :: post)) db =
        (Raised e, db) /\ storage_error e) /\
   (forall today valid_date pre x post tables s1,
      LaneTables.for_each (USASpendingScraperStore.store_contract today valid_date flt)
        pre (LaneTables.SessionLocal tables) = inr s1 ->
      USASpendingScraperStore.store_contract today valid_date flt x s1 = inl e ->
      USASpendingScraperStore.store today valid_date flt (pre ++ x :: post) tables =
        (Raised e, tables) /\ storage_error e)) /\
  (forall (Env : Type) (sc : @Scraper Env) (w : World) raw_data env1 parsed_data env2 e,
     fetch sc (env w) = (inr raw_data, env1) ->
     parse sc raw_data env1 = (inr parsed_data, env2) ->
     store sc parsed_data (BaseScraper.db w) = (Raised e, BaseScraper.db w) ->
     pipeline sc w =
       (inl e, mkWorld env2 (BaseScraper.db w) (scraper_runs w) (events w))).
Proof.
  split; [| split; [| split]].
  - intros Hflt.
    assert (Hcommit : forall (body : Session) db,
              flushes body = 0%nat ->
              transaction flt (fun _ => inr body) db = (Raised locked, db)).
    { intros body db Hb. unfold transaction. rewrite flush_refused; [reflexivity |].
      rewrite Hb. exact Hflt. }
    split; [| split; [| split; [| split; [| split; [| split]]]]].
    + intros articles db. apply Hcommit. apply (fold_flushes _ store_article_flushes).
    + intros parsed_data db. unfold FREDScraper.store, transaction.
      destruct (for_each_refused _ (store_daily_refused flt Hflt)
                  (FREDScraper.daily parsed_data) (SessionLocal db) eq_refl)
        as [-> | [s1 [-> Hs1]]]; [reflexivity |].
      destruct (for_each_refused _ (store_macro_refused flt Hflt)
                  (FREDScraper.macro parsed_data) s1 Hs1)
        as [-> | [s2 [-> Hs2]]]; [reflexivity |].
      rewrite flush_refused; [reflexivity |]. rewrite Hs2. exact Hflt.
    + intros prices db. apply Hcommit. apply (fold_flushes _ store_price_flushes).
    + intros metrics db. apply Hcommit. apply (fold_flushes _ cass_metric_flushes).
    + intros metrics db. apply Hcommit. apply (fold_flushes _ ata_metric_flushes).
    + intros today valid_date contracts tables.
      unfold USASpendingScraperStore.store, LaneTables.transaction.
      destruct (lane_for_each_refused _ (store_contract_refused today valid_date flt Hflt)
                  contracts (LaneTables.SessionLocal tables) eq_refl)
        as [-> | [s1 [-> Hs1]]]; [reflexivity |].
      rewrite lane_flush_refused; [reflexivity |]. rewrite Hs1. exact Hflt.
    + intros lanes tables. unfold BTSScraperStore.store, LaneTables.transaction.
      rewrite lane_flush_refused; [reflexivity |]. rewrite store_lanes_flushes. exact Hflt.
  - intros e.
    assert (Hcommit : forall (body : Session) db,
              flush flt body = inl e ->
              transaction flt (fun _ => inr body) db = (Raised e, db) /\ storage_error e).
    { intros body db Hf. unfold transaction. rewrite Hf.
      split; [reflexivity | exact (flush_error _ _ _ Hf)]. }
    split; [| split; [| split; [| split; [| split; [| split]]]]].
    + intros articles db. apply Hcommit.
    + intros parsed_data db s1 s2 H1 H2 Hf. unfold FREDScraper.store, transaction.
      rewrite H1, H2, Hf. split; [reflexivity | exact (flush_error _ _ _ Hf)].
    + intros prices db. apply Hcommit.
    + intros metrics db. apply Hcommit.
    + intros metrics db. apply Hcommit.
    + intros today valid_date contracts tables s1 H1 Hf.
      unfold USASpendingScraperStore.store, LaneTables.transaction. rewrite H1, Hf.
      split; [reflexivity |]. rewrite (lane_flush_error _ _ _ Hf). apply storage_error_locked.
    + intros lanes tables Hf. unfold BTSScraperStore.store, LaneTables.transaction.
      rewrite Hf. split; [reflexivity |]. rewrite (lane_flush_error _ _ _ Hf).
      apply storage_error_locked.
  - intros e. split; [| split].
    + intros pre x post macro db s1 H1 Hx. unfold FREDScraper.store, transaction.
      cbn [FREDScraper.daily FREDScraper.macro].
      rewrite (for_each_raise _ pre x post e _ _ H1 Hx).
      split; [reflexivity | exact (fred_daily_error _ _ _ _ Hx)].
    + intros daily pre x post db s1 s2 H1 H2 Hx. unfold FREDScraper.store, transaction.
      cbn [FREDScraper.daily FREDScraper.macro].
      rewrite H1, (for_each_raise _ pre x post e _ _ H2 Hx).
      split; [reflexivity | exact (fred_macro_error _ _ _ _ Hx)].
    + intros today valid_date pre x post tables s1 H1 Hx.
      unfold USASpendingScraperStore.store, LaneTables.transaction.
      rewrite (lane_for_each_raise _ pre x post e _ _ H1 Hx).
      split; [reflexivity |]. rewrite (store_contract_error _ _ _ _ _ _ Hx).
      apply storage_error_locked.
  - intros Env sc w raw_data env1 parsed_data env2 e Hf Hp Hs.
    unfold pipeline. rewrite Hf, Hp, Hs. reflexivity.
Qed.

(** An engine that refuses the first write, under the EIA job and the
    BTS job; a commit that meets the primary key, under the news job;
    and the second row of a FRED batch refused after the first went
    in. *)
Lemma store_failure_rolls_back_witness :
  EIADieselScraper.store Samples.first_flush_fails [Samples.nus_price] Samples.empty_db =
    (Raised locked, Samples.empty_db) /\
  BTSScraperStore.store Samples.first_flush_fails [Samples.lane1] Samples.no_lanes =
    (Raised locked, Samples.no_lanes) /\
  (NewsScraper.store no_faults [Samples.article1; Samples.article1] Samples.empty_db =
     (Raised (Raise IntegrityError "UNIQUE constraint failed: news_articles.id"),
      Samples.empty_db) /\
   storage_error (Raise IntegrityError "UNIQUE constraint failed: news_articles.id")) /\
  (FREDScraper.store Samples.second_flush_fails
     (FREDScraper.mkParsed [Samples.oil_obs; Samples.oil_obs_next] []) Samples.empty_db =
     (Raised locked, Samples.empty_db) /\
   storage_error locked).
Proof.
  split; [| split; [| split]].
  - apply (store_failure_rolls_back Samples.first_flush_fails). reflexivity.
  - apply (store_failure_rolls_back Samples.first_flush_fails). reflexivity.
  - apply (store_failure_rolls_back no_faults). vm_compute. reflexivity.
  - destruct (store_failure_rolls_back Samples.second_flush_fails) as (_ & _ & H & _).
    destruct (H locked) as (Hd & _).
    apply (Hd [Samples.oil_obs] Samples.oil_obs_next [] [] Samples.empty_db
              (mkSession (put_daily "2024-12-02"
                            (DailyMetric.setattr
                               (DailyMetric.new "2024-12-02" (Some "FRED-DCOILWTICO")
                                  (Some 1%float))
                               DailyField.oil_price (Some 68.125%float))
                            Samples.empty_db)
                 [] [] [] [] 1)).
    + vm_compute. reflexivity.
    + vm_compute. reflexivity.
Defined.

End Rollback.

(* ------------------------------------------------------------------ *)
(** ** The placeholder of a failed extraction is never stored *)
(* ------------------------------------------------------------------ *)

Section Sentinel.
Import Py Database.

Lemma flush_clean flt db :
  flt 0%nat = false ->
  flush flt (SessionLocal db) = inr (mkSession db [] [] [] [] 1).
Proof.
  intros H. unfold flush, SessionLocal. cbn. rewrite H.
  rewrite app_nil_r. destruct db. reflexivity.
Qed.

Lemma cass_skip s m :
  truthy_str (CassScraper.Metric._note m) = true -> CassScraper.store_metric s m = s.
Proof. intros H. unfold CassScraper.store_metric. rewrite H. reflexivity. Qed.

Lemma ata_skip s m :
  truthy_str (ATAScraper.Metric._note m) = true -> ATAScraper.store_metric s m = s.
Proof. intros H. unfold ATAScraper.store_metric. rewrite H. reflexivity. Qed.

Lemma cass_fold_filter metrics : forall s,
  fold_left CassScraper.store_metric metrics s =
  fold_left CassScraper.store_metric
    (List.filter (fun m => negb (truthy_str (CassScraper.Metric._note m))) metrics) s.
Proof.
  induction metrics as [|m rest IH]; intros s; [reflexivity |].
  cbn [fold_left List.filter].
  destruct (truthy_str (CassScraper.Metric._note m)) eqn:E; cbn [negb].
  - rewrite (cass_skip s m E). apply IH.
  - cbn [fold_left]. apply IH.
Qed.

Lemma ata_fold_filter metrics : forall s,
  fold_left ATAScraper.store_metric metrics s =
  fold_left ATAScraper.store_metric
    (List.filter (fun m => negb (truthy_str (ATAScraper.Metric._note m))) metrics) s.
Proof.
  induction metrics as [|m rest IH]; intros s; [reflexivity |].
  cbn [fold_left List.filter].
  destruct (truthy_str (ATAScraper.Metric._note m)) eqn:E; cbn [negb].
  - rewrite (ata_skip s m E). apply IH.
  - cbn [fold_left]. apply IH.
Qed.

(** C6: a record that carries a non-empty [_note] is skipped by the
    store steps of the Cass and ATA jobs: the step behaves, in result
    and in tables, as on the list without these records, the turn of
    the loop on such a record changes nothing, and the store of the
    lone placeholder that [parse] emits returns with the tables as
    they were. *)
Theorem sentinel_records_not_stored (flt : Faults) (db : DB) :
  (forall metrics,
     CassScraper.store flt metrics db =
     CassScraper.store flt
       (List.filter (fun m => negb (truthy_str (CassScraper.Metric._note m))) metrics) db) /\
  (forall metrics,
     ATAScraper.store flt metrics db =
     ATAScraper.store flt
       (List.filter (fun m => negb (truthy_str (ATAScraper.Metric._note m))) metrics) db) /\
  (forall s m, truthy_str (CassScraper.Metric._note m) = true ->
               CassScraper.store_metric s m = s) /\
  (forall s m, truthy_str (ATAScraper.Metric._note m) = true ->
               ATAScraper.store_metric s m = s) /\
  (forall this_month,
     CassScraper.store no_faults (CassScraper.parse_fallback this_month []) db =
     (Returned, db)) /\
  (forall this_month,
     ATAScraper.store no_faults (ATAScraper.parse_fallback this_month []) db =
     (Returned, db)).
Proof.
  split; [| split; [| split; [| split; [| split]]]].
  - intros metrics. unfold CassScraper.store, transaction.
    rewrite cass_fold_filter. reflexivity.
  - intros metrics. unfold ATAScraper.store, transaction.
    rewrite ata_fold_filter. reflexivity.
  - exact cass_skip.
  - exact ata_skip.
  - intros this_month. unfold CassScraper.store, transaction. cbn [fold_left CassScraper.parse_fallback].
    rewrite cass_skip by reflexivity. rewrite flush_clean by reflexivity. reflexivity.
  - intros this_month. unfold ATAScraper.store, transaction. cbn [fold_left ATAScraper.parse_fallback].
    rewrite ata_skip by reflexivity. rewrite flush_clean by reflexivity. reflexivity.
Qed.

(** The placeholder of the Cass job next to a real record. *)
Lemma sentinel_records_not_stored_witness :
  CassScraper.store_metric (SessionLocal Samples.empty_db)
    (CassScraper.placeholder "2024-12") = SessionLocal Samples.empty_db /\
  ATAScraper.store_metric (SessionLocal Samples.empty_db)
    (ATAScraper.placeholder "2024-12") = SessionLocal Samples.empty_db.
Proof.
  destruct (sentinel_records_not_stored no_faults Samples.empty_db)
    as [_ [_ [Hc [Ha _]]]].
  split; [apply Hc | apply Ha]; reflexivity.
Defined.

End Sentinel.

(* ------------------------------------------------------------------ *)
(** ** The HTTP wrapper *)
(* ------------------------------------------------------------------ *)

Section HttpWrapper.
Import Py Requests BaseScraper.

Lemma request_spec server req sent :
  snd (request server req sent) = sent ++ [req] /\
  (server sent req = NoConnection ->
   exists e, fst (request server req sent) = inl e /\ exn_cls e = ConnectionError) /\
  (server sent req = NoReplyInTime ->
   exists e, fst (request server req sent) = inl e /\ exn_cls e = Timeout) /\
  (forall r, server sent req = Replied r -> fst (request server req sent) = inr r) /\
  (forall e, server sent req = Failed e -> fst (request server req sent) = inl e).
Proof.
  unfold request. cbn [fst snd]. split; [reflexivity |].
  split; [| split; [| split]].
  - intros ->. eexists. split; reflexivity.
  - intros ->. eexists. split; reflexivity.
  - intros r ->. reflexivity.
  - intros e ->. reflexivity.
Qed.

Lemma raise_for_status_spec r :
  (400 <= status_code r < 600 ->
   exists e, raise_for_status r = inl e /\ exn_cls e = HTTPError) /\
  (~ (400 <= status_code r < 600) -> raise_for_status r = inr tt).
Proof.
  unfold raise_for_status. split.
  - intros [H1 H2]. apply Z.leb_le in H1. apply Z.ltb_lt in H2.
    rewrite H1, H2. eexists. split; reflexivity.
  - intros H. destruct (400 <=? status_code r) eqn:E1; [| reflexivity].
    destruct (status_code r <? 600) eqn:E2; [| reflexivity].
    exfalso. apply H. apply Z.leb_le in E1. apply Z.ltb_lt in E2. lia.
Qed.

(** C5, as stated, fails on a reply with a status outside 2xx: the
    wrapper returns the response and raises nothing. *)
Lemma get_returns_error_status :
  fst (get Samples.not_found "https://api.eia.gov/v2/petroleum/pri/gnd/data/" [] []) =
    inr (mkResponse 404 "Not Found" None) /\
  fst (post Samples.not_found "https://api.usaspending.gov/api/v2/search/spending_by_award/"
         JNull []) =
    inr (mkResponse 404 "Not Found" None) /\
  ~ (forall server url params sent r,
       server sent (mkRequest GET url params None 30) = Replied r ->
       ~ (200 <= status_code r < 300) ->
       exists e, fst (get server url params sent) = inl e).
Proof.
  split; [reflexivity |]. split; [reflexivity |].
  intros H.
  destruct (H Samples.not_found "u" [] [] (mkResponse 404 "Not Found" None)) as [e He].
  - reflexivity.
  - cbn. lia.
  - discriminate He.
Qed.

(** C5, amended: [get] and [post] make one call to the library, with
    a timeout of 30 seconds, whatever comes of it (so the wrapper does
    not retry); they fail, with the error of the library, when there
    is no connection or no reply in time, as with any other error the
    library raises; and a response is returned to the caller as it
    is, whatever its status: a status outside 2xx is no failure of
    the wrapper. *)
Theorem http_wrapper_contract (server : Server) (url : string)
  (params : list (string * json)) (payload : json) (sent : list Request) :
  let g := mkRequest GET url params None 30 in
  let p := mkRequest POST url [] (Some payload) 30 in
  (snd (get server url params sent) = sent ++ [g] /\ req_timeout g = 30) /\
  (snd (post server url payload sent) = sent ++ [p] /\ req_timeout p = 30) /\
  (server sent g = NoConnection \/ server sent g = NoReplyInTime ->
   exists e, fst (get server url params sent) = inl e /\ transport_error e) /\
  (server sent p = NoConnection \/ server sent p = NoReplyInTime ->
   exists e, fst (post server url payload sent) = inl e /\ transport_error e) /\
  (forall r, server sent g = Replied r -> fst (get server url params sent) = inr r) /\
  (forall r, server sent p = Replied r -> fst (post server url payload sent) = inr r) /\
  (forall e, server sent g = Failed e -> fst (get server url params sent) = inl e) /\
  (forall e, server sent p = Failed e -> fst (post server url payload sent) = inl e).
Proof.
  intros g p. unfold get, post. fold g. fold p.
  destruct (request_spec server g sent) as [Gs [Gc [Gt [Gr Gf]]]].
  destruct (request_spec server p sent) as [Ps [Pc [Pt [Pr Pf]]]].
  split; [split; [exact Gs | reflexivity] |].
  split; [split; [exact Ps | reflexivity] |].
  split; [| split; [| split; [| split; [| split]]]].
  - intros [H | H]; [destruct (Gc H) as [e [He Hc]] | destruct (Gt H) as [e [He Hc]]];
      exists e; (split; [exact He |]); [left | right; left]; exact Hc.
  - intros [H | H]; [destruct (Pc H) as [e [He Hc]] | destruct (Pt H) as [e [He Hc]]];
      exists e; (split; [exact He |]); [left | right; left]; exact Hc.
  - exact Gr.
  - exact Pr.
  - exact Gf.
  - exact Pf.
Qed.

(** A request that times out, and one answered with 404. *)
Lemma http_wrapper_contract_witness :
  (exists e, fst (get Samples.silent "https://www.cassinfo.com/" [] []) = inl e /\
             transport_error e) /\
  fst (get Samples.not_found "https://www.cassinfo.com/" [] []) =
    inr (mkResponse 404 "Not Found" None) /\
  snd (get Samples.not_found "https://www.cassinfo.com/" [] []) =
    [mkRequest GET "https://www.cassinfo.com/" [] None 30].
Proof.
  split.
  - destruct (http_wrapper_contract Samples.silent "https://www.cassinfo.com/" [] JNull [])
      as [_ [_ [H _]]].
    apply H. right. reflexivity.
  - destruct (http_wrapper_contract Samples.not_found "https://www.cassinfo.com/" [] JNull [])
      as [[H0 _] [_ [_ [_ [H _]]]]].
    split; [apply H; reflexivity | exact H0].
Defined.

End HttpWrapper.

(* ------------------------------------------------------------------ *)
(** ** The retry loop and the orchestrator *)
(* ------------------------------------------------------------------ *)

Section Retry.
Import Py Database BaseScraper RunAllScrapers.
Context {Env : Type}.
Variable utcnow : Env -> Z.





(** The orchestrator runs every job of its list: the jobs after any
    prefix are run from the state the prefix left, whatever the jobs
    of the prefix returned or raised. *)
Lemma run_jobs_app (jobs1 jobs2 : list (string * @Job Env)) : forall results w,
  run_jobs (jobs1 ++ jobs2) results w =
  let '(results1, w1) := run_jobs jobs1 results w in run_jobs jobs2 results1 w1.
Proof.
  induction jobs1 as [|[name job] rest IH]; intros results w; [reflexivity |].
  cbn [app run_jobs].
  destruct (job (log (Print ("Running: " +:+ name)) w)) as [[e | success] w1]; apply IH.
Qed.

Lemma run_jobs_one (name : string) (job : @Job Env) jobs results w :
  exists w2,
    run_jobs ((name, job) :: jobs) results w =
    run_jobs jobs
      (dict_set name (verdict (fst (job (log (Print ("Running: " +:+ name)) w)))) results) w2.
Proof.
  cbn [run_jobs].
  destruct (job (log (Print ("Running: " +:+ name)) w)) as [[e | success] w1];
    eexists; reflexivity.
Qed.

Lemma dict_set_keys name value results k :
  In k (map fst (dict_set name value results)) <-> k = name \/ In k (map fst results).
Proof.
  induction results as [|[k' v'] rest IH]; cbn.
  - split; [intros [<- | []]; auto | intros [-> | []]; auto].
  - destruct (String.eqb k' name) eqn:E; cbn.
    + apply String.eqb_eq in E. subst k'. intuition (subst; auto).
    + rewrite IH. tauto.
Qed.





End Retry.


(** The default of three attempts, on a source that is never reachable. *)
Lemma run_exhausts_retries_example :
  exists w',
    BaseScraper.run (fun _ => 0) (Samples.unreachable 3) Samples.fresh_world = (Some false, w') /\
    attempts_started (BaseScraper.events w') = 3%nat /\
    Database.ScraperRun.status <$> BaseScraper.scraper_runs w' !! 0%nat = Some (Some "failed") /\
    Database.ScraperRun.error_message <$> BaseScraper.scraper_runs w' !! 0%nat =
      Some (Some "connection failed").
Proof. eexists. vm_compute. repeat split. Qed.

(* ------------------------------------------------------------------ *)
(** ** Pagination: the EIA job *)
(* ------------------------------------------------------------------ *)

Section EiaPagination.
Import Py Requests BaseScraper EIADieselScraper.
Variable server : Server.
Variable api_key : string.

Lemma len_app {A} (l1 l2 : list A) : len (l1 ++ l2) = len l1 + len l2.
Proof. unfold len. rewrite length_app. lia. Qed.

Lemma chars_nil s : chars s = [] -> s = "".
Proof. destruct s; [reflexivity | discriminate]. Qed.

Lemma items_truthy batch records :
  items batch = Some records -> truthy batch = negb (len records =? 0).
Proof.
  destruct batch as [| b | z | x | s | l | l]; cbn; try discriminate;
    intros H; injection H as <-.
  - destruct s; reflexivity.
  - destruct l; reflexivity.
  - destruct l; reflexivity.
Qed.

(** One turn of the loop on a reply that is a page. *)
Lemma api_loop_page fuel all_data offset sent resp records :
  server sent (mkRequest GET API_BASE (api_params api_key offset) None 30) = Replied resp ->
  eia_page resp = Some records ->
  api_loop server api_key (S fuel) all_data offset sent =
  let sent' := sent ++ [mkRequest GET API_BASE (api_params api_key offset) None 30] in
  if len records =? 0 then Some (Fetched all_data, sent')
  else if len records <? length_ then Some (Fetched (all_data ++ records), sent')
  else if safety_limit <=? len (all_data ++ records)
       then Some (Fetched (all_data ++ records), sent')
       else api_loop server api_key fuel (all_data ++ records) (offset + length_) sent'.
Proof.
  intros Hreply Hpage. cbn [api_loop]. unfold get, request. rewrite Hreply.
  unfold eia_page in Hpage.
  destruct (raise_for_status resp) as [e | []]; [discriminate |].
  destruct (json_of resp) as [e | data]; [discriminate |].
  destruct (response_data data) as [e | [batch |]]; try discriminate.
  rewrite (items_truthy _ _ Hpage), Hpage. rewrite negb_involutive. cbn zeta.
  destruct (len records =? 0); reflexivity.
Qed.

(** More fuel does not change a result. *)
Lemma api_loop_fuel fuel : forall all_data offset sent r fuel',
  api_loop server api_key fuel all_data offset sent = Some r ->
  (fuel <= fuel')%nat ->
  api_loop server api_key fuel' all_data offset sent = Some r.
Proof.
  induction fuel as [|fuel IH]; intros all_data offset sent r fuel' H Hle; [discriminate |].
  destruct fuel' as [|fuel']; [lia |].
  cbn [api_loop] in *.
  destruct (get server API_BASE (api_params api_key offset) sent) as [[e | response] sent1];
    [exact H |].
  destruct (raise_for_status response) as [e | []]; [exact H |].
  destruct (json_of response) as [e | data]; [exact H |].
  destruct (response_data data) as [e | [batch |]]; try exact H.
  destruct (negb (truthy batch)); [exact H |].
  destruct (items batch) as [records |]; [| exact H].
  destruct (len records <? length_); [exact H |].
  destruct (safety_limit <=? len (all_data ++ records)); [exact H |].
  apply IH; [exact H | lia].
Qed.

(** Whatever the server does, the loop ends once the turns left cover
    the room under the safety limit. *)
Lemma api_loop_terminates fuel : forall all_data offset sent,
  (0 < fuel)%nat ->
  safety_limit <= len all_data + length_ * Z.of_nat fuel ->
  exists r, api_loop server api_key fuel all_data offset sent = Some r.
Proof.
  induction fuel as [|fuel IH]; intros all_data offset sent Hpos Hroom; [lia |].
  cbn [api_loop].
  destruct (get server API_BASE (api_params api_key offset) sent) as [[e | response] sent1];
    [eexists; reflexivity |].
  destruct (raise_for_status response) as [e | []]; [eexists; reflexivity |].
  destruct (json_of response) as [e | data]; [eexists; reflexivity |].
  destruct (response_data data) as [e | [batch |]]; try (eexists; reflexivity).
  destruct (negb (truthy batch)); [eexists; reflexivity |].
  destruct (items batch) as [records |]; [| eexists; reflexivity].
  destruct (len records <? length_) eqn:Elen; [eexists; reflexivity |].
  destruct (safety_limit <=? len (all_data ++ records)) eqn:Ecap; [eexists; reflexivity |].
  apply Z.ltb_ge in Elen. apply Z.leb_gt in Ecap. rewrite len_app in Ecap.
  unfold length_, safety_limit in *.
  apply IH; [| rewrite len_app; lia].
  destruct fuel; [lia | lia].
Qed.

(** Full pages only: the loop stops at the safety limit. *)
Lemma api_loop_full (Hfull : always_full server eia_page length_) (n : nat) :
  forall fuel all_data offset sent,
  (0 < n <= fuel)%nat ->
  len all_data + length_ * Z.of_nat n = safety_limit ->
  exists all_data' sent',
    api_loop server api_key fuel all_data offset sent = Some (Fetched all_data', sent') /\
    len all_data' = safety_limit /\
    length sent' = (length sent + n)%nat.
Proof.
  induction n as [|n IH]; intros fuel all_data offset sent Hn Hlen; [lia |].
  destruct fuel as [|fuel]; [lia |].
  destruct (Hfull sent (mkRequest GET API_BASE (api_params api_key offset) None 30))
    as [resp [records [Hreply [Hpage Hsize]]]].
  fold (len records) in Hsize.
  rewrite (api_loop_page _ _ _ _ _ _ Hreply Hpage). cbn zeta.
  unfold length_, safety_limit in *.
  replace (len records =? 0) with false by (symmetry; apply Z.eqb_neq; lia).
  replace (len records <? 5000) with false by (symmetry; apply Z.ltb_ge; lia).
  destruct (100000 <=? len (all_data ++ records)) eqn:Ecap.
  - apply Z.leb_le in Ecap. rewrite len_app in Ecap.
    assert (n = 0%nat) by lia. subst n.
    eexists _, _. split; [reflexivity |]. split.
    + rewrite len_app. lia.
    + rewrite length_app. cbn. lia.
  - apply Z.leb_gt in Ecap. rewrite len_app in Ecap.
    destruct (IH fuel (all_data ++ records) (offset + 5000)
                (sent ++ [mkRequest GET API_BASE (api_params api_key offset) None 30]))
      as [all' [sent' [Hrun [Hlen' Hsent']]]].
    + lia.
    + rewrite len_app. lia.
    + exists all', sent'. split; [exact Hrun |]. split; [exact Hlen' |].
      rewrite Hsent', length_app. cbn. lia.
Qed.

(** Full pages, then a shorter one: the loop stops at that page. *)
Lemma api_loop_short (k : nat) :
  forall fuel all_data offset sent,
  first_short_page server eia_page length_ (length sent) k ->
  (k < fuel)%nat ->
  len all_data + length_ * Z.of_nat (S k) <= safety_limit ->
  exists all_data' sent',
    api_loop server api_key fuel all_data offset sent = Some (Fetched all_data', sent') /\
    len all_data + length_ * Z.of_nat k <= len all_data' <
      len all_data + length_ * Z.of_nat (S k) /\
    length sent' = (length sent + S k)%nat.
Proof.
  induction k as [|k IH]; intros fuel all_data offset sent [Hfull Hshort] Hfuel Hroom.
  - destruct fuel as [|fuel]; [lia |].
    destruct (Hshort sent ltac:(lia)
                (mkRequest GET API_BASE (api_params api_key offset) None 30))
      as [resp [records [Hreply [Hpage Hsize]]]].
    fold (len records) in Hsize.
    rewrite (api_loop_page _ _ _ _ _ _ Hreply Hpage). cbn zeta.
    assert (Hnn : 0 <= len records) by (unfold len; lia).
    destruct (len records =? 0) eqn:E0.
    + apply Z.eqb_eq in E0. eexists _, _. split; [reflexivity |].
      split; [unfold length_; lia | rewrite length_app; cbn; lia].
    + replace (len records <? length_) with true by (symmetry; apply Z.ltb_lt; lia).
      eexists _, _. split; [reflexivity |].
      split; [rewrite len_app; unfold length_ in *; lia | rewrite length_app; cbn; lia].
  - destruct fuel as [|fuel]; [lia |].
    destruct (Hfull sent ltac:(lia)
                (mkRequest GET API_BASE (api_params api_key offset) None 30))
      as [resp [records [Hreply [Hpage Hsize]]]].
    fold (len records) in Hsize.
    rewrite (api_loop_page _ _ _ _ _ _ Hreply Hpage). cbn zeta.
    unfold length_, safety_limit in *.
    replace (len records =? 0) with false by (symmetry; apply Z.eqb_neq; lia).
    replace (len records <? 5000) with false by (symmetry; apply Z.ltb_ge; lia).
    replace (100000 <=? len (all_data ++ records)) with false
      by (symmetry; apply Z.leb_gt; rewrite len_app; lia).
    destruct (IH fuel (all_data ++ records) (offset + 5000)
                (sent ++ [mkRequest GET API_BASE (api_params api_key offset) None 30]))
      as [all' [sent' [Hrun [Hlen' Hsent']]]].
    + rewrite length_app. cbn [length]. split.
      * intros hist Hh. apply Hfull. lia.
      * intros hist Hh. apply Hshort. lia.
    + lia.
    + rewrite len_app. lia.
    + exists all', sent'. split; [exact Hrun |]. split.
      * rewrite len_app in Hlen'. lia.
      * rewrite Hsent', length_app. cbn. lia.
Qed.

End EiaPagination.

(* ------------------------------------------------------------------ *)
(** ** Pagination: the USASpending job *)
(* ------------------------------------------------------------------ *)

Section UsaPagination.
Import Py Requests BaseScraper USASpendingScraper.
Variable server : Server.
Variables start_date end_date : string.

Lemma ulen_app {A} (l1 l2 : list A) : len (l1 ++ l2) = len l1 + len l2.
Proof. unfold len. rewrite length_app. lia. Qed.

(** One turn of the loop on a reply that is a page. *)
Lemma page_loop_page fuel psc_code page st resp awards :
  pg_total st < max_contracts_per_psc ->
  server (pg_sent st) (mkRequest POST API_BASE [] (Some (payload start_date end_date psc_code page)) 30)
    = Replied resp ->
  usa_page resp = Some awards ->
  page_loop server start_date end_date (S fuel) psc_code page st =
  let sent' := pg_sent st ++ [mkRequest POST API_BASE [] (Some (payload start_date end_date psc_code page)) 30] in
  if 0 <? len awards then
    let st' := mkPages (pg_awards st ++ awards) (pg_total st + len awards) sent' in
    if len awards <? limit_per_page then Some (inr tt, st')
    else page_loop server start_date end_date fuel psc_code (page + 1) st'
  else Some (inr tt, mkPages (pg_awards st) (pg_total st) sent').
Proof.
  intros Hlt Hreply Hpage. cbn [page_loop].
  replace (pg_total st <? max_contracts_per_psc) with true
    by (symmetry; apply Z.ltb_lt; exact Hlt).
  cbn [negb]. unfold post, request. rewrite Hreply. cbn [pg_awards pg_total pg_sent].
  unfold usa_page in Hpage.
  destruct (raise_for_status resp) as [e | []]; [discriminate |].
  destruct (json_of resp) as [e | data]; [discriminate |].
  destruct (results_of data) as [e | [results |]]; try discriminate.
  rewrite Hpage. reflexivity.
Qed.

Lemma page_loop_done fuel psc_code page st :
  max_contracts_per_psc <= pg_total st ->
  page_loop server start_date end_date fuel psc_code page st = Some (inr tt, st).
Proof.
  intros H.
  assert (E : (pg_total st <? max_contracts_per_psc) = false) by (apply Z.ltb_ge; exact H).
  destruct fuel; cbn [page_loop]; rewrite E; reflexivity.
Qed.

(** Whatever the server does, the loop over the pages of a PSC code
    ends once the turns left cover the room under the cap. *)
Lemma page_loop_terminates fuel : forall psc_code page st,
  max_contracts_per_psc <= pg_total st + limit_per_page * Z.of_nat fuel ->
  exists r, page_loop server start_date end_date fuel psc_code page st = Some r.
Proof.
  induction fuel as [|fuel IH]; intros psc_code page st Hroom.
  - eexists. apply page_loop_done. lia.
  - cbn [page_loop].
    destruct (negb (pg_total st <? max_contracts_per_psc)); [eexists; reflexivity |].
    destruct (post server API_BASE (payload start_date end_date psc_code page) (pg_sent st))
      as [[e | response] sent1]; [eexists; reflexivity |].
    destruct (raise_for_status response) as [e | []]; [eexists; reflexivity |].
    destruct (json_of response) as [e | data]; [eexists; reflexivity |].
    destruct (results_of data) as [e | [results |]]; try (eexists; reflexivity).
    destruct (items results) as [awards |]; [| eexists; reflexivity].
    destruct (0 <? len awards); [| eexists; reflexivity].
    destruct (len awards <? limit_per_page) eqn:Elen; [eexists; reflexivity |].
    apply Z.ltb_ge in Elen. apply IH. cbn [pg_total].
    unfold limit_per_page, max_contracts_per_psc in *. lia.
Qed.

Lemma page_loop_fuel fuel : forall psc_code page st r fuel',
  page_loop server start_date end_date fuel psc_code page st = Some r ->
  (fuel <= fuel')%nat ->
  page_loop server start_date end_date fuel' psc_code page st = Some r.
Proof.
  induction fuel as [|fuel IH]; intros psc_code page st r fuel' H Hle.
  - cbn [page_loop] in H.
    destruct (negb (pg_total st <? max_contracts_per_psc)) eqn:E; [| discriminate].
    destruct fuel'; cbn [page_loop]; rewrite E; exact H.
  - destruct fuel' as [|fuel']; [lia |].
    cbn [page_loop] in *.
    destruct (negb (pg_total st <? max_contracts_per_psc)); [exact H |].
    destruct (post server API_BASE (payload start_date end_date psc_code page) (pg_sent st))
      as [[e | response] sent1]; [exact H |].
    destruct (raise_for_status response) as [e | []]; [exact H |].
    destruct (json_of response) as [e | data]; [exact H |].
    destruct (results_of data) as [e | [results |]]; try exact H.
    destruct (items results) as [awards |]; [| exact H].
    destruct (0 <? len awards); [| exact H].
    destruct (len awards <? limit_per_page); [exact H |].
    apply IH; [exact H | lia].
Qed.

(** Full pages only: the loop stops at the cap of the PSC code. *)
Lemma page_loop_full (Hfull : always_full server usa_page limit_per_page) (n : nat) :
  forall fuel psc_code page st,
  (n <= fuel)%nat ->
  pg_total st + limit_per_page * Z.of_nat n = max_contracts_per_psc ->
  exists st',
    page_loop server start_date end_date fuel psc_code page st = Some (inr tt, st') /\
    pg_total st' = max_contracts_per_psc /\
    len (pg_awards st') = len (pg_awards st) + limit_per_page * Z.of_nat n /\
    length (pg_sent st') = (length (pg_sent st) + n)%nat.
Proof.
  induction n as [|n IH]; intros fuel psc_code page st Hn Htot.
  - unfold limit_per_page, max_contracts_per_psc in *.
    exists st. split; [apply page_loop_done; unfold max_contracts_per_psc; lia |].
    repeat split; lia.
  - destruct fuel as [|fuel]; [lia |].
    destruct (Hfull (pg_sent st)
                (mkRequest POST API_BASE [] (Some (payload start_date end_date psc_code page)) 30))
      as [resp [awards [Hreply [Hpage Hsize]]]].
    fold (len awards) in Hsize.
    unfold limit_per_page, max_contracts_per_psc in *.
    assert (Hlt : pg_total st < max_contracts_per_psc) by (unfold max_contracts_per_psc; lia).
    rewrite (page_loop_page _ _ _ _ _ _ Hlt Hreply Hpage).
    cbn zeta. unfold limit_per_page.
    replace (0 <? len awards) with true by (symmetry; apply Z.ltb_lt; lia).
    replace (len awards <? 100) with false by (symmetry; apply Z.ltb_ge; lia).
    destruct (IH fuel psc_code (page + 1)
                (mkPages (pg_awards st ++ awards) (pg_total st + len awards)
                   (pg_sent st ++
                    [mkRequest POST API_BASE [] (Some (payload start_date end_date psc_code page)) 30])))
      as [st' [Hrun [Htot' [Hlen' Hsent']]]].
    + lia.
    + cbn [pg_total]. lia.
    + exists st'. split; [exact Hrun |]. split; [exact Htot' |].
      cbn [pg_awards pg_sent] in Hlen', Hsent'. rewrite ulen_app in Hlen'.
      rewrite length_app in Hsent'. cbn in Hsent'. split; lia.
Qed.

(** Full pages, then a shorter one: the loop stops at that page. *)
Lemma page_loop_short (k : nat) :
  forall fuel psc_code page st,
  first_short_page server usa_page limit_per_page (length (pg_sent st)) k ->
  (k < fuel)%nat ->
  pg_total st + limit_per_page * Z.of_nat (S k) <= max_contracts_per_psc ->
  exists st',
    page_loop server start_date end_date fuel psc_code page st = Some (inr tt, st') /\
    pg_total st + limit_per_page * Z.of_nat k <= pg_total st' <
      pg_total st + limit_per_page * Z.of_nat (S k) /\
    length (pg_sent st') = (length (pg_sent st) + S k)%nat.
Proof.
  induction k as [|k IH]; intros fuel psc_code page st [Hfull Hshort] Hfuel Hroom.
  - destruct fuel as [|fuel]; [lia |].
    destruct (Hshort (pg_sent st) ltac:(lia)
                (mkRequest POST API_BASE [] (Some (payload start_date end_date psc_code page)) 30))
      as [resp [awards [Hreply [Hpage Hsize]]]].
    fold (len awards) in Hsize.
    unfold limit_per_page, max_contracts_per_psc in *.
    assert (Hlt : pg_total st < max_contracts_per_psc) by (unfold max_contracts_per_psc; lia).
    rewrite (page_loop_page _ _ _ _ _ _ Hlt Hreply Hpage).
    cbn zeta. unfold limit_per_page.
    assert (Hnn : 0 <= len awards) by (unfold len; lia).
    destruct (0 <? len awards) eqn:E0.
    + replace (len awards <? 100) with true by (symmetry; apply Z.ltb_lt; lia).
      eexists. split; [reflexivity |]. cbn [pg_total pg_sent].
      apply Z.ltb_lt in E0. rewrite length_app. cbn. split; lia.
    + eexists. split; [reflexivity |]. cbn [pg_total pg_sent].
      rewrite length_app. cbn. split; lia.
  - destruct fuel as [|fuel]; [lia |].
    destruct (Hfull (pg_sent st) ltac:(lia)
                (mkRequest POST API_BASE [] (Some (payload start_date end_date psc_code page)) 30))
      as [resp [awards [Hreply [Hpage Hsize]]]].
    fold (len awards) in Hsize.
    unfold limit_per_page, max_contracts_per_psc in *.
    assert (Hlt : pg_total st < max_contracts_per_psc) by (unfold max_contracts_per_psc; lia).
    rewrite (page_loop_page _ _ _ _ _ _ Hlt Hreply Hpage).
    cbn zeta. unfold limit_per_page.
    replace (0 <? len awards) with true by (symmetry; apply Z.ltb_lt; lia).
    replace (len awards <? 100) with false by (symmetry; apply Z.ltb_ge; lia).
    destruct (IH fuel psc_code (page + 1)
                (mkPages (pg_awards st ++ awards) (pg_total st + len awards)
                   (pg_sent st ++
                    [mkRequest POST API_BASE [] (Some (payload start_date end_date psc_code page)) 30])))
      as [st' [Hrun [Htot' Hsent']]].
    + cbn [pg_sent]. rewrite length_app. cbn [length]. split.
      * intros hist Hh. apply Hfull. lia.
      * intros hist Hh. apply Hshort. lia.
    + lia.
    + cbn [pg_total]. lia.
    + exists st'. split; [exact Hrun |]. cbn [pg_total pg_sent] in Htot', Hsent'.
      rewrite length_app in Hsent'. cbn in Hsent'. split; lia.
Qed.

End UsaPagination.

(* ------------------------------------------------------------------ *)
(** ** Pagination: both loops stop *)
(* ------------------------------------------------------------------ *)

Section Pagination.
Import Py Requests BaseScraper.

Lemma psc_loop_terminates server start_date end_date fuel codes :
  (20 <= fuel)%nat ->
  forall all_awards sent,
  exists r, USASpendingScraper.psc_loop server start_date end_date fuel codes all_awards sent
            = Some r.
Proof.
  intros Hfuel. induction codes as [|psc_code rest IH]; intros all_awards sent.
  - eexists. reflexivity.
  - cbn [USASpendingScraper.psc_loop].
    destruct (page_loop_terminates server start_date end_date fuel psc_code 1
                (USASpendingScraper.mkPages all_awards 0 sent)) as [[out st] Hr].
    + cbn [USASpendingScraper.pg_total]. unfold USASpendingScraper.limit_per_page,
        USASpendingScraper.max_contracts_per_psc. lia.
    + rewrite Hr. apply IH.
Qed.

Lemma psc_loop_fuel server start_date end_date fuel fuel' codes :
  (fuel <= fuel')%nat ->
  forall all_awards sent r,
  USASpendingScraper.psc_loop server start_date end_date fuel codes all_awards sent = Some r ->
  USASpendingScraper.psc_loop server start_date end_date fuel' codes all_awards sent = Some r.
Proof.
  intros Hle. induction codes as [|psc_code rest IH]; intros all_awards sent r H;
    cbn [USASpendingScraper.psc_loop] in *; [exact H |].
  destruct (USASpendingScraper.page_loop server start_date end_date fuel psc_code 1 _)
    as [[out st] |] eqn:E; [| discriminate].
  rewrite (page_loop_fuel server start_date end_date fuel _ _ _ _ fuel' E Hle).
  apply IH. exact H.
Qed.

Lemma psc_loop_full server start_date end_date fuel
  (Hfull : always_full server usa_page USASpendingScraper.limit_per_page) codes :
  (20 <= fuel)%nat ->
  forall all_awards sent,
  exists all_awards' sent',
    USASpendingScraper.psc_loop server start_date end_date fuel codes all_awards sent
      = Some (all_awards', sent') /\
    USASpendingScraper.len all_awards' =
      USASpendingScraper.len all_awards + 2000 * Z.of_nat (length codes) /\
    length sent' = (length sent + 20 * length codes)%nat.
Proof.
  intros Hfuel. induction codes as [|psc_code rest IH]; intros all_awards sent.
  - exists all_awards, sent. split; [reflexivity |]. cbn. split; lia.
  - cbn [USASpendingScraper.psc_loop].
    destruct (page_loop_full server start_date end_date Hfull 20 fuel psc_code 1
                (USASpendingScraper.mkPages all_awards 0 sent)) as [st [Hr [_ [Hlen Hsent]]]].
    + exact Hfuel.
    + reflexivity.
    + rewrite Hr. destruct (IH (USASpendingScraper.pg_awards st) (USASpendingScraper.pg_sent st))
        as [all' [sent' [Hrun [Hlen' Hsent']]]].
      exists all', sent'. split; [exact Hrun |].
      cbn in Hlen, Hsent. unfold USASpendingScraper.limit_per_page in Hlen.
      cbn [length]. split; lia.
Qed.

(** C8: with turns enough for twenty pages, both fetch loops return,
    whatever the server does, and more turns do not change what they
    return.  When every request gets a full page the
    EIA loop stops at its safety limit, with 100000 records after 20
    requests, and the USASpending loop at its cap, with 2000 contracts
    for each PSC code after 20 requests each; when a page comes back
    with fewer records than the page size after [k] full ones, the
    loop stops at that page, after [k + 1] requests. *)
Theorem pagination_stops (server : Server) (api_key start_date end_date : string)
  (sent : list Request) (fuel : nat) :
  (20 <= fuel)%nat ->
  (exists r, EIADieselScraper._fetch_via_api server api_key 20 sent = Some r /\
             EIADieselScraper._fetch_via_api server api_key fuel sent = Some r) /\
  (exists r, USASpendingScraper.fetch server start_date end_date 20 sent = Some r /\
             USASpendingScraper.fetch server start_date end_date fuel sent = Some r) /\
  (always_full server eia_page EIADieselScraper.length_ ->
   exists all_data sent',
     EIADieselScraper._fetch_via_api server api_key fuel sent =
       Some (inr (EIADieselScraper.ApiRecords all_data), sent') /\
     Z.of_nat (length all_data) = 100000 /\
     length sent' = (length sent + 20)%nat) /\
  (forall k, (k < 20)%nat ->
   first_short_page server eia_page EIADieselScraper.length_ (length sent) k ->
   exists all_data sent',
     EIADieselScraper._fetch_via_api server api_key fuel sent =
       Some (inr (EIADieselScraper.ApiRecords all_data), sent') /\
     5000 * Z.of_nat k <= Z.of_nat (length all_data) < 5000 * Z.of_nat (S k) /\
     length sent' = (length sent + S k)%nat) /\
  (always_full server usa_page USASpendingScraper.limit_per_page ->
   (forall psc_code all_awards,
    exists st,
      USASpendingScraper.page_loop server start_date end_date fuel psc_code 1
        (USASpendingScraper.mkPages all_awards 0 sent) = Some (inr tt, st) /\
      USASpendingScraper.pg_total st = 2000 /\
      Z.of_nat (length (USASpendingScraper.pg_awards st)) =
        Z.of_nat (length all_awards) + 2000 /\
      length (USASpendingScraper.pg_sent st) = (length sent + 20)%nat) /\
   exists all_awards sent',
     USASpendingScraper.fetch server start_date end_date fuel sent =
       Some (all_awards, sent') /\
     Z.of_nat (length all_awards) = 4000 /\
     length sent' = (length sent + 40)%nat) /\
  (forall k psc_code all_awards, (k < 20)%nat ->
   first_short_page server usa_page USASpendingScraper.limit_per_page (length sent) k ->
   exists st,
     USASpendingScraper.page_loop server start_date end_date fuel psc_code 1
       (USASpendingScraper.mkPages all_awards 0 sent) = Some (inr tt, st) /\
     100 * Z.of_nat k <= USASpendingScraper.pg_total st < 100 * Z.of_nat (S k) /\
     length (USASpendingScraper.pg_sent st) = (length sent + S k)%nat).
Proof.
  intros Hfuel.
  split; [| split; [| split; [| split; [| split]]]].
  - unfold EIADieselScraper._fetch_via_api.
    destruct (api_loop_terminates server api_key 20 [] 0 sent) as [[ex sent1] Hr].
    + lia.
    + unfold EIADieselScraper.safety_limit, EIADieselScraper.length_, EIADieselScraper.len.
      cbn [length]. lia.
    + rewrite (api_loop_fuel server api_key 20 _ _ _ _ fuel Hr Hfuel), Hr.
      destruct ex as [all_data | | e].
      * eexists. split; reflexivity.
      * destruct (EIADieselScraper._fetch_via_web_scraping server sent1) as [[e | ok] s1];
          eexists; split; reflexivity.
      * eexists. split; reflexivity.
  - unfold USASpendingScraper.fetch.
    destruct (psc_loop_terminates server start_date end_date 20
                USASpendingScraper.FREIGHT_PSC_CODES (le_n 20) [] sent) as [r Hr].
    exists r. split; [exact Hr |].
    exact (psc_loop_fuel server start_date end_date 20 fuel _ Hfuel _ _ _ Hr).
  - intros Hfull.
    destruct (api_loop_full server api_key Hfull 20 fuel [] 0 sent)
      as [all' [sent' [Hrun [Hlen Hsent]]]].
    + lia.
    + reflexivity.
    + exists all', sent'. unfold EIADieselScraper._fetch_via_api. rewrite Hrun.
      split; [reflexivity |]. split; [exact Hlen | exact Hsent].
  - intros k Hk Hshort.
    destruct (api_loop_short server api_key k fuel [] 0 sent Hshort)
      as [all' [sent' [Hrun [Hlen Hsent]]]].
    + lia.
    + unfold EIADieselScraper.safety_limit, EIADieselScraper.length_, EIADieselScraper.len.
      cbn [length]. lia.
    + exists all', sent'. unfold EIADieselScraper._fetch_via_api. rewrite Hrun.
      split; [reflexivity |]. split; [| exact Hsent].
      unfold EIADieselScraper.len, EIADieselScraper.length_ in Hlen. cbn [length] in Hlen. lia.
  - intros Hfull. split.
    + intros psc_code all_awards.
      destruct (page_loop_full server start_date end_date Hfull 20 fuel psc_code 1
                  (USASpendingScraper.mkPages all_awards 0 sent))
        as [st [Hr [Htot [Hlen Hsent]]]].
      * exact Hfuel.
      * reflexivity.
      * exists st. split; [exact Hr |]. split; [exact Htot |].
        cbn in Hlen, Hsent. unfold USASpendingScraper.len, USASpendingScraper.limit_per_page in Hlen.
        split; [lia | exact Hsent].
    + destruct (psc_loop_full server start_date end_date fuel Hfull
                  USASpendingScraper.FREIGHT_PSC_CODES Hfuel [] sent)
        as [all' [sent' [Hrun [Hlen Hsent]]]].
      exists all', sent'. split; [exact Hrun |].
      unfold USASpendingScraper.len in Hlen. cbn in Hlen, Hsent. split; lia.
  - intros k psc_code all_awards Hk Hshort.
    destruct (page_loop_short server start_date end_date k fuel psc_code 1
                (USASpendingScraper.mkPages all_awards 0 sent) Hshort)
      as [st [Hr [Htot Hsent]]].
    + lia.
    + cbn [USASpendingScraper.pg_total].
      unfold USASpendingScraper.limit_per_page, USASpendingScraper.max_contracts_per_psc. lia.
    + exists st. split; [exact Hr |].
      cbn in Htot, Hsent. unfold USASpendingScraper.limit_per_page in Htot.
      split; [lia | exact Hsent].
Qed.

Lemma eia_endless_full :
  always_full Samples.eia_endless eia_page EIADieselScraper.length_.
Proof.
  intros hist req. eexists _, _. split; [reflexivity |]. split; [reflexivity |].
  vm_compute. reflexivity.
Qed.

Lemma usa_endless_full :
  always_full Samples.usa_endless usa_page USASpendingScraper.limit_per_page.
Proof.
  intros hist req. eexists _, _. split; [reflexivity |]. split; [reflexivity |].
  vm_compute. reflexivity.
Qed.

(** Twenty turns against servers that never run dry. *)
Lemma pagination_stops_witness :
  (exists all_data sent',
     EIADieselScraper._fetch_via_api Samples.eia_endless "key" 20 [] =
       Some (inr (EIADieselScraper.ApiRecords all_data), sent') /\
     Z.of_nat (length all_data) = 100000 /\ length sent' = 20%nat) /\
  (exists all_awards sent',
     USASpendingScraper.fetch Samples.usa_endless "2022-12-03" "2024-12-02" 20 [] =
       Some (all_awards, sent') /\
     Z.of_nat (length all_awards) = 4000 /\ length sent' = 40%nat).
Proof.
  split.
  - destruct (pagination_stops Samples.eia_endless "key" "2022-12-03" "2024-12-02" [] 20)
      as [_ [_ [H _]]]; [lia |].
    exact (H eia_endless_full).
  - destruct (pagination_stops Samples.usa_endless "key" "2022-12-03" "2024-12-02" [] 20)
      as [_ [_ [_ [_ [H _]]]]]; [lia |].
    exact (proj2 (H usa_endless_full)).
Defined.

End Pagination.

(* ------------------------------------------------------------------ *)
(** ** The daily fact table: two jobs, one row *)
(* ------------------------------------------------------------------ *)

Section DailyRows.
Import Py Database.

Lemma getattr_setattr_same r f v : DailyMetric.getattr (DailyMetric.setattr r f v) f = v.
Proof. destruct f; reflexivity. Qed.

Lemma getattr_setattr_other r f f' v :
  f' <> f -> DailyMetric.getattr (DailyMetric.setattr r f v) f' = DailyMetric.getattr r f'.
Proof. destruct f, f'; intros H; try reflexivity; contradiction. Qed.

Lemma getattr_set_source r f v :
  DailyMetric.getattr (DailyMetric.set_source v r) f = DailyMetric.getattr r f.
Proof. destruct f; reflexivity. Qed.

Lemma setattr_meta r f v :
  DailyMetric.date (DailyMetric.setattr r f v) = DailyMetric.date r /\
  DailyMetric.confidence (DailyMetric.setattr r f v) = DailyMetric.confidence r /\
  DailyMetric.source (DailyMetric.setattr r f v) = DailyMetric.source r.
Proof. destruct f; repeat split. Qed.

Lemma others_kept_refl own r : others_kept own r r.
Proof. repeat split. Qed.

Lemma others_kept_trans own r1 r2 r3 :
  others_kept own r1 r2 -> others_kept own r2 r3 -> others_kept own r1 r3.
Proof.
  intros [D1 [C1 F1]] [D2 [C2 F2]]. split; [congruence |]. split; [congruence |].
  intros f Hf. rewrite (F2 f Hf). exact (F1 f Hf).
Qed.

(** A row after [setattr] of [f] and a possible new source label. *)
Lemma others_kept_write (own : DailyField.t -> Prop) r f v (b : bool) src :
  own f ->
  others_kept own r
    (if b then DailyMetric.set_source src (DailyMetric.setattr r f v)
     else DailyMetric.setattr r f v).
Proof.
  intros Hown. destruct (setattr_meta r f v) as [Hd [Hc _]].
  destruct b; (split; [exact Hd |]; split; [exact Hc |]); intros f' Hf';
    rewrite ?getattr_set_source; apply getattr_setattr_other;
    intros ->; exact (Hf' Hown).
Qed.

End DailyRows.

Section EiaDaily.
Import Py Database EIADieselScraper.

Lemma regional_daily p s :
  daily_metrics (view (store_regional p s)) = daily_metrics (view s) /\
  new_daily (store_regional p s) = new_daily s.
Proof.
  unfold store_regional.
  destruct (List.find _ (diesel_prices (view s))); split; reflexivity.
Qed.

(** What the second half of a turn does to the row of a day. *)
Lemma national_existing p s r :
  default "UNKNOWN" (Price.region_code p) = "NUS" ->
  daily_metrics (view s) !! Price.date p = Some r ->
  exists r',
    store_national p s = with_view (put_daily (Price.date p) r') s /\
    DailyMetric.diesel_usd_per_gal r' = Some (Price.diesel_price p) /\
    others_kept (eq DailyField.diesel_usd_per_gal) r r'.
Proof.
  intros Hnus Hrow. unfold store_national. rewrite Hnus, Hrow. cbn [String.eqb].
  replace (String.eqb "NUS" "NUS") with true by reflexivity.
  eexists. split; [reflexivity |]. split.
  - destruct (FREDScraper.not_from "EIA" _); reflexivity.
  - apply (others_kept_write (eq DailyField.diesel_usd_per_gal)). reflexivity.
Qed.

Lemma national_new p s :
  default "UNKNOWN" (Price.region_code p) = "NUS" ->
  daily_metrics (view s) !! Price.date p = None ->
  store_national p s =
  add_daily (DailyMetric.setattr (DailyMetric.new (Price.date p) (Some "EIA") (Some 1%float))
               DailyField.diesel_usd_per_gal (Some (Price.diesel_price p))) s.
Proof.
  intros Hnus Hrow. unfold store_national. rewrite Hnus, Hrow.
  replace (String.eqb "NUS" "NUS") with true by reflexivity. reflexivity.
Qed.

Lemma national_other p s :
  default "UNKNOWN" (Price.region_code p) <> "NUS" -> store_national p s = s.
Proof.
  intros Hnus. unfold store_national.
  destruct (String.eqb _ "NUS") eqn:E; [| reflexivity].
  apply String.eqb_eq in E. contradiction.
Qed.

Lemma nus_dec p : {default "UNKNOWN" (Price.region_code p) = "NUS"} +
                  {default "UNKNOWN" (Price.region_code p) <> "NUS"}.
Proof. apply String.string_dec. Qed.

Lemma store_price_pending all p s :
  In p all -> pending_supplied all s -> pending_supplied all (store_price s p).
Proof.
  intros Hin Hinv. unfold store_price.
  destruct (regional_daily p s) as [Hv Hn].
  destruct (nus_dec p) as [Hnus | Hnus]; [| rewrite national_other by exact Hnus;
    intros r Hr; apply Hinv; rewrite <- Hn; exact Hr].
  destruct (daily_metrics (view (store_regional p s)) !! Price.date p) as [r0|] eqn:E.
  - destruct (national_existing p _ r0 Hnus E) as [r' [-> _]].
    intros r Hr. apply Hinv. rewrite <- Hn. exact Hr.
  - rewrite (national_new p _ Hnus E). intros r Hr. cbn [new_daily add_daily] in Hr.
    apply in_app_or in Hr. destruct Hr as [Hr | [<- | []]].
    + apply Hinv. rewrite <- Hn. exact Hr.
    + exists p. split; [exact Hin |]. split; [split; [reflexivity | exact Hnus] | reflexivity].
Qed.

Lemma store_price_day_kept all p s d :
  In p all -> day_supplied all d s -> day_supplied all d (store_price s p).
Proof.
  intros Hin Hday. unfold store_price.
  destruct (regional_daily p s) as [Hv Hn].
  destruct (nus_dec p) as [Hnus | Hnus];
    [| rewrite national_other by exact Hnus; unfold day_supplied; rewrite Hv, Hn; exact Hday].
  destruct (daily_metrics (view (store_regional p s)) !! Price.date p) as [r0|] eqn:E.
  - destruct (national_existing p _ r0 Hnus E) as [r' [-> [Hdiesel _]]].
    unfold day_supplied. cbn [view with_view put_daily daily_metrics new_daily].
    destruct (decide (Price.date p = d)) as [<- | Hne].
    + left. exists r'. rewrite lookup_insert_eq. split; [reflexivity |].
      exists p. split; [exact Hin |]. split; [split; [reflexivity | exact Hnus] | exact Hdiesel].
    + rewrite lookup_insert_ne by exact Hne. rewrite Hv, Hn. exact Hday.
  - rewrite (national_new p _ Hnus E). unfold day_supplied.
    cbn [view add_daily daily_metrics new_daily]. rewrite Hv, Hn.
    destruct Hday as [Hl | [Hnone [r [Hr Hd]]]]; [left; exact Hl |].
    right. split; [exact Hnone |]. exists r. split; [apply in_or_app; left; exact Hr | exact Hd].
Qed.

Lemma store_price_day_new all p s d :
  In p all -> nus_price_for d p -> pending_supplied all s ->
  day_supplied all d (store_price s p).
Proof.
  intros Hin [Hd Hnus] Hinv. subst d. unfold store_price.
  destruct (regional_daily p s) as [Hv Hn].
  destruct (daily_metrics (view (store_regional p s)) !! Price.date p) as [r0|] eqn:E.
  - destruct (national_existing p _ r0 Hnus E) as [r' [-> [Hdiesel _]]].
    left. exists r'. cbn [view with_view put_daily daily_metrics].
    rewrite lookup_insert_eq. split; [reflexivity |].
    exists p. split; [exact Hin |]. split; [split; [reflexivity | exact Hnus] | exact Hdiesel].
  - rewrite (national_new p _ Hnus E). right.
    cbn [view add_daily daily_metrics new_daily]. split; [exact E |].
    eexists. split; [apply in_or_app; right; left; reflexivity |].
    apply setattr_meta.
Qed.

Lemma store_prices_supplied all d prices : forall s,
  incl prices all ->
  pending_supplied all s ->
  day_supplied all d s \/ (exists p, In p prices /\ nus_price_for d p) ->
  pending_supplied all (fold_left store_price prices s) /\
  day_supplied all d (fold_left store_price prices s).
Proof.
  induction prices as [|p rest IH]; intros s Hincl Hinv Hday; cbn [fold_left].
  - split; [exact Hinv |]. destruct Hday as [H | [p [[] _]]]. exact H.
  - assert (Hp : In p all) by (apply Hincl; left; reflexivity).
    assert (Hrest : incl rest all) by (intros x Hx; apply Hincl; right; exact Hx).
    apply IH; [exact Hrest | exact (store_price_pending all p s Hp Hinv) |].
    destruct Hday as [H | [q [[<- | Hq] Hnus]]].
    + left. exact (store_price_day_kept all p s d Hp H).
    + left. exact (store_price_day_new all p s d Hp Hnus Hinv).
    + right. exists q. auto.
Qed.

Lemma store_price_kept p s d r :
  daily_metrics (view s) !! d = Some r ->
  exists r', daily_metrics (view (store_price s p)) !! d = Some r' /\
             others_kept (eq DailyField.diesel_usd_per_gal) r r'.
Proof.
  intros Hrow. unfold store_price. destruct (regional_daily p s) as [Hv Hn].
  rewrite <- Hv in Hrow.
  destruct (nus_dec p) as [Hnus | Hnus];
    [| rewrite national_other by exact Hnus; exists r; split;
       [exact Hrow | apply others_kept_refl]].
  destruct (daily_metrics (view (store_regional p s)) !! Price.date p) as [r0|] eqn:E.
  - destruct (national_existing p _ r0 Hnus E) as [r' [-> [_ Hkept]]].
    cbn [view with_view put_daily daily_metrics].
    destruct (decide (Price.date p = d)) as [<- | Hne].
    + rewrite lookup_insert_eq. exists r'. split; [reflexivity |].
      rewrite E in Hrow. injection Hrow as <-. exact Hkept.
    + rewrite lookup_insert_ne by exact Hne. exists r. split; [exact Hrow | apply others_kept_refl].
  - rewrite (national_new p _ Hnus E). exists r. split; [exact Hrow | apply others_kept_refl].
Qed.

Lemma store_prices_kept prices : forall s d r,
  daily_metrics (view s) !! d = Some r ->
  exists r', daily_metrics (view (fold_left store_price prices s)) !! d = Some r' /\
             others_kept (eq DailyField.diesel_usd_per_gal) r r'.
Proof.
  induction prices as [|p rest IH]; intros s d r Hrow; cbn [fold_left].
  - exists r. split; [exact Hrow | apply others_kept_refl].
  - destruct (store_price_kept p s d r Hrow) as [r1 [H1 K1]].
    destruct (IH _ d r1 H1) as [r2 [H2 K2]].
    exists r2. split; [exact H2 | exact (others_kept_trans _ _ _ _ K1 K2)].
Qed.

(** After a store of the EIA job that returns, each day with a
    national price in the batch has its row, with a price of the batch. *)
Lemma eia_store_supplies flt prices db db1 d :
  store flt prices db = (Returned, db1) ->
  (exists p, In p prices /\ nus_price_for d p) ->
  exists r, daily_metrics db1 !! d = Some r /\ diesel_supplied prices d r.
Proof.
  intros Hret Hsome. unfold store in Hret. apply transaction_returned in Hret.
  destruct Hret as [s [s' [Hbody [Hflush ->]]]]. injection Hbody as <-.
  destruct (store_prices_supplied prices d prices (SessionLocal db)) as [Hinv Hday].
  - intros x Hx. exact Hx.
  - intros r [].
  - right. exact Hsome.
  - apply flush_returned in Hflush.
    destruct Hflush as [_ [news [daily [macro [_ [Hd [_ ->]]]]]]].
    cbn [view daily_metrics].
    destruct (insert_rows_spec _ _ daily_guards _ _ _ Hd) as [_ [_ Hlook]].
    destruct Hday as [[r [Hr Hsup]] | [Hnone [r [Hr Hdate]]]].
    + exists r. split; [| exact Hsup].
      exact (insert_rows_keeps _ _ daily_guards _ _ _ _ _ Hd Hr).
    + rewrite Hlook.
      destruct (pending_for DailyMetric.date d _) as [r'|] eqn:E.
      * apply pending_for_some in E. destruct E as [Hin' Hdate'].
        exists r'. split; [reflexivity |]. rewrite <- Hdate'. exact (Hinv r' Hin').
      * exfalso. apply (proj1 (pending_for_none DailyMetric.date d _) E r Hr Hdate).
Qed.

(** A store of the EIA job leaves, in a row that was there, all but
    the diesel price and the source label as they were. *)
Lemma eia_store_keeps flt prices db d r0 :
  daily_metrics db !! d = Some r0 ->
  exists r, daily_metrics (snd (store flt prices db)) !! d = Some r /\
            others_kept (eq DailyField.diesel_usd_per_gal) r0 r.
Proof.
  intros Hrow. unfold store.
  destruct (transaction_state flt (fun s => inr (fold_left store_price prices s)) db)
    as [Hsame | [s [s' [Hbody [Hflush Hret]]]]].
  - rewrite Hsame. exists r0. split; [exact Hrow | apply others_kept_refl].
  - rewrite Hret. cbn [snd]. injection Hbody as <-.
    destruct (store_prices_kept prices (SessionLocal db) d r0 Hrow) as [r [Hr Hk]].
    exists r. split; [| exact Hk].
    apply flush_returned in Hflush.
    destruct Hflush as [_ [news [daily [macro [_ [Hd [_ ->]]]]]]].
    exact (insert_rows_keeps _ _ daily_guards _ _ _ _ _ Hd Hr).
Qed.

End EiaDaily.

Section FredDaily.
Import Py Database FREDScraper.

Lemma clean_SessionLocal db : clean (SessionLocal db).
Proof. repeat split. Qed.

Lemma field_eq_dec (f g : DailyField.t) : {f = g} + {f <> g}.
Proof. decide equality. Qed.

Lemma fred_columns_dec obs d f : fred_columns obs d f \/ ~ fred_columns obs d f.
Proof.
  induction obs as [|m rest IH].
  - right. intros [m [[] _]].
  - destruct IH as [[m' [Hin Hm']] | Hno].
    + left. exists m'. split; [right; exact Hin | exact Hm'].
    + destruct (String.string_dec (DailyObs.date m) d) as [Hd | Hd];
        [destruct (field_eq_dec (DailyObs.field m) f) as [Hf | Hf] |].
      * left. exists m. split; [left; reflexivity | auto].
      * right. intros [m' [[<- | Hin] [Hd' Hf']]]; [contradiction |].
        apply Hno. exists m'. auto.
      * right. intros [m' [[<- | Hin] [Hd' Hf']]]; [contradiction |].
        apply Hno. exists m'. auto.
Qed.

Lemma others_kept_weaken (own own' : DailyField.t -> Prop) r r' :
  (forall f, own f -> own' f) -> others_kept own r r' -> others_kept own' r r'.
Proof.
  intros Hsub [Hd [Hc Hf]]. split; [exact Hd |]. split; [exact Hc |].
  intros f Hn. apply Hf. intros Ho. exact (Hn (Hsub f Ho)).
Qed.

(** A flush of a session whose only pending row is a new daily row. *)
Lemma flush_one_daily flt s r s' :
  clean s ->
  daily_metrics (view s) !! DailyMetric.date r = None ->
  flush flt (add_daily r s) = inr s' ->
  clean s' /\
  daily_metrics (view s') = <[DailyMetric.date r := r]> (daily_metrics (view s)).
Proof.
  intros [Hn [Hd [Hp Hm]]] Hfree. unfold flush.
  cbn [flushes add_daily new_news new_daily new_macro new_diesel view]. rewrite Hn, Hd, Hm.
  destruct (flt (flushes s)); [discriminate |].
  unfold insert_news, insert_daily, insert_macro. cbn [app insert_rows].
  unfold daily_violation, has_key. rewrite Hfree.
  intros H. injection H as <-. split; [repeat split | reflexivity].
Qed.

Lemma flush_one_macro flt s r s' :
  clean s ->
  macro_metrics (view s) !! MacroMetric.month r = None ->
  flush flt (add_macro r s) = inr s' ->
  clean s' /\ daily_metrics (view s') = daily_metrics (view s).
Proof.
  intros [Hn [Hd [Hp Hm]]] Hfree. unfold flush.
  cbn [flushes add_macro new_news new_daily new_macro new_diesel view]. rewrite Hn, Hd, Hm.
  destruct (flt (flushes s)); [discriminate |].
  unfold insert_news, insert_daily, insert_macro. cbn [app insert_rows].
  unfold macro_violation, has_key. rewrite Hfree.
  intros H. injection H as <-. split; [repeat split | reflexivity].
Qed.

Lemma flush_clean_daily flt s s' :
  clean s -> flush flt s = inr s' -> daily_metrics (view s') = daily_metrics (view s).
Proof.
  intros [Hn [Hd [Hp Hm]]]. unfold flush. rewrite Hn, Hd, Hm.
  destruct (flt (flushes s)); [discriminate |].
  unfold insert_news, insert_daily, insert_macro. cbn [insert_rows].
  intros H. injection H as <-. reflexivity.
Qed.

(** One turn of the loop over the daily observations. *)
Lemma store_daily_step flt m s s' :
  clean s -> store_daily flt m s = inr s' ->
  clean s' /\
  exists r',
    daily_metrics (view s') = <[DailyObs.date m := r']> (daily_metrics (view s)) /\
    DailyMetric.getattr r' (DailyObs.field m) = Some (DailyObs.value m) /\
    (forall r0, daily_metrics (view s) !! DailyObs.date m = Some r0 ->
                others_kept (eq (DailyObs.field m)) r0 r').
Proof.
  intros Hclean. unfold store_daily.
  destruct (daily_metrics (view s) !! DailyObs.date m) as [existing|] eqn:E.
  - intros H. injection H as <-. split; [exact Hclean |].
    eexists. split; [reflexivity |]. split.
    + destruct (not_from "FRED" _); rewrite ?getattr_set_source; apply getattr_setattr_same.
    + intros r0 H0. injection H0 as <-.
      destruct (setattr_meta existing (DailyObs.field m) (Some (DailyObs.value m)))
        as [_ [_ Hsrc]].
      rewrite Hsrc.
      apply (others_kept_write (eq (DailyObs.field m))). reflexivity.
  - intros H.
    set (r := DailyMetric.setattr
                (DailyMetric.new (DailyObs.date m) (Some (DailyObs.source m)) (Some 1%float))
                (DailyObs.field m) (Some (DailyObs.value m))) in *.
    assert (Hdate : DailyMetric.date r = DailyObs.date m) by apply setattr_meta.
    destruct (flush_one_daily flt s r s' Hclean) as [Hc Hv].
    + rewrite Hdate. exact E.
    + exact H.
    + split; [exact Hc |]. exists r. rewrite Hv, Hdate. split; [reflexivity |].
      split; [apply getattr_setattr_same | discriminate].
Qed.

Lemma store_daily_fold flt obs : forall s s',
  clean s -> for_each (store_daily flt) obs s = inr s' ->
  clean s' /\
  (forall d f, fred_columns obs d f ->
     exists r, daily_metrics (view s') !! d = Some r /\ field_supplied obs d f r) /\
  (forall d r0, daily_metrics (view s) !! d = Some r0 ->
     exists r, daily_metrics (view s') !! d = Some r /\
               others_kept (fred_columns obs d) r0 r).
Proof.
  induction obs as [|m rest IH]; intros s s' Hclean Hrun; cbn [for_each] in Hrun.
  - injection Hrun as <-. split; [exact Hclean |]. split.
    + intros d f [m [[] _]].
    + intros d r0 H0. exists r0. split; [exact H0 | apply others_kept_refl].
  - destruct (store_daily flt m s) as [e | s1] eqn:Estep; [discriminate |].
    destruct (store_daily_step flt m s s1 Hclean Estep) as [Hc1 [r1 [Hv1 [Hval Hkept1]]]].
    destruct (IH s1 s' Hc1 Hrun) as [Hc' [Hsup Hkeep]].
    split; [exact Hc' |].
    assert (Hkeep' : forall d r0, daily_metrics (view s) !! d = Some r0 ->
              exists r, daily_metrics (view s') !! d = Some r /\
                        others_kept (fred_columns (m :: rest) d) r0 r).
    { intros d r0 H0.
      destruct (decide (DailyObs.date m = d)) as [Hd | Hd].
      - assert (H1 : daily_metrics (view s1) !! d = Some r1)
          by (rewrite Hv1, <- Hd; apply lookup_insert_eq).
        destruct (Hkeep d r1 H1) as [r [Hr Hk]]. exists r. split; [exact Hr |].
        apply (others_kept_trans _ r0 r1 r).
        + apply (others_kept_weaken (eq (DailyObs.field m))).
          * intros f <-. exists m. split; [left; reflexivity | auto].
          * apply Hkept1. rewrite Hd. exact H0.
        + apply (others_kept_weaken (fred_columns rest d)); [| exact Hk].
          intros f [m' [Hin Hm']]. exists m'. split; [right; exact Hin | exact Hm'].
      - assert (H1 : daily_metrics (view s1) !! d = Some r0)
          by (rewrite Hv1, lookup_insert_ne by exact Hd; exact H0).
        destruct (Hkeep d r0 H1) as [r [Hr Hk]]. exists r. split; [exact Hr |].
        apply (others_kept_weaken (fred_columns rest d)); [| exact Hk].
        intros f [m' [Hin Hm']]. exists m'. split; [right; exact Hin | exact Hm']. }
    split; [| exact Hkeep'].
    intros d f Hcol.
    destruct (fred_columns_dec rest d f) as [Hrest | Hnot].
    + destruct (Hsup d f Hrest) as [r [Hr [m' [Hin Hm']]]].
      exists r. split; [exact Hr |]. exists m'. split; [right; exact Hin | exact Hm'].
    + destruct Hcol as [m' [[<- | Hin] [Hd Hf]]];
        [| exfalso; apply Hnot; exists m'; auto].
      assert (H1 : daily_metrics (view s1) !! d = Some r1)
        by (rewrite Hv1, <- Hd; apply lookup_insert_eq).
      destruct (Hkeep d r1 H1) as [r [Hr [_ [_ Hk]]]].
      exists r. split; [exact Hr |]. exists m. split; [left; reflexivity |].
      split; [exact Hd |]. split; [exact Hf |].
      rewrite (Hk f Hnot). rewrite <- Hf. exact Hval.
Qed.

Lemma store_macro_step flt m s s' :
  clean s -> store_macro flt m s = inr s' ->
  clean s' /\ daily_metrics (view s') = daily_metrics (view s).
Proof.
  intros Hclean. unfold store_macro.
  destruct (macro_metrics (view s) !! MacroObs.month m) as [existing|] eqn:E.
  - intros H. injection H as <-. split; [exact Hclean | reflexivity].
  - intros H.
    set (r := MacroMetric.setattr
                (MacroMetric.new (MacroObs.month m) (Some (MacroObs.source m)) (Some 1%float))
                (MacroObs.field m) (Some (MacroObs.value m))) in *.
    assert (Hmonth : MacroMetric.month r = MacroObs.month m)
      by (unfold r; destruct (MacroObs.field m); reflexivity).
    apply (flush_one_macro flt s r s' Hclean); [rewrite Hmonth; exact E | exact H].
Qed.

Lemma store_macro_fold flt obs : forall s s',
  clean s -> for_each (store_macro flt) obs s = inr s' ->
  clean s' /\ daily_metrics (view s') = daily_metrics (view s).
Proof.
  induction obs as [|m rest IH]; intros s s' Hclean Hrun; cbn [for_each] in Hrun.
  - injection Hrun as <-. split; [exact Hclean | reflexivity].
  - destruct (store_macro flt m s) as [e | s1] eqn:Estep; [discriminate |].
    destruct (store_macro_step flt m s s1 Hclean Estep) as [Hc1 Hv1].
    destruct (IH s1 s' Hc1 Hrun) as [Hc' Hv']. split; [exact Hc' | congruence].
Qed.

(** What a store of the FRED job that returns has done to the daily
    table. *)
Lemma fred_store_returned flt parsed_data db db1 :
  store flt parsed_data db = (Returned, db1) ->
  (forall d f, fred_columns (daily parsed_data) d f ->
     exists r, daily_metrics db1 !! d = Some r /\
               field_supplied (daily parsed_data) d f r) /\
  (forall d r0, daily_metrics db !! d = Some r0 ->
     exists r, daily_metrics db1 !! d = Some r /\
               others_kept (fred_columns (daily parsed_data) d) r0 r).
Proof.
  intros Hret. unfold store in Hret. apply transaction_returned in Hret.
  destruct Hret as [s [s' [Hbody [Hflush ->]]]].
  destruct (for_each (store_daily flt) (daily parsed_data) (SessionLocal db))
    as [e | s1] eqn:E1; [discriminate |].
  destruct (store_daily_fold flt _ _ _ (clean_SessionLocal db) E1) as [Hc1 [Hsup Hkeep]].
  destruct (store_macro_fold flt _ _ _ Hc1 Hbody) as [Hc2 Hv2].
  rewrite (flush_clean_daily flt s s' Hc2 Hflush), Hv2.
  split; [exact Hsup | exact Hkeep].
Qed.

Lemma fred_store_keeps flt parsed_data db d r0 :
  daily_metrics db !! d = Some r0 ->
  exists r, daily_metrics (snd (store flt parsed_data db)) !! d = Some r /\
            others_kept (fred_columns (daily parsed_data) d) r0 r.
Proof.
  intros Hrow. destruct (store flt parsed_data db) as [[| e] db1] eqn:E.
  - cbn [snd]. exact (proj2 (fred_store_returned _ _ _ _ E) d r0 Hrow).
  - cbn [snd]. unfold store in E. apply transaction_raised in E. subst db1.
    exists r0. split; [exact Hrow | apply others_kept_refl].
Qed.

End FredDaily.

Section SparseMerge.
Import Py Database.

(** C3: the merge loses the value of the EIA job where its batch holds
    two national records for a day that has no row yet, as the answer
    of the API does, which is asked without a product filter.  Both
    records find no row, both add one, the commit raises on the key of
    [daily_metrics] and the step is rolled back: no diesel price is
    stored.  After the FRED job has stored its oil price, the row of
    the day holds the oil price and no diesel price.  The FRED job,
    which flushes after each row it adds, takes a day that comes
    twice. *)
Theorem eia_repeated_national_loses_diesel :
  let prices := [Samples.nus_price; Samples.nus_gasoline_price] in
  let parsed_data := FREDScraper.mkParsed [Samples.oil_obs] [] in
  EIADieselScraper.store no_faults prices Samples.empty_db =
    (Raised (Raise IntegrityError "UNIQUE constraint failed: daily_metrics.date"),
     Samples.empty_db) /\
  FREDScraper.store no_faults parsed_data
    (snd (EIADieselScraper.store no_faults prices Samples.empty_db)) =
    (Returned, Samples.fred_db) /\
  daily_metrics Samples.fred_db !! "2024-12-02" = Some Samples.fred_row /\
  DailyMetric.oil_price Samples.fred_row = Some 68.125%float /\
  DailyMetric.diesel_usd_per_gal Samples.fred_row = None /\
  FREDScraper.store no_faults (FREDScraper.mkParsed [Samples.oil_obs; Samples.oil_obs] [])
    Samples.empty_db = (Returned, Samples.fred_db).
Proof.
  cbn zeta.
  assert (H : EIADieselScraper.store no_faults
                [Samples.nus_price; Samples.nus_gasoline_price] Samples.empty_db =
              (Raised (Raise IntegrityError "UNIQUE constraint failed: daily_metrics.date"),
               Samples.empty_db)) by (vm_compute; reflexivity).
  split; [exact H |]. rewrite H. cbn [snd].
  split; [vm_compute; reflexivity |].
  split; [vm_compute; reflexivity |].
  split; [reflexivity |]. split; [reflexivity |].
  vm_compute. reflexivity.
Qed.

(** On a row that is there, the EIA job writes its price and the
    source label too, so the row is not the old one with the one field
    set. *)
Lemma eia_restamps_source :
  exists r',
    EIADieselScraper.store no_faults [Samples.nus_price] Samples.fred_db =
      (Returned,
       mkDB ∅ {[ "2024-12-02" := r' ]}
            [ DieselPrice.mk "2024-12-02" "NUS" (Some "U.S.") 3.5%float
                (Some "U.S. No 2 Diesel Retail Prices") (Some "EIA") ] ∅) /\
    DailyMetric.source Samples.fred_row = Some "FRED-DCOILWTICO" /\
    DailyMetric.source r' = Some "EIA" /\
    DailyMetric.oil_price r' = Some 68.125%float /\
    DailyMetric.diesel_usd_per_gal r' = Some 3.5%float /\
    r' <> DailyMetric.setattr Samples.fred_row DailyField.diesel_usd_per_gal (Some 3.5%float).
Proof.
  exists (DailyMetric.mk "2024-12-02" None None None (Some 3.5%float) None
            (Some 68.125%float) (Some "EIA") (Some 1%float)).
  split; [vm_compute; reflexivity |].
  repeat (split; [reflexivity |]).
  intros H. apply (f_equal DailyMetric.source) in H. discriminate H.
Qed.

(** X30. When the EIA job supplies the national diesel price of a day
    and the FRED job supplies another column for that day, then after
    both store steps have committed, in either order, the
    row of the day (the table is keyed by the date) holds the diesel
    price from the EIA batch and the value from the FRED batch; and on
    a row that was there, each job leaves the date, the confidence and
    every Float column but its own as they were. *)
Theorem sparse_merge_one_row (flt1 flt2 : Faults) (db db1 db2 : DB)
  (prices : list EIADieselScraper.Price.t) (parsed_data : FREDScraper.Parsed)
  (d : string) (f : DailyField.t) :
  (exists p, In p prices /\ nus_price_for d p) ->
  fred_columns (FREDScraper.daily parsed_data) d f ->
  ~ fred_columns (FREDScraper.daily parsed_data) d DailyField.diesel_usd_per_gal ->
  (EIADieselScraper.store flt1 prices db = (Returned, db1) ->
   FREDScraper.store flt2 parsed_data db1 = (Returned, db2) ->
   exists r, daily_metrics db2 !! d = Some r /\
             diesel_supplied prices d r /\
             field_supplied (FREDScraper.daily parsed_data) d f r) /\
  (FREDScraper.store flt1 parsed_data db = (Returned, db1) ->
   EIADieselScraper.store flt2 prices db1 = (Returned, db2) ->
   exists r, daily_metrics db2 !! d = Some r /\
             diesel_supplied prices d r /\
             field_supplied (FREDScraper.daily parsed_data) d f r) /\
  (forall r0, daily_metrics db !! d = Some r0 ->
     (exists r, daily_metrics (snd (EIADieselScraper.store flt1 prices db)) !! d = Some r /\
                others_kept (eq DailyField.diesel_usd_per_gal) r0 r) /\
     (exists r, daily_metrics (snd (FREDScraper.store flt1 parsed_data db)) !! d = Some r /\
                others_kept (fred_columns (FREDScraper.daily parsed_data) d) r0 r)).
Proof.
  intros Heia Hfred Hdisj.
  assert (Hne : f <> DailyField.diesel_usd_per_gal) by (intros ->; exact (Hdisj Hfred)).
  split; [| split].
  - intros H1 H2.
    destruct (eia_store_supplies _ _ _ _ d H1 Heia) as [r1 [Hr1 [p [Hp [Hnus Hdiesel]]]]].
    destruct (fred_store_returned _ _ _ _ H2) as [Hsup Hkeep].
    destruct (Hsup d f Hfred) as [r [Hr Hf]].
    destruct (Hkeep d r1 Hr1) as [r' [Hr' [_ [_ Hk]]]].
    rewrite Hr in Hr'. injection Hr' as <-.
    exists r. split; [exact Hr |]. split; [| exact Hf].
    exists p. split; [exact Hp |]. split; [exact Hnus |].
    rewrite <- Hdiesel. exact (Hk DailyField.diesel_usd_per_gal Hdisj).
  - intros H1 H2.
    destruct (fred_store_returned _ _ _ _ H1) as [Hsup _].
    destruct (Hsup d f Hfred) as [r1 [Hr1 [m [Hm [Hd [Hf Hval]]]]]].
    destruct (eia_store_supplies _ _ _ _ d H2 Heia) as [r [Hr Hdiesel]].
    destruct (eia_store_keeps flt2 prices db1 d r1 Hr1) as [r' [Hr' [_ [_ Hk]]]].
    rewrite H2 in Hr'. cbn [snd] in Hr'. rewrite Hr in Hr'. injection Hr' as <-.
    exists r. split; [exact Hr |]. split; [exact Hdiesel |].
    exists m. split; [exact Hm |]. split; [exact Hd |]. split; [exact Hf |].
    rewrite <- Hval. apply Hk. intros Heq. exact (Hne (eq_sym Heq)).
  - intros r0 H0. split.
    + exact (eia_store_keeps flt1 prices db d r0 H0).
    + exact (fred_store_keeps flt1 parsed_data db d r0 H0).
Qed.

(** The diesel price from the EIA job and the oil price from the FRED
    job meet in the row of 2024-12-02. *)
Lemma sparse_merge_one_row_witness :
  exists r,
    daily_metrics
      (snd (FREDScraper.store no_faults (FREDScraper.mkParsed [Samples.oil_obs] [])
              (snd (EIADieselScraper.store no_faults [Samples.nus_price] Samples.empty_db))))
      !! "2024-12-02" = Some r /\
    diesel_supplied [Samples.nus_price] "2024-12-02" r /\
    field_supplied [Samples.oil_obs] "2024-12-02" DailyField.oil_price r.
Proof.
  destruct (sparse_merge_one_row no_faults no_faults Samples.empty_db
              (snd (EIADieselScraper.store no_faults [Samples.nus_price] Samples.empty_db))
              (snd (FREDScraper.store no_faults (FREDScraper.mkParsed [Samples.oil_obs] [])
                      (snd (EIADieselScraper.store no_faults [Samples.nus_price]
                              Samples.empty_db))))
              [Samples.nus_price] (FREDScraper.mkParsed [Samples.oil_obs] [])
              "2024-12-02" DailyField.oil_price) as [H _].
  - exists Samples.nus_price. split; [left; reflexivity |]. split; reflexivity.
  - exists Samples.oil_obs. split; [left; reflexivity |]. split; reflexivity.
  - intros [m [[<- | []] [_ Hf]]]. discriminate Hf.
  - apply H; vm_compute; reflexivity.
Defined.

End SparseMerge.

(* ------------------------------------------------------------------ *)
(** ** News: a store that has committed is not changed by a second run *)
(* ------------------------------------------------------------------ *)

Section NewsIdempotent.
Import Py Database NewsScraper.

Lemma guarded_hit {X A} (c : A -> bool) (d : X -> bool) (w : A -> X) x a :
  c a = true -> guarded c d w x a = if d x then w a else x.
Proof. intros H. unfold guarded. rewrite H. reflexivity. Qed.

Lemma guarded_miss {X A} (c : A -> bool) (d : X -> bool) (w : A -> X) x a :
  c a = false -> guarded c d w x a = x.
Proof. intros H. unfold guarded. rewrite H. reflexivity. Qed.

(** Columns under a guard settle after one pass. *)
Lemma guarded_same_start {X A} (c : A -> bool) (d : X -> bool) (w : A -> X) l :
  forall x y, d x = true -> d y = true ->
  fold_left (guarded c d w) l x = fold_left (guarded c d w) l y \/
  (fold_left (guarded c d w) l x = x /\ fold_left (guarded c d w) l y = y).
Proof.
  induction l as [|a rest IH]; intros x y Hx Hy; cbn [fold_left].
  - right. split; reflexivity.
  - destruct (c a) eqn:Ec.
    + rewrite !(guarded_hit c d w _ a Ec), Hx, Hy. left. reflexivity.
    + rewrite !(guarded_miss c d w _ a Ec). apply IH; assumption.
Qed.

Lemma guarded_settled {X A} (c : A -> bool) (d : X -> bool) (w : A -> X) l :
  forall x, d x = false -> fold_left (guarded c d w) l x = x.
Proof.
  induction l as [|a rest IH]; intros x Hx; cbn [fold_left]; [reflexivity |].
  assert (G : guarded c d w x a = x)
    by (unfold guarded; rewrite Hx; destruct (c a); reflexivity).
  rewrite G. apply IH. exact Hx.
Qed.

Lemma guarded_idem {X A} (c : A -> bool) (d : X -> bool) (w : A -> X) l x :
  fold_left (guarded c d w) l (fold_left (guarded c d w) l x) =
  fold_left (guarded c d w) l x.
Proof.
  destruct (d (fold_left (guarded c d w) l x)) eqn:Ey.
  - destruct (d x) eqn:Ex.
    + destruct (guarded_same_start c d w l _ _ Ey Ex) as [H | [H _]]; exact H.
    + rewrite (guarded_settled c d w l x Ex) in *. congruence.
  - apply guarded_settled. exact Ey.
Qed.

(** [update_existing], column by column. *)
Lemma update_existing_columns r a :
  update_existing r a =
  NewsArticle.mk (NewsArticle.id r) (NewsArticle.source r) (NewsArticle.title r)
    (NewsArticle.url r) (NewsArticle.published_at r)
    (Some (Article.summary a)) (Article.full_content a)
    (if negb (truthy_str (NewsArticle.tags r)) then Some (Article.tags a)
     else NewsArticle.tags r)
    (if eq_int (NewsArticle.importance r) 1 then Some (Article.importance a)
     else NewsArticle.importance r)
    (NewsArticle.notes r) (NewsArticle.read r).
Proof.
  unfold update_existing. destruct r as [i so ti u p su fc tg im no rd]. cbn.
  destruct (truthy_str tg); cbn; destruct (eq_int im 1); reflexivity.
Qed.

Lemma replay_columns k articles : forall r,
  replay k articles r =
  let c := fun a => String.eqb (Article.id a) k in
  NewsArticle.mk (NewsArticle.id r) (NewsArticle.source r) (NewsArticle.title r)
    (NewsArticle.url r) (NewsArticle.published_at r)
    (fold_left (guarded c (fun _ => true) (fun a => Some (Article.summary a)))
               articles (NewsArticle.summary r))
    (fold_left (guarded c (fun _ => true) Article.full_content)
               articles (NewsArticle.full_content r))
    (fold_left (guarded c (fun t => negb (truthy_str t)) (fun a => Some (Article.tags a)))
               articles (NewsArticle.tags r))
    (fold_left (guarded c (fun i => eq_int i 1) (fun a => Some (Article.importance a)))
               articles (NewsArticle.importance r))
    (NewsArticle.notes r) (NewsArticle.read r).
Proof.
  induction articles as [|a rest IH]; intros r; cbn zeta.
  - destruct r. reflexivity.
  - unfold replay in *. cbn [fold_left]. rewrite IH. cbn zeta.
    destruct (String.eqb (Article.id a) k) eqn:E.
    + rewrite !(guarded_hit (fun a0 => String.eqb (Article.id a0) k) _ _ _ a E).
      rewrite update_existing_columns. reflexivity.
    + rewrite !(guarded_miss (fun a0 => String.eqb (Article.id a0) k) _ _ _ a E).
      reflexivity.
Qed.

Lemma replay_idem k articles r :
  replay k articles (replay k articles r) = replay k articles r.
Proof.
  rewrite (replay_columns k articles (replay k articles r)).
  rewrite (replay_columns k articles r). cbn.
  rewrite !guarded_idem. reflexivity.
Qed.

Lemma update_new_article a : update_existing (new_article a) a = new_article a.
Proof.
  rewrite update_existing_columns. unfold new_article. cbn.
  destruct (Article.tags a) as [|ch t]; cbn;
    destruct (Article.importance a =? 1) eqn:E; try reflexivity;
    apply Z.eqb_eq in E; rewrite E; reflexivity.
Qed.

(** The loop of [store], seen from a key. *)
Lemma has_key_store_article s a k :
  has_key k (news_articles (view (store_article s a))) = has_key k (news_articles (view s)).
Proof.
  unfold store_article.
  destruct (news_articles (view s) !! Article.id a) as [ex|] eqn:E; [| reflexivity].
  cbn. unfold has_key. destruct (decide (Article.id a = k)) as [<- | Hne].
  - rewrite lookup_insert_eq, E. reflexivity.
  - rewrite lookup_insert_ne by exact Hne. reflexivity.
Qed.

Lemma view_after_store articles : forall s k,
  news_articles (view (fold_left store_article articles s)) !! k =
  replay k articles <$> (news_articles (view s) !! k).
Proof.
  induction articles as [|a rest IH]; intros s k; cbn [fold_left].
  - unfold replay. cbn. destruct (news_articles (view s) !! k); reflexivity.
  - rewrite IH. unfold replay. cbn [fold_left]. fold (replay k rest).
    unfold store_article.
    destruct (news_articles (view s) !! Article.id a) as [ex|] eqn:E.
    + cbn [view with_view put_news news_articles].
      destruct (String.eqb (Article.id a) k) eqn:Ek.
      * apply String.eqb_eq in Ek. subst k. rewrite lookup_insert_eq, E. reflexivity.
      * apply String.eqb_neq in Ek. rewrite lookup_insert_ne by exact Ek.
        destruct (news_articles (view s) !! k); reflexivity.
    + cbn [view add_news]. destruct (String.eqb (Article.id a) k) eqn:Ek.
      * apply String.eqb_eq in Ek. subst k. rewrite E. reflexivity.
      * destruct (news_articles (view s) !! k); reflexivity.
Qed.

Lemma pending_after_store articles : forall s,
  new_news (fold_left store_article articles s) =
  new_news s ++ map new_article (fresh_articles (news_articles (view s)) articles).
Proof.
  induction articles as [|a rest IH]; intros s; cbn [fold_left].
  - unfold fresh_articles. cbn. rewrite app_nil_r. reflexivity.
  - rewrite IH. unfold fresh_articles. cbn [List.filter].
    replace (List.filter _ rest) with
      (List.filter (fun a0 => negb (has_key (Article.id a0) (news_articles (view s)))) rest)
      by (apply List.filter_ext; intros x; rewrite has_key_store_article; reflexivity).
    unfold store_article at 1. unfold has_key at 2.
    destruct (news_articles (view s) !! Article.id a) as [ex|] eqn:E; cbn [negb].
    + reflexivity.
    + cbn [new_news add_news map]. rewrite <- app_assoc. reflexivity.
Qed.

Lemma rest_after_store articles : forall s,
  let s' := fold_left store_article articles s in
  daily_metrics (view s') = daily_metrics (view s) /\
  diesel_prices (view s') = diesel_prices (view s) /\
  macro_metrics (view s') = macro_metrics (view s) /\
  new_daily s' = new_daily s /\ new_diesel s' = new_diesel s /\
  new_macro s' = new_macro s /\ flushes s' = flushes s.
Proof.
  induction articles as [|a rest IH]; intros s; cbn [fold_left]; [repeat split |].
  cbn zeta in *. destruct (IH (store_article s a)) as [H1 [H2 [H3 [H4 [H5 [H6 H7]]]]]].
  rewrite H1, H2, H3, H4, H5, H6, H7. unfold store_article.
  destruct (news_articles (view s) !! Article.id a); repeat split.
Qed.

(** One article of the batch under a key: its turn is the only one. *)
Lemma replay_single k l : forall a r,
  NoDup (map Article.id l) -> In a l -> Article.id a = k ->
  replay k l r = update_existing r a.
Proof.
  induction l as [|b rest IH]; intros a r Hnd Hin Hk; [destruct Hin |].
  cbn [map] in Hnd. apply NoDup_cons in Hnd. destruct Hnd as [Hnotin Hnd].
  unfold replay. cbn [fold_left]. fold (replay k rest).
  destruct Hin as [<- | Hin].
  - rewrite Hk, String.eqb_refl.
    assert (Hnone : forall r', replay k rest r' = r').
    { intros r'. unfold replay. clear IH Hnd. revert r'.
      induction rest as [|c rest' IHr]; intros r'; [reflexivity |].
      cbn [fold_left]. destruct (String.eqb (Article.id c) k) eqn:E.
      - exfalso. apply String.eqb_eq in E. apply Hnotin. rewrite Hk, <- E.
        apply list_elem_of_In. left. reflexivity.
      - apply IHr. intros H. apply Hnotin. apply list_elem_of_In. right.
        apply list_elem_of_In. exact H. }
    apply Hnone.
  - destruct (String.eqb (Article.id b) k) eqn:E.
    + exfalso. apply String.eqb_eq in E. apply Hnotin. rewrite E, <- Hk.
      apply list_elem_of_In. apply in_map. exact Hin.
    + apply IH; assumption.
Qed.

Lemma replay_fresh tbl k articles r :
  has_key k tbl = false ->
  replay k (fresh_articles tbl articles) r = replay k articles r.
Proof.
  intros Hk. unfold replay, fresh_articles. revert r.
  induction articles as [|a rest IH]; intros r; [reflexivity |].
  cbn [List.filter fold_left].
  destruct (String.eqb (Article.id a) k) eqn:E.
  - apply String.eqb_eq in E. rewrite E, Hk. cbn [negb fold_left].
    rewrite <- E at 1. rewrite String.eqb_refl. apply IH.
  - destruct (negb (has_key (Article.id a) tbl)); [cbn [fold_left]; rewrite E |]; apply IH.
Qed.

Lemma fresh_articles_none tbl articles :
  (forall a, In a articles -> is_Some (tbl !! Article.id a)) ->
  fresh_articles tbl articles = [].
Proof.
  unfold fresh_articles. induction articles as [|a rest IH]; intros Hall; [reflexivity |].
  cbn [List.filter]. unfold has_key at 1.
  destruct (Hall a (or_introl eq_refl)) as [r Hr]. rewrite Hr. cbn [negb].
  apply IH. intros b Hb. apply Hall. right. exact Hb.
Qed.

(** X29. Once [store] has committed a batch, every article of the
    batch has its row, and a second run on the same batch, whether it
    commits or raises, leaves the tables exactly as the first left
    them. *)
Lemma store_twice (flt1 flt2 : Faults) (articles : list Article.t) (db db1 : DB) :
  store flt1 articles db = (Returned, db1) ->
  (forall a, In a articles -> is_Some (news_articles db1 !! Article.id a)) /\
  snd (store flt2 articles db1) = db1.
Proof.
  intros Hret. unfold store in Hret. apply transaction_returned in Hret.
  destruct Hret as [s [s' [Hbody [Hflush ->]]]]. injection Hbody as <-.
  set (s1 := fold_left store_article articles (SessionLocal db)) in *.
  destruct (rest_after_store articles (SessionLocal db)) as [R1 [R2 [R3 [R4 [R5 [R6 R7]]]]]].
  fold s1 in R1, R2, R3, R4, R5, R6, R7. cbn in R1, R2, R3, R4, R5, R6, R7.
  apply flush_returned in Hflush.
  destruct Hflush as [_ [n1 [daily [macro [Hn [Hd [Hm ->]]]]]]].
  rewrite R4 in Hd. rewrite R6 in Hm. rewrite R1 in Hd. rewrite R3 in Hm.
  unfold insert_daily in Hd. unfold insert_macro in Hm. cbn in Hd, Hm.
  injection Hd as <-. injection Hm as <-. rewrite R2, R5, app_nil_r. cbn [view].
  destruct (insert_rows_spec _ _ news_guards _ _ _ Hn) as [Hnd [Hfresh Hlook]].
  assert (Hview : forall k, news_articles (view s1) !! k =
                            replay k articles <$> (news_articles db !! k)).
  { intros k. unfold s1. rewrite view_after_store. reflexivity. }
  assert (Hpend : new_news s1 = map new_article (fresh_articles (news_articles db) articles)).
  { unfold s1. rewrite pending_after_store. reflexivity. }
  assert (Hall : forall a, In a articles -> is_Some (n1 !! Article.id a)).
  { intros a Hin. rewrite Hlook.
    destruct (pending_for NewsArticle.id (Article.id a) (new_news s1)) as [r|] eqn:E;
      [eexists; reflexivity |].
    rewrite Hview. destruct (news_articles db !! Article.id a) as [r0|] eqn:E0;
      [eexists; reflexivity |].
    exfalso. apply (proj1 (pending_for_none _ _ _) E (new_article a)); [| reflexivity].
    rewrite Hpend. apply in_map. unfold fresh_articles. apply filter_In.
    split; [exact Hin |]. unfold has_key. rewrite E0. reflexivity. }
  split; [exact Hall |].
  (* the second run *)
  set (db1 := mkDB n1 (daily_metrics db) (diesel_prices db) (macro_metrics db)).
  assert (Hfix : forall k, replay k articles <$> (n1 !! k) = n1 !! k).
  { intros k. rewrite Hlook.
    destruct (pending_for NewsArticle.id k (new_news s1)) as [r|] eqn:E.
    - apply pending_for_some in E. destruct E as [Hin Hk].
      rewrite Hpend in Hin. apply in_map_iff in Hin. destruct Hin as [a [<- Hin]].
      cbn in Hk.
      assert (Hfr : has_key k (news_articles db) = false).
      { unfold fresh_articles in Hin. apply filter_In in Hin. destruct Hin as [_ H].
        rewrite Hk in H. destruct (has_key k (news_articles db)); [discriminate | reflexivity]. }
      cbn [fmap option_fmap option_map]. f_equal.
      rewrite <- (replay_fresh (news_articles db) k articles _ Hfr).
      rewrite (replay_single k _ a); [apply update_new_article | | exact Hin | exact Hk].
      rewrite Hpend in Hnd. rewrite map_map in Hnd. exact Hnd.
    - rewrite Hview. destruct (news_articles db !! k) as [r0|]; [| reflexivity].
      cbn [fmap option_fmap option_map]. rewrite replay_idem. reflexivity. }
  set (s2 := fold_left store_article articles (SessionLocal db1)).
  destruct (rest_after_store articles (SessionLocal db1)) as [Q1 [Q2 [Q3 [Q4 [Q5 [Q6 Q7]]]]]].
  fold s2 in Q1, Q2, Q3, Q4, Q5, Q6, Q7. cbn in Q1, Q2, Q3, Q4, Q5, Q6, Q7.
  assert (Hnews2 : news_articles (view s2) = n1).
  { apply map_eq. intros k. unfold s2. rewrite view_after_store. cbn. apply Hfix. }
  assert (Hpend2 : new_news s2 = []).
  { unfold s2. rewrite pending_after_store. cbn [SessionLocal new_news view db1 news_articles app].
    rewrite (fresh_articles_none n1 articles Hall). reflexivity. }
  unfold store.
  destruct (transaction_state flt2 (fun s => inr (fold_left store_article articles s)) db1)
    as [Hsame | [sb [sb' [Hbody [Hflush Hret]]]]]; [exact Hsame |].
  rewrite Hret. cbn [snd]. injection Hbody as <-. fold s2 in Hflush.
  apply flush_returned in Hflush.
  destruct Hflush as [_ [n2 [daily2 [macro2 [Hn2 [Hd2 [Hm2 ->]]]]]]].
  rewrite Hpend2, Hnews2 in Hn2. rewrite Q4, Q1 in Hd2. rewrite Q6, Q3 in Hm2.
  unfold insert_news in Hn2. unfold insert_daily in Hd2. unfold insert_macro in Hm2.
  cbn in Hn2, Hd2, Hm2. injection Hn2 as <-. injection Hd2 as <-. injection Hm2 as <-.
  rewrite Q2, Q5, app_nil_r. reflexivity.
Qed.

End NewsIdempotent.

(* ================================================================== *)
(** * Further properties *)
(* ================================================================== *)

(* ------------------------------------------------------------------ *)
(** ** The run tracker *)
(* ------------------------------------------------------------------ *)

Section RunTracker.
Import Py Database BaseScraper.
Context {Env : Type}.
Variable utcnow : Env -> Z.




End RunTracker.


(* ------------------------------------------------------------------ *)
(** ** The orchestrator *)
(* ------------------------------------------------------------------ *)

Section Orchestrator.
Import Py Database BaseScraper RunAllScrapers.
Context {Env : Type}.

Lemma dict_set_fresh name value results :
  ~ In name (map fst results) -> dict_set name value results = results ++ [(name, value)].
Proof.
  induction results as [|[k v] rest IH]; intros Hfresh; [reflexivity |].
  cbn [dict_set]. destruct (String.eqb k name) eqn:E.
  - apply String.eqb_eq in E. exfalso. apply Hfresh. left. exact E.
  - cbn [app]. rewrite IH; [reflexivity |]. intros Hin. apply Hfresh. right. exact Hin.
Qed.

Lemma outcomes_length (jobs : list (string * @Job Env)) : forall w,
  length (outcomes jobs w) = length jobs.
Proof.
  induction jobs as [|[name job] rest IH]; intros w; [reflexivity |].
  cbn [outcomes]. destruct (job (log (Print ("Running: " +:+ name)) w)) as [[e | success] w1];
    cbn [length]; rewrite IH; reflexivity.
Qed.

(** With names that differ, every job gets an entry of its own. *)
Lemma run_jobs_distinct (jobs : list (string * @Job Env)) : forall results w,
  NoDup (map fst jobs) ->
  (forall name, In name (map fst jobs) -> ~ In name (map fst results)) ->
  fst (run_jobs jobs results w) =
  results ++ combine (map fst jobs) (map verdict (outcomes jobs w)).
Proof.
  induction jobs as [|[name job] rest IH]; intros results w Hnd Hfresh.
  - cbn. rewrite app_nil_r. reflexivity.
  - cbn [map fst] in Hnd. apply NoDup_cons in Hnd. destruct Hnd as [Hnotin Hnd].
    rewrite list_elem_of_In in Hnotin.
    assert (Hstep : forall value name', In name' (map fst rest) ->
                      ~ In name' (map fst (dict_set name value results))).
    { intros value name' Hin. rewrite dict_set_keys. intros [-> | Hres].
      - exact (Hnotin Hin).
      - apply (Hfresh name'); [right; exact Hin | exact Hres]. }
    cbn [run_jobs outcomes].
    destruct (job (log (Print ("Running: " +:+ name)) w)) as [[e | success] w1].
    + rewrite IH by auto. rewrite dict_set_fresh by (apply Hfresh; left; reflexivity).
      rewrite <- app_assoc. reflexivity.
    + rewrite IH by auto. rewrite dict_set_fresh by (apply Hfresh; left; reflexivity).
      rewrite <- app_assoc. reflexivity.
Qed.

(** The mark the exit status counts is on every verdict but that of a
    job that returned True. *)
Lemma verdict_mark (out : exn + option bool) :
  contains "❌" (verdict out) = negb (succeeded out).
Proof.
  destruct out as [e | [[|] |]]; reflexivity.
Qed.

Lemma failed_count_zero (names : list string) : forall outs : list (exn + option bool),
  length (List.filter (fun r : string * string => contains "❌" (snd r))
            (combine names (map verdict outs))) = 0%nat <->
  Forall (fun out => out = inr (Some true)) (firstn (length names) outs).
Proof.
  induction names as [|name names IH]; intros outs.
  - cbn. split; [intros _; constructor | reflexivity].
  - destruct outs as [|out outs]; [cbn; split; [intros _; constructor | reflexivity] |].
    cbn [map combine List.filter snd length firstn]. rewrite verdict_mark.
    destruct out as [e | [[|] |]]; cbn [succeeded negb length].
    + split; [discriminate | intros H; inversion H; discriminate].
    + rewrite IH. split; [intros H; constructor; [reflexivity | exact H] |].
      intros H. inversion H; assumption.
    + split; [discriminate | intros H; inversion H; discriminate].
    + split; [discriminate | intros H; inversion H; discriminate].
Qed.

(** X3. When the names of the jobs differ, [main] reports one verdict
    per job, in the order of the list, and exits with status 0 exactly
    when every job returned True: a job that returned False or None,
    or that raised, makes the status 1. *)
Theorem main_exit_status (jobs : list (string * @Job Env)) (w : World) :
  NoDup (map fst jobs) ->
  fst (fst (main jobs w)) = combine (map fst jobs) (map verdict (outcomes jobs w)) /\
  length (outcomes jobs w) = length jobs /\
  (snd (fst (main jobs w)) = 0 <->
   Forall (fun out => out = inr (Some true)) (outcomes jobs w)) /\
  (snd (fst (main jobs w)) <> 0 -> snd (fst (main jobs w)) = 1).
Proof.
  intros Hnd. unfold main.
  pose proof (run_jobs_distinct jobs [] w Hnd (fun _ _ H => H)) as Hres.
  destruct (run_jobs jobs [] w) as [results w1]. cbn [fst snd app] in *. subst results.
  split; [reflexivity |]. split; [apply outcomes_length |].
  pose proof (failed_count_zero (map fst jobs) (outcomes jobs w)) as Hcount.
  rewrite length_map, <- outcomes_length with (w := w), firstn_all in Hcount.
  destruct (length _) as [|n] eqn:En.
  - split; [| intros H; exfalso; apply H; reflexivity].
    split; [intros _; apply Hcount; reflexivity | reflexivity].
  - split; [| intros _; reflexivity].
    split; [discriminate | intros H; apply Hcount in H; discriminate].
Qed.

End Orchestrator.

(** The six names of the orchestrator's list differ; here the first
    job is one that never reaches its source. *)
Lemma main_exit_status_witness :
  NoDup (map fst (map (fun name => (name, RunAllScrapers.job_of (fun _ => 0)
                                            (Samples.unreachable 3)))
                   RunAllScrapers.scraper_names)) /\
  snd (fst (RunAllScrapers.main
              (map (fun name => (name, RunAllScrapers.job_of (fun _ => 0)
                                         (Samples.unreachable 3)))
                 RunAllScrapers.scraper_names) Samples.fresh_world)) = 1.
Proof.
  assert (Hnd : NoDup (map fst (map (fun name => (name, RunAllScrapers.job_of (fun _ => 0)
                                            (Samples.unreachable 3)))
                   RunAllScrapers.scraper_names))).
  { apply (bool_decide_unpack _). vm_compute. reflexivity. }
  split; [exact Hnd |].
  apply (main_exit_status _ Samples.fresh_world Hnd). vm_compute. discriminate.
Defined.

(* ------------------------------------------------------------------ *)
(** ** News: when the store commits, and what it writes *)
(* ------------------------------------------------------------------ *)

Section NewsCommit.
Import Py Database NewsScraper.

Lemma url_taken_spec u (tbl : gmap string NewsArticle.t) :
  url_taken u tbl = true <-> exists k r, tbl !! k = Some r /\ NewsArticle.url r = u.
Proof.
  unfold url_taken. rewrite existsb_exists. split.
  - intros [[k r] [Hin Heq]]. exists k, r. split.
    + apply elem_of_map_to_list. apply list_elem_of_In. exact Hin.
    + apply String.eqb_eq. exact Heq.
  - intros [k [r [Hk Hu]]]. exists (k, r). split.
    + apply list_elem_of_In. apply elem_of_map_to_list. exact Hk.
    + apply String.eqb_eq. exact Hu.
Qed.

Lemma url_taken_false u (tbl : gmap string NewsArticle.t) :
  url_taken u tbl = false <-> forall k r, tbl !! k = Some r -> NewsArticle.url r <> u.
Proof.
  split.
  - intros Hf k r Hk Hu.
    assert (Ht : url_taken u tbl = true) by (apply url_taken_spec; eauto).
    congruence.
  - intros Hall. destruct (url_taken u tbl) eqn:E; [| reflexivity].
    apply url_taken_spec in E. destruct E as [k [r [Hk Hu]]]. destruct (Hall k r Hk Hu).
Qed.

Lemma news_violation_none r tbl :
  news_violation r tbl = None <->
  tbl !! NewsArticle.id r = None /\ url_taken (NewsArticle.url r) tbl = false.
Proof.
  unfold news_violation, has_key.
  destruct (tbl !! NewsArticle.id r); [split; [discriminate | intros [H _]; discriminate] |].
  destruct (url_taken (NewsArticle.url r) tbl);
    [split; [discriminate | intros [_ H]; discriminate] | split; auto].
Qed.

(** The INSERTs of a flush go through exactly when the pending rows
    differ in id and in url and clash with no row of the table. *)
Lemma insert_news_ok rows : forall tbl,
  (exists tbl', insert_news rows tbl = inr tbl') <->
  NoDup (map NewsArticle.id rows) /\ NoDup (map NewsArticle.url rows) /\
  forall r, In r rows ->
    tbl !! NewsArticle.id r = None /\ url_taken (NewsArticle.url r) tbl = false.
Proof.
  unfold insert_news.
  induction rows as [|r rest IH]; intros tbl; cbn [insert_rows map].
  - split; [| intros _; eexists; reflexivity].
    intros _. split; [constructor |]. split; [constructor |]. intros r [].
  - rewrite !NoDup_cons, !list_elem_of_In, !in_map_iff.
    destruct (news_violation r tbl) as [e|] eqn:Ev.
    + split; [intros [tbl' H]; discriminate |].
      intros (_ & _ & Hall). destruct (Hall r (or_introl eq_refl)) as [H1 H2].
      assert (Hn : news_violation r tbl = None) by (apply news_violation_none; auto).
      congruence.
    + apply news_violation_none in Ev. destruct Ev as [Hid Hurl].
      rewrite IH. split.
      * intros (Hnd1 & Hnd2 & Hall). split; [| split].
        -- split; [| exact Hnd1]. intros [r' [Heq Hin]].
           destruct (Hall r' Hin) as [H1 _]. rewrite <- Heq, lookup_insert_eq in H1.
           discriminate.
        -- split; [| exact Hnd2]. intros [r' [Heq Hin]].
           destruct (Hall r' Hin) as [_ H2].
           apply (proj1 (url_taken_false _ _) H2 (NewsArticle.id r) r);
             [apply lookup_insert_eq | symmetry; exact Heq].
        -- intros r' [<- | Hin]; [split; assumption |].
           destruct (Hall r' Hin) as [H1 H2].
           assert (Hne : NewsArticle.id r <> NewsArticle.id r').
           { intros Heq. rewrite <- Heq, lookup_insert_eq in H1. discriminate. }
           rewrite lookup_insert_ne in H1 by exact Hne. split; [exact H1 |].
           apply url_taken_false. intros k r0 Hk.
           apply (proj1 (url_taken_false _ _) H2 k r0).
           destruct (decide (NewsArticle.id r = k)) as [<- | Hk'];
             [rewrite Hid in Hk; discriminate | rewrite lookup_insert_ne by exact Hk'; exact Hk].
      * intros ((Hn1 & Hnd1) & (Hn2 & Hnd2) & Hall). split; [exact Hnd1 |].
        split; [exact Hnd2 |]. intros r' Hin.
        destruct (Hall r' (or_intror Hin)) as [H1 H2].
        assert (Hne : NewsArticle.id r <> NewsArticle.id r').
        { intros Heq. apply Hn1. exists r'. split; [symmetry; exact Heq | exact Hin]. }
        rewrite lookup_insert_ne by exact Hne. split; [exact H1 |].
        apply url_taken_false. intros k r0 Hk.
        destruct (decide (NewsArticle.id r = k)) as [<- | Hk'].
        -- rewrite lookup_insert_eq in Hk. injection Hk as <-. intros Heq.
           apply Hn2. exists r'. split; [symmetry; exact Heq | exact Hin].
        -- rewrite lookup_insert_ne in Hk by exact Hk'.
           exact (proj1 (url_taken_false _ _) H2 k r0 Hk).
Qed.

Lemma replay_url k articles r : NewsArticle.url (replay k articles r) = NewsArticle.url r.
Proof. rewrite replay_columns. reflexivity. Qed.

(** The loop of [store] does not change the urls the table holds. *)
Lemma url_taken_after_store articles s u :
  url_taken u (news_articles (view (fold_left store_article articles s))) =
  url_taken u (news_articles (view s)).
Proof.
  apply eq_true_iff_eq. rewrite !url_taken_spec. split; intros [k [r [Hk Hu]]].
  - rewrite view_after_store in Hk.
    destruct (news_articles (view s) !! k) as [r0|] eqn:E; [| discriminate].
    injection Hk as <-. rewrite replay_url in Hu. eauto.
  - exists k, (replay k articles r). rewrite view_after_store, Hk, replay_url. auto.
Qed.

Lemma fresh_articles_spec tbl articles a :
  In a (fresh_articles tbl articles) <-> In a articles /\ tbl !! Article.id a = None.
Proof.
  unfold fresh_articles. rewrite filter_In. unfold has_key.
  destruct (tbl !! Article.id a); cbn; split; intros [H1 H2]; split; auto; discriminate.
Qed.

(** X4. When [NewsScraper.store] commits: exactly when the engine does
    not fail the flush of the commit and the articles of the batch
    that have no row yet differ from each other in id and in url and
    carry no url that a stored row already has. *)
Theorem store_commits_iff (flt : Faults) (articles : list Article.t) (db : DB) :
  let fresh := fresh_articles (news_articles db) articles in
  fst (store flt articles db) = Returned <->
  flt 0%nat = false /\
  NoDup (map Article.id fresh) /\ NoDup (map Article.url fresh) /\
  forall a, In a fresh -> url_taken (Article.url a) (news_articles db) = false.
Proof.
  cbn zeta. unfold store, transaction.
  set (s1 := fold_left store_article articles (SessionLocal db)).
  destruct (rest_after_store articles (SessionLocal db)) as [R1 [R2 [R3 [R4 [R5 [R6 R7]]]]]].
  fold s1 in R1, R2, R3, R4, R5, R6, R7. cbn in R1, R2, R3, R4, R5, R6, R7.
  assert (Hpend : new_news s1 = map new_article (fresh_articles (news_articles db) articles)).
  { unfold s1. rewrite pending_after_store. reflexivity. }
  pose proof (insert_news_ok (new_news s1) (news_articles (view s1))) as Hok.
  rewrite Hpend, !map_map in Hok. cbn [new_article NewsArticle.id NewsArticle.url] in Hok.
  assert (Hcond :
    (forall r, In r (map new_article (fresh_articles (news_articles db) articles)) ->
       news_articles (view s1) !! NewsArticle.id r = None /\
       url_taken (NewsArticle.url r) (news_articles (view s1)) = false) <->
    (forall a, In a (fresh_articles (news_articles db) articles) ->
       url_taken (Article.url a) (news_articles db) = false)).
  { split.
    - intros H a Hin. destruct (H (new_article a) (in_map _ _ _ Hin)) as [_ H2].
      unfold s1 in H2. rewrite url_taken_after_store in H2. exact H2.
    - intros H r Hin. apply in_map_iff in Hin. destruct Hin as [a [<- Hin]]. split.
      + unfold s1. rewrite view_after_store. cbn.
        apply fresh_articles_spec in Hin. destruct Hin as [_ ->]. reflexivity.
      + unfold s1. rewrite url_taken_after_store. cbn. apply H. exact Hin. }
  rewrite Hcond in Hok. clear Hcond.
  unfold flush. rewrite R7, R4, R6, Hpend.
  unfold insert_daily, insert_macro. cbn [insert_rows].
  destruct (flt 0%nat); [split; [discriminate | intros [H _]; discriminate] |].
  destruct (insert_news _ _) as [e | news] eqn:En.
  - split; [discriminate |]. intros [_ H]. apply Hok in H. destruct H as [tbl' H].
    discriminate.
  - split; [| reflexivity]. intros _. split; [reflexivity |]. apply Hok. eauto.
Qed.

Lemma same_key_same_row {A} (f : A -> string) (l : list A) a b :
  NoDup (map f l) -> In a l -> In b l -> f a = f b -> a = b.
Proof.
  induction l as [|c rest IH]; intros Hnd Ha Hb Heq; [destruct Ha |].
  cbn [map] in Hnd. apply NoDup_cons in Hnd. destruct Hnd as [Hnotin Hnd].
  rewrite list_elem_of_In in Hnotin.
  destruct Ha as [-> | Ha], Hb as [-> | Hb]; auto.
  - exfalso. apply Hnotin. rewrite Heq. apply in_map. exact Hb.
  - exfalso. apply Hnotin. rewrite <- Heq. apply in_map. exact Ha.
Qed.

(** X5. A store that commits has created, for every article of the
    batch that had no row, the row with exactly the parsed values. *)
Theorem store_creates_rows (flt : Faults) (articles : list Article.t) (db db1 : DB)
  (a : Article.t) :
  store flt articles db = (Returned, db1) ->
  In a articles ->
  news_articles db !! Article.id a = None ->
  news_articles db1 !! Article.id a = Some (new_article a).
Proof.
  intros Hret Hin Hnone. unfold store in Hret. apply transaction_returned in Hret.
  destruct Hret as [s [s' [Hbody [Hflush ->]]]]. injection Hbody as <-.
  set (s1 := fold_left store_article articles (SessionLocal db)) in *.
  apply flush_returned in Hflush.
  destruct Hflush as [_ [n1 [daily [macro [Hn [_ [_ ->]]]]]]]. cbn [view news_articles].
  destruct (insert_rows_spec _ _ news_guards _ _ _ Hn) as [Hnd [_ Hlook]].
  assert (Hpend : new_news s1 = map new_article (fresh_articles (news_articles db) articles)).
  { unfold s1. rewrite pending_after_store. reflexivity. }
  rewrite Hpend in Hnd, Hlook. rewrite map_map in Hnd. cbn [new_article NewsArticle.id] in Hnd.
  assert (Hfr : In a (fresh_articles (news_articles db) articles))
    by (apply fresh_articles_spec; auto).
  rewrite Hlook.
  destruct (pending_for NewsArticle.id (Article.id a) _) as [r|] eqn:E.
  - apply pending_for_some in E. destruct E as [Hr Hk].
    apply in_map_iff in Hr. destruct Hr as [a' [<- Ha']]. cbn in Hk.
    rewrite (same_key_same_row Article.id _ a' a Hnd Ha' Hfr Hk). reflexivity.
  - exfalso. apply (proj1 (pending_for_none _ _ _) E (new_article a));
      [apply in_map; exact Hfr | reflexivity].
Qed.

Lemma guarded_last {X A} (c : A -> bool) (w : A -> X) l : forall x,
  fold_left (guarded c (fun _ => true) w) l x =
  match last (List.filter c l) with Some a => w a | None => x end.
Proof.
  induction l as [|a rest IH]; intros x; cbn [fold_left List.filter]; [reflexivity |].
  rewrite IH. unfold guarded. destruct (c a); [| reflexivity].
  rewrite last_cons. destruct (last (List.filter c rest)); reflexivity.
Qed.

Lemma replay_none k articles r :
  (forall a, In a articles -> Article.id a <> k) -> replay k articles r = r.
Proof.
  unfold replay. induction articles as [|a rest IH]; intros Hall; [reflexivity |].
  cbn [fold_left]. destruct (String.eqb (Article.id a) k) eqn:E.
  - apply String.eqb_eq in E. destruct (Hall a (or_introl eq_refl) E).
  - apply IH. intros b Hb. apply Hall. right. exact Hb.
Qed.

(** X6. What re-ingestion does to a stored article.  The row stays,
    with its id, source, title, url, publication date and read flag,
    so a headline changed upstream is not picked up.  When the store
    commits, the summary and the full text are those of the last
    article of the batch with the id of the row, and a row whose id
    is not in the batch is left as it was; when the store raises, the
    row is left as it was. *)
Theorem store_refreshes_text (flt : Faults) (articles : list Article.t) (db : DB)
  (k : string) (r : NewsArticle.t) :
  news_articles db !! k = Some r ->
  exists r', news_articles (snd (store flt articles db)) !! k = Some r' /\
    NewsArticle.id r' = NewsArticle.id r /\
    NewsArticle.source r' = NewsArticle.source r /\
    NewsArticle.title r' = NewsArticle.title r /\
    NewsArticle.url r' = NewsArticle.url r /\
    NewsArticle.published_at r' = NewsArticle.published_at r /\
    NewsArticle.read r' = NewsArticle.read r /\
    match fst (store flt articles db) with
    | Returned =>
        match last (List.filter (fun a => String.eqb (Article.id a) k) articles) with
        | Some a =>
            NewsArticle.summary r' = Some (Article.summary a) /\
            NewsArticle.full_content r' = Article.full_content a
        | None => r' = r
        end
    | Raised _ => r' = r
    end.
Proof.
  intros Hk. destruct (store flt articles db) as [[|e] db1] eqn:Es; cbn [fst snd].
  - unfold store in Es. apply transaction_returned in Es.
    destruct Es as [s [s' [Hbody [Hflush ->]]]]. injection Hbody as <-.
    apply flush_returned in Hflush.
    destruct Hflush as [_ [n1 [daily [macro [Hn [_ [_ ->]]]]]]]. cbn [view news_articles].
    exists (replay k articles r). split.
    + apply (insert_rows_keeps _ _ news_guards _ _ _ _ _ Hn).
      rewrite view_after_store. cbn. rewrite Hk. reflexivity.
    + destruct (last (List.filter (fun a => String.eqb (Article.id a) k) articles))
        as [a|] eqn:El.
      * rewrite replay_columns. cbn. repeat (split; [reflexivity |]).
        rewrite !guarded_last, El. split; reflexivity.
      * apply last_None in El. rewrite replay_none.
        { repeat (split; [reflexivity |]). reflexivity. }
        intros a Hin Heq.
        assert (Hf : In a (List.filter (fun a => String.eqb (Article.id a) k) articles))
          by (apply filter_In; split; [exact Hin | apply String.eqb_eq; exact Heq]).
        rewrite El in Hf. destruct Hf.
  - unfold store in Es. apply transaction_raised in Es. subst db1.
    exists r. split; [exact Hk |]. repeat (split; [reflexivity |]). reflexivity.
Qed.

End NewsCommit.

(** A first ingestion of one article into an empty table. *)
Lemma store_creates_rows_witness :
  Database.news_articles
    (snd (NewsScraper.store Database.no_faults [Samples.article1] Samples.empty_db))
    !! NewsScraper.Article.id Samples.article1
  = Some (NewsScraper.new_article Samples.article1).
Proof.
  apply (store_creates_rows Database.no_faults [Samples.article1] Samples.empty_db _
           Samples.article1).
  - vm_compute. reflexivity.
  - left. reflexivity.
  - apply lookup_empty.
Defined.

(** The re-ingestion of an article a user has annotated. *)
Lemma store_refreshes_text_witness :
  exists r',
    Database.news_articles
      (snd (NewsScraper.store Database.no_faults [Samples.article1] Samples.annotated_db))
      !! "0cc175b9c0f1b6a831c399e269772661" = Some r' /\
    Database.NewsArticle.title r' = "Capacity shortage hits Midwest" /\
    Database.NewsArticle.read r' = Some true /\
    Database.NewsArticle.summary r' = Some "Carriers report tight capacity.".
Proof.
  destruct (store_refreshes_text Database.no_faults [Samples.article1] Samples.annotated_db
              "0cc175b9c0f1b6a831c399e269772661" Samples.annotated1)
    as (r' & H1 & _ & _ & H2 & _ & _ & H3 & H4).
  - vm_compute. reflexivity.
  - exists r'. split; [exact H1 |]. split; [exact H2 |]. split; [exact H3 |].
    exact (proj1 H4).
Defined.

(** A second run on the batch of a first ingestion. *)
Lemma store_twice_witness :
  is_Some (Database.news_articles
             (snd (NewsScraper.store Database.no_faults [Samples.article1] Samples.empty_db))
             !! NewsScraper.Article.id Samples.article1) /\
  snd (NewsScraper.store Samples.first_flush_fails [Samples.article1]
         (snd (NewsScraper.store Database.no_faults [Samples.article1] Samples.empty_db)))
  = snd (NewsScraper.store Database.no_faults [Samples.article1] Samples.empty_db).
Proof.
  destruct (store_twice Database.no_faults Samples.first_flush_fails [Samples.article1]
              Samples.empty_db
              (snd (NewsScraper.store Database.no_faults [Samples.article1] Samples.empty_db)))
    as [H1 H2].
  - vm_compute. reflexivity.
  - split; [apply H1; left; reflexivity | exact H2].
Defined.

(* ------------------------------------------------------------------ *)
(** ** News: the tagger *)
(* ------------------------------------------------------------------ *)

Section Tagger.
Import Py NewsScraperConfig NewsScraper.

Lemma filter_implies_sublist {A B} (f : A -> B) (p q : A -> bool) (l : list A) :
  (forall x, In x l -> p x = true -> q x = true) ->
  sublist (map f (List.filter p l)) (map f (List.filter q l)).
Proof.
  induction l as [|x rest IH]; intros Himp; cbn [List.filter map]; [constructor |].
  assert (IH' : sublist (map f (List.filter p rest)) (map f (List.filter q rest)))
    by (apply IH; intros y Hy; apply Himp; right; exact Hy).
  destruct (p x) eqn:Ep.
  - rewrite (Himp x (or_introl eq_refl) Ep). cbn [map]. apply sublist_skip. exact IH'.
  - destruct (q x); [cbn [map]; apply sublist_cons |]; exact IH'.
Qed.

Lemma filter_true {A} (l : list A) : List.filter (fun _ => true) l = l.
Proof. induction l as [|x rest IH]; [reflexivity | cbn; rewrite IH; reflexivity]. Qed.

Lemma append_nil_r (s : string) : s +:+ "" = s.
Proof. induction s as [|c s IH]; [reflexivity | rewrite append_cons, IH; reflexivity]. Qed.

(** The text searched with the full article is the text searched
    without it, followed by the article. *)
Lemma tag_text_full title summary full :
  tag_text title summary (Some full) = tag_text title summary None +:+ lower full.
Proof.
  unfold tag_text. cbn [or_empty]. rewrite append_nil_r, <- lower_app.
  rewrite !append_assoc_str. reflexivity.
Qed.

(** X7. The tags of an article are tags of the keyword table, each at
    most once and in the order of the table; so there are never more
    than twelve. *)
Theorem auto_tag_in_table_order (title : string) (summary full_content : option string) :
  sublist (_auto_tag title summary full_content) (map fst TAG_KEYWORDS) /\
  NoDup (_auto_tag title summary full_content) /\
  (length (_auto_tag title summary full_content) <= 12)%nat.
Proof.
  assert (Hsub : sublist (_auto_tag title summary full_content) (map fst TAG_KEYWORDS)).
  { unfold _auto_tag. rewrite <- (filter_true TAG_KEYWORDS) at 2.
    apply filter_implies_sublist. reflexivity. }
  split; [exact Hsub |]. split.
  - apply (sublist_NoDup _ (map fst TAG_KEYWORDS)); [| exact Hsub].
    apply (bool_decide_unpack _). vm_compute. reflexivity.
  - apply sublist_length in Hsub. exact Hsub.
Qed.

(** X8. Reading the full article can only add: every tag the title
    and the summary alone give is still given with the full text, in
    the same order, and the importance computed from the tags is not
    lower. *)
Theorem full_content_only_adds (title : string) (summary : option string) (full : string) :
  sublist (_auto_tag title summary None) (_auto_tag title summary (Some full)) /\
  _auto_rate_importance title summary (_auto_tag title summary None) <=
  _auto_rate_importance title summary (_auto_tag title summary (Some full)).
Proof.
  assert (Hsub : sublist (_auto_tag title summary None)
                         (_auto_tag title summary (Some full))).
  { unfold _auto_tag. fold (tag_text title summary None).
    fold (tag_text title summary (Some full)).
    apply filter_implies_sublist. intros [tag kws] _ Hany.
    apply any_contains_spec in Hany. destruct Hany as [k [Hk Hocc]].
    apply any_contains_spec. exists k. split; [exact Hk |].
    rewrite tag_text_full. apply occurs_in_app_l. exact Hocc. }
  split; [exact Hsub |].
  rewrite !score_closed_form.
  assert (H1 : any (fun tag => mem tag (_auto_tag title summary None)) priority_tags = true ->
               any (fun tag => mem tag (_auto_tag title summary (Some full))) priority_tags
                 = true).
  { rewrite !any_priority_spec. intros [t [Hp Ht]]. exists t. split; [exact Hp |].
    apply list_elem_of_In. apply (elem_of_sublist _ _ _ (proj2 (list_elem_of_In _ _) Ht) Hsub). }
  pose proof (sublist_length _ _ Hsub) as Hlen.
  destruct (any (fun tag => mem tag (_auto_tag title summary None)) priority_tags);
    [rewrite (H1 eq_refl) |];
    destruct (any (fun tag => mem tag (_auto_tag title summary (Some full))) priority_tags);
    destruct (any (fun k => contains k (lower title)) IMPORTANT_KEYWORDS);
    destruct (3 <=? Z.of_nat (length (_auto_tag title summary None))) eqn:E1;
    destruct (3 <=? Z.of_nat (length (_auto_tag title summary (Some full)))) eqn:E2;
    cbn [Z.b2z]; try lia.
  all: apply Z.leb_le in E1; apply Z.leb_gt in E2; lia.
Qed.

End Tagger.

(* ------------------------------------------------------------------ *)
(** ** EIA: the regional table, and batches without a national price *)
(* ------------------------------------------------------------------ *)

Section EiaRegional.
Import Py Database EIADieselScraper.

Lemma update_first_keys (p : DieselPrice.t -> bool) (f : DieselPrice.t -> DieselPrice.t) rows :
  (forall r, diesel_key (f r) = diesel_key r) ->
  map diesel_key (update_first p f rows) = map diesel_key rows.
Proof.
  intros Hf. induction rows as [|r rest IH]; [reflexivity |].
  cbn [update_first]. destruct (p r); cbn [map]; [rewrite Hf | rewrite IH]; reflexivity.
Qed.

Lemma same_region_key d c r : same_region d c r = true <-> diesel_key r = (d, c).
Proof.
  unfold same_region, diesel_key. rewrite andb_true_iff, !String.eqb_eq.
  split; [intros [-> ->]; reflexivity | intros H; injection H; auto].
Qed.

(** Whether a key is in the table depends on the keys only. *)
Lemma existsb_same_region d c rows rows' :
  map diesel_key rows = map diesel_key rows' ->
  existsb (same_region d c) rows = existsb (same_region d c) rows'.
Proof.
  revert rows'. induction rows as [|r rest IH]; intros [|r' rest'] Hk; try discriminate;
    [reflexivity |].
  cbn [map] in Hk. assert (Hr : diesel_key r = diesel_key r') by congruence.
  assert (Hrest : map diesel_key rest = map diesel_key rest') by congruence.
  cbn [existsb]. rewrite (IH rest' Hrest).
  f_equal. apply eq_true_iff_eq. rewrite !same_region_key, Hr. reflexivity.
Qed.

Lemma find_existsb {A} (p : A -> bool) l :
  (exists x, List.find p l = Some x) <-> existsb p l = true.
Proof.
  induction l as [|x rest IH]; cbn; [split; [intros [x H]; discriminate | discriminate] |].
  destruct (p x); cbn; [split; eauto | exact IH].
Qed.

(** One turn of the loop, on the keys of the regional table. *)
Lemma store_price_regional p s :
  map diesel_key (diesel_prices (view (store_price s p))) =
    map diesel_key (diesel_prices (view s)) /\
  new_diesel (store_price s p) =
    new_diesel s ++
    (if unseen (diesel_prices (view s)) p
     then [DieselPrice.mk (Price.date p) (default "UNKNOWN" (Price.region_code p))
             (Some (default "Unknown" (Price.region_name p))) (Price.diesel_price p)
             (Some (default "" (Price.series_description p))) (Some "EIA")]
     else []).
Proof.
  assert (Hnat : forall s', diesel_prices (view (store_national p s')) = diesel_prices (view s') /\
                            new_diesel (store_national p s') = new_diesel s').
  { intros s'. unfold store_national.
    destruct (String.eqb _ "NUS"); [| split; reflexivity].
    destruct (daily_metrics (view s') !! Price.date p); split; reflexivity. }
  unfold store_price. destruct (Hnat (store_regional p s)) as [-> ->].
  unfold store_regional, unseen, price_key. cbn [fst snd].
  destruct (List.find _ (diesel_prices (view s))) as [ex|] eqn:Ef.
  - assert (He : existsb (same_region (Price.date p) (default "UNKNOWN" (Price.region_code p)))
                   (diesel_prices (view s)) = true)
      by (apply find_existsb; eauto).
    rewrite He. cbn. rewrite app_nil_r. split; [| reflexivity].
    apply update_first_keys. reflexivity.
  - destruct (existsb _ (diesel_prices (view s))) eqn:He.
    + apply find_existsb in He. destruct He as [x Hx]. congruence.
    + cbn. split; reflexivity.
Qed.

Lemma store_prices_regional prices : forall s,
  let s' := fold_left store_price prices s in
  map diesel_key (diesel_prices (view s')) = map diesel_key (diesel_prices (view s)) /\
  map diesel_key (new_diesel s') =
    map diesel_key (new_diesel s) ++
    map price_key (List.filter (unseen (diesel_prices (view s))) prices).
Proof.
  induction prices as [|p rest IH]; intros s; cbn zeta; cbn [fold_left List.filter map].
  - rewrite app_nil_r. split; reflexivity.
  - destruct (IH (store_price s p)) as [H1 H2]. cbn zeta in H1, H2.
    destruct (store_price_regional p s) as [K1 K2].
    rewrite H1, H2, K1, K2. split; [reflexivity |].
    replace (List.filter (unseen (diesel_prices (view (store_price s p)))) rest)
      with (List.filter (unseen (diesel_prices (view s))) rest)
      by (apply List.filter_ext; intros x; unfold unseen; f_equal;
          apply existsb_same_region; symmetry; exact K1).
    destruct (unseen (diesel_prices (view s)) p); cbn [map app].
    + rewrite map_app, <- app_assoc. reflexivity.
    + rewrite app_nil_r. reflexivity.
Qed.

(** X9. The regional table only grows.  After a store of the EIA job
    that commits, the rows that were there are still there, in their
    order and with their date and region, and behind them there is
    one new row for each price of the batch whose date and region had
    no row, in the order of the batch: one for each occurrence, since
    the lookup does not see the rows added earlier in the batch. *)
Theorem eia_store_regional_rows (flt : Faults) (prices : list Price.t) (db db1 : DB) :
  store flt prices db = (Returned, db1) ->
  map diesel_key (diesel_prices db1) =
  map diesel_key (diesel_prices db) ++
  map price_key (List.filter (unseen (diesel_prices db)) prices).
Proof.
  intros Hret. unfold store in Hret. apply transaction_returned in Hret.
  destruct Hret as [s [s' [Hbody [Hflush ->]]]]. injection Hbody as <-.
  apply flush_returned in Hflush.
  destruct Hflush as [_ [news [daily [macro [_ [_ [_ ->]]]]]]]. cbn [view diesel_prices].
  destruct (store_prices_regional prices (SessionLocal db)) as [H1 H2]. cbn zeta in H1, H2.
  rewrite map_app, H1, H2. reflexivity.
Qed.

Lemma store_price_no_national p s :
  default "UNKNOWN" (Price.region_code p) <> "NUS" ->
  daily_metrics (view (store_price s p)) = daily_metrics (view s) /\
  new_daily (store_price s p) = new_daily s /\
  new_news (store_price s p) = new_news s /\
  new_macro (store_price s p) = new_macro s.
Proof.
  intros Hne. unfold store_price. rewrite (national_other _ _ Hne).
  unfold store_regional. destruct (List.find _ _); repeat split.
Qed.

(** X10. A batch of the EIA job without a national price (region
    'NUS') never touches [daily_metrics]; such is every batch the
    HTML fallback parses, whose prices carry no region at all. *)
Theorem eia_store_without_national (flt : Faults) (prices : list Price.t) (db : DB) :
  (forall p, In p prices -> Price.region_code p <> Some "NUS") ->
  daily_metrics (snd (store flt prices db)) = daily_metrics db.
Proof.
  intros Hall. unfold store.
  destruct (transaction_state flt (fun s => inr (fold_left store_price prices s)) db)
    as [Hsame | [s [s' [Hbody [Hflush Hret]]]]]; [rewrite Hsame; reflexivity |].
  rewrite Hret. cbn [snd]. injection Hbody as <-.
  assert (Hinv : forall l s0, (forall p, In p l -> Price.region_code p <> Some "NUS") ->
            daily_metrics (view (fold_left store_price l s0)) = daily_metrics (view s0) /\
            new_daily (fold_left store_price l s0) = new_daily s0).
  { induction l as [|p rest IH]; intros s0 Hl; cbn [fold_left]; [split; reflexivity |].
    destruct (IH (store_price s0 p) (fun q Hq => Hl q (or_intror Hq))) as [-> ->].
    assert (Hne : default "UNKNOWN" (Price.region_code p) <> "NUS").
    { pose proof (Hl p (or_introl eq_refl)) as Hp.
      destruct (Price.region_code p) as [c|]; cbn; [congruence | discriminate]. }
    destruct (store_price_no_national p s0 Hne) as (-> & -> & _). split; reflexivity. }
  destruct (Hinv prices (SessionLocal db) Hall) as [Hv Hn]. cbn in Hv, Hn.
  apply flush_returned in Hflush.
  destruct Hflush as [_ [news [daily [macro [_ [Hd [_ ->]]]]]]]. cbn [view daily_metrics].
  rewrite Hn, Hv in Hd. unfold insert_daily in Hd. cbn in Hd. injection Hd as <-.
  reflexivity.
Qed.

End EiaRegional.

(** A batch that lists the price of a region twice, into an empty
    table. *)
Lemma eia_store_regional_rows_witness :
  map diesel_key
    (Database.diesel_prices
       (snd (EIADieselScraper.store Database.no_faults
               [Samples.east_coast_price; Samples.east_coast_price] Samples.empty_db)))
  = [("2024-12-02", "R10"); ("2024-12-02", "R10")].
Proof.
  apply (eia_store_regional_rows Database.no_faults
           [Samples.east_coast_price; Samples.east_coast_price] Samples.empty_db).
  vm_compute. reflexivity.
Defined.

(** A price of the HTML fallback and a day the FRED job has filled. *)
Lemma eia_store_without_national_witness :
  Database.daily_metrics
    (snd (EIADieselScraper.store Database.no_faults [Samples.html_price] Samples.fred_db))
  = Database.daily_metrics Samples.fred_db.
Proof.
  apply (eia_store_without_national Database.no_faults [Samples.html_price] Samples.fred_db).
  intros p [<- | []]. discriminate.
Defined.

(* ------------------------------------------------------------------ *)
(** ** The monthly table: the Cass and the ATA job *)
(* ------------------------------------------------------------------ *)

Section MacroRows.
Import Py Database.

Lemma macro_getattr_setattr_same r f v :
  MacroMetric.getattr (MacroMetric.setattr r f v) f = v.
Proof. destruct f; reflexivity. Qed.

Lemma macro_getattr_setattr_other r f f' v :
  f <> f' -> MacroMetric.getattr (MacroMetric.setattr r f v) f' = MacroMetric.getattr r f'.
Proof. intros Hne. destruct f, f'; try reflexivity; destruct Hne; reflexivity. Qed.

Lemma macro_getattr_stamp r f src conf :
  MacroMetric.getattr (MacroMetric.set_confidence conf (MacroMetric.set_source src r)) f =
  MacroMetric.getattr r f.
Proof. destruct f; reflexivity. Qed.

Lemma macro_kept_refl own r : macro_kept own r r.
Proof. split; [reflexivity | intros; reflexivity]. Qed.

Lemma macro_kept_trans own r1 r2 r3 :
  macro_kept own r1 r2 -> macro_kept own r2 r3 -> macro_kept own r1 r3.
Proof.
  intros [H1 K1] [H2 K2]. split; [congruence |].
  intros f Hf. rewrite (K2 f Hf). apply K1. exact Hf.
Qed.

End MacroRows.

Section MacroUpsert.
Import Py Database.
Context {A : Type}.
Variable skip : A -> bool.
Variable key : A -> string.
Variable upd : MacroMetric.t -> A -> MacroMetric.t.
Variable mk : A -> MacroMetric.t.
Hypothesis month_mk : forall a, MacroMetric.month (mk a) = key a.
Hypothesis month_upd : forall r a, MacroMetric.month (upd r a) = MacroMetric.month r.

(** What the loop keeps: the columns outside [own]. *)
Variable own : MacroField.t -> Prop.
Hypothesis upd_others :
  forall r a f, ~ own f -> MacroMetric.getattr (upd r a) f = MacroMetric.getattr r f.

(** What it writes: the column [col], from the value [val] of a
    record, when that value is neither None nor zero. *)
Variable col : MacroField.t.
Variable val : A -> option float.
Hypothesis upd_truthy :
  forall r a, truthy_float (val a) = true -> MacroMetric.getattr (upd r a) col = val a.
Hypothesis upd_falsy :
  forall r a, truthy_float (val a) = false ->
              MacroMetric.getattr (upd r a) col = MacroMetric.getattr r col.
Hypothesis mk_val : forall a, MacroMetric.getattr (mk a) col = val a.

Lemma upsert_step_kept s a m r0 :
  macro_metrics (view s) !! m = Some r0 ->
  exists r, macro_metrics (view (upsert_macro skip key upd mk s a)) !! m = Some r /\
            macro_kept own r0 r /\
            ((key a = m -> truthy_float (val a) = false) ->
             MacroMetric.getattr r col = MacroMetric.getattr r0 col).
Proof.
  intros Hrow. unfold upsert_macro.
  destruct (skip a); [exists r0; split; [exact Hrow |]; split;
                      [apply macro_kept_refl | reflexivity] |].
  destruct (macro_metrics (view s) !! key a) as [ex|] eqn:E.
  - cbn [view with_view put_macro macro_metrics].
    destruct (decide (key a = m)) as [Hk | Hne].
    + rewrite Hk, lookup_insert_eq. rewrite Hk, Hrow in E. injection E as <-.
      exists (upd r0 a). split; [reflexivity |]. split.
      * split; [apply month_upd | intros f Hf; apply upd_others; exact Hf].
      * intros Hfalsy. apply upd_falsy. apply Hfalsy. reflexivity.
    + rewrite lookup_insert_ne by exact Hne. exists r0. split; [exact Hrow |].
      split; [apply macro_kept_refl | reflexivity].
  - exists r0. split; [exact Hrow |]. split; [apply macro_kept_refl | reflexivity].
Qed.

Lemma upsert_fold_kept l : forall s m r0,
  macro_metrics (view s) !! m = Some r0 ->
  exists r, macro_metrics (view (fold_left (upsert_macro skip key upd mk) l s)) !! m = Some r /\
            macro_kept own r0 r /\
            ((forall a, In a l -> key a = m -> truthy_float (val a) = false) ->
             MacroMetric.getattr r col = MacroMetric.getattr r0 col).
Proof.
  induction l as [|a rest IH]; intros s m r0 Hrow; cbn [fold_left].
  - exists r0. split; [exact Hrow |]. split; [apply macro_kept_refl | reflexivity].
  - destruct (upsert_step_kept s a m r0 Hrow) as [r1 [H1 [K1 G1]]].
    destruct (IH _ m r1 H1) as [r2 [H2 [K2 G2]]].
    exists r2. split; [exact H2 |]. split; [exact (macro_kept_trans _ _ _ _ K1 K2) |].
    intros Hall. rewrite G2 by (intros b Hb; apply Hall; right; exact Hb).
    apply G1. apply Hall. left. reflexivity.
Qed.

Lemma upsert_step_supplied all s a m :
  In a all ->
  macro_month_supplied key val col all m s \/ (key a = m /\ skip a = false /\ truthy_float (val a) = true) ->
  macro_month_supplied key val col all m (upsert_macro skip key upd mk s a).
Proof.
  intros Hin Hcase. unfold upsert_macro.
  destruct (skip a) eqn:Es.
  { destruct Hcase as [H | (_ & H & _)]; [exact H | discriminate]. }
  destruct (macro_metrics (view s) !! key a) as [ex|] eqn:E.
  - cbn [view with_view put_macro macro_metrics]. unfold macro_month_supplied.
    cbn [view with_view put_macro macro_metrics new_macro].
    destruct (decide (key a = m)) as [Hk | Hne].
    + left. rewrite Hk, lookup_insert_eq. exists (upd ex a). split; [reflexivity |].
      destruct (truthy_float (val a)) eqn:Et.
      * exists a. split; [exact Hin |]. split; [exact Hk |]. split; [exact Et |].
        apply upd_truthy. exact Et.
      * destruct Hcase as [[[r [Hr Hs]] | [Hnone _]] | (_ & _ & H)]; [| | discriminate].
        -- rewrite Hk, Hr in E. injection E as <-.
           destruct Hs as [b (Hb & Hkb & Htb & Hvb)]. exists b.
           split; [exact Hb |]. split; [exact Hkb |]. split; [exact Htb |].
           rewrite upd_falsy by exact Et. exact Hvb.
        -- rewrite Hk, Hnone in E. discriminate.
    + rewrite lookup_insert_ne by exact Hne.
      destruct Hcase as [H | (H & _)]; [exact H | contradiction].
  - unfold macro_month_supplied. cbn [view add_macro macro_metrics new_macro].
    destruct Hcase as [[Hl | [Hnone [r (Hr & Hm & Hs)]]] | (Hk & _ & Et)].
    + left. exact Hl.
    + right. split; [exact Hnone |]. exists r. split; [apply in_or_app; left; exact Hr |].
      split; assumption.
    + right. split; [rewrite <- Hk; exact E |]. exists (mk a).
      split; [apply in_or_app; right; left; reflexivity |].
      split; [rewrite month_mk; exact Hk |].
      exists a. split; [exact Hin |]. split; [exact Hk |]. split; [exact Et | apply mk_val].
Qed.

Lemma upsert_fold_supplied all m l : forall s,
  incl l all ->
  macro_month_supplied key val col all m s \/
    (exists a, In a l /\ key a = m /\ skip a = false /\ truthy_float (val a) = true) ->
  macro_month_supplied key val col all m (fold_left (upsert_macro skip key upd mk) l s).
Proof.
  induction l as [|a rest IH]; intros s Hincl Hcase; cbn [fold_left].
  - destruct Hcase as [H | [a [[] _]]]. exact H.
  - apply IH; [intros x Hx; apply Hincl; right; exact Hx |].
    assert (Ha : In a all) by (apply Hincl; left; reflexivity).
    destruct Hcase as [H | [b [[<- | Hb] Hrest]]].
    + left. apply upsert_step_supplied; [exact Ha | left; exact H].
    + left. apply upsert_step_supplied; [exact Ha | right; exact Hrest].
    + right. exists b. split; [exact Hb | exact Hrest].
Qed.

(** The store steps built on the loop. *)
Lemma upsert_store_kept flt l db m r0 :
  macro_metrics db !! m = Some r0 ->
  exists r,
    macro_metrics
      (snd (transaction flt (fun s => inr (fold_left (upsert_macro skip key upd mk) l s)) db))
      !! m = Some r /\
    macro_kept own r0 r /\
    ((forall a, In a l -> key a = m -> truthy_float (val a) = false) ->
     MacroMetric.getattr r col = MacroMetric.getattr r0 col).
Proof.
  intros Hrow.
  destruct (transaction_state flt
              (fun s => inr (fold_left (upsert_macro skip key upd mk) l s)) db)
    as [Hsame | [s [s' [Hbody [Hflush Hret]]]]].
  - rewrite Hsame. exists r0. split; [exact Hrow |].
    split; [apply macro_kept_refl | reflexivity].
  - rewrite Hret. cbn [snd]. injection Hbody as <-.
    destruct (upsert_fold_kept l (SessionLocal db) m r0 Hrow) as [r [Hr Hk]].
    exists r. split; [| exact Hk].
    apply flush_returned in Hflush.
    destruct Hflush as [_ [news [daily [macro [_ [_ [Hm ->]]]]]]].
    exact (insert_rows_keeps _ _ macro_guards _ _ _ _ _ Hm Hr).
Qed.

Lemma upsert_store_supplied flt l db db1 m :
  transaction flt (fun s => inr (fold_left (upsert_macro skip key upd mk) l s)) db
    = (Returned, db1) ->
  (exists a, In a l /\ key a = m /\ skip a = false /\ truthy_float (val a) = true) ->
  exists r, macro_metrics db1 !! m = Some r /\
    exists a, In a l /\ key a = m /\ truthy_float (val a) = true /\
              MacroMetric.getattr r col = val a.
Proof.
  intros Hret Hsome. apply transaction_returned in Hret.
  destruct Hret as [s [s' [Hbody [Hflush ->]]]]. injection Hbody as <-.
  pose proof (upsert_fold_supplied l m l (SessionLocal db) (fun x Hx => Hx) (or_intror Hsome))
    as Hmonth.
  apply flush_returned in Hflush.
  destruct Hflush as [_ [news [daily [macro [_ [_ [Hm ->]]]]]]]. cbn [view macro_metrics].
  destruct (insert_rows_spec _ _ macro_guards _ _ _ Hm) as [Hnd [_ Hlook]].
  destruct Hmonth as [[r [Hr Hs]] | [Hnone [r (Hr & Hmon & Hs)]]].
  - exists r. split; [| exact Hs].
    exact (insert_rows_keeps _ _ macro_guards _ _ _ _ _ Hm Hr).
  - rewrite Hlook.
    destruct (pending_for MacroMetric.month m _) as [r'|] eqn:E.
    + apply pending_for_some in E. destruct E as [Hin' Hmon'].
      assert (r' = r)
        by (apply (same_key_same_row MacroMetric.month _ r' r Hnd Hin' Hr); congruence).
      subst r'. exists r. split; [reflexivity | exact Hs].
    + exfalso. exact (proj1 (pending_for_none MacroMetric.month m _) E r Hr Hmon).
Qed.

End MacroUpsert.

Section MacroJobs.
Import Py Database.

(** The loops of the two jobs have the shared shape. *)
Lemma cass_store_metric_upsert :
  CassScraper.store_metric =
  upsert_macro (fun x => truthy_str (CassScraper.Metric._note x)) CassScraper.Metric.month
    cass_update cass_new_row.
Proof. reflexivity. Qed.

Lemma ata_store_metric_upsert :
  ATAScraper.store_metric =
  upsert_macro (fun y => truthy_str (ATAScraper.Metric._note y)) ATAScraper.Metric.month
    ata_update ata_new_row.
Proof. reflexivity. Qed.

Lemma cass_update_month r x : MacroMetric.month (cass_update r x) = MacroMetric.month r.
Proof.
  unfold cass_update.
  destruct (truthy_float (CassScraper.Metric.cass_shipments_index x));
    destruct (truthy_float (CassScraper.Metric.cass_expenditures_index x)); reflexivity.
Qed.

Lemma cass_update_others r x f :
  ~ cass_columns f -> MacroMetric.getattr (cass_update r x) f = MacroMetric.getattr r f.
Proof.
  intros Hf. unfold cass_update. cbn zeta. rewrite macro_getattr_stamp.
  assert (H1 : MacroField.cass_shipments_index <> f)
    by (intros <-; apply Hf; left; reflexivity).
  assert (H2 : MacroField.cass_expenditures_index <> f)
    by (intros <-; apply Hf; right; reflexivity).
  destruct (truthy_float (CassScraper.Metric.cass_shipments_index x));
    destruct (truthy_float (CassScraper.Metric.cass_expenditures_index x));
    rewrite ?macro_getattr_setattr_other by assumption; reflexivity.
Qed.

Lemma cass_update_shipments r x :
  MacroMetric.getattr (cass_update r x) MacroField.cass_shipments_index =
  if truthy_float (CassScraper.Metric.cass_shipments_index x)
  then CassScraper.Metric.cass_shipments_index x
  else MacroMetric.getattr r MacroField.cass_shipments_index.
Proof.
  unfold cass_update.
  destruct (truthy_float (CassScraper.Metric.cass_shipments_index x));
    destruct (truthy_float (CassScraper.Metric.cass_expenditures_index x)); reflexivity.
Qed.

Lemma cass_update_expenditures r x :
  MacroMetric.getattr (cass_update r x) MacroField.cass_expenditures_index =
  if truthy_float (CassScraper.Metric.cass_expenditures_index x)
  then CassScraper.Metric.cass_expenditures_index x
  else MacroMetric.getattr r MacroField.cass_expenditures_index.
Proof.
  unfold cass_update.
  destruct (truthy_float (CassScraper.Metric.cass_shipments_index x));
    destruct (truthy_float (CassScraper.Metric.cass_expenditures_index x)); reflexivity.
Qed.

Lemma ata_update_month r y : MacroMetric.month (ata_update r y) = MacroMetric.month r.
Proof.
  unfold ata_update. destruct (truthy_float (ATAScraper.Metric.ata_tonnage_index y));
    reflexivity.
Qed.

Lemma ata_update_others r y f :
  f <> MacroField.ata_tonnage_index ->
  MacroMetric.getattr (ata_update r y) f = MacroMetric.getattr r f.
Proof.
  intros Hf. unfold ata_update. cbn zeta. rewrite macro_getattr_stamp.
  destruct (truthy_float (ATAScraper.Metric.ata_tonnage_index y)); [| reflexivity].
  apply macro_getattr_setattr_other. intros H. apply Hf. symmetry. exact H.
Qed.

Lemma ata_update_tonnage r y :
  MacroMetric.getattr (ata_update r y) MacroField.ata_tonnage_index =
  if truthy_float (ATAScraper.Metric.ata_tonnage_index y)
  then ATAScraper.Metric.ata_tonnage_index y
  else MacroMetric.getattr r MacroField.ata_tonnage_index.
Proof.
  unfold ata_update. destruct (truthy_float (ATAScraper.Metric.ata_tonnage_index y));
    reflexivity.
Qed.

Lemma cass_shipments_falsy r x :
  truthy_float (CassScraper.Metric.cass_shipments_index x) = false ->
  MacroMetric.getattr (cass_update r x) MacroField.cass_shipments_index =
  MacroMetric.getattr r MacroField.cass_shipments_index.
Proof. intros H. rewrite cass_update_shipments, H. reflexivity. Qed.

Lemma cass_shipments_truthy r x :
  truthy_float (CassScraper.Metric.cass_shipments_index x) = true ->
  MacroMetric.getattr (cass_update r x) MacroField.cass_shipments_index =
  CassScraper.Metric.cass_shipments_index x.
Proof. intros H. rewrite cass_update_shipments, H. reflexivity. Qed.

Lemma cass_expenditures_falsy r x :
  truthy_float (CassScraper.Metric.cass_expenditures_index x) = false ->
  MacroMetric.getattr (cass_update r x) MacroField.cass_expenditures_index =
  MacroMetric.getattr r MacroField.cass_expenditures_index.
Proof. intros H. rewrite cass_update_expenditures, H. reflexivity. Qed.

Lemma ata_tonnage_falsy r y :
  truthy_float (ATAScraper.Metric.ata_tonnage_index y) = false ->
  MacroMetric.getattr (ata_update r y) MacroField.ata_tonnage_index =
  MacroMetric.getattr r MacroField.ata_tonnage_index.
Proof. intros H. rewrite ata_update_tonnage, H. reflexivity. Qed.

Lemma ata_tonnage_truthy r y :
  truthy_float (ATAScraper.Metric.ata_tonnage_index y) = true ->
  MacroMetric.getattr (ata_update r y) MacroField.ata_tonnage_index =
  ATAScraper.Metric.ata_tonnage_index y.
Proof. intros H. rewrite ata_update_tonnage, H. reflexivity. Qed.

(** What a store of the Cass job leaves of a row that was there. *)
Lemma cass_store_kept flt metrics db m r0 :
  macro_metrics db !! m = Some r0 ->
  exists r, macro_metrics (snd (CassScraper.store flt metrics db)) !! m = Some r /\
    macro_kept cass_columns r0 r /\
    ((forall x, In x metrics -> CassScraper.Metric.month x = m ->
                truthy_float (CassScraper.Metric.cass_shipments_index x) = false) ->
     MacroMetric.cass_shipments_index r = MacroMetric.cass_shipments_index r0) /\
    ((forall x, In x metrics -> CassScraper.Metric.month x = m ->
                truthy_float (CassScraper.Metric.cass_expenditures_index x) = false) ->
     MacroMetric.cass_expenditures_index r = MacroMetric.cass_expenditures_index r0).
Proof.
  intros Hrow. unfold CassScraper.store. rewrite cass_store_metric_upsert.
  destruct (upsert_store_kept (fun x => truthy_str (CassScraper.Metric._note x))
              CassScraper.Metric.month cass_update cass_new_row cass_update_month
              cass_columns cass_update_others
              MacroField.cass_shipments_index CassScraper.Metric.cass_shipments_index
              cass_shipments_falsy
              flt metrics db m r0 Hrow) as [r [Hr [Hk Hs]]].
  destruct (upsert_store_kept (fun x => truthy_str (CassScraper.Metric._note x))
              CassScraper.Metric.month cass_update cass_new_row cass_update_month
              cass_columns cass_update_others
              MacroField.cass_expenditures_index CassScraper.Metric.cass_expenditures_index
              cass_expenditures_falsy
              flt metrics db m r0 Hrow) as [r' [Hr' [_ He]]].
  rewrite Hr in Hr'. injection Hr' as <-.
  exists r. split; [exact Hr |]. split; [exact Hk |]. split; [exact Hs | exact He].
Qed.

Lemma ata_store_kept flt metrics db m r0 :
  macro_metrics db !! m = Some r0 ->
  exists r, macro_metrics (snd (ATAScraper.store flt metrics db)) !! m = Some r /\
    macro_kept (eq MacroField.ata_tonnage_index) r0 r /\
    ((forall y, In y metrics -> ATAScraper.Metric.month y = m ->
                truthy_float (ATAScraper.Metric.ata_tonnage_index y) = false) ->
     MacroMetric.ata_tonnage_index r = MacroMetric.ata_tonnage_index r0).
Proof.
  intros Hrow. unfold ATAScraper.store. rewrite ata_store_metric_upsert.
  apply (upsert_store_kept (fun y => truthy_str (ATAScraper.Metric._note y))
           ATAScraper.Metric.month ata_update ata_new_row ata_update_month
           (eq MacroField.ata_tonnage_index)
           (fun r a f Hf => ata_update_others r a f (fun H => Hf (eq_sym H)))
           MacroField.ata_tonnage_index ATAScraper.Metric.ata_tonnage_index
           ata_tonnage_falsy
           flt metrics db m r0 Hrow).
Qed.

(** What a store that commits has put into the month of a record. *)
Lemma cass_store_supplied flt metrics db db1 m :
  CassScraper.store flt metrics db = (Returned, db1) ->
  (exists x, In x metrics /\ cass_shipments_for m x) ->
  exists r, macro_metrics db1 !! m = Some r /\
    macro_supplied CassScraper.Metric.month CassScraper.Metric.cass_shipments_index
      MacroField.cass_shipments_index metrics m r.
Proof.
  intros Hret [x [Hin (Hm & Hn & Ht)]]. unfold CassScraper.store in Hret.
  rewrite cass_store_metric_upsert in Hret.
  apply (upsert_store_supplied (fun x => truthy_str (CassScraper.Metric._note x))
           CassScraper.Metric.month cass_update cass_new_row (fun a => eq_refl)
           MacroField.cass_shipments_index CassScraper.Metric.cass_shipments_index
           cass_shipments_truthy cass_shipments_falsy (fun a => eq_refl)
           flt metrics db db1 m Hret).
  exists x. auto.
Qed.

Lemma ata_store_supplied flt metrics db db1 m :
  ATAScraper.store flt metrics db = (Returned, db1) ->
  (exists y, In y metrics /\ ata_tonnage_for m y) ->
  exists r, macro_metrics db1 !! m = Some r /\
    macro_supplied ATAScraper.Metric.month ATAScraper.Metric.ata_tonnage_index
      MacroField.ata_tonnage_index metrics m r.
Proof.
  intros Hret [y [Hin (Hm & Hn & Ht)]]. unfold ATAScraper.store in Hret.
  rewrite ata_store_metric_upsert in Hret.
  apply (upsert_store_supplied (fun y => truthy_str (ATAScraper.Metric._note y))
           ATAScraper.Metric.month ata_update ata_new_row (fun a => eq_refl)
           MacroField.ata_tonnage_index ATAScraper.Metric.ata_tonnage_index
           ata_tonnage_truthy ata_tonnage_falsy (fun a => eq_refl)
           flt metrics db db1 m Hret).
  exists y. auto.
Qed.

(** X11. On a month that has its row, the Cass job writes only its two
    index columns and the ATA job only its one (each also stamps the
    source label and the confidence): every other column of the row
    is left as it was, whether the store commits or raises.  And a
    job whose records for the month carry no value for a column, or
    the value zero, leaves that column as it was too. *)
Theorem macro_jobs_keep_columns (flt : Faults) (cass : list CassScraper.Metric.t)
  (ata : list ATAScraper.Metric.t) (db : DB) (m : string) (r0 : MacroMetric.t) :
  macro_metrics db !! m = Some r0 ->
  (exists r, macro_metrics (snd (CassScraper.store flt cass db)) !! m = Some r /\
     MacroMetric.month r = MacroMetric.month r0 /\
     (forall f, f <> MacroField.cass_shipments_index ->
                f <> MacroField.cass_expenditures_index ->
                MacroMetric.getattr r f = MacroMetric.getattr r0 f) /\
     ((forall x, In x cass -> CassScraper.Metric.month x = m ->
                 truthy_float (CassScraper.Metric.cass_shipments_index x) = false) ->
      MacroMetric.cass_shipments_index r = MacroMetric.cass_shipments_index r0) /\
     ((forall x, In x cass -> CassScraper.Metric.month x = m ->
                 truthy_float (CassScraper.Metric.cass_expenditures_index x) = false) ->
      MacroMetric.cass_expenditures_index r = MacroMetric.cass_expenditures_index r0)) /\
  (exists r, macro_metrics (snd (ATAScraper.store flt ata db)) !! m = Some r /\
     MacroMetric.month r = MacroMetric.month r0 /\
     (forall f, f <> MacroField.ata_tonnage_index ->
                MacroMetric.getattr r f = MacroMetric.getattr r0 f) /\
     ((forall y, In y ata -> ATAScraper.Metric.month y = m ->
                 truthy_float (ATAScraper.Metric.ata_tonnage_index y) = false) ->
      MacroMetric.ata_tonnage_index r = MacroMetric.ata_tonnage_index r0)).
Proof.
  intros Hrow. split.
  - destruct (cass_store_kept flt cass db m r0 Hrow) as [r [Hr [[Hm Hk] [Hs He]]]].
    exists r. split; [exact Hr |]. split; [exact Hm |]. split; [| split; assumption].
    intros f H1 H2. apply Hk. intros [H | H]; [exact (H1 H) | exact (H2 H)].
  - destruct (ata_store_kept flt ata db m r0 Hrow) as [r [Hr [[Hm Hk] Ht]]].
    exists r. split; [exact Hr |]. split; [exact Hm |]. split; [| exact Ht].
    intros f H1. apply Hk. intros H. apply H1. symmetry. exact H.
Qed.

(** X12. The monthly table merges like the daily one.  When the Cass
    job has a shipments index for a month and the ATA job a tonnage
    index for the same month, then after both store steps have
    committed, in either order, the one row of the month holds a
    shipments index of the Cass batch and a tonnage index of the ATA
    batch. *)
Theorem macro_merge_one_row (flt1 flt2 : Faults) (db db1 db2 : DB)
  (cass : list CassScraper.Metric.t) (ata : list ATAScraper.Metric.t) (m : string) :
  (exists x, In x cass /\ cass_shipments_for m x) ->
  (exists y, In y ata /\ ata_tonnage_for m y) ->
  (CassScraper.store flt1 cass db = (Returned, db1) ->
   ATAScraper.store flt2 ata db1 = (Returned, db2) ->
   exists r, macro_metrics db2 !! m = Some r /\
     (exists x, In x cass /\ CassScraper.Metric.month x = m /\
                MacroMetric.cass_shipments_index r = CassScraper.Metric.cass_shipments_index x /\
                truthy_float (MacroMetric.cass_shipments_index r) = true) /\
     (exists y, In y ata /\ ATAScraper.Metric.month y = m /\
                MacroMetric.ata_tonnage_index r = ATAScraper.Metric.ata_tonnage_index y /\
                truthy_float (MacroMetric.ata_tonnage_index r) = true)) /\
  (ATAScraper.store flt1 ata db = (Returned, db1) ->
   CassScraper.store flt2 cass db1 = (Returned, db2) ->
   exists r, macro_metrics db2 !! m = Some r /\
     (exists x, In x cass /\ CassScraper.Metric.month x = m /\
                MacroMetric.cass_shipments_index r = CassScraper.Metric.cass_shipments_index x /\
                truthy_float (MacroMetric.cass_shipments_index r) = true) /\
     (exists y, In y ata /\ ATAScraper.Metric.month y = m /\
                MacroMetric.ata_tonnage_index r = ATAScraper.Metric.ata_tonnage_index y /\
                truthy_float (MacroMetric.ata_tonnage_index r) = true)).
Proof.
  intros Hc Ha. split.
  - intros H1 H2.
    destruct (cass_store_supplied _ _ _ _ m H1 Hc) as [r1 [Hr1 [x (Hx & Hxm & Hxt & Hxv)]]].
    destruct (ata_store_supplied _ _ _ _ m H2 Ha) as [r2 [Hr2 [y (Hy & Hym & Hyt & Hyv)]]].
    destruct (ata_store_kept flt2 ata db1 m r1 Hr1) as [r2' [Hr2' [[_ Hk] _]]].
    rewrite H2 in Hr2'. cbn [snd] in Hr2'. rewrite Hr2 in Hr2'. injection Hr2' as <-.
    cbn [MacroMetric.getattr] in Hxv, Hyv.
    exists r2. split; [exact Hr2 |]. split.
    + exists x. split; [exact Hx |]. split; [exact Hxm |].
      assert (Hkeep : MacroMetric.cass_shipments_index r2 = MacroMetric.cass_shipments_index r1)
        by (apply (Hk MacroField.cass_shipments_index); discriminate).
      rewrite Hkeep, Hxv. split; [reflexivity | exact Hxt].
    + exists y. split; [exact Hy |]. split; [exact Hym |]. rewrite Hyv.
      split; [reflexivity | exact Hyt].
  - intros H1 H2.
    destruct (ata_store_supplied _ _ _ _ m H1 Ha) as [r1 [Hr1 [y (Hy & Hym & Hyt & Hyv)]]].
    destruct (cass_store_supplied _ _ _ _ m H2 Hc) as [r2 [Hr2 [x (Hx & Hxm & Hxt & Hxv)]]].
    destruct (cass_store_kept flt2 cass db1 m r1 Hr1) as [r2' [Hr2' [[_ Hk] _]]].
    rewrite H2 in Hr2'. cbn [snd] in Hr2'. rewrite Hr2 in Hr2'. injection Hr2' as <-.
    cbn [MacroMetric.getattr] in Hxv, Hyv.
    exists r2. split; [exact Hr2 |]. split.
    + exists x. split; [exact Hx |]. split; [exact Hxm |]. rewrite Hxv.
      split; [reflexivity | exact Hxt].
    + exists y. split; [exact Hy |]. split; [exact Hym |].
      assert (Hkeep : MacroMetric.ata_tonnage_index r2 = MacroMetric.ata_tonnage_index r1).
      { apply (Hk MacroField.ata_tonnage_index). intros [H | H]; discriminate. }
      rewrite Hkeep, Hyv. split; [reflexivity | exact Hyt].
Qed.

End MacroJobs.

(** The row of a month the FRED job has filled, after the Cass job. *)
Lemma macro_jobs_keep_columns_witness :
  exists r,
    Database.macro_metrics
      (snd (CassScraper.store Database.no_faults [Samples.cass_dec] Samples.macro_db))
      !! "2024-12" = Some r /\
    Database.MacroMetric.industrial_production r = Some 99.5%float.
Proof.
  destruct (macro_jobs_keep_columns Database.no_faults [Samples.cass_dec] [Samples.ata_dec]
              Samples.macro_db "2024-12" Samples.fred_month)
    as [[r (Hr & _ & Hk & _)] _].
  - vm_compute. reflexivity.
  - exists r. split; [exact Hr |].
    apply (Hk Database.MacroField.industrial_production); discriminate.
Defined.

(** The indices of December 2024 from the two jobs, into an empty
    table. *)
Lemma macro_merge_one_row_witness :
  exists r,
    Database.macro_metrics
      (snd (ATAScraper.store Database.no_faults [Samples.ata_dec]
              (snd (CassScraper.store Database.no_faults [Samples.cass_dec]
                      Samples.empty_db))))
      !! "2024-12" = Some r /\
    Database.MacroMetric.cass_shipments_index r = Some 1.125%float /\
    Database.MacroMetric.ata_tonnage_index r = Some 113.5%float.
Proof.
  destruct (macro_merge_one_row Database.no_faults Database.no_faults Samples.empty_db
              (snd (CassScraper.store Database.no_faults [Samples.cass_dec] Samples.empty_db))
              (snd (ATAScraper.store Database.no_faults [Samples.ata_dec]
                      (snd (CassScraper.store Database.no_faults [Samples.cass_dec]
                              Samples.empty_db))))
              [Samples.cass_dec] [Samples.ata_dec] "2024-12")
    as [H _].
  - exists Samples.cass_dec. split; [left; reflexivity |]. repeat split.
  - exists Samples.ata_dec. split; [left; reflexivity |]. repeat split.
  - destruct H as [r (Hr & [x (Hx & _ & Hxv & _)] & [y (Hy & _ & Hyv & _)])].
    + vm_compute. reflexivity.
    + vm_compute. reflexivity.
    + exists r. split; [exact Hr |].
      destruct Hx as [<- | []]. destruct Hy as [<- | []]. split; [exact Hxv | exact Hyv].
Defined.

(* ------------------------------------------------------------------ *)
(** ** FRED: fetch and parse *)
(* ------------------------------------------------------------------ *)

Section FredFetch.
Import Py Requests BaseScraper FREDScraperInput.
Variable server : Server.
Variable api_key : option string.

Lemma fetch_series_sent series_id sent :
  snd (fetch_series server api_key series_id sent) = sent ++ [fred_request api_key series_id].
Proof.
  unfold fetch_series, get, request. cbn.
  destruct (server sent _) as [| |response|failure]; try reflexivity.
  destruct (raise_for_status response); [reflexivity |].
  destruct (json_of response) as [e | data]; [reflexivity |].
  destruct (py_in "observations" data) as [e | [|]]; try reflexivity.
  destruct (py_getitem data "observations"); reflexivity.
Qed.

Lemma set_item_fresh {V} k (v : V) d :
  ~ In k (map fst d) -> set_item k v d = d ++ [(k, v)].
Proof.
  induction d as [|[k' v'] rest IH]; intros Hfresh; [reflexivity |].
  cbn [set_item]. destruct (String.eqb k' k) eqn:E.
  - apply String.eqb_eq in E. exfalso. apply Hfresh. left. exact E.
  - cbn [app]. rewrite IH; [reflexivity |]. intros Hin. apply Hfresh. right. exact Hin.
Qed.

(** The loop over a catalog whose ids differ and are not yet keys of
    [all_data]. *)
Lemma fetch_loop_spec (series : list (string * Config)) :
  forall all_data sent,
  NoDup (map fst series) ->
  (forall k, In k (map fst series) -> ~ In k (map fst all_data)) ->
  snd (fetch_loop server api_key series all_data sent) =
    sent ++ map (fun s => fred_request api_key (fst s)) series /\
  exists new,
    fst (fetch_loop server api_key series all_data sent) = all_data ++ new /\
    sublist (map (fun e => (fst e, fst (snd e))) new) series /\
    forall pre series_id config post,
      series = pre ++ (series_id, config) :: post ->
      (In series_id (map fst new) <->
       is_Some (fst (fetch_series server api_key series_id
                       (sent ++ map (fun s => fred_request api_key (fst s)) pre)))).
Proof.
  induction series as [|[series_id config] rest IH]; intros all_data sent Hnd Hfresh.
  - cbn. rewrite app_nil_r. split; [reflexivity |]. exists []. rewrite app_nil_r.
    split; [reflexivity |]. split; [constructor |].
    intros pre sid cfg post H. destruct pre; discriminate.
  - cbn [map fst] in Hnd. apply NoDup_cons in Hnd. destruct Hnd as [Hnotin Hnd].
    rewrite list_elem_of_In in Hnotin.
    cbn [fetch_loop].
    pose proof (fetch_series_sent series_id sent) as Hsent.
    destruct (fetch_series server api_key series_id sent) as [o sent1] eqn:Ef.
    cbn [snd] in Hsent. subst sent1.
    set (all_data1 := match o with
                      | Some observations => set_item series_id (config, observations) all_data
                      | None => all_data
                      end).
    assert (Hdata : all_data1 = all_data ++
                      match o with Some observations => [(series_id, (config, observations))]
                                 | None => [] end).
    { unfold all_data1. destruct o; [| rewrite app_nil_r; reflexivity].
      apply set_item_fresh. apply Hfresh. left. reflexivity. }
    destruct (IH all_data1 (sent ++ [fred_request api_key series_id]) Hnd)
      as [Hs [new (Hd & Hsub & Hiff)]].
    { intros k Hk. rewrite Hdata, map_app, in_app_iff. intros [H | H].
      - exact (Hfresh k (or_intror Hk) H).
      - destruct o; cbn in H; [destruct H as [<- | []]; exact (Hnotin Hk) | exact H]. }
    split; [rewrite Hs, <- app_assoc; reflexivity |].
    exists (match o with Some observations => [(series_id, (config, observations))]
                       | None => [] end ++ new).
    split; [rewrite Hd, Hdata, <- app_assoc; reflexivity |]. split.
    + destruct o; cbn [app map fst snd]; [apply sublist_skip | apply sublist_cons]; exact Hsub.
    + intros pre sid cfg post Heq. destruct pre as [|p pre].
      * cbn [app] in Heq. injection Heq as <- <- <-. cbn [map]. rewrite app_nil_r, Ef.
        cbn [fst]. rewrite map_app, in_app_iff. split.
        -- intros [H | H]; [destruct o; [eexists; reflexivity | destruct H] |].
           exfalso. apply Hnotin.
           assert (Hin : In series_id (map fst (map (fun e => (fst e, fst (snd e))) new)))
             by (rewrite map_map; exact H).
           apply list_elem_of_In. apply list_elem_of_In in Hin.
           apply (elem_of_sublist _ _ _ Hin). apply (fmap_sublist fst). exact Hsub.
        -- intros [obs ->]. left. left. reflexivity.
      * cbn [app] in Heq. injection Heq as <- ->. cbn [map fst].
        replace (sent ++ fred_request api_key series_id ::
                   map (fun s => fred_request api_key (fst s)) pre)
          with ((sent ++ [fred_request api_key series_id]) ++
                  map (fun s => fred_request api_key (fst s)) pre)
          by (rewrite <- app_assoc; reflexivity).
        rewrite <- (Hiff pre sid cfg post eq_refl).
        rewrite map_app, in_app_iff. split; [| intros H; right; exact H].
        intros [H | H]; [| exact H]. exfalso. apply Hnotin.
        rewrite map_app, in_app_iff. right. left.
        destruct o; cbn in H; [destruct H as [<- | []]; reflexivity | destruct H].
Qed.

(** X13. The FRED job asks for every series of its catalog, once and
    in the order of the catalog, whatever the replies to the earlier
    requests were; what it returns holds, in that order and with the
    configuration of the catalog, exactly the series whose own
    request brought observations.  So a series that fails costs only
    itself. *)
Theorem fred_fetch_every_series (sent : list Request) :
  snd (fetch server api_key sent) =
    sent ++ map (fun s => fred_request api_key (fst s)) SERIES /\
  sublist (map (fun e => (fst e, fst (snd e))) (fst (fetch server api_key sent))) SERIES /\
  forall pre series_id config post,
    SERIES = pre ++ (series_id, config) :: post ->
    (In series_id (map fst (fst (fetch server api_key sent))) <->
     is_Some (fst (fetch_series server api_key series_id
                     (sent ++ map (fun s => fred_request api_key (fst s)) pre)))).
Proof.
  unfold fetch.
  destruct (fetch_loop_spec SERIES [] sent) as [Hs [new (Hd & Hsub & Hiff)]].
  - apply (bool_decide_unpack _). vm_compute. reflexivity.
  - intros k _ [].
  - cbn [app] in Hd. rewrite Hd. split; [exact Hs |]. split; [exact Hsub | exact Hiff].
Qed.

End FredFetch.

Section FredParse.
Import Py Database FREDScraper FREDScraperInput.
Variable float_of_str : string -> option float.
Variable month_of_date : string -> option string.

(** The observations [parse] passes on, by table. *)
Lemma parse_series_spec series_id config observations : forall acc,
  daily (parse_series float_of_str month_of_date series_id config observations acc) =
    daily acc ++
    flat_map (fun obs => match parse_obs float_of_str month_of_date series_id config obs with
                         | Some (inl m) => [m] | _ => [] end) observations /\
  macro (parse_series float_of_str month_of_date series_id config observations acc) =
    macro acc ++
    flat_map (fun obs => match parse_obs float_of_str month_of_date series_id config obs with
                         | Some (inr m) => [m] | _ => [] end) observations.
Proof.
  unfold parse_series.
  induction observations as [|obs rest IH]; intros acc; cbn [fold_left flat_map].
  - rewrite !app_nil_r. split; reflexivity.
  - destruct (IH (match parse_obs float_of_str month_of_date series_id config obs with
                  | Some (inl m) => mkParsed (daily acc ++ [m]) (macro acc)
                  | Some (inr m) => mkParsed (daily acc) (macro acc ++ [m])
                  | None => acc
                  end)) as [-> ->].
    destruct (parse_obs float_of_str month_of_date series_id config obs) as [[m | m]|];
      cbn [daily macro app]; rewrite <- ?app_assoc, ?app_nil_r; split; reflexivity.
Qed.

Lemma parse_spec raw_data :
  daily (parse float_of_str month_of_date raw_data) =
    flat_map (fun '(series_id, (config, observations)) =>
      flat_map (fun obs => match parse_obs float_of_str month_of_date series_id config obs with
                           | Some (inl m) => [m] | _ => [] end) observations) raw_data /\
  macro (parse float_of_str month_of_date raw_data) =
    flat_map (fun '(series_id, (config, observations)) =>
      flat_map (fun obs => match parse_obs float_of_str month_of_date series_id config obs with
                           | Some (inr m) => [m] | _ => [] end) observations) raw_data.
Proof.
  unfold parse.
  assert (H : forall acc,
    daily (fold_left (fun acc '(series_id, (config, observations)) =>
             parse_series float_of_str month_of_date series_id config observations acc)
             raw_data acc) =
      daily acc ++
      flat_map (fun '(series_id, (config, observations)) =>
        flat_map (fun obs => match parse_obs float_of_str month_of_date series_id config obs with
                             | Some (inl m) => [m] | _ => [] end) observations) raw_data /\
    macro (fold_left (fun acc '(series_id, (config, observations)) =>
             parse_series float_of_str month_of_date series_id config observations acc)
             raw_data acc) =
      macro acc ++
      flat_map (fun '(series_id, (config, observations)) =>
        flat_map (fun obs => match parse_obs float_of_str month_of_date series_id config obs with
                             | Some (inr m) => [m] | _ => [] end) observations) raw_data).
  { induction raw_data as [|[series_id [config observations]] rest IH]; intros acc;
      cbn [fold_left flat_map].
    - rewrite !app_nil_r. split; reflexivity.
    - destruct (IH (parse_series float_of_str month_of_date series_id config observations acc))
        as [-> ->].
      destruct (parse_series_spec series_id config observations acc) as [-> ->].
      rewrite <- !app_assoc. split; reflexivity. }
  exact (H (mkParsed [] [])).
Qed.

Lemma parse_obs_daily series_id config obs m :
  parse_obs float_of_str month_of_date series_id config obs = Some (inl m) <->
  exists v,
    Observation.date obs = Some (DailyObs.date m) /\
    Observation.value obs = Some v /\ v <> "." /\
    float_of_str v = Some (DailyObs.value m) /\
    target config = Daily (DailyObs.field m) /\
    DailyObs.source m = "FRED-" +:+ series_id.
Proof.
  unfold parse_obs. destruct obs as [[d|] [v|]]; cbn [Observation.date Observation.value].
  2-4: split; [discriminate | intros [v' (H1 & H2 & _)]; discriminate].
  destruct (String.eqb v ".") eqn:Ev.
  { apply String.eqb_eq in Ev. split; [discriminate |].
    intros [v' (_ & H2 & H3 & _)]. congruence. }
  apply String.eqb_neq in Ev.
  destruct (float_of_str v) as [x|] eqn:Ex.
  2: { split; [discriminate |]. intros [v' (_ & H2 & _ & H4 & _)]. congruence. }
  destruct (target config) as [f | f].
  - split.
    + intros H. injection H as <-. exists v. cbn. repeat split; auto.
    + intros [v' (H1 & H2 & _ & H4 & H5 & H6)]. destruct m as [md mf mv ms]. cbn in *.
      congruence.
  - destruct (month_of_date d); (split; [discriminate |]);
      intros [v' (_ & _ & _ & _ & H5 & _)]; discriminate.
Qed.

Lemma parse_obs_macro series_id config obs m :
  parse_obs float_of_str month_of_date series_id config obs = Some (inr m) <->
  exists d v,
    Observation.date obs = Some d /\ month_of_date d = Some (MacroObs.month m) /\
    Observation.value obs = Some v /\ v <> "." /\
    float_of_str v = Some (MacroObs.value m) /\
    target config = Macro (MacroObs.field m) /\
    MacroObs.source m = "FRED-" +:+ series_id.
Proof.
  unfold parse_obs. destruct obs as [[d|] [v|]]; cbn [Observation.date Observation.value].
  2-4: split; [discriminate | intros [d' [v' (H1 & _ & H2 & _)]]; discriminate].
  destruct (String.eqb v ".") eqn:Ev.
  { apply String.eqb_eq in Ev. split; [discriminate |].
    intros [d' [v' (_ & _ & H2 & H3 & _)]]. congruence. }
  apply String.eqb_neq in Ev.
  destruct (float_of_str v) as [x|] eqn:Ex.
  2: { split; [discriminate |]. intros [d' [v' (_ & _ & H2 & _ & H4 & _)]]. congruence. }
  destruct (target config) as [f | f].
  - split; [discriminate |]. intros [d' [v' (_ & _ & _ & _ & _ & H5 & _)]]. discriminate.
  - destruct (month_of_date d) as [mo|] eqn:Em.
    + split.
      * intros H. injection H as <-. exists d, v. cbn. repeat split; auto.
      * intros [d' [v' (H1 & H2 & H3 & _ & H4 & H5 & H6)]].
        destruct m as [mm mf mv ms]. cbn in *. congruence.
    + split; [discriminate |]. intros [d' [v' (H1 & H2 & _)]]. congruence.
Qed.

Lemma parse_daily_in raw_data m :
  In m (daily (parse float_of_str month_of_date raw_data)) <->
  exists series_id config observations obs v,
    In (series_id, (config, observations)) raw_data /\ In obs observations /\
    Observation.date obs = Some (DailyObs.date m) /\
    Observation.value obs = Some v /\ v <> "." /\
    float_of_str v = Some (DailyObs.value m) /\
    target config = Daily (DailyObs.field m) /\
    DailyObs.source m = "FRED-" +:+ series_id.
Proof.
  destruct (parse_spec raw_data) as [-> _]. rewrite in_flat_map. split.
  - intros [[series_id [config observations]] [Hin Hm]]. apply in_flat_map in Hm.
    destruct Hm as [obs [Hobs Hm]].
    destruct (parse_obs float_of_str month_of_date series_id config obs) as [[m' | m']|] eqn:E;
      try destruct Hm as [<- | []]; try destruct Hm.
    apply parse_obs_daily in E. destruct E as [v Hv].
    exists series_id, config, observations, obs, v. auto.
  - intros (series_id & config & observations & obs & v & Hin & Hobs & Hv).
    exists (series_id, (config, observations)). split; [exact Hin |].
    apply in_flat_map. exists obs. split; [exact Hobs |].
    assert (E : parse_obs float_of_str month_of_date series_id config obs = Some (inl m))
      by (apply parse_obs_daily; exists v; exact Hv).
    rewrite E. left. reflexivity.
Qed.

Lemma parse_macro_in raw_data m :
  In m (macro (parse float_of_str month_of_date raw_data)) <->
  exists series_id config observations obs d v,
    In (series_id, (config, observations)) raw_data /\ In obs observations /\
    Observation.date obs = Some d /\ month_of_date d = Some (MacroObs.month m) /\
    Observation.value obs = Some v /\ v <> "." /\
    float_of_str v = Some (MacroObs.value m) /\
    target config = Macro (MacroObs.field m) /\
    MacroObs.source m = "FRED-" +:+ series_id.
Proof.
  destruct (parse_spec raw_data) as [_ ->]. rewrite in_flat_map. split.
  - intros [[series_id [config observations]] [Hin Hm]]. apply in_flat_map in Hm.
    destruct Hm as [obs [Hobs Hm]].
    destruct (parse_obs float_of_str month_of_date series_id config obs) as [[m' | m']|] eqn:E;
      try destruct Hm as [<- | []]; try destruct Hm.
    apply parse_obs_macro in E. destruct E as [d [v Hv]].
    exists series_id, config, observations, obs, d, v. auto.
  - intros (series_id & config & observations & obs & d & v & Hin & Hobs & Hv).
    exists (series_id, (config, observations)). split; [exact Hin |].
    apply in_flat_map. exists obs. split; [exact Hobs |].
    assert (E : parse_obs float_of_str month_of_date series_id config obs = Some (inr m))
      by (apply parse_obs_macro; exists d, v; exact Hv).
    rewrite E. left. reflexivity.
Qed.

(** X14. What [parse] passes on.  A daily record comes from an
    observation of a series of the daily table whose value is not the
    mark '.' of a missing value and reads as a number; it carries the
    date of the observation, the column of the series and the label
    'FRED-' with the series id.  A monthly record comes the same way
    from a series of the monthly table, under the month of the date.
    Every other observation is passed over, and nothing else is
    passed on. *)
Theorem fred_parse_routes (raw_data : list (string * (Config * list Observation.t))) :
  (forall m, In m (daily (parse float_of_str month_of_date raw_data)) <->
     exists series_id config observations obs v,
       In (series_id, (config, observations)) raw_data /\ In obs observations /\
       Observation.date obs = Some (DailyObs.date m) /\
       Observation.value obs = Some v /\ v <> "." /\
       float_of_str v = Some (DailyObs.value m) /\
       target config = Daily (DailyObs.field m) /\
       DailyObs.source m = "FRED-" +:+ series_id) /\
  (forall m, In m (macro (parse float_of_str month_of_date raw_data)) <->
     exists series_id config observations obs d v,
       In (series_id, (config, observations)) raw_data /\ In obs observations /\
       Observation.date obs = Some d /\ month_of_date d = Some (MacroObs.month m) /\
       Observation.value obs = Some v /\ v <> "." /\
       float_of_str v = Some (MacroObs.value m) /\
       target config = Macro (MacroObs.field m) /\
       MacroObs.source m = "FRED-" +:+ series_id).
Proof.
  split; intros m; [apply parse_daily_in | apply parse_macro_in].
Qed.

End FredParse.

(* ------------------------------------------------------------------ *)
(** ** FRED: the monthly table and the source labels *)
(* ------------------------------------------------------------------ *)

Section FredMonthly.
Import Py Database FREDScraper.

Lemma macro_field_eq_dec (f g : MacroField.t) : {f = g} + {f <> g}.
Proof. decide equality. Qed.

Lemma fred_macro_columns_dec obs mo f :
  fred_macro_columns obs mo f \/ ~ fred_macro_columns obs mo f.
Proof.
  induction obs as [|x rest IH].
  - right. intros [x [[] _]].
  - destruct IH as [[x' [Hin Hx']] | Hno].
    + left. exists x'. split; [right; exact Hin | exact Hx'].
    + destruct (String.string_dec (MacroObs.month x) mo) as [Hd | Hd];
        [destruct (macro_field_eq_dec (MacroObs.field x) f) as [Hf | Hf] |].
      * left. exists x. split; [left; reflexivity | auto].
      * right. intros [x' [[<- | Hin] [Hd' Hf']]]; [contradiction |].
        apply Hno. exists x'. auto.
      * right. intros [x' [[<- | Hin] [Hd' Hf']]]; [contradiction |].
        apply Hno. exists x'. auto.
Qed.

Lemma macro_kept_weaken (own own' : MacroField.t -> Prop) r r' :
  (forall f, own f -> own' f) -> macro_kept own r r' -> macro_kept own' r r'.
Proof.
  intros Hsub [Hm Hf]. split; [exact Hm |].
  intros f Hn. apply Hf. intros Ho. exact (Hn (Hsub f Ho)).
Qed.

Lemma setattr_macro_meta r f v :
  MacroMetric.month (MacroMetric.setattr r f v) = MacroMetric.month r /\
  MacroMetric.source (MacroMetric.setattr r f v) = MacroMetric.source r.
Proof. destruct f; split; reflexivity. Qed.

Lemma macro_getattr_set_source r f v :
  MacroMetric.getattr (MacroMetric.set_source v r) f = MacroMetric.getattr r f.
Proof. destruct f; reflexivity. Qed.

(** A flush of a session whose only pending row is a new row. *)
Lemma flush_new_macro flt s r s' :
  clean s ->
  macro_metrics (view s) !! MacroMetric.month r = None ->
  flush flt (add_macro r s) = inr s' ->
  clean s' /\
  macro_metrics (view s') = <[MacroMetric.month r := r]> (macro_metrics (view s)) /\
  daily_metrics (view s') = daily_metrics (view s).
Proof.
  intros [Hn [Hd [Hp Hm]]] Hfree. unfold flush.
  cbn [flushes add_macro new_news new_daily new_macro new_diesel view]. rewrite Hn, Hd, Hm.
  destruct (flt (flushes s)); [discriminate |].
  unfold insert_news, insert_daily, insert_macro. cbn [app insert_rows].
  unfold macro_violation, has_key. rewrite Hfree.
  intros H. injection H as <-. split; [repeat split |]. split; reflexivity.
Qed.

Lemma flush_new_daily flt s r s' :
  clean s ->
  daily_metrics (view s) !! DailyMetric.date r = None ->
  flush flt (add_daily r s) = inr s' ->
  clean s' /\
  daily_metrics (view s') = <[DailyMetric.date r := r]> (daily_metrics (view s)) /\
  macro_metrics (view s') = macro_metrics (view s).
Proof.
  intros [Hn [Hd [Hp Hm]]] Hfree. unfold flush.
  cbn [flushes add_daily new_news new_daily new_macro new_diesel view]. rewrite Hn, Hd, Hm.
  destruct (flt (flushes s)); [discriminate |].
  unfold insert_news, insert_daily, insert_macro. cbn [app insert_rows].
  unfold daily_violation, has_key. rewrite Hfree.
  intros H. injection H as <-. split; [repeat split |]. split; reflexivity.
Qed.

Lemma flush_clean_view flt s s' :
  clean s -> flush flt s = inr s' ->
  daily_metrics (view s') = daily_metrics (view s) /\
  macro_metrics (view s') = macro_metrics (view s).
Proof.
  intros [Hn [Hd [Hp Hm]]]. unfold flush. rewrite Hn, Hd, Hm.
  destruct (flt (flushes s)); [discriminate |].
  unfold insert_news, insert_daily, insert_macro. cbn [insert_rows].
  intros H. injection H as <-. split; reflexivity.
Qed.

(** One turn of the loop over the monthly observations. *)
Lemma store_macro_turn flt x s s' :
  clean s -> store_macro flt x s = inr s' ->
  clean s' /\
  daily_metrics (view s') = daily_metrics (view s) /\
  exists r',
    macro_metrics (view s') = <[MacroObs.month x := r']> (macro_metrics (view s)) /\
    MacroMetric.getattr r' (MacroObs.field x) = Some (MacroObs.value x) /\
    MacroMetric.source r' =
      match macro_metrics (view s) !! MacroObs.month x with
      | Some r0 => fred_stamp (MacroObs.source x) (MacroMetric.source r0)
      | None => Some (MacroObs.source x)
      end /\
    (forall r0, macro_metrics (view s) !! MacroObs.month x = Some r0 ->
                macro_kept (eq (MacroObs.field x)) r0 r').
Proof.
  intros Hclean. unfold store_macro.
  destruct (macro_metrics (view s) !! MacroObs.month x) as [existing|] eqn:E.
  - intros H. injection H as <-. split; [exact Hclean |]. split; [reflexivity |].
    eexists. split; [reflexivity |].
    destruct (setattr_macro_meta existing (MacroObs.field x) (Some (MacroObs.value x)))
      as [Hmonth Hsrc].
    cbn zeta. unfold fred_stamp.
    destruct (not_from "FRED" (MacroMetric.source existing)).
    + split; [rewrite macro_getattr_set_source; apply macro_getattr_setattr_same |].
      split; [reflexivity |]. intros r0 H0. injection H0 as <-. split; [exact Hmonth |].
      intros f Hf. rewrite macro_getattr_set_source.
      apply macro_getattr_setattr_other. exact Hf.
    + split; [apply macro_getattr_setattr_same |]. split; [exact Hsrc |].
      intros r0 H0. injection H0 as <-. split; [exact Hmonth |].
      intros f Hf. apply macro_getattr_setattr_other. exact Hf.
  - intros H.
    set (r := MacroMetric.setattr
                (MacroMetric.new (MacroObs.month x) (Some (MacroObs.source x)) (Some 1%float))
                (MacroObs.field x) (Some (MacroObs.value x))) in *.
    assert (Hmonth : MacroMetric.month r = MacroObs.month x)
      by (unfold r; destruct (MacroObs.field x); reflexivity).
    assert (Hsrc : MacroMetric.source r = Some (MacroObs.source x))
      by (unfold r; destruct (MacroObs.field x); reflexivity).
    destruct (flush_new_macro flt s r s' Hclean) as [Hc [Hv Hd]].
    + rewrite Hmonth. exact E.
    + exact H.
    + split; [exact Hc |]. split; [exact Hd |]. exists r. rewrite Hv, Hmonth.
      split; [reflexivity |]. split; [apply macro_getattr_setattr_same |].
      split; [exact Hsrc | discriminate].
Qed.

(** One turn of the loop over the daily observations, with the label. *)
Lemma store_daily_turn flt x s s' :
  clean s -> store_daily flt x s = inr s' ->
  clean s' /\
  macro_metrics (view s') = macro_metrics (view s) /\
  exists r',
    daily_metrics (view s') = <[DailyObs.date x := r']> (daily_metrics (view s)) /\
    DailyMetric.source r' =
      match daily_metrics (view s) !! DailyObs.date x with
      | Some r0 => fred_stamp (DailyObs.source x) (DailyMetric.source r0)
      | None => Some (DailyObs.source x)
      end.
Proof.
  intros Hclean. unfold store_daily.
  destruct (daily_metrics (view s) !! DailyObs.date x) as [existing|] eqn:E.
  - intros H. injection H as <-. split; [exact Hclean |]. split; [reflexivity |].
    eexists. split; [reflexivity |].
    destruct (setattr_meta existing (DailyObs.field x) (Some (DailyObs.value x)))
      as [_ [_ Hsrc]].
    cbn zeta. rewrite Hsrc. unfold fred_stamp.
    destruct (not_from "FRED" (DailyMetric.source existing)); [reflexivity | exact Hsrc].
  - intros H.
    set (r := DailyMetric.setattr
                (DailyMetric.new (DailyObs.date x) (Some (DailyObs.source x)) (Some 1%float))
                (DailyObs.field x) (Some (DailyObs.value x))) in *.
    assert (Hdate : DailyMetric.date r = DailyObs.date x)
      by (unfold r; destruct (DailyObs.field x); reflexivity).
    assert (Hsrc : DailyMetric.source r = Some (DailyObs.source x))
      by (unfold r; destruct (DailyObs.field x); reflexivity).
    destruct (flush_new_daily flt s r s' Hclean) as [Hc [Hv Hm]].
    + rewrite Hdate. exact E.
    + exact H.
    + split; [exact Hc |]. split; [exact Hm |]. exists r. rewrite Hv, Hdate.
      split; [reflexivity | exact Hsrc].
Qed.

Lemma store_daily_loop_macro flt obs : forall s s',
  clean s -> for_each (store_daily flt) obs s = inr s' ->
  clean s' /\ macro_metrics (view s') = macro_metrics (view s).
Proof.
  induction obs as [|x rest IH]; intros s s' Hclean Hrun; cbn [for_each] in Hrun.
  - injection Hrun as <-. split; [exact Hclean | reflexivity].
  - destruct (store_daily flt x s) as [e | s1] eqn:Estep; [discriminate |].
    destruct (store_daily_turn flt x s s1 Hclean Estep) as [Hc1 [Hv1 _]].
    destruct (IH s1 s' Hc1 Hrun) as [Hc' Hv']. split; [exact Hc' | congruence].
Qed.

(** The loop over the monthly observations. *)
Lemma store_macro_loop flt obs : forall s s',
  clean s -> for_each (store_macro flt) obs s = inr s' ->
  clean s' /\
  (forall mo f, fred_macro_columns obs mo f ->
     exists r, macro_metrics (view s') !! mo = Some r /\ macro_field_supplied obs mo f r) /\
  (forall mo r0, macro_metrics (view s) !! mo = Some r0 ->
     exists r, macro_metrics (view s') !! mo = Some r /\
               macro_kept (fred_macro_columns obs mo) r0 r).
Proof.
  induction obs as [|x rest IH]; intros s s' Hclean Hrun; cbn [for_each] in Hrun.
  - injection Hrun as <-. split; [exact Hclean |]. split.
    + intros mo f [x [[] _]].
    + intros mo r0 H0. exists r0. split; [exact H0 | apply macro_kept_refl].
  - destruct (store_macro flt x s) as [e | s1] eqn:Estep; [discriminate |].
    destruct (store_macro_turn flt x s s1 Hclean Estep)
      as [Hc1 [_ [r1 [Hv1 [Hval [_ Hkept1]]]]]].
    destruct (IH s1 s' Hc1 Hrun) as [Hc' [Hsup Hkeep]].
    split; [exact Hc' |].
    assert (Hkeep' : forall mo r0, macro_metrics (view s) !! mo = Some r0 ->
              exists r, macro_metrics (view s') !! mo = Some r /\
                        macro_kept (fred_macro_columns (x :: rest) mo) r0 r).
    { intros mo r0 H0.
      destruct (decide (MacroObs.month x = mo)) as [Hd | Hd].
      - assert (H1 : macro_metrics (view s1) !! mo = Some r1)
          by (rewrite Hv1, <- Hd; apply lookup_insert_eq).
        destruct (Hkeep mo r1 H1) as [r [Hr Hk]]. exists r. split; [exact Hr |].
        apply (macro_kept_trans _ r0 r1 r).
        + apply (macro_kept_weaken (eq (MacroObs.field x))).
          * intros f <-. exists x. split; [left; reflexivity | auto].
          * apply Hkept1. rewrite Hd. exact H0.
        + apply (macro_kept_weaken (fred_macro_columns rest mo)); [| exact Hk].
          intros f [x' [Hin Hx']]. exists x'. split; [right; exact Hin | exact Hx'].
      - assert (H1 : macro_metrics (view s1) !! mo = Some r0)
          by (rewrite Hv1, lookup_insert_ne by exact Hd; exact H0).
        destruct (Hkeep mo r0 H1) as [r [Hr Hk]]. exists r. split; [exact Hr |].
        apply (macro_kept_weaken (fred_macro_columns rest mo)); [| exact Hk].
        intros f [x' [Hin Hx']]. exists x'. split; [right; exact Hin | exact Hx']. }
    split; [| exact Hkeep'].
    intros mo f Hcol.
    destruct (fred_macro_columns_dec rest mo f) as [Hrest | Hnot].
    + destruct (Hsup mo f Hrest) as [r [Hr [x' [Hin Hx']]]].
      exists r. split; [exact Hr |]. exists x'. split; [right; exact Hin | exact Hx'].
    + destruct Hcol as [x' [[<- | Hin] [Hd Hf]]];
        [| exfalso; apply Hnot; exists x'; auto].
      assert (H1 : macro_metrics (view s1) !! mo = Some r1)
        by (rewrite Hv1, <- Hd; apply lookup_insert_eq).
      destruct (Hkeep mo r1 H1) as [r [Hr [_ Hk]]].
      exists r. split; [exact Hr |]. exists x. split; [left; reflexivity |].
      split; [exact Hd |]. split; [exact Hf |].
      rewrite (Hk f Hnot). rewrite <- Hf. exact Hval.
Qed.

Lemma fred_store_macro_returned flt parsed_data db db1 :
  store flt parsed_data db = (Returned, db1) ->
  (forall mo f, fred_macro_columns (macro parsed_data) mo f ->
     exists r, macro_metrics db1 !! mo = Some r /\
               macro_field_supplied (macro parsed_data) mo f r) /\
  (forall mo r0, macro_metrics db !! mo = Some r0 ->
     exists r, macro_metrics db1 !! mo = Some r /\
               macro_kept (fred_macro_columns (macro parsed_data) mo) r0 r).
Proof.
  intros Hret. unfold store in Hret. apply transaction_returned in Hret.
  destruct Hret as [s [s' [Hbody [Hflush ->]]]].
  destruct (for_each (store_daily flt) (daily parsed_data) (SessionLocal db))
    as [e | s1] eqn:E1; [discriminate |].
  destruct (store_daily_loop_macro flt _ _ _ (clean_SessionLocal db) E1) as [Hc1 Hv1].
  destruct (store_macro_loop flt _ _ _ Hc1 Hbody) as [Hc2 [Hsup Hkeep]].
  rewrite (proj2 (flush_clean_view flt s s' Hc2 Hflush)).
  split; [exact Hsup |]. intros mo r0 H0. apply Hkeep. rewrite Hv1. exact H0.
Qed.

Lemma fred_store_macro_keeps flt parsed_data db mo r0 :
  macro_metrics db !! mo = Some r0 ->
  exists r, macro_metrics (snd (store flt parsed_data db)) !! mo = Some r /\
            macro_kept (fred_macro_columns (macro parsed_data) mo) r0 r.
Proof.
  intros Hrow. destruct (store flt parsed_data db) as [[| e] db1] eqn:E.
  - cbn [snd]. exact (proj2 (fred_store_macro_returned _ _ _ _ E) mo r0 Hrow).
  - cbn [snd]. unfold store in E. apply transaction_raised in E. subst db1.
    exists r0. split; [exact Hrow | apply macro_kept_refl].
Qed.

(** X15. The FRED job on the monthly table.  After a store that
    commits, every month and column the batch has an observation for
    holds a value of the batch for that month and column; and on a
    month that had its row, whether the store commits or raises, the
    columns the batch has no observation for are as they were. *)
Theorem fred_store_monthly (flt : Faults) (parsed_data : Parsed) (db : DB) :
  (forall db1, store flt parsed_data db = (Returned, db1) ->
     forall mo f, fred_macro_columns (macro parsed_data) mo f ->
       exists r, macro_metrics db1 !! mo = Some r /\
                 macro_field_supplied (macro parsed_data) mo f r) /\
  (forall mo r0, macro_metrics db !! mo = Some r0 ->
     exists r, macro_metrics (snd (store flt parsed_data db)) !! mo = Some r /\
       MacroMetric.month r = MacroMetric.month r0 /\
       forall f, ~ fred_macro_columns (macro parsed_data) mo f ->
                 MacroMetric.getattr r f = MacroMetric.getattr r0 f).
Proof.
  split; [intros db1 H; exact (proj1 (fred_store_macro_returned _ _ _ _ H)) |].
  intros mo r0 Hrow.
  destruct (fred_store_macro_keeps flt parsed_data db mo r0 Hrow) as [r [Hr [Hm Hk]]].
  exists r. auto.
Qed.

Lemma fred_stamp_kept own source : fred_label source -> fred_stamp own source = source.
Proof. unfold fred_label, fred_stamp. intros ->. reflexivity. Qed.

Lemma fred_stamp_label own source :
  fred_label (Some own) -> fred_label (fred_stamp own source).
Proof.
  unfold fred_stamp. intros Hown.
  destruct (not_from "FRED" source) eqn:E; [exact Hown | exact E].
Qed.

(** The labels through the loop over the daily observations. *)
Lemma store_daily_loop_labels flt obs : forall s s',
  clean s -> for_each (store_daily flt) obs s = inr s' ->
  (forall x, In x obs -> fred_label (Some (DailyObs.source x))) ->
  (forall d r0, daily_metrics (view s) !! d = Some r0 -> fred_label (DailyMetric.source r0) ->
     exists r, daily_metrics (view s') !! d = Some r /\
               DailyMetric.source r = DailyMetric.source r0) /\
  (forall d f, fred_columns obs d f ->
     exists r, daily_metrics (view s') !! d = Some r /\ fred_label (DailyMetric.source r)).
Proof.
  induction obs as [|x rest IH]; intros s s' Hclean Hrun Hlab; cbn [for_each] in Hrun.
  - injection Hrun as <-. split.
    + intros d r0 H0 _. exists r0. split; [exact H0 | reflexivity].
    + intros d f [x [[] _]].
  - destruct (store_daily flt x s) as [e | s1] eqn:Estep; [discriminate |].
    destruct (store_daily_turn flt x s s1 Hclean Estep) as [Hc1 [_ [r1 [Hv1 Hsrc1]]]].
    destruct (IH s1 s' Hc1 Hrun (fun y Hy => Hlab y (or_intror Hy))) as [Hkeep Htouch].
    assert (Hx : fred_label (Some (DailyObs.source x))) by (apply Hlab; left; reflexivity).
    assert (Hr1 : fred_label (DailyMetric.source r1)).
    { rewrite Hsrc1. destruct (daily_metrics (view s) !! DailyObs.date x);
        [apply fred_stamp_label |]; exact Hx. }
    split.
    + intros d r0 H0 Hl0. destruct (decide (DailyObs.date x = d)) as [Hd | Hd].
      * assert (H1 : daily_metrics (view s1) !! d = Some r1)
          by (rewrite Hv1, <- Hd; apply lookup_insert_eq).
        destruct (Hkeep d r1 H1 Hr1) as [r [Hr Hs]]. exists r. split; [exact Hr |].
        rewrite Hs, Hsrc1, Hd, H0. apply fred_stamp_kept. exact Hl0.
      * apply Hkeep; [| exact Hl0]. rewrite Hv1, lookup_insert_ne by exact Hd. exact H0.
    + intros d f [y [[<- | Hin] [Hd Hf]]]; [| apply (Htouch d f); exists y; auto].
      assert (H1 : daily_metrics (view s1) !! d = Some r1)
        by (rewrite Hv1, <- Hd; apply lookup_insert_eq).
      destruct (Hkeep d r1 H1 Hr1) as [r [Hr Hs]]. exists r. split; [exact Hr |].
      rewrite Hs. exact Hr1.
Qed.

(** The labels through the loop over the monthly observations. *)
Lemma store_macro_loop_labels flt obs : forall s s',
  clean s -> for_each (store_macro flt) obs s = inr s' ->
  (forall x, In x obs -> fred_label (Some (MacroObs.source x))) ->
  (forall mo r0, macro_metrics (view s) !! mo = Some r0 -> fred_label (MacroMetric.source r0) ->
     exists r, macro_metrics (view s') !! mo = Some r /\
               MacroMetric.source r = MacroMetric.source r0) /\
  (forall mo f, fred_macro_columns obs mo f ->
     exists r, macro_metrics (view s') !! mo = Some r /\ fred_label (MacroMetric.source r)).
Proof.
  induction obs as [|x rest IH]; intros s s' Hclean Hrun Hlab; cbn [for_each] in Hrun.
  - injection Hrun as <-. split.
    + intros mo r0 H0 _. exists r0. split; [exact H0 | reflexivity].
    + intros mo f [x [[] _]].
  - destruct (store_macro flt x s) as [e | s1] eqn:Estep; [discriminate |].
    destruct (store_macro_turn flt x s s1 Hclean Estep)
      as [Hc1 [_ [r1 [Hv1 [_ [Hsrc1 _]]]]]].
    destruct (IH s1 s' Hc1 Hrun (fun y Hy => Hlab y (or_intror Hy))) as [Hkeep Htouch].
    assert (Hx : fred_label (Some (MacroObs.source x))) by (apply Hlab; left; reflexivity).
    assert (Hr1 : fred_label (MacroMetric.source r1)).
    { rewrite Hsrc1. destruct (macro_metrics (view s) !! MacroObs.month x);
        [apply fred_stamp_label |]; exact Hx. }
    split.
    + intros mo r0 H0 Hl0. destruct (decide (MacroObs.month x = mo)) as [Hd | Hd].
      * assert (H1 : macro_metrics (view s1) !! mo = Some r1)
          by (rewrite Hv1, <- Hd; apply lookup_insert_eq).
        destruct (Hkeep mo r1 H1 Hr1) as [r [Hr Hs]]. exists r. split; [exact Hr |].
        rewrite Hs, Hsrc1, Hd, H0. apply fred_stamp_kept. exact Hl0.
      * apply Hkeep; [| exact Hl0]. rewrite Hv1, lookup_insert_ne by exact Hd. exact H0.
    + intros mo f [y [[<- | Hin] [Hd Hf]]]; [| apply (Htouch mo f); exists y; auto].
      assert (H1 : macro_metrics (view s1) !! mo = Some r1)
        by (rewrite Hv1, <- Hd; apply lookup_insert_eq).
      destruct (Hkeep mo r1 H1 Hr1) as [r [Hr Hs]]. exists r. split; [exact Hr |].
      rewrite Hs. exact Hr1.
Qed.

Lemma fred_prefix_label series_id : fred_label (Some ("FRED-" +:+ series_id)).
Proof. reflexivity. Qed.

End FredMonthly.

Section FredJob.
Import Py Database FREDScraper FREDScraperInput.
Variable float_of_str : string -> option float.
Variable month_of_date : string -> option string.

(** X16. The source label under the FRED job, from [parse] to
    [store].  After a store of what [parse] returns that commits, a
    row whose label named FRED has the label it had, and every day
    and every month the batch has an observation for has a row whose
    label names FRED: the job stamps a row it creates, and a row
    another job stamped, with 'FRED-' and the id of the series that
    writes it first, and never restamps a row of its own. *)
Theorem fred_store_labels (flt : Faults)
  (raw_data : list (string * (Config * list Observation.t))) (db db1 : DB) :
  store flt (parse float_of_str month_of_date raw_data) db = (Returned, db1) ->
  (forall d r0, daily_metrics db !! d = Some r0 -> fred_label (DailyMetric.source r0) ->
     exists r, daily_metrics db1 !! d = Some r /\
               DailyMetric.source r = DailyMetric.source r0) /\
  (forall mo r0, macro_metrics db !! mo = Some r0 -> fred_label (MacroMetric.source r0) ->
     exists r, macro_metrics db1 !! mo = Some r /\
               MacroMetric.source r = MacroMetric.source r0) /\
  (forall d f, fred_columns (daily (parse float_of_str month_of_date raw_data)) d f ->
     exists r, daily_metrics db1 !! d = Some r /\ fred_label (DailyMetric.source r)) /\
  (forall mo f, fred_macro_columns (macro (parse float_of_str month_of_date raw_data)) mo f ->
     exists r, macro_metrics db1 !! mo = Some r /\ fred_label (MacroMetric.source r)).
Proof.
  intros Hret. unfold store in Hret. apply transaction_returned in Hret.
  destruct Hret as [s [s' [Hbody [Hflush ->]]]].
  set (parsed_data := parse float_of_str month_of_date raw_data) in *.
  destruct (for_each (store_daily flt) (daily parsed_data) (SessionLocal db))
    as [e | s1] eqn:E1; [discriminate |].
  assert (Hld : forall x, In x (daily parsed_data) -> fred_label (Some (DailyObs.source x))).
  { intros x Hx. apply parse_daily_in in Hx.
    destruct Hx as (series_id & _ & _ & _ & _ & _ & _ & _ & _ & _ & _ & _ & ->).
    apply fred_prefix_label. }
  assert (Hlm : forall x, In x (macro parsed_data) -> fred_label (Some (MacroObs.source x))).
  { intros x Hx. apply parse_macro_in in Hx.
    destruct Hx as (series_id & _ & _ & _ & _ & _ & _ & _ & _ & _ & _ & _ & _ & _ & ->).
    apply fred_prefix_label. }
  pose proof (clean_SessionLocal db) as Hc0.
  destruct (store_daily_loop_labels flt _ _ _ Hc0 E1 Hld) as [Hdk Hdt].
  destruct (store_daily_loop_macro flt _ _ _ Hc0 E1) as [Hc1 Hm1].
  destruct (store_macro_loop_labels flt _ _ _ Hc1 Hbody Hlm) as [Hmk Hmt].
  destruct (store_macro_fold flt _ _ _ Hc1 Hbody) as [Hc2 Hd2].
  destruct (flush_clean_view flt s s' Hc2 Hflush) as [Hfd Hfm].
  rewrite Hfd, Hfm, Hd2. cbn [SessionLocal view] in *.
  split; [exact Hdk |]. split; [| split; [exact Hdt | exact Hmt]].
  intros mo r0 H0. apply Hmk. rewrite Hm1. exact H0.
Qed.

Lemma series_macro_fields series_id config f :
  In (series_id, config) SERIES -> target config = Macro f ->
  f <> MacroField.ftr_trucking_conditions_index /\ f <> MacroField.truck_transport_index.
Proof.
  intros Hin Ht. cbn in Hin.
  repeat (destruct Hin as [Heq | Hin];
          [injection Heq as H1 H2; subst series_id config; cbn in Ht;
           first [discriminate Ht
                 | injection Ht as Hf; rewrite <- Hf; split; discriminate] |]).
  destruct Hin.
Qed.

Lemma series_daily_fields series_id config f :
  In (series_id, config) SERIES -> target config = Daily f ->
  f = DailyField.gas_price \/ f = DailyField.oil_price.
Proof.
  intros Hin Ht. cbn in Hin.
  repeat (destruct Hin as [Heq | Hin];
          [injection Heq as H1 H2; subst series_id config; cbn in Ht;
           first [discriminate Ht | injection Ht as Hf; rewrite <- Hf; auto] |]).
  destruct Hin.
Qed.

(** X17. The columns the FRED job writes, from the catalog to the
    tables.  Stored from series of the catalog, whatever the
    observations, a row of the daily table keeps its spot indices and
    its diesel price, and a row of the monthly table keeps its FTR
    index and its truck transport index: the catalog sends the series
    TRUCKD11 to the ATA tonnage column, so no job fills the truck
    transport column the schema keeps for it. *)
Theorem fred_job_columns (flt : Faults)
  (raw_data : list (string * (Config * list Observation.t))) (db : DB) :
  (forall series_id config observations,
     In (series_id, (config, observations)) raw_data -> In (series_id, config) SERIES) ->
  (forall d r0, daily_metrics db !! d = Some r0 ->
     exists r,
       daily_metrics (snd (store flt (parse float_of_str month_of_date raw_data) db)) !! d
         = Some r /\
       DailyMetric.van_spot_index r = DailyMetric.van_spot_index r0 /\
       DailyMetric.reefer_spot_index r = DailyMetric.reefer_spot_index r0 /\
       DailyMetric.flatbed_spot_index r = DailyMetric.flatbed_spot_index r0 /\
       DailyMetric.diesel_usd_per_gal r = DailyMetric.diesel_usd_per_gal r0) /\
  (forall mo r0, macro_metrics db !! mo = Some r0 ->
     exists r,
       macro_metrics (snd (store flt (parse float_of_str month_of_date raw_data) db)) !! mo
         = Some r /\
       MacroMetric.ftr_trucking_conditions_index r =
         MacroMetric.ftr_trucking_conditions_index r0 /\
       MacroMetric.truck_transport_index r = MacroMetric.truck_transport_index r0).
Proof.
  intros Hcat. split.
  - intros d r0 Hrow.
    destruct (fred_store_keeps flt (parse float_of_str month_of_date raw_data) db d r0 Hrow)
      as [r [Hr [_ [_ Hk]]]].
    exists r. split; [exact Hr |].
    assert (Hno : forall f, f <> DailyField.gas_price -> f <> DailyField.oil_price ->
                    DailyMetric.getattr r f = DailyMetric.getattr r0 f).
    { intros f H1 H2. apply Hk. intros [x (Hx & _ & Hf)]. apply parse_daily_in in Hx.
      destruct Hx as (series_id & config & observations & obs & v & Hin & _ & _ & _ & _ & _
                      & Ht & _).
      rewrite Hf in Ht.
      destruct (series_daily_fields _ _ _ (Hcat _ _ _ Hin) Ht); contradiction. }
    split; [apply (Hno DailyField.van_spot_index); discriminate |].
    split; [apply (Hno DailyField.reefer_spot_index); discriminate |].
    split; [apply (Hno DailyField.flatbed_spot_index); discriminate |].
    apply (Hno DailyField.diesel_usd_per_gal); discriminate.
  - intros mo r0 Hrow.
    destruct (fred_store_macro_keeps flt (parse float_of_str month_of_date raw_data) db
                mo r0 Hrow) as [r [Hr [_ Hk]]].
    exists r. split; [exact Hr |].
    assert (Hno : forall f, (f = MacroField.ftr_trucking_conditions_index \/
                             f = MacroField.truck_transport_index) ->
                    MacroMetric.getattr r f = MacroMetric.getattr r0 f).
    { intros f Hf0. apply Hk. intros [x (Hx & _ & Hf)]. apply parse_macro_in in Hx.
      destruct Hx as (series_id & config & observations & obs & d & v & Hin & _ & _ & _ & _
                      & _ & _ & Ht & _).
      rewrite Hf in Ht.
      destruct (series_macro_fields _ _ _ (Hcat _ _ _ Hin) Ht) as [H1 H2].
      destruct Hf0; contradiction. }
    split; [apply (Hno MacroField.ftr_trucking_conditions_index); left; reflexivity |].
    apply (Hno MacroField.truck_transport_index). right. reflexivity.
Qed.

End FredJob.

(** Industrial production for December 2024, into the row the Cass job
    created for the month. *)
Lemma fred_store_monthly_witness :
  exists r,
    Database.macro_metrics
      (snd (FREDScraper.store Database.no_faults
              (FREDScraper.mkParsed [] [Samples.ipman_obs])
              (snd (CassScraper.store Database.no_faults [Samples.cass_dec]
                      Samples.empty_db))))
      !! "2024-12" = Some r /\
    Database.MacroMetric.cass_shipments_index r = Some 1.125%float /\
    macro_field_supplied [Samples.ipman_obs] "2024-12"
      Database.MacroField.industrial_production r.
Proof.
  destruct (fred_store_monthly Database.no_faults
              (FREDScraper.mkParsed [] [Samples.ipman_obs])
              (snd (CassScraper.store Database.no_faults [Samples.cass_dec]
                      Samples.empty_db))) as [Hsup Hkeep].
  destruct (Hsup _ eq_refl "2024-12" Database.MacroField.industrial_production)
    as [r [Hr Hs]].
  - exists Samples.ipman_obs. split; [left; reflexivity |]. split; reflexivity.
  - destruct (Hkeep "2024-12" (cass_new_row Samples.cass_dec)) as [r' [Hr' [_ Hk]]].
    + vm_compute. reflexivity.
    + exists r. split; [exact Hr |]. split; [| exact Hs].
      assert (Heq : r' = r).
      { assert (H : Some r' = Some r) by (rewrite <- Hr', <- Hr; reflexivity).
        injection H as ->. reflexivity. }
      subst r'. apply (Hk Database.MacroField.cass_shipments_index).
      intros [x ([<- | []] & _ & Hf)]. discriminate Hf.
Defined.

(** The crude oil series, one value and one gap, onto a day the EIA
    job has stamped. *)
Lemma fred_store_labels_witness :
  exists r,
    Database.daily_metrics
      (snd (FREDScraper.store Database.no_faults
              (FREDScraperInput.parse Samples.read_float Samples.read_month Samples.oil_raw)
              Samples.eia_db))
      !! "2024-12-02" = Some r /\
    fred_label (Database.DailyMetric.source r).
Proof.
  destruct (fred_store_labels Samples.read_float Samples.read_month Database.no_faults
              Samples.oil_raw Samples.eia_db
              (snd (FREDScraper.store Database.no_faults
                      (FREDScraperInput.parse Samples.read_float Samples.read_month
                         Samples.oil_raw)
                      Samples.eia_db)))
    as (_ & _ & H & _).
  - vm_compute. reflexivity.
  - apply (H "2024-12-02" Database.DailyField.oil_price).
    exists Samples.oil_obs. split; [left; reflexivity |]. split; reflexivity.
Defined.

(** The same batch: the diesel price the EIA job stored stays. *)
Lemma fred_job_columns_witness :
  exists r,
    Database.daily_metrics
      (snd (FREDScraper.store Database.no_faults
              (FREDScraperInput.parse Samples.read_float Samples.read_month Samples.oil_raw)
              Samples.eia_db))
      !! "2024-12-02" = Some r /\
    Database.DailyMetric.diesel_usd_per_gal r = Some 3.5%float.
Proof.
  destruct (fred_job_columns Samples.read_float Samples.read_month Database.no_faults
              Samples.oil_raw Samples.eia_db) as [H _].
  - intros series_id config observations [Heq | []].
    injection Heq as <- <- <-. do 8 right. left. reflexivity.
  - destruct (H "2024-12-02" Samples.eia_row) as [r (Hr & _ & _ & _ & Hd)].
    + vm_compute. reflexivity.
    + exists r. split; [exact Hr | exact Hd].
Defined.

(* ------------------------------------------------------------------ *)
(** ** Fetch: the requests a job makes *)
(* ------------------------------------------------------------------ *)

Section EiaRequests.
Import Py Requests BaseScraper EIADieselScraper.
Variable server : Server.
Variable api_key : string.

Lemma seq_shift_map {B} (f : nat -> B) n :
  map f (seq 1 n) = map (fun i => f (S i)) (seq 0 n).
Proof. rewrite <- seq_shift, map_map. reflexivity. Qed.

(** The loop asks for the pages one after the other, each at the
    offset where the one before ended. *)
Lemma api_loop_requests fuel : forall all_data offset sent r sent',
  api_loop server api_key fuel all_data offset sent = Some (r, sent') ->
  exists n, (1 <= n <= fuel)%nat /\
    sent' = sent ++ map (fun i => eia_api_request api_key (offset + length_ * Z.of_nat i))
                      (seq 0 n).
Proof.
  induction fuel as [|fuel IH]; intros all_data offset sent r sent' H; [discriminate |].
  assert (Hone : forall x, Some (x, sent ++ [eia_api_request api_key offset]) = Some (r, sent') ->
            exists n, (1 <= n <= S fuel)%nat /\
              sent' = sent ++ map (fun i => eia_api_request api_key
                                              (offset + length_ * Z.of_nat i)) (seq 0 n)).
  { intros x Hx. injection Hx as _ <-. exists 1%nat. split; [lia |]. cbn [seq map].
    rewrite Z.mul_0_r, Z.add_0_r. reflexivity. }
  cbn [api_loop] in H. unfold get, request in H. fold (eia_api_request api_key offset) in H.
  destruct (server sent (eia_api_request api_key offset)) as [| |response|failure];
    try exact (Hone _ H).
  destruct (raise_for_status response); [exact (Hone _ H) |].
  destruct (json_of response) as [e | data]; [exact (Hone _ H) |].
  destruct (response_data data) as [e | [batch|]]; try exact (Hone _ H).
  destruct (negb (truthy batch)); [exact (Hone _ H) |].
  destruct (items batch) as [records|]; [| exact (Hone _ H)].
  destruct (len records <? length_); [exact (Hone _ H) |].
  destruct (safety_limit <=? len (all_data ++ records)); [exact (Hone _ H) |].
  apply IH in H. destruct H as [n [Hn ->]]. exists (S n). split; [lia |].
  rewrite <- app_assoc. f_equal. cbn [seq map app]. rewrite Z.mul_0_r, Z.add_0_r.
  f_equal. rewrite seq_shift_map. apply map_ext. intros i. f_equal. lia.
Qed.

Lemma web_scraping_sent sent :
  snd (_fetch_via_web_scraping server sent) = sent ++ [eia_web_request].
Proof.
  unfold _fetch_via_web_scraping, get, request. fold eia_web_request.
  destruct (server sent eia_web_request) as [| |response|failure]; try reflexivity.
  destruct (raise_for_status response); reflexivity.
Qed.

Lemma web_scraping_result sent :
  (exists e, fst (_fetch_via_web_scraping server sent) = inl e) \/
  (exists text, fst (_fetch_via_web_scraping server sent) = inr (Html text)).
Proof.
  unfold _fetch_via_web_scraping, get, request.
  destruct (server sent _) as [| |response|failure]; try (left; eexists; reflexivity).
  destruct (raise_for_status response); [left | right]; eexists; reflexivity.
Qed.

(** X18. The requests of the EIA job with an API key.  It asks the
    API for pages at the offsets 0, 5000, 10000 and so on, without a
    gap; it returns the records of the API only when it has asked
    the web site for nothing, and otherwise what the page of the web
    site gave, asked for once or, when the first try failed after an
    answer of the API without data, twice.  So an error leaves
    [fetch] only after the fallback was tried. *)
Theorem eia_fetch_requests (fuel : nat) (sent : list Request)
  (r : exn + RawData) (sent' : list Request) :
  _fetch_via_api server api_key fuel sent = Some (r, sent') ->
  exists n web : nat,
    (1 <= n <= fuel)%nat /\ (web <= 2)%nat /\
    sent' = sent ++ map (fun i => eia_api_request api_key (5000 * Z.of_nat i)) (seq 0 n)
                 ++ repeat eia_web_request web /\
    match r with
    | inr (ApiRecords _) => web = 0%nat
    | inr (Html _) => (1 <= web)%nat
    | inl _ => (1 <= web)%nat
    end.
Proof.
  unfold _fetch_via_api. intros H.
  destruct (api_loop server api_key fuel [] 0 sent) as [[exit sent1]|] eqn:El; [| discriminate].
  apply api_loop_requests in El. destruct El as [n [Hn ->]].
  assert (Hmap : map (fun i => eia_api_request api_key (0 + length_ * Z.of_nat i)) (seq 0 n) =
                 map (fun i => eia_api_request api_key (5000 * Z.of_nat i)) (seq 0 n))
    by (apply map_ext; intros i; reflexivity).
  rewrite Hmap in H. clear Hmap.
  set (sent1 := sent ++ map (fun i => eia_api_request api_key (5000 * Z.of_nat i)) (seq 0 n)) in *.
  exists n. destruct exit as [all_data | | e].
  - injection H as <- <-. exists 0%nat. cbn [repeat]. rewrite app_nil_r.
    split; [exact Hn |]. split; [lia |]. split; reflexivity.
  - pose proof (web_scraping_sent sent1) as Hs1.
    destruct (_fetch_via_web_scraping server sent1) as [[e | raw] sent2] eqn:E1;
      cbn [snd] in Hs1; subst sent2.
    + pose proof (web_scraping_sent (sent1 ++ [eia_web_request])) as Hs2.
      injection H as H. 
      destruct (_fetch_via_web_scraping server (sent1 ++ [eia_web_request])) as [r2 sent3] eqn:E2.
      cbn [snd] in Hs2. injection H as <- <-. exists 2%nat.
      split; [exact Hn |]. split; [lia |]. split.
      * rewrite Hs2. unfold sent1. rewrite <- !app_assoc. reflexivity.
      * destruct (web_scraping_result (sent1 ++ [eia_web_request])) as [[e' He] | [t Ht]];
          rewrite E2 in *; cbn [fst] in *; subst r2; lia.
    + injection H as <- <-. exists 1%nat. split; [exact Hn |]. split; [lia |]. split.
      * unfold sent1. rewrite <- !app_assoc. reflexivity.
      * destruct (web_scraping_result sent1) as [[e' He] | [t Ht]];
          rewrite E1 in *; cbn [fst] in *; [discriminate | injection Ht as ->; lia].
  - pose proof (web_scraping_sent sent1) as Hs1.
    injection H as H.
    destruct (_fetch_via_web_scraping server sent1) as [r1 sent2] eqn:E1.
    cbn [snd] in Hs1. injection H as <- <-. exists 1%nat.
    split; [exact Hn |]. split; [lia |]. split.
    + rewrite Hs1. unfold sent1. rewrite <- !app_assoc. reflexivity.
    + destruct (web_scraping_result sent1) as [[e' He] | [t Ht]];
        rewrite E1 in *; cbn [fst] in *; subst r1; lia.
Qed.

End EiaRequests.

(** An API that answers 404, and the web site too. *)
Lemma eia_fetch_requests_witness :
  exists n web : nat,
    (1 <= n <= 1)%nat /\ (web <= 2)%nat /\
    [eia_api_request "key" 0; eia_web_request] =
      [] ++ map (fun i => eia_api_request "key" (5000 * Z.of_nat i)) (seq 0 n)
         ++ repeat eia_web_request web /\
    (1 <= web)%nat.
Proof.
  apply (eia_fetch_requests Samples.not_found "key" 1 []
           (inl (Py.Raise Py.HTTPError "HTTP error"))
           [eia_api_request "key" 0; eia_web_request]).
  vm_compute. reflexivity.
Defined.

Section UsaRequests.
Import Py Requests BaseScraper USASpendingScraper.
Variable server : Server.
Variables start_date end_date : string.

Lemma usa_requests_S start_date' end_date' psc_code page n :
  usa_requests start_date' end_date' psc_code page (S n) =
  usa_request start_date' end_date' psc_code page ::
  usa_requests start_date' end_date' psc_code (page + 1) n.
Proof.
  unfold usa_requests. cbn [seq map]. rewrite Z.add_0_r. f_equal.
  rewrite seq_shift_map. apply map_ext. intros i. f_equal. lia.
Qed.

(** The loop over the pages of a PSC code asks for the pages one after
    the other, and adds to the awards those of each page, in the order
    of the pages. *)
Lemma page_loop_requests fuel : forall psc_code page st r st',
  page_loop server start_date end_date fuel psc_code page st = Some (r, st') ->
  exists n : nat,
    (n <= fuel)%nat /\
    (pg_total st < max_contracts_per_psc -> (1 <= n)%nat) /\
    pg_sent st' = pg_sent st ++ usa_requests start_date end_date psc_code page n /\
    pg_awards st' =
      pg_awards st ++
      collected server (pg_sent st) (usa_requests start_date end_date psc_code page n).
Proof.
  induction fuel as [|fuel IH]; intros psc_code page st r st' H.
  - cbn [page_loop] in H. destruct (pg_total st <? max_contracts_per_psc) eqn:Elt;
      [discriminate |]. injection H as _ <-. apply Z.ltb_ge in Elt.
    exists 0%nat. split; [lia |]. split; [lia |]. cbn. rewrite !app_nil_r. auto.
  - cbn [page_loop] in H. destruct (pg_total st <? max_contracts_per_psc) eqn:Elt.
    2: { injection H as _ <-. apply Z.ltb_ge in Elt.
         exists 0%nat. split; [lia |]. split; [lia |]. cbn. rewrite !app_nil_r. auto. }
    cbn [negb] in H. unfold post, request in H.
    fold (usa_request start_date end_date psc_code page) in H.
    remember (server (pg_sent st) (usa_request start_date end_date psc_code page))
      as reply eqn:Es.
    remember (awards_of reply) as aw eqn:Haw.
    assert (Hexit : forall x awards,
              aw = awards ->
              Some (x, mkPages (pg_awards st ++ awards) (pg_total st + len awards)
                         (pg_sent st ++ [usa_request start_date end_date psc_code page]))
                = Some (r, st') \/
              (awards = [] /\
               Some (x, mkPages (pg_awards st) (pg_total st)
                          (pg_sent st ++ [usa_request start_date end_date psc_code page]))
                 = Some (r, st')) ->
              exists n : nat,
                (n <= S fuel)%nat /\
                (pg_total st < max_contracts_per_psc -> (1 <= n)%nat) /\
                pg_sent st' =
                  pg_sent st ++ usa_requests start_date end_date psc_code page n /\
                pg_awards st' =
                  pg_awards st ++
                  collected server (pg_sent st)
                    (usa_requests start_date end_date psc_code page n)).
    { intros x awards Ha Hx. exists 1%nat. split; [lia |]. split; [lia |].
      rewrite usa_requests_S. unfold usa_requests. cbn [seq map collected].
      rewrite <- Es, <- Haw, Ha, app_nil_r.
      destruct Hx as [Hx | [-> Hx]]; injection Hx as _ <-; cbn;
        rewrite ?app_nil_r; split; reflexivity. }
    pose proof Haw as Haw'. unfold awards_of, usa_page in Haw'.
    destruct reply as [| |response|failure];
      try (eapply Hexit; [exact Haw' | right; split; [reflexivity | exact H]]).
    destruct (raise_for_status response);
      [eapply Hexit; [exact Haw' | right; split; [reflexivity | exact H]] |].
    destruct (json_of response) as [e | data];
      [eapply Hexit; [exact Haw' | right; split; [reflexivity | exact H]] |].
    destruct (results_of data) as [e | [results|]];
      try (eapply Hexit; [exact Haw' | right; split; [reflexivity | exact H]]).
    destruct (items results) as [awards|];
      [| eapply Hexit; [exact Haw' | right; split; [reflexivity | exact H]]].
    destruct (0 <? len awards) eqn:Epos.
    2: { apply Z.ltb_ge in Epos. assert (awards = []) as Hnil.
         { destruct awards; [reflexivity |]. unfold len in Epos. cbn in Epos. lia. }
         rewrite Hnil in Haw'.
         eapply Hexit; [exact Haw' | right; split; [reflexivity | exact H]]. }
    destruct (len awards <? limit_per_page);
      [eapply Hexit; [exact Haw' | left; exact H] |].
    apply IH in H. destruct H as (n & Hn & _ & Hs & Ha).
    cbn [pg_sent pg_awards] in Hs, Ha.
    exists (S n). split; [lia |]. split; [lia |].
    rewrite usa_requests_S. cbn [collected]. rewrite <- Es, <- Haw, Haw'.
    split; [rewrite Hs, <- app_assoc; reflexivity |].
    rewrite Ha, <- app_assoc. reflexivity.
Qed.

(** X19. The requests of the USASpending job and what they bring.
    Whenever [fetch] returns, it has asked for the pages of the first
    PSC code, from page 1 upward without a gap, and then, whatever
    came of them, for the pages of the second code in the same way: an
    error ends the pages of its own code only.  What [fetch] returns
    are the awards of the pages it asked for, page by page in the
    order of the requests: those of the first code in front, and those
    an error came after are kept. *)
Theorem usaspending_fetch_requests (fuel : nat) (sent : list Request)
  (all_awards : list json) (sent' : list Request) :
  fetch server start_date end_date fuel sent = Some (all_awards, sent') ->
  exists n1 n2 : nat,
    (1 <= n1 <= fuel)%nat /\ (1 <= n2 <= fuel)%nat /\
    sent' = sent ++ usa_requests start_date end_date "V1" 1 n1
                 ++ usa_requests start_date end_date "V2" 1 n2 /\
    all_awards =
      collected server sent (usa_requests start_date end_date "V1" 1 n1) ++
      collected server (sent ++ usa_requests start_date end_date "V1" 1 n1)
        (usa_requests start_date end_date "V2" 1 n2).
Proof.
  unfold fetch, FREIGHT_PSC_CODES. cbn [psc_loop]. intros H.
  destruct (page_loop server start_date end_date fuel "V1" 1 (mkPages [] 0 sent))
    as [[r1 st1]|] eqn:E1; [| discriminate].
  destruct (page_loop server start_date end_date fuel "V2" 1
              (mkPages (pg_awards st1) 0 (pg_sent st1)))
    as [[r2 st2]|] eqn:E2; [| discriminate].
  injection H as <- <-.
  apply page_loop_requests in E1. destruct E1 as (n1 & Hn1 & Hp1 & Hs1 & Ha1).
  apply page_loop_requests in E2. destruct E2 as (n2 & Hn2 & Hp2 & Hs2 & Ha2).
  cbn [pg_total pg_sent pg_awards] in *.
  exists n1, n2.
  split; [split; [apply Hp1; reflexivity | exact Hn1] |].
  split; [split; [apply Hp2; reflexivity | exact Hn2] |].
  split; [rewrite Hs2, Hs1, <- app_assoc; reflexivity |].
  rewrite Ha2, Ha1, Hs1. reflexivity.
Qed.

End UsaRequests.

(** A server with one award for every request: one page for each PSC
    code, and the two awards come back, that of the first code in
    front. *)
Lemma usaspending_fetch_requests_witness :
  exists n1 n2 : nat,
    (1 <= n1 <= 1)%nat /\ (1 <= n2 <= 1)%nat /\
    [usa_request "2022-12-03" "2024-12-02" "V1" 1;
     usa_request "2022-12-03" "2024-12-02" "V2" 1] =
      [] ++ usa_requests "2022-12-03" "2024-12-02" "V1" 1 n1
         ++ usa_requests "2022-12-03" "2024-12-02" "V2" 1 n2 /\
    [Requests.JDict [("V1", Requests.JInt 1)]; Requests.JDict [("V2", Requests.JInt 1)]] =
      collected Samples.usa_award_per_code []
        (usa_requests "2022-12-03" "2024-12-02" "V1" 1 n1) ++
      collected Samples.usa_award_per_code
        ([] ++ usa_requests "2022-12-03" "2024-12-02" "V1" 1 n1)
        (usa_requests "2022-12-03" "2024-12-02" "V2" 1 n2).
Proof.
  apply (usaspending_fetch_requests Samples.usa_award_per_code "2022-12-03" "2024-12-02"
           1 []
           [Requests.JDict [("V1", Requests.JInt 1)]; Requests.JDict [("V2", Requests.JInt 1)]]
           [usa_request "2022-12-03" "2024-12-02" "V1" 1;
            usa_request "2022-12-03" "2024-12-02" "V2" 1]).
  vm_compute. reflexivity.
Defined.

(* ------------------------------------------------------------------ *)
(** ** Fetch: how much a run can bring *)
(* ------------------------------------------------------------------ *)

Section FetchSizes.
Import Py Requests BaseScraper.

Lemma eia_loop_bounded server api_key
  (Hsize : honours_size server eia_page EIADieselScraper.length_) fuel :
  forall all_data offset sent exit sent' j,
  0 <= j ->
  EIADieselScraper.len all_data = EIADieselScraper.length_ * j ->
  EIADieselScraper.len all_data < EIADieselScraper.safety_limit ->
  EIADieselScraper.api_loop server api_key fuel all_data offset sent = Some (exit, sent') ->
  Z.of_nat (length sent') <= Z.of_nat (length sent) + (20 - j) /\
  forall all_data', exit = EIADieselScraper.Fetched all_data' ->
                    EIADieselScraper.len all_data' <= EIADieselScraper.safety_limit.
Proof.
  induction fuel as [|fuel IH]; intros all_data offset sent exit sent' j Hj Hlen Hlt H;
    [discriminate |].
  assert (Hj19 : j <= 19)
    by (unfold EIADieselScraper.length_, EIADieselScraper.safety_limit in *; lia).
  assert (Hone : forall x,
            Some (x, sent ++ [eia_api_request api_key offset]) = Some (exit, sent') ->
            (forall all_data', x = EIADieselScraper.Fetched all_data' ->
                               EIADieselScraper.len all_data' <= EIADieselScraper.safety_limit) ->
            Z.of_nat (length sent') <= Z.of_nat (length sent) + (20 - j) /\
            forall all_data', exit = EIADieselScraper.Fetched all_data' ->
                              EIADieselScraper.len all_data' <= EIADieselScraper.safety_limit).
  { intros x Hx Hf. injection Hx as <- <-. split; [| exact Hf].
    rewrite length_app. cbn [length]. lia. }
  cbn [EIADieselScraper.api_loop] in H. unfold get, request in H.
  fold (eia_api_request api_key offset) in H.
  destruct (server sent (eia_api_request api_key offset)) as [| |response|failure] eqn:Er;
    try (apply (Hone _ H); discriminate).
  destruct (raise_for_status response) as [e | u] eqn:Es; [apply (Hone _ H); discriminate |].
  destruct (json_of response) as [e | data] eqn:Ej; [apply (Hone _ H); discriminate |].
  destruct (EIADieselScraper.response_data data) as [e | [batch|]] eqn:Ed;
    try (apply (Hone _ H); discriminate).
  destruct (negb (truthy batch)).
  { apply (Hone _ H). intros a Ha. injection Ha as <-. lia. }
  destruct (items batch) as [records|] eqn:Ei; [| apply (Hone _ H); discriminate].
  assert (Hpage : eia_page response = Some records)
    by (unfold eia_page; rewrite Es, Ej, Ed; exact Ei).
  pose proof (Hsize sent _ _ _ Er Hpage) as Hrec.
  fold (EIADieselScraper.len records) in Hrec.
  pose proof (len_app all_data records) as Happ.
  destruct (EIADieselScraper.len records <? EIADieselScraper.length_) eqn:E1.
  { apply (Hone _ H). intros a Ha. injection Ha as <-. apply Z.ltb_lt in E1.
    unfold EIADieselScraper.length_, EIADieselScraper.safety_limit in *. lia. }
  apply Z.ltb_ge in E1.
  destruct (EIADieselScraper.safety_limit <=? EIADieselScraper.len (all_data ++ records)) eqn:E2.
  { apply (Hone _ H). intros a Ha. injection Ha as <-.
    unfold EIADieselScraper.length_, EIADieselScraper.safety_limit in *. lia. }
  apply Z.leb_gt in E2.
  assert (Hj1 : 0 <= j + 1) by lia.
  assert (Hnext : EIADieselScraper.len (all_data ++ records) =
                  EIADieselScraper.length_ * (j + 1))
    by (unfold EIADieselScraper.length_ in *; lia).
  destruct (IH _ _ _ _ _ (j + 1) Hj1 Hnext E2 H) as [Hs Hf].
  split; [| exact Hf]. rewrite length_app in Hs. cbn [length] in Hs. lia.
Qed.

Lemma usa_loop_bounded server start_date end_date
  (Hsize : honours_size server usa_page USASpendingScraper.limit_per_page) fuel :
  forall psc_code page st r st' j,
  0 <= j ->
  USASpendingScraper.pg_total st = USASpendingScraper.limit_per_page * j ->
  USASpendingScraper.pg_total st <= USASpendingScraper.max_contracts_per_psc ->
  USASpendingScraper.page_loop server start_date end_date fuel psc_code page st
    = Some (r, st') ->
  Z.of_nat (length (USASpendingScraper.pg_sent st')) <=
    Z.of_nat (length (USASpendingScraper.pg_sent st)) + (20 - j) /\
  USASpendingScraper.pg_total st' <= USASpendingScraper.max_contracts_per_psc /\
  USASpendingScraper.len (USASpendingScraper.pg_awards st') =
    USASpendingScraper.len (USASpendingScraper.pg_awards st) +
    (USASpendingScraper.pg_total st' - USASpendingScraper.pg_total st).
Proof.
  induction fuel as [|fuel IH]; intros psc_code page st r st' j Hj Htot Hle H.
  - cbn [USASpendingScraper.page_loop] in H.
    destruct (USASpendingScraper.pg_total st <? USASpendingScraper.max_contracts_per_psc);
      [discriminate |].
    injection H as _ <-.
    unfold USASpendingScraper.limit_per_page, USASpendingScraper.max_contracts_per_psc in *.
    lia.
  - cbn [USASpendingScraper.page_loop] in H.
    destruct (USASpendingScraper.pg_total st <? USASpendingScraper.max_contracts_per_psc)
      eqn:Elt.
    2: { injection H as _ <-.
         unfold USASpendingScraper.limit_per_page,
           USASpendingScraper.max_contracts_per_psc in *. lia. }
    apply Z.ltb_lt in Elt. cbn [negb] in H. unfold post, request in H.
    fold (usa_request start_date end_date psc_code page) in H.
    assert (Hj19 : j <= 19)
      by (unfold USASpendingScraper.limit_per_page,
            USASpendingScraper.max_contracts_per_psc in *; lia).
    assert (Hone : forall x,
              Some (x, USASpendingScraper.mkPages (USASpendingScraper.pg_awards st)
                         (USASpendingScraper.pg_total st)
                         (USASpendingScraper.pg_sent st ++
                            [usa_request start_date end_date psc_code page]))
                = Some (r, st') ->
              Z.of_nat (length (USASpendingScraper.pg_sent st')) <=
                Z.of_nat (length (USASpendingScraper.pg_sent st)) + (20 - j) /\
              USASpendingScraper.pg_total st' <= USASpendingScraper.max_contracts_per_psc /\
              USASpendingScraper.len (USASpendingScraper.pg_awards st') =
                USASpendingScraper.len (USASpendingScraper.pg_awards st) +
                (USASpendingScraper.pg_total st' - USASpendingScraper.pg_total st)).
    { intros x Hx. injection Hx as _ <-. cbn. rewrite length_app. cbn [length]. lia. }
    destruct (server (USASpendingScraper.pg_sent st)
                (usa_request start_date end_date psc_code page)) as [| |response|failure] eqn:Er;
      try exact (Hone _ H).
    destruct (raise_for_status response) as [e | u] eqn:Es; [exact (Hone _ H) |].
    destruct (json_of response) as [e | data] eqn:Ej; [exact (Hone _ H) |].
    destruct (USASpendingScraper.results_of data) as [e | [results|]] eqn:Ed;
      try exact (Hone _ H).
    destruct (items results) as [awards|] eqn:Ei; [| exact (Hone _ H)].
    assert (Hpage : usa_page response = Some awards)
      by (unfold usa_page; rewrite Es, Ej, Ed; exact Ei).
    pose proof (Hsize _ _ _ _ Er Hpage) as Hrec.
    fold (USASpendingScraper.len awards) in Hrec.
    pose proof (ulen_app (USASpendingScraper.pg_awards st) awards) as Happ.
    destruct (0 <? USASpendingScraper.len awards); [| exact (Hone _ H)].
    destruct (USASpendingScraper.len awards <? USASpendingScraper.limit_per_page) eqn:E1.
    { injection H as _ <-. cbn. rewrite length_app. cbn [length]. apply Z.ltb_lt in E1.
      unfold USASpendingScraper.limit_per_page,
        USASpendingScraper.max_contracts_per_psc in *. lia. }
    apply Z.ltb_ge in E1.
    assert (Hj1 : 0 <= j + 1) by lia.
    assert (Hnext : USASpendingScraper.pg_total st + USASpendingScraper.len awards =
                    USASpendingScraper.limit_per_page * (j + 1))
      by (unfold USASpendingScraper.limit_per_page in *; lia).
    assert (Hroom : USASpendingScraper.pg_total st + USASpendingScraper.len awards <=
                    USASpendingScraper.max_contracts_per_psc)
      by (unfold USASpendingScraper.limit_per_page,
            USASpendingScraper.max_contracts_per_psc in *; lia).
    eapply (IH _ _ _ _ _ (j + 1)) in H; [| exact Hj1 | exact Hnext | exact Hroom].
    destruct H as (Hs & Ht & Ha).
    cbn [USASpendingScraper.pg_sent USASpendingScraper.pg_total
         USASpendingScraper.pg_awards] in Hs, Ha.
    rewrite length_app in Hs. cbn [length] in Hs.
    split; [lia |]. split; [exact Ht |]. lia.
Qed.

(** X20. How much a fetch can bring from a server that never sends
    more records than the page size asked for.  The EIA job then
    returns at most 100000 records of the API, after at most 20
    requests to the API and 2 to the web site; the USASpending job
    at most 4000 awards after at most 40 requests. *)
Theorem fetch_sizes_bounded (server : Server) (api_key start_date end_date : string)
  (fuel : nat) (sent : list Request) :
  (honours_size server eia_page EIADieselScraper.length_ ->
   forall r sent',
     EIADieselScraper._fetch_via_api server api_key fuel sent = Some (r, sent') ->
     (length sent' <= length sent + 22)%nat /\
     forall all_data, r = inr (EIADieselScraper.ApiRecords all_data) ->
                      Z.of_nat (length all_data) <= 100000) /\
  (honours_size server usa_page USASpendingScraper.limit_per_page ->
   forall all_awards sent',
     USASpendingScraper.fetch server start_date end_date fuel sent
       = Some (all_awards, sent') ->
     (length sent' <= length sent + 40)%nat /\
     Z.of_nat (length all_awards) <= 4000).
Proof.
  split.
  - intros Hsize r sent' H. unfold EIADieselScraper._fetch_via_api in H.
    destruct (EIADieselScraper.api_loop server api_key fuel [] 0 sent)
      as [[exit sent1]|] eqn:El; [| discriminate].
    destruct (eia_loop_bounded server api_key Hsize fuel [] 0 sent exit sent1 0)
      as [Hs Hf]; [lia | reflexivity | reflexivity | exact El |].
    destruct exit as [all_data | | e].
    + injection H as <- <-. split; [lia |]. intros a Ha. injection Ha as <-.
      exact (Hf all_data eq_refl).
    + pose proof (web_scraping_sent server sent1) as Hs1.
      destruct (EIADieselScraper._fetch_via_web_scraping server sent1)
        as [[e | raw] sent2] eqn:E1; cbn [snd] in Hs1; subst sent2.
      * pose proof (web_scraping_sent server (sent1 ++ [eia_web_request])) as Hs2.
        pose proof (web_scraping_result server (sent1 ++ [eia_web_request])) as Hr2.
        injection H as H. rewrite H in Hs2, Hr2. cbn [fst snd] in Hs2, Hr2. subst sent'.
        rewrite !length_app. cbn [length]. split; [lia |].
        intros a Ha. subst r. destruct Hr2 as [[e' He] | [t Ht]]; discriminate.
      * injection H as <- <-. rewrite length_app. cbn [length]. split; [lia |].
        intros a Ha. injection Ha as ->.
        destruct (web_scraping_result server sent1) as [[e' He] | [t Ht]];
          rewrite E1 in *; cbn [fst] in *; discriminate.
    + pose proof (web_scraping_sent server sent1) as Hs1.
      pose proof (web_scraping_result server sent1) as Hr1.
      injection H as H. rewrite H in Hs1, Hr1. cbn [fst snd] in Hs1, Hr1. subst sent'.
      rewrite length_app. cbn [length]. split; [lia |].
      intros a Ha. subst r. destruct Hr1 as [[e' He] | [t Ht]]; discriminate.
  - intros Hsize all_awards sent' H.
    unfold USASpendingScraper.fetch, USASpendingScraper.FREIGHT_PSC_CODES in H.
    cbn [USASpendingScraper.psc_loop] in H.
    destruct (USASpendingScraper.page_loop server start_date end_date fuel "V1" 1
                (USASpendingScraper.mkPages [] 0 sent)) as [[r1 st1]|] eqn:E1;
      [| discriminate].
    destruct (USASpendingScraper.page_loop server start_date end_date fuel "V2" 1
                (USASpendingScraper.mkPages (USASpendingScraper.pg_awards st1) 0
                   (USASpendingScraper.pg_sent st1))) as [[r2 st2]|] eqn:E2;
      [| discriminate].
    injection H as <- <-.
    assert (H0 : 0 <= 0) by lia.
    assert (Hroom : 0 <= USASpendingScraper.max_contracts_per_psc)
      by (unfold USASpendingScraper.max_contracts_per_psc; lia).
    eapply (usa_loop_bounded server start_date end_date Hsize fuel _ _ _ _ _ 0) in E1;
      [| exact H0 | reflexivity | exact Hroom].
    eapply (usa_loop_bounded server start_date end_date Hsize fuel _ _ _ _ _ 0) in E2;
      [| exact H0 | reflexivity | exact Hroom].
    destruct E1 as (Hs1 & Ht1 & Ha1). destruct E2 as (Hs2 & Ht2 & Ha2).
    cbn [USASpendingScraper.pg_sent USASpendingScraper.pg_total
         USASpendingScraper.pg_awards] in *.
    unfold USASpendingScraper.len, USASpendingScraper.max_contracts_per_psc in *.
    cbn [length] in Ha1. split; lia.
Qed.

Lemma eia_one_record_honours :
  honours_size Samples.eia_one_record eia_page EIADieselScraper.length_.
Proof.
  intros hist req resp records Hr Hp. injection Hr as <-. vm_compute in Hp.
  injection Hp as <-. vm_compute. discriminate.
Qed.

Lemma usa_one_award_honours :
  honours_size Samples.usa_one_award usa_page USASpendingScraper.limit_per_page.
Proof.
  intros hist req resp records Hr Hp. injection Hr as <-. vm_compute in Hp.
  injection Hp as <-. vm_compute. discriminate.
Qed.

End FetchSizes.

(** Servers with a single record to give. *)
Lemma fetch_sizes_bounded_witness :
  (exists all_data sent',
     EIADieselScraper._fetch_via_api Samples.eia_one_record "key" 20 []
       = Some (inr (EIADieselScraper.ApiRecords all_data), sent') /\
     (length sent' <= 22)%nat /\ Z.of_nat (length all_data) <= 100000) /\
  (exists all_awards sent',
     USASpendingScraper.fetch Samples.usa_one_award "2022-12-03" "2024-12-02" 20 []
       = Some (all_awards, sent') /\
     (length sent' <= 40)%nat /\ Z.of_nat (length all_awards) <= 4000).
Proof.
  destruct (fetch_sizes_bounded Samples.eia_one_record "key" "2022-12-03" "2024-12-02" 20 [])
    as [Heia _].
  destruct (fetch_sizes_bounded Samples.usa_one_award "key" "2022-12-03" "2024-12-02" 20 [])
    as [_ Husa].
  split.
  - destruct (EIADieselScraper._fetch_via_api Samples.eia_one_record "key" 20 [])
      as [[[e | [all_data | text]] sent']|] eqn:E; try (vm_compute in E; discriminate E).
    destruct (Heia eia_one_record_honours _ _ eq_refl) as [Hs Ha].
    exists all_data, sent'. split; [reflexivity |]. split; [exact Hs |].
    apply Ha. reflexivity.
  - destruct (USASpendingScraper.fetch Samples.usa_one_award "2022-12-03" "2024-12-02" 20 [])
      as [[all_awards sent']|] eqn:E; [| vm_compute in E; discriminate E].
    destruct (Husa usa_one_award_honours _ _ eq_refl) as [Hs Ha].
    exists all_awards, sent'. split; [reflexivity |]. split; [exact Hs | exact Ha].
Defined.

(* ------------------------------------------------------------------ *)
(** ** USASpending: lanes and rates *)
(* ------------------------------------------------------------------ *)

Section UsaStore.
Import Py Database LaneTables USASpendingScraperStore.
Variable today : string.
Variable valid_date : string -> option string.

Lemma same_lane_key o d e l : same_lane o d e l = true <-> lane_key l = (o, d, Some e).
Proof.
  unfold same_lane, lane_key. rewrite !andb_true_iff, !String.eqb_eq.
  destruct (Lane.equipment_type l) as [e'|].
  - rewrite String.eqb_eq. split; [intros [[-> ->] ->]; reflexivity |].
    intros H. injection H as -> -> ->. auto.
  - split; [intros [_ H]; discriminate | intros H; discriminate].
Qed.

Lemma find_app {A} (p : A -> bool) l m :
  List.find p (l ++ m) = match List.find p l with Some x => Some x | None => List.find p m end.
Proof.
  induction l as [|x rest IH]; [reflexivity |]. cbn. destruct (p x); [reflexivity | exact IH].
Qed.

Lemma find_none_key o d e tbl :
  List.find (same_lane o d e) tbl = None -> ~ In (o, d, Some e) (map lane_key tbl).
Proof.
  intros Hf Hin. apply in_map_iff in Hin. destruct Hin as [l [Hk Hl]].
  pose proof (find_none _ _ Hf l Hl) as Hn. apply same_lane_key in Hk. congruence.
Qed.

Lemma settled_app c lanes rates more_lanes more_rates :
  settled (date_of today valid_date) c lanes rates ->
  settled (date_of today valid_date) c (lanes ++ more_lanes) (rates ++ more_rates).
Proof.
  intros [l [Hl Hr]]. exists l. split.
  - rewrite find_app, Hl. reflexivity.
  - rewrite existsb_app, Hr. reflexivity.
Qed.

(** Get or create, on a session with no lane pending. *)
Lemma get_lane_spec flt c s lane_id s' :
  new_lanes s = [] ->
  get_lane flt c s = inr (lane_id, s') ->
  new_lanes s' = [] /\ all_rates s' = all_rates s /\
  (exists more, lanes (view s') = lanes (view s) ++ more) /\
  (NoDup (map lane_key (lanes (view s))) -> NoDup (map lane_key (lanes (view s')))) /\
  exists l,
    List.find (same_lane (Contract.origin c) (Contract.destination c)
                 (Contract.equipment_type c)) (lanes (view s')) = Some l /\
    Lane.id l = lane_id.
Proof.
  intros Htidy. unfold get_lane.
  destruct (List.find _ (lanes (view s))) as [lane|] eqn:Ef.
  - intros H. injection H as <- <-. split; [exact Htidy |]. split; [reflexivity |].
    split; [exists []; rewrite app_nil_r; reflexivity |]. split; [auto |].
    exists lane. auto.
  - unfold flush, add_lane. cbn [flushes new_lanes view new_rates]. rewrite Htidy.
    destruct (flt (flushes s)); [discriminate |].
    cbn [app insert_lanes]. intros H. injection H as <- <-.
    cbn [new_lanes view lanes]. split; [reflexivity |].
    split; [unfold all_rates; cbn; rewrite app_nil_r; reflexivity |].
    split; [eexists; reflexivity |]. split.
    + intros Hnd. rewrite map_app. apply NoDup_app. split; [exact Hnd |]. split.
      * intros k Hk [<- | []]%list_elem_of_In. apply list_elem_of_In in Hk.
        exact (find_none_key _ _ _ _ Ef Hk).
      * cbn. apply NoDup_singleton.
    + eexists. split.
      * rewrite find_app, Ef. cbn [List.find].
        replace (same_lane _ _ _ _) with true; [reflexivity |].
        symmetry. apply same_lane_key. reflexivity.
      * reflexivity.
Qed.

Lemma same_rate_new lane_id date :
  same_rate lane_id date
    (Rate.mk lane_id date 0%float (Some false) (Some true) (Some "USASpending")
       (Some 0x1.999999999999ap-1%float)) = true.
Proof.
  unfold same_rate. cbn. rewrite Z.eqb_refl, String.eqb_refl. reflexivity.
Qed.

(** One turn of the loop. *)
Lemma store_contract_spec flt c s s' :
  new_lanes s = [] ->
  store_contract today valid_date flt c s = inr s' ->
  new_lanes s' = [] /\
  (exists more, lanes (view s') = lanes (view s) ++ more) /\
  (exists more, all_rates s' = all_rates s ++ more) /\
  (NoDup (map lane_key (lanes (view s))) -> NoDup (map lane_key (lanes (view s')))) /\
  settled (date_of today valid_date) c (lanes (view s')) (all_rates s').
Proof.
  intros Htidy. unfold store_contract.
  destruct (get_lane flt c s) as [e | [lane_id s1]] eqn:Eg; [discriminate |].
  destruct (get_lane_spec flt c s lane_id s1 Htidy Eg)
    as (Ht1 & Hr1 & Hl1 & Hnd1 & l & Hfind & Hid).
  destruct (List.find (same_rate lane_id (date_of today valid_date c)) (rates (view s1)))
    as [r|] eqn:Er; intros H; injection H as <-.
  - split; [exact Ht1 |]. split; [exact Hl1 |].
    split; [exists []; rewrite app_nil_r; exact Hr1 |]. split; [exact Hnd1 |].
    exists l. split; [exact Hfind |]. rewrite Hid. unfold all_rates.
    rewrite existsb_app. apply orb_true_iff. left. apply find_existsb. eauto.
  - cbn [new_lanes add_rate view]. split; [exact Ht1 |]. split; [exact Hl1 |].
    split.
    + eexists. unfold all_rates in *. cbn [add_rate view new_rates].
      rewrite app_assoc, Hr1. reflexivity.
    + split; [exact Hnd1 |]. exists l. split; [exact Hfind |]. rewrite Hid.
      unfold all_rates. cbn [add_rate view new_rates].
      rewrite !existsb_app. cbn [existsb]. rewrite same_rate_new.
      rewrite !orb_true_r. reflexivity.
Qed.

(** The loop. *)
Lemma store_contracts_spec flt contracts : forall s s',
  new_lanes s = [] ->
  for_each (store_contract today valid_date flt) contracts s = inr s' ->
  new_lanes s' = [] /\
  (exists more, lanes (view s') = lanes (view s) ++ more) /\
  (exists more, all_rates s' = all_rates s ++ more) /\
  (NoDup (map lane_key (lanes (view s))) -> NoDup (map lane_key (lanes (view s')))) /\
  forall c, In c contracts ->
            settled (date_of today valid_date) c (lanes (view s')) (all_rates s').
Proof.
  induction contracts as [|c rest IH]; intros s s' Htidy Hrun; cbn [for_each] in Hrun.
  - injection Hrun as <-. split; [exact Htidy |].
    split; [exists []; rewrite app_nil_r; reflexivity |].
    split; [exists []; rewrite app_nil_r; reflexivity |]. split; [auto |]. intros c [].
  - destruct (store_contract today valid_date flt c s) as [e | s1] eqn:Es; [discriminate |].
    destruct (store_contract_spec flt c s s1 Htidy Es) as (Ht1 & [ml1 Hl1] & [mr1 Hr1] & Hnd1 & Hs1).
    destruct (IH s1 s' Ht1 Hrun) as (Ht' & [ml Hl] & [mr Hr] & Hnd & Hs).
    split; [exact Ht' |].
    split; [exists (ml1 ++ ml); rewrite Hl, Hl1, app_assoc; reflexivity |].
    split; [exists (mr1 ++ mr); rewrite Hr, Hr1, app_assoc; reflexivity |].
    split; [auto |].
    intros c' [<- | Hin]; [| exact (Hs c' Hin)].
    rewrite Hl, Hr. apply settled_app. exact Hs1.
Qed.

(** What a store that commits leaves. *)
Lemma usa_store_returned flt contracts tables tables1 :
  store today valid_date flt contracts tables = (Returned, tables1) ->
  (exists more, lanes tables1 = lanes tables ++ more) /\
  (exists more, rates tables1 = rates tables ++ more) /\
  (NoDup (map lane_key (lanes tables)) -> NoDup (map lane_key (lanes tables1))) /\
  forall c, In c contracts ->
            settled (date_of today valid_date) c (lanes tables1) (rates tables1).
Proof.
  unfold store, transaction. intros H.
  destruct (for_each (store_contract today valid_date flt) contracts (SessionLocal tables))
    as [e | s] eqn:Ef; [discriminate |].
  destruct (store_contracts_spec flt contracts (SessionLocal tables) s eq_refl Ef)
    as (Ht & Hl & Hr & Hnd & Hs).
  unfold flush in H. destruct (flt (flushes s)); [discriminate |].
  injection H as <-. cbn [view lanes rates]. rewrite Ht. cbn [insert_lanes].
  unfold all_rates in *. cbn [SessionLocal view new_rates] in *.
  rewrite app_nil_r in Hr. auto.
Qed.

(** X21. The lanes under the USASpending job.  Lanes that differ in
    origin, destination and equipment type still do after a store,
    whether it commits or raises: the job flushes each lane it
    creates, so the next contract of the batch finds it.  No lane is
    removed; and after a store that commits every contract of the
    batch has its lane. *)
Theorem usaspending_store_lanes (flt : Faults) (contracts : list Contract.t)
  (tables : Tables) :
  NoDup (map lane_key (lanes tables)) ->
  NoDup (map lane_key (lanes (snd (store today valid_date flt contracts tables)))) /\
  (exists more,
     lanes (snd (store today valid_date flt contracts tables)) = lanes tables ++ more) /\
  (fst (store today valid_date flt contracts tables) = Returned ->
   forall c, In c contracts ->
     In (contract_key c)
        (map lane_key (lanes (snd (store today valid_date flt contracts tables))))).
Proof.
  intros Hnd. destruct (store today valid_date flt contracts tables) as [[|e] tables1] eqn:E;
    cbn [fst snd].
  - destruct (usa_store_returned _ _ _ _ E) as (Hl & _ & Hk & Hs).
    split; [exact (Hk Hnd) |]. split; [exact Hl |]. intros _ c Hc.
    destruct (Hs c Hc) as [l [Hf _]]. apply find_some in Hf. destruct Hf as [Hin Hm].
    apply same_lane_key in Hm. apply in_map_iff. exists l. split; [exact Hm | exact Hin].
  - unfold store, transaction in E.
    assert (tables1 = tables).
    { destruct (for_each _ contracts (SessionLocal tables)) as [e' | s];
        [injection E as _ <-; reflexivity |].
      destruct (flush flt s) as [e' | s0];
        [injection E as _ <-; reflexivity | discriminate E]. }
    subst tables1. split; [exact Hnd |].
    split; [exists []; rewrite app_nil_r; reflexivity | discriminate].
Qed.

(** A contract that is settled costs a clean session nothing. *)
Lemma store_contract_settled flt c s :
  new_lanes s = [] -> new_rates s = [] ->
  settled (date_of today valid_date) c (lanes (view s)) (rates (view s)) ->
  store_contract today valid_date flt c s = inr s.
Proof.
  intros Hl Hr [l [Hf Hx]]. unfold store_contract, get_lane. rewrite Hf.
  apply find_existsb in Hx. destruct Hx as [r ->]. reflexivity.
Qed.

(** X22. A second run of the USASpending job on the batch of a store
    that committed, on the same day, whether it commits or raises,
    leaves the lanes and the rates exactly as the first run left
    them. *)
Theorem usaspending_store_twice (flt1 flt2 : Faults) (contracts : list Contract.t)
  (tables tables1 : Tables) :
  store today valid_date flt1 contracts tables = (Returned, tables1) ->
  snd (store today valid_date flt2 contracts tables1) = tables1.
Proof.
  intros H. destruct (usa_store_returned _ _ _ _ H) as (_ & _ & _ & Hs).
  assert (Hloop : forall l s, new_lanes s = [] -> new_rates s = [] ->
            (forall c, In c l ->
               settled (date_of today valid_date) c (lanes (view s)) (rates (view s))) ->
            for_each (store_contract today valid_date flt2) l s = inr s).
  { induction l as [|c rest IH]; intros s Hl Hr Hall; cbn [for_each]; [reflexivity |].
    rewrite (store_contract_settled flt2 c s Hl Hr (Hall c (or_introl eq_refl))).
    apply IH; auto. intros c' Hc'. apply Hall. right. exact Hc'. }
  unfold store, transaction. rewrite (Hloop contracts (SessionLocal tables1) eq_refl eq_refl Hs).
  unfold flush. cbn. destruct (flt2 0%nat); [reflexivity |]. cbn.
  rewrite app_nil_r. destruct tables1. reflexivity.
Qed.

End UsaStore.

(** A first contract into empty tables, twice in one batch. *)
Lemma usaspending_store_lanes_witness :
  NoDup
    (map lane_key
       (LaneTables.lanes
          (snd (USASpendingScraperStore.store "2024-12-02" (fun s => Some s)
                  Database.no_faults [Samples.contract1; Samples.contract1]
                  Samples.no_lanes)))) /\
  In ("TX", "CA", Some "reefer")
     (map lane_key
        (LaneTables.lanes
           (snd (USASpendingScraperStore.store "2024-12-02" (fun s => Some s)
                   Database.no_faults [Samples.contract1; Samples.contract1]
                   Samples.no_lanes)))).
Proof.
  destruct (usaspending_store_lanes "2024-12-02" (fun s => Some s) Database.no_faults
              [Samples.contract1; Samples.contract1] Samples.no_lanes)
    as (Hnd & _ & Hin).
  - constructor.
  - split; [exact Hnd |].
    apply (Hin eq_refl Samples.contract1). left. reflexivity.
Defined.

(** The same batch, run again on what the first run left. *)
Lemma usaspending_store_twice_witness :
  snd (USASpendingScraperStore.store "2024-12-02" (fun s => Some s)
         Samples.first_flush_fails [Samples.contract1]
         (snd (USASpendingScraperStore.store "2024-12-02" (fun s => Some s)
                 Database.no_faults [Samples.contract1] Samples.no_lanes)))
  = snd (USASpendingScraperStore.store "2024-12-02" (fun s => Some s)
           Database.no_faults [Samples.contract1] Samples.no_lanes).
Proof.
  apply (usaspending_store_twice "2024-12-02" (fun s => Some s) Database.no_faults
           Samples.first_flush_fails [Samples.contract1] Samples.no_lanes).
  vm_compute. reflexivity.
Defined.

(* ------------------------------------------------------------------ *)
(** ** BTS: lanes and their ranks *)
(* ------------------------------------------------------------------ *)

Section BtsStore.
Import Py Database LaneTables BTSScraperStore.

Lemma bts_update_first_keys (p : Lane.t -> bool) (f : Lane.t -> Lane.t) rows :
  (forall r, lane_key (f r) = lane_key r) ->
  map lane_key (update_first p f rows) = map lane_key rows.
Proof.
  intros Hf. induction rows as [|r rest IH]; [reflexivity |].
  cbn [update_first]. destruct (p r); cbn [map]; [rewrite Hf | rewrite IH]; reflexivity.
Qed.

Lemma existsb_same_lane o d e rows rows' :
  map lane_key rows = map lane_key rows' ->
  existsb (same_lane o d e) rows = existsb (same_lane o d e) rows'.
Proof.
  revert rows'. induction rows as [|r rest IH]; intros [|r' rest'] Hk; try discriminate;
    [reflexivity |].
  cbn [map] in Hk. assert (Hr : lane_key r = lane_key r') by congruence.
  assert (Hrest : map lane_key rest = map lane_key rest') by congruence.
  cbn [existsb]. rewrite (IH rest' Hrest). f_equal.
  apply eq_true_iff_eq. rewrite !same_lane_key, Hr. reflexivity.
Qed.

Lemma insert_lanes_keys pending : forall tbl,
  (forall f, In f pending -> key_fixed f) ->
  map lane_key (insert_lanes pending tbl) =
  map lane_key tbl ++ map (fun f => lane_key (f 0)) pending.
Proof.
  induction pending as [|f rest IH]; intros tbl Hfix; cbn [insert_lanes map].
  - rewrite app_nil_r. reflexivity.
  - rewrite IH by (intros g Hg; apply Hfix; right; exact Hg).
    rewrite map_app, <- app_assoc. cbn [map app].
    rewrite (Hfix f (or_introl eq_refl)). reflexivity.
Qed.

Lemma insert_lanes_in pending : forall tbl,
  (forall l, In l tbl -> In l (insert_lanes pending tbl)) /\
  (forall f, In f pending -> exists id, In (f id) (insert_lanes pending tbl)).
Proof.
  induction pending as [|g rest IH]; intros tbl; cbn [insert_lanes].
  - split; [auto | intros f []].
  - destruct (IH (tbl ++ [g (next_id tbl)])) as [H1 H2]. split.
    + intros l Hl. apply H1. apply in_or_app. left. exact Hl.
    + intros f [<- | Hf]; [| exact (H2 f Hf)].
      exists (next_id tbl). apply H1. apply in_or_app. right. left. reflexivity.
Qed.

(** One turn of the loop, on the keys. *)
Lemma store_lane_keys s count ld :
  map lane_key (lanes (view (store_lane s count ld))) = map lane_key (lanes (view s)) /\
  rates (view (store_lane s count ld)) = rates (view s) /\
  new_rates (store_lane s count ld) = new_rates s /\
  flushes (store_lane s count ld) = flushes s /\
  exists added,
    new_lanes (store_lane s count ld) = new_lanes s ++ added /\
    (forall f, In f added -> key_fixed f) /\
    map (fun f => lane_key (f 0)) added =
      if lane_unseen (lanes (view s)) ld then [bts_key ld] else [].
Proof.
  unfold store_lane, lane_unseen.
  destruct (List.find _ (lanes (view s))) as [ex|] eqn:Ef.
  - assert (He : existsb (same_lane (LaneData.origin ld) (LaneData.destination ld)
                            (LaneData.equipment_type ld)) (lanes (view s)) = true)
      by (apply find_existsb; eauto).
    rewrite He. cbn. split; [apply bts_update_first_keys; reflexivity |].
    repeat (split; [reflexivity |]). exists []. rewrite app_nil_r.
    split; [reflexivity |]. split; [intros f [] | reflexivity].
  - destruct (existsb _ (lanes (view s))) eqn:He.
    + apply find_existsb in He. destruct He as [x Hx]. congruence.
    + cbn. repeat (split; [reflexivity |]). eexists. split; [reflexivity |].
      split; [intros f [<- | []] id; reflexivity | reflexivity].
Qed.

(** The loop, on the keys. *)
Lemma store_lanes_keys batch : forall count s,
  map lane_key (lanes (view (store_lanes batch count s))) = map lane_key (lanes (view s)) /\
  rates (view (store_lanes batch count s)) = rates (view s) /\
  new_rates (store_lanes batch count s) = new_rates s /\
  flushes (store_lanes batch count s) = flushes s /\
  exists added,
    new_lanes (store_lanes batch count s) = new_lanes s ++ added /\
    (forall f, In f added -> key_fixed f) /\
    map (fun f => lane_key (f 0)) added =
      map bts_key (List.filter (lane_unseen (lanes (view s))) batch).
Proof.
  induction batch as [|ld rest IH]; intros count s; cbn [store_lanes List.filter].
  - repeat (split; [reflexivity |]). exists []. rewrite app_nil_r.
    split; [reflexivity |]. split; [intros f [] | reflexivity].
  - destruct (store_lane_keys s count ld) as (K1 & R1 & N1 & F1 & a1 & A1 & X1 & M1).
    destruct (IH (count + 1) (store_lane s count ld))
      as (K2 & R2 & N2 & F2 & a2 & A2 & X2 & M2).
    split; [congruence |]. split; [congruence |]. split; [congruence |].
    split; [congruence |]. exists (a1 ++ a2).
    split; [rewrite A2, A1, app_assoc; reflexivity |]. split.
    + intros f Hf. apply in_app_or in Hf. destruct Hf; auto.
    + rewrite map_app, M1, M2.
      replace (List.filter (lane_unseen (lanes (view (store_lane s count ld)))) rest)
        with (List.filter (lane_unseen (lanes (view s))) rest)
        by (apply List.filter_ext; intros x; unfold lane_unseen; f_equal;
            apply existsb_same_lane; symmetry; exact K1).
      destruct (lane_unseen (lanes (view s)) ld); reflexivity.
Qed.

Lemma lane_unseen_key tbl ld :
  lane_unseen tbl ld = true -> ~ In (bts_key ld) (map lane_key tbl).
Proof.
  unfold lane_unseen. intros H Hin. apply negb_true_iff in H.
  apply in_map_iff in Hin. destruct Hin as [l [Hk Hl]].
  assert (Ht : existsb (same_lane (LaneData.origin ld) (LaneData.destination ld)
                          (LaneData.equipment_type ld)) tbl = true).
  { apply existsb_exists. exists l. split; [exact Hl |]. apply same_lane_key. exact Hk. }
  congruence.
Qed.

(** X23. The lanes under the BTS job.  After a store that commits,
    the lanes that were there are still there, in their order and
    with their origin, destination and equipment type, and behind
    them there is one new lane for each lane of the batch whose key
    had none: one for each occurrence, since the job does not flush
    and its lookup does not see the lanes added earlier in the batch.
    So the keys stay different only if those of the batch are. *)
Theorem bts_store_lanes (flt : Faults) (batch : list LaneData.t) (tables tables1 : Tables) :
  store flt batch tables = (Returned, tables1) ->
  map lane_key (lanes tables1) =
    map lane_key (lanes tables) ++
    map bts_key (List.filter (lane_unseen (lanes tables)) batch) /\
  rates tables1 = rates tables /\
  (NoDup (map lane_key (lanes tables)) -> NoDup (map bts_key batch) ->
   NoDup (map lane_key (lanes tables1))).
Proof.
  unfold store, transaction. intros H.
  destruct (store_lanes_keys batch 0 (SessionLocal tables))
    as (K & R & N & F & added & A & X & M).
  unfold flush in H. rewrite F in H. cbn [SessionLocal flushes] in H.
  destruct (flt 0%nat); [discriminate |]. injection H as <-. cbn [view lanes rates].
  cbn [SessionLocal view new_lanes new_rates] in *. rewrite N, R, app_nil_r.
  assert (Hkeys : map lane_key (insert_lanes (new_lanes (store_lanes batch 0 (SessionLocal tables)))
                                  (lanes (view (store_lanes batch 0 (SessionLocal tables))))) =
                  map lane_key (lanes tables) ++
                  map bts_key (List.filter (lane_unseen (lanes tables)) batch)).
  { rewrite insert_lanes_keys by (rewrite A; exact X). rewrite K, A. cbn [app].
    rewrite M. reflexivity. }
  split; [exact Hkeys |]. split; [reflexivity |].
  intros Hnd1 Hnd2. rewrite Hkeys. apply NoDup_app. split; [exact Hnd1 |]. split.
  - intros k Hk Hin. apply list_elem_of_In in Hk. apply list_elem_of_In in Hin.
    apply in_map_iff in Hin. destruct Hin as [ld [<- Hld]]. apply filter_In in Hld.
    exact (lane_unseen_key _ _ (proj2 Hld) Hk).
  - apply (sublist_NoDup _ (map bts_key batch)); [exact Hnd2 |].
    rewrite <- (filter_true batch) at 2. apply filter_implies_sublist. reflexivity.
Qed.

Lemma update_first_found {A} (p : A -> bool) (f : A -> A) rows ex :
  List.find p rows = Some ex -> In (f ex) (update_first p f rows).
Proof.
  induction rows as [|r rest IH]; [discriminate |]. cbn [List.find update_first].
  destruct (p r); [intros H; injection H as <-; left; reflexivity |].
  intros H. right. exact (IH H).
Qed.

Lemma update_first_other {A} (p : A -> bool) (f : A -> A) rows x :
  In x rows -> p x = false -> In x (update_first p f rows).
Proof.
  induction rows as [|r rest IH]; [intros [] |]. cbn [update_first].
  intros [<- | Hin] Hp.
  - rewrite Hp. left. reflexivity.
  - destruct (p r); right; auto.
Qed.

(** One turn ranks its lane, and leaves the lanes of other keys. *)
Lemma store_lane_ranks s count ld :
  ranked (store_lane s count ld) (bts_key ld) (count + 1) (LaneData.distance_miles ld).
Proof.
  unfold store_lane.
  destruct (List.find _ (lanes (view s))) as [ex|] eqn:Ef.
  - left. eexists. split; [cbn; apply (update_first_found _ _ _ _ Ef) |].
    apply find_some in Ef. destruct Ef as [_ Hm]. apply same_lane_key in Hm.
    cbn. auto.
  - right. eexists. split; [cbn; apply in_or_app; right; left; reflexivity |].
    intros id. cbn. auto.
Qed.

Lemma store_lane_keeps_rank s count ld k rank dist :
  bts_key ld <> k -> ranked s k rank dist -> ranked (store_lane s count ld) k rank dist.
Proof.
  intros Hne [[l (Hl & Hk & Hr)] | [f [Hf Hr]]]; unfold store_lane;
    destruct (List.find _ (lanes (view s))) as [ex|].
  - left. exists l. split; [| auto]. cbn. apply update_first_other; [exact Hl |].
    destruct (same_lane _ _ _ l) eqn:E; [| reflexivity].
    apply same_lane_key in E. exfalso. apply Hne. unfold bts_key. congruence.
  - left. exists l. cbn. auto.
  - right. exists f. cbn. auto.
  - right. exists f. split; [cbn; apply in_or_app; left; exact Hf | exact Hr].
Qed.

Lemma store_lanes_keep_rank batch : forall count s k rank dist,
  ~ In k (map bts_key batch) -> ranked s k rank dist ->
  ranked (store_lanes batch count s) k rank dist.
Proof.
  induction batch as [|ld rest IH]; intros count s k rank dist Hk Hr; cbn [store_lanes];
    [exact Hr |].
  apply IH; [intros H; apply Hk; right; exact H |].
  apply store_lane_keeps_rank; [| exact Hr]. intros H. apply Hk. left. exact H.
Qed.

Lemma store_lanes_ranks batch : forall count s i ld,
  NoDup (map bts_key batch) -> batch !! i = Some ld ->
  ranked (store_lanes batch count s) (bts_key ld) (count + Z.of_nat i + 1)
         (LaneData.distance_miles ld).
Proof.
  induction batch as [|x rest IH]; intros count s i ld Hnd Hi; [discriminate |].
  cbn [map] in Hnd. apply NoDup_cons in Hnd. destruct Hnd as [Hnotin Hnd].
  cbn [store_lanes]. destruct i as [|i].
  - injection Hi as ->. rewrite Z.add_0_r.
    apply store_lanes_keep_rank; [| apply store_lane_ranks].
    intros H. apply Hnotin. apply list_elem_of_In. exact H.
  - cbn in Hi. replace (count + Z.of_nat (S i) + 1) with (count + 1 + Z.of_nat i + 1) by lia.
    apply IH; assumption.
Qed.

(** X24. The ranks under the BTS job.  After a store that commits of
    a batch whose lanes differ in origin, destination and equipment
    type, the lane of the entry at position [i] of the batch, found
    or created, holds the volume rank [i + 1] and the distance of the
    entry. *)
Theorem bts_store_ranks (flt : Faults) (batch : list LaneData.t) (tables tables1 : Tables)
  (i : nat) (ld : LaneData.t) :
  NoDup (map bts_key batch) ->
  store flt batch tables = (Returned, tables1) ->
  batch !! i = Some ld ->
  exists l, In l (lanes tables1) /\ lane_key l = bts_key ld /\
            Lane.volume_rank l = Some (Z.of_nat i + 1) /\
            Lane.distance_miles l = Some (LaneData.distance_miles ld).
Proof.
  intros Hnd H Hi. unfold store, transaction in H.
  pose proof (store_lanes_ranks batch 0 (SessionLocal tables) i ld Hnd Hi) as Hr.
  cbn [Z.add] in Hr.
  unfold flush in H. destruct (flt _); [discriminate |]. injection H as <-.
  cbn [view lanes].
  destruct (insert_lanes_in (new_lanes (store_lanes batch 0 (SessionLocal tables)))
              (lanes (view (store_lanes batch 0 (SessionLocal tables))))) as [H1 H2].
  destruct Hr as [[l (Hl & Hk & Hrank & Hdist)] | [f [Hf Hall]]].
  - exists l. split; [apply H1; exact Hl |]. auto.
  - destruct (H2 f Hf) as [id Hin]. exists (f id). split; [exact Hin |]. apply Hall.
Qed.

End BtsStore.

(** A lane of the batch twice, into empty tables: two lanes. *)
Lemma bts_store_lanes_witness :
  map lane_key
    (LaneTables.lanes
       (snd (BTSScraperStore.store Database.no_faults [Samples.lane1; Samples.lane1]
               Samples.no_lanes)))
  = [("Texas", "California", Some "van"); ("Texas", "California", Some "van")].
Proof.
  apply (bts_store_lanes Database.no_faults [Samples.lane1; Samples.lane1] Samples.no_lanes).
  vm_compute. reflexivity.
Defined.

(** The first lane of a batch gets rank 1. *)
Lemma bts_store_ranks_witness :
  exists l,
    In l (LaneTables.lanes
            (snd (BTSScraperStore.store Database.no_faults [Samples.lane1]
                    Samples.no_lanes))) /\
    LaneTables.Lane.volume_rank l = Some 1.
Proof.
  destruct (bts_store_ranks Database.no_faults [Samples.lane1] Samples.no_lanes
              (snd (BTSScraperStore.store Database.no_faults [Samples.lane1]
                      Samples.no_lanes)) 0 Samples.lane1)
    as [l (Hl & _ & Hr & _)].
  - apply (bool_decide_unpack _). vm_compute. reflexivity.
  - vm_compute. reflexivity.
  - reflexivity.
  - exists l. split; [exact Hl | exact Hr].
Defined.

(* ------------------------------------------------------------------ *)
(** ** When the stores without a flush commit *)
(* ------------------------------------------------------------------ *)

Section CommitKeys.
Import Py Database.

(** The INSERTs into a table whose only constraint is its key go
    through exactly when the pending rows differ in their keys and
    none of the keys is in the table. *)
Lemma insert_rows_ok {R} (violation : R -> gmap string R -> option exn) (key : R -> string)
  (Hv : forall r tbl, violation r tbl = None <-> tbl !! key r = None) rows :
  forall tbl,
  (exists tbl', insert_rows violation key rows tbl = inr tbl') <->
  NoDup (map key rows) /\ forall r, In r rows -> tbl !! key r = None.
Proof.
  induction rows as [|r rest IH]; intros tbl; cbn [insert_rows map].
  - split; [intros _; split; [constructor | intros r []] | intros _; eexists; reflexivity].
  - rewrite NoDup_cons, list_elem_of_In, in_map_iff.
    destruct (violation r tbl) as [e|] eqn:Ev.
    + split; [intros [tbl' H]; discriminate |].
      intros [_ Hall]. pose proof (proj2 (Hv r tbl) (Hall r (or_introl eq_refl))). congruence.
    + apply Hv in Ev. rewrite IH. split.
      * intros (Hnd & Hall). split; [split; [| exact Hnd] |].
        -- intros [r' [Heq Hin]]. pose proof (Hall r' Hin) as H1.
           rewrite Heq, lookup_insert_eq in H1. discriminate.
        -- intros r' [<- | Hin]; [exact Ev |]. pose proof (Hall r' Hin) as H1.
           destruct (decide (key r = key r')) as [Heq | Hne];
             [rewrite <- Heq, lookup_insert_eq in H1; discriminate |].
           rewrite lookup_insert_ne in H1 by exact Hne. exact H1.
      * intros ((Hn & Hnd) & Hall). split; [exact Hnd |]. intros r' Hin.
        rewrite lookup_insert_ne; [apply Hall; right; exact Hin |].
        intros Heq. apply Hn. exists r'. split; [symmetry; exact Heq | exact Hin].
Qed.

Lemma daily_violation_none r tbl :
  daily_violation r tbl = None <-> tbl !! DailyMetric.date r = None.
Proof.
  unfold daily_violation, has_key. destruct (tbl !! DailyMetric.date r); split;
    intros H; try reflexivity; discriminate.
Qed.

Lemma macro_violation_none r tbl :
  macro_violation r tbl = None <-> tbl !! MacroMetric.month r = None.
Proof.
  unfold macro_violation, has_key. destruct (tbl !! MacroMetric.month r); split;
    intros H; try reflexivity; discriminate.
Qed.

Lemma has_key_insert_same {R} k k' (r0 r : R) (tbl : gmap string R) :
  tbl !! k = Some r0 -> has_key k' (<[k := r]> tbl) = has_key k' tbl.
Proof.
  intros H. unfold has_key. destruct (decide (k = k')) as [<- | Hne].
  - rewrite lookup_insert_eq, H. reflexivity.
  - rewrite lookup_insert_ne by exact Hne. reflexivity.
Qed.

(** One turn of the loop of the EIA job, on the pending daily rows. *)
Lemma store_price_commit p s :
  let s' := EIADieselScraper.store_price s p in
  (forall k, has_key k (daily_metrics (view s')) = has_key k (daily_metrics (view s))) /\
  map DailyMetric.date (new_daily s') =
    map DailyMetric.date (new_daily s) ++
    map EIADieselScraper.Price.date (eia_fresh (daily_metrics (view s)) [p]) /\
  new_news s' = new_news s /\ new_macro s' = new_macro s /\ flushes s' = flushes s /\
  news_articles (view s') = news_articles (view s) /\
  macro_metrics (view s') = macro_metrics (view s).
Proof.
  cbn zeta. unfold EIADieselScraper.store_price, eia_fresh. cbn [List.filter].
  set (s1 := EIADieselScraper.store_regional p s).
  assert (H1 : daily_metrics (view s1) = daily_metrics (view s) /\
               new_daily s1 = new_daily s /\ new_news s1 = new_news s /\
               new_macro s1 = new_macro s /\ flushes s1 = flushes s /\
               news_articles (view s1) = news_articles (view s) /\
               macro_metrics (view s1) = macro_metrics (view s)).
  { unfold s1, EIADieselScraper.store_regional. destruct (List.find _ _); repeat split. }
  destruct H1 as (V1 & D1 & N1 & M1 & F1 & A1 & C1).
  unfold EIADieselScraper.store_national.
  destruct (String.eqb _ "NUS"); cbn [andb].
  2: { rewrite V1, D1, N1, M1, F1, A1, C1, app_nil_r. repeat split. }
  rewrite V1. unfold has_key at 3.
  destruct (daily_metrics (view s) !! EIADieselScraper.Price.date p) as [r0|] eqn:E;
    cbn [negb map app].
  - cbn. rewrite D1, N1, M1, F1, A1, C1, V1, app_nil_r.
    split; [intros k; apply (has_key_insert_same _ _ r0); exact E |]. repeat split.
  - cbn. rewrite D1, N1, M1, F1, A1, C1, V1, map_app. cbn.
    destruct (EIADieselScraper.Price.date p); repeat split.
Qed.

Lemma store_prices_commit prices : forall s,
  let s' := fold_left EIADieselScraper.store_price prices s in
  (forall k, has_key k (daily_metrics (view s')) = has_key k (daily_metrics (view s))) /\
  map DailyMetric.date (new_daily s') =
    map DailyMetric.date (new_daily s) ++
    map EIADieselScraper.Price.date (eia_fresh (daily_metrics (view s)) prices) /\
  new_news s' = new_news s /\ new_macro s' = new_macro s /\ flushes s' = flushes s /\
  news_articles (view s') = news_articles (view s) /\
  macro_metrics (view s') = macro_metrics (view s).
Proof.
  induction prices as [|p rest IH]; intros s; cbn zeta; cbn [fold_left].
  - unfold eia_fresh. cbn. rewrite app_nil_r. repeat split.
  - destruct (IH (EIADieselScraper.store_price s p)) as (K2 & D2 & N2 & M2 & F2 & A2 & C2).
    destruct (store_price_commit p s) as (K1 & D1 & N1 & M1 & F1 & A1 & C1).
    cbn zeta in *.
    split; [intros k; rewrite K2; apply K1 |].
    split; [| repeat split; congruence].
    rewrite D2, D1, <- app_assoc. f_equal. unfold eia_fresh. cbn [List.filter].
    replace (List.filter _ rest) with
      (List.filter
         (fun p0 => String.eqb (default "UNKNOWN" (EIADieselScraper.Price.region_code p0)) "NUS" &&
                    negb (has_key (EIADieselScraper.Price.date p0) (daily_metrics (view s))))
         rest)
      by (apply List.filter_ext; intros x; rewrite K1; reflexivity).
    destruct (_ && _); cbn [map app]; reflexivity.
Qed.

(** X25. When the store of the EIA job commits: exactly when the
    engine does not fail the flush of the commit and the national
    prices of the batch for days that have no row yet are for
    different days.  Two national prices for one new day make the
    commit fail on the key of the daily table, since the second is
    added without seeing the first. *)
Theorem eia_store_commits_iff (flt : Faults) (prices : list EIADieselScraper.Price.t)
  (db : DB) :
  fst (EIADieselScraper.store flt prices db) = Returned <->
  flt 0%nat = false /\
  NoDup (map EIADieselScraper.Price.date (eia_fresh (daily_metrics db) prices)).
Proof.
  unfold EIADieselScraper.store, transaction.
  destruct (store_prices_commit prices (SessionLocal db)) as (K & D & N & M & F & A & C).
  cbn zeta in *. cbn [SessionLocal view new_daily new_news new_macro flushes map app] in *.
  set (s1 := fold_left EIADieselScraper.store_price prices (SessionLocal db)) in *.
  pose proof (insert_rows_ok daily_violation DailyMetric.date daily_violation_none
                (new_daily s1) (daily_metrics (view s1))) as Hok.
  rewrite D in Hok.
  assert (Hfree : forall r, In r (new_daily s1) ->
                            daily_metrics (view s1) !! DailyMetric.date r = None).
  { intros r Hr. apply has_key_false. rewrite K.
    assert (Hin : In (DailyMetric.date r) (map DailyMetric.date (new_daily s1)))
      by (apply in_map; exact Hr).
    rewrite D in Hin. apply in_map_iff in Hin. destruct Hin as [p [Hp Hf]].
    unfold eia_fresh in Hf. apply filter_In in Hf. destruct Hf as [_ Hf].
    apply andb_true_iff in Hf. destruct Hf as [_ Hf]. rewrite <- Hp.
    destruct (has_key _ _); [discriminate | reflexivity]. }
  unfold flush. rewrite F, N, M. unfold insert_news, insert_macro. cbn [insert_rows].
  destruct (flt 0%nat); [split; [discriminate | intros [H _]; discriminate] |].
  unfold insert_daily. destruct (insert_rows daily_violation DailyMetric.date _ _)
    as [e | daily] eqn:Ei.
  - split; [discriminate |]. intros [_ Hnd].
    destruct (proj2 Hok (conj Hnd Hfree)) as [tbl' H]. congruence.
  - split; [| reflexivity]. intros _. split; [reflexivity |].
    exact (proj1 (proj1 Hok (ex_intro _ daily eq_refl))).
Qed.

End CommitKeys.

Section MacroCommit.
Import Py Database.
Context {A : Type}.
Variable skip : A -> bool.
Variable key : A -> string.
Variable upd : MacroMetric.t -> A -> MacroMetric.t.
Variable mk : A -> MacroMetric.t.
Hypothesis month_mk : forall a, MacroMetric.month (mk a) = key a.

Lemma upsert_commit l : forall s,
  let s' := fold_left (upsert_macro skip key upd mk) l s in
  (forall k, has_key k (macro_metrics (view s')) = has_key k (macro_metrics (view s))) /\
  new_macro s' = new_macro s ++ map mk (macro_fresh skip key (macro_metrics (view s)) l) /\
  new_news s' = new_news s /\ new_daily s' = new_daily s /\ flushes s' = flushes s /\
  news_articles (view s') = news_articles (view s) /\
  daily_metrics (view s') = daily_metrics (view s).
Proof.
  induction l as [|a rest IH]; intros s; cbn zeta; cbn [fold_left].
  - unfold macro_fresh. cbn. rewrite app_nil_r. repeat split.
  - destruct (IH (upsert_macro skip key upd mk s a)) as (K2 & D2 & N2 & M2 & F2 & A2 & C2).
    cbn zeta in *.
    assert (H1 :
      (forall k, has_key k (macro_metrics (view (upsert_macro skip key upd mk s a))) =
                 has_key k (macro_metrics (view s))) /\
      new_macro (upsert_macro skip key upd mk s a) =
        new_macro s ++ map mk (macro_fresh skip key (macro_metrics (view s)) [a]) /\
      new_news (upsert_macro skip key upd mk s a) = new_news s /\
      new_daily (upsert_macro skip key upd mk s a) = new_daily s /\
      flushes (upsert_macro skip key upd mk s a) = flushes s /\
      news_articles (view (upsert_macro skip key upd mk s a)) = news_articles (view s) /\
      daily_metrics (view (upsert_macro skip key upd mk s a)) = daily_metrics (view s)).
    { unfold upsert_macro, macro_fresh. cbn [List.filter].
      destruct (skip a); cbn [negb andb map]; [rewrite app_nil_r; repeat split |].
      unfold has_key at 3.
      destruct (macro_metrics (view s) !! key a) as [r0|] eqn:E; cbn [negb map].
      - cbn. rewrite app_nil_r.
        split; [intros k; apply (has_key_insert_same _ _ r0); exact E |]. repeat split.
      - cbn. repeat split. }
    destruct H1 as (K1 & D1 & N1 & M1 & F1 & A1 & C1).
    split; [intros k; rewrite K2; apply K1 |].
    split; [| repeat split; congruence].
    rewrite D2, D1, <- app_assoc. f_equal. unfold macro_fresh. cbn [List.filter].
    replace (List.filter _ rest) with
      (List.filter (fun a0 => negb (skip a0) &&
                              negb (has_key (key a0) (macro_metrics (view s)))) rest)
      by (apply List.filter_ext; intros x; rewrite K1; reflexivity).
    destruct (_ && _); cbn [map app]; reflexivity.
Qed.

Lemma upsert_store_commits flt l db :
  fst (transaction flt (fun s => inr (fold_left (upsert_macro skip key upd mk) l s)) db)
    = Returned <->
  flt 0%nat = false /\ NoDup (map key (macro_fresh skip key (macro_metrics db) l)).
Proof.
  unfold transaction.
  destruct (upsert_commit l (SessionLocal db)) as (K & D & N & M & F & A' & C).
  cbn zeta in *. cbn [SessionLocal view new_daily new_news new_macro flushes app] in *.
  set (s1 := fold_left (upsert_macro skip key upd mk) l (SessionLocal db)) in *.
  pose proof (insert_rows_ok macro_violation MacroMetric.month macro_violation_none
                (new_macro s1) (macro_metrics (view s1))) as Hok.
  assert (Hkeys : map MacroMetric.month (new_macro s1) =
                  map key (macro_fresh skip key (macro_metrics db) l)).
  { rewrite D, map_map. apply map_ext. exact month_mk. }
  rewrite Hkeys in Hok.
  assert (Hfree : forall r, In r (new_macro s1) ->
                            macro_metrics (view s1) !! MacroMetric.month r = None).
  { intros r Hr. apply has_key_false. rewrite K. rewrite D in Hr.
    apply in_map_iff in Hr. destruct Hr as [a [<- Hf]]. rewrite month_mk.
    unfold macro_fresh in Hf. apply filter_In in Hf. destruct Hf as [_ Hf].
    apply andb_true_iff in Hf. destruct Hf as [_ Hf].
    destruct (has_key _ _); [discriminate | reflexivity]. }
  unfold flush. rewrite F, N, M. unfold insert_news, insert_daily. cbn [insert_rows].
  destruct (flt 0%nat); [split; [discriminate | intros [H _]; discriminate] |].
  unfold insert_macro. destruct (insert_rows macro_violation MacroMetric.month _ _)
    as [e | macro] eqn:Ei.
  - split; [discriminate |]. intros [_ Hnd].
    destruct (proj2 Hok (conj Hnd Hfree)) as [tbl' H]. congruence.
  - split; [| reflexivity]. intros _. split; [reflexivity |].
    exact (proj1 (proj1 Hok (ex_intro _ macro eq_refl))).
Qed.

End MacroCommit.

(** X26. When the stores of the Cass and of the ATA job commit:
    exactly when the engine does not fail the flush of the commit and
    the records of the batch that are not passed over and whose month
    has no row yet are for different months. *)
Theorem macro_store_commits_iff (flt : Database.Faults) (db : Database.DB)
  (cass : list CassScraper.Metric.t) (ata : list ATAScraper.Metric.t) :
  (fst (CassScraper.store flt cass db) = Database.Returned <->
   flt 0%nat = false /\
   NoDup (map CassScraper.Metric.month
            (macro_fresh (fun x => Py.truthy_str (CassScraper.Metric._note x))
               CassScraper.Metric.month (Database.macro_metrics db) cass))) /\
  (fst (ATAScraper.store flt ata db) = Database.Returned <->
   flt 0%nat = false /\
   NoDup (map ATAScraper.Metric.month
            (macro_fresh (fun y => Py.truthy_str (ATAScraper.Metric._note y))
               ATAScraper.Metric.month (Database.macro_metrics db) ata))).
Proof.
  split.
  - unfold CassScraper.store. rewrite cass_store_metric_upsert.
    apply upsert_store_commits. reflexivity.
  - unfold ATAScraper.store. rewrite ata_store_metric_upsert.
    apply upsert_store_commits. reflexivity.
Qed.

(* ------------------------------------------------------------------ *)
(** ** News: the tags, from the tagger to the tag list *)
(* ------------------------------------------------------------------ *)

Section TagsColumn.
Import Py Database NewsScraperConfig NewsScraper Utils.

Lemma split_comma_free x : comma_free x = true -> split "," x = [x].
Proof.
  induction x as [|c x IH]; [reflexivity |]. cbn [comma_free split].
  intros H. apply andb_true_iff in H. destruct H as [Hc Hx].
  apply negb_true_iff in Hc. rewrite Hc, (IH Hx). reflexivity.
Qed.

Lemma split_app_comma x z :
  comma_free x = true -> split "," (x +:+ "," +:+ z) = x :: split "," z.
Proof.
  induction x as [|c x IH]; [reflexivity |]. cbn [comma_free].
  intros H. apply andb_true_iff in H. destruct H as [Hc Hx].
  apply negb_true_iff in Hc. rewrite append_cons. cbn [split]. rewrite Hc, (IH Hx).
  reflexivity.
Qed.

(** [split] undoes [join] on strings without a comma. *)
Lemma split_join l :
  l <> [] -> (forall x, In x l -> comma_free x = true) -> split "," (join "," l) = l.
Proof.
  induction l as [|x rest IH]; intros Hne Hall; [contradiction |].
  destruct rest as [|y rest]; cbn [join].
  - apply split_comma_free. apply Hall. left. reflexivity.
  - rewrite split_app_comma by (apply Hall; left; reflexivity).
    f_equal. apply IH; [discriminate |]. intros z Hz. apply Hall. right. exact Hz.
Qed.

Lemma join_truthy l :
  l <> [] -> (forall x, In x l -> truthy_str (Some x) = true) ->
  truthy_str (Some (join "," l)) = true.
Proof.
  destruct l as [|x rest]; intros Hne Hall; [contradiction |].
  pose proof (Hall x (or_introl eq_refl)) as Hx.
  destruct x as [|c x]; [discriminate |]. destruct rest; reflexivity.
Qed.

(** The way through the column, for plain tags. *)
Lemma tags_of_join l :
  (forall x, In x l -> plain_tag x = true) -> tags_of (join "," l) = l.
Proof.
  intros Hall.
  assert (Hparts : forall x, In x l ->
            truthy_str (Some x) = true /\ comma_free x = true /\ strip x = x).
  { intros x Hx. pose proof (Hall x Hx) as H. unfold plain_tag in H.
    apply andb_true_iff in H. destruct H as [H H3]. apply andb_true_iff in H.
    destruct H as [H1 H2]. apply String.eqb_eq in H3. auto. }
  destruct l as [|x rest]; [reflexivity |].
  unfold tags_of. rewrite join_truthy; [| discriminate | intros y Hy; apply Hparts; exact Hy].
  rewrite split_join; [| discriminate | intros y Hy; apply Hparts; exact Hy].
  rewrite <- (map_id (x :: rest)) at 2. apply map_ext_in. intros y Hy. apply Hparts. exact Hy.
Qed.

Lemma table_tags_plain : forall t, In t (map fst TAG_KEYWORDS) -> plain_tag t = true.
Proof.
  intros t Hin. cbn in Hin.
  repeat (destruct Hin as [<- | Hin]; [reflexivity |]). destruct Hin.
Qed.

Lemma auto_tags_plain title summary full_content :
  forall t, In t (_auto_tag title summary full_content) -> plain_tag t = true.
Proof.
  intros t Ht. apply table_tags_plain. apply auto_tag_spec in Ht.
  destruct Ht as [kws [k [Hin _]]]. apply in_map_iff. exists (t, kws). auto.
Qed.

(** X27. The tags of an article come back out of the [tags] column
    as they went in: [parse] joins the tags of the tagger with
    commas, and the split at the commas that the tag list of the
    dashboard makes of the column gives the same tags in the same
    order; an article without a tag gets the empty string, which
    gives no tag. *)
Theorem tags_round_trip
  (md5_hexdigest : string -> string) (_parse_date : Entry.t -> Z)
  (_extract_summary : Entry.t -> string)
  (_extract_full_article : string -> option string)
  (NEWSPAPER_AVAILABLE : bool) (entry : Entry.t) :
  (forall title summary full_content,
     tags_of (join "," (_auto_tag title summary full_content)) =
     _auto_tag title summary full_content) /\
  exists tags,
    Article.tags (parse_entry md5_hexdigest _parse_date _extract_summary
                    _extract_full_article NEWSPAPER_AVAILABLE entry) = join "," tags /\
    tags_of (Article.tags (parse_entry md5_hexdigest _parse_date _extract_summary
                             _extract_full_article NEWSPAPER_AVAILABLE entry)) = tags /\
    sublist tags (map fst TAG_KEYWORDS) /\
    (tags = [] <->
     Article.tags (parse_entry md5_hexdigest _parse_date _extract_summary
                     _extract_full_article NEWSPAPER_AVAILABLE entry) = "").
Proof.
  split.
  - intros. apply tags_of_join. apply auto_tags_plain.
  - unfold parse_entry. cbn [Article.tags]. eexists. split; [reflexivity |].
    split; [apply tags_of_join; apply auto_tags_plain |]. split.
    + unfold _auto_tag. rewrite <- (filter_true TAG_KEYWORDS) at 2.
      apply filter_implies_sublist. reflexivity.
    + split; [intros ->; reflexivity |]. intros Hempty.
      match goal with |- ?l = [] => destruct l as [|x rest] eqn:El end; [reflexivity |].
      exfalso.
      assert (Ht : truthy_str (Some (join "," (x :: rest))) = true).
      { apply join_truthy; [discriminate |]. intros y Hy.
        assert (Hp : plain_tag y = true) by (rewrite <- El in Hy; apply auto_tags_plain in Hy; exact Hy).
        unfold plain_tag in Hp. apply andb_true_iff in Hp. destruct Hp as [Hp _].
        apply andb_true_iff in Hp. tauto. }
      rewrite Hempty in Ht. discriminate.
Qed.

Lemma insert_sorted_in t x l : In t (insert_sorted x l) <-> t = x \/ In t l.
Proof.
  induction l as [|h rest IH]; cbn [insert_sorted].
  - cbn. intuition (subst; auto).
  - destruct (String.compare x h) eqn:E.
    + apply String.compare_eq_iff in E. subst h. cbn. intuition (subst; auto).
    + cbn. intuition (subst; auto).
    + cbn [In]. rewrite IH. intuition (subst; auto).
Qed.

Lemma insert_all_in ts : forall acc t,
  In t (fold_left (fun acc t => insert_sorted t acc) ts acc) <-> In t ts \/ In t acc.
Proof.
  induction ts as [|x rest IH]; intros acc t; cbn [fold_left].
  - cbn. tauto.
  - rewrite IH, insert_sorted_in. cbn. intuition (subst; auto).
Qed.

Lemma collect_in rows : forall acc t,
  In t (fold_left (fun all_tags tags_str =>
                     fold_left (fun acc t => insert_sorted t acc) (tags_of tags_str) all_tags)
          rows acc) <->
  (exists tags_str, In tags_str rows /\ In t (tags_of tags_str)) \/ In t acc.
Proof.
  induction rows as [|r rest IH]; intros acc t; cbn [fold_left].
  - split; [auto | intros [[x [[] _]] | H]; exact H].
  - rewrite IH, insert_all_in. split.
    + intros [[x [Hx Ht]] | [Ht | Ht]]; [left; exists x; split; [right |]; auto | | auto].
      left. exists r. split; [left; reflexivity | exact Ht].
    + intros [[x [[<- | Hx] Ht]] | Ht]; [auto | | auto].
      left. exists x. auto.
Qed.

Lemma str_lt_trans a b c : str_lt a b -> str_lt b c -> str_lt a c.
Proof.
  unfold str_lt. intros H1 H2. apply OrderedTypeEx.String_as_OT.cmp_lt.
  apply OrderedTypeEx.String_as_OT.lt_trans with b;
    apply OrderedTypeEx.String_as_OT.cmp_lt; assumption.
Qed.

Lemma insert_sorted_sorted t l :
  Sorted.StronglySorted str_lt l -> Sorted.StronglySorted str_lt (insert_sorted t l).
Proof.
  induction 1 as [|x rest Hrest IH Hx]; cbn [insert_sorted].
  - repeat constructor.
  - destruct (String.compare t x) eqn:E.
    + constructor; assumption.
    + constructor; [constructor; assumption |]. constructor; [exact E |].
      eapply Forall_impl; [exact Hx |]. intros y Hy. exact (str_lt_trans _ _ _ E Hy).
    + constructor; [exact IH |]. apply Forall_forall. intros y Hy.
      apply list_elem_of_In, insert_sorted_in in Hy. destruct Hy as [-> | Hy].
      * unfold str_lt. rewrite String.compare_antisym, E. reflexivity.
      * rewrite Forall_forall in Hx. apply Hx. apply list_elem_of_In. exact Hy.
Qed.

Lemma insert_all_sorted ts : forall acc,
  Sorted.StronglySorted str_lt acc ->
  Sorted.StronglySorted str_lt (fold_left (fun acc t => insert_sorted t acc) ts acc).
Proof.
  induction ts as [|x rest IH]; intros acc Hacc; cbn [fold_left]; [exact Hacc |].
  apply IH. apply insert_sorted_sorted. exact Hacc.
Qed.

(** X28. The tag list of the dashboard holds exactly the tags of the
    rows, each once and in increasing order: a tag is listed when some
    stored article has it in its [tags] column; rows without tags, or
    with the empty string, give none. *)
Theorem get_all_tags_spec (db : DB) :
  Sorted.StronglySorted str_lt (get_all_tags_from_db db) /\
  forall t,
    In t (get_all_tags_from_db db) <->
    exists k r tags_str,
      news_articles db !! k = Some r /\ NewsArticle.tags r = Some tags_str /\
      In t (tags_of tags_str).
Proof.
  split.
  { unfold get_all_tags_from_db.
    generalize (omap (fun kr : string * NewsArticle.t => NewsArticle.tags (snd kr))
                  (map_to_list (news_articles db))).
    intros rows. generalize (Sorted.SSorted_nil str_lt). generalize (@nil string).
    induction rows as [|r rest IH]; intros acc Hacc; cbn [fold_left]; [exact Hacc |].
    apply IH. apply insert_all_sorted. exact Hacc. }
  intros t. unfold get_all_tags_from_db. rewrite collect_in. split.
  - intros [[tags_str [Hin Ht]] | []]. apply list_elem_of_In in Hin.
    apply list_elem_of_omap in Hin. destruct Hin as [[k r] [Hkr Htags]].
    apply elem_of_map_to_list in Hkr. exists k, r, tags_str. auto.
  - intros (k & r & tags_str & Hk & Htags & Ht). left. exists tags_str.
    split; [| exact Ht]. apply list_elem_of_In. apply list_elem_of_omap.
    exists (k, r). split; [apply elem_of_map_to_list; exact Hk | exact Htags].
Qed.

End TagsColumn.
